(* ===== verification/_CoqProject ===== *)
-Q . S2P
Prelude.v
GoStrings.v
Base64.v
GoTime.v
GoCalendar.v
GoTimeParse.v
Regexp.v
NetHttp.v
Cookies.v
Runtime.v
Xsrftoken.v
Csrf.v
Hostname.v
Pipeline.v
Concurrent.v
Browser.v
App.v
