(* ===== verification/Prelude.v ===== *)
(** * Verification of the martini [csrf] middleware (src/csrf.go)

    The program is one Go package of two HTTP middlewares.  [Generate]
    (src/csrf.go, lines 119-169) runs on every request: it allocates a
    [csrf] object, registers the pointer with the request's martini
    context, reads the subject id from the session and, on a browser GET,
    reuses the token carried by the [_csrf] cookie or mints one with
    [xsrftoken.Generate], then sends it as a cookie and/or a response
    header.  [Validate] (lines 175-190) guards a route: it takes a
    candidate token from the [X-CSRFToken] request header, else from the
    [_csrf] form value, checks it with [ValidToken] and answers 400 when it
    is absent or wrong.  The package comment (lines 17-59) holds an
    example application: a martini with a session store, [Generate] on
    every request, and four routes, of which [POST /protected] is guarded
    by [Validate].  The example is the text of a comment, and as it is
    written it does not compile (letters after an import path at line
    14, a parenthesis left open at line 20, two import paths misspelt);
    it is modelled as it reads.  Everything else is library code the
    package calls:
    net/http, regexp, strings, time, martini, sessions, render and
    xsrftoken.

    ** Files, in dependency order

    - [Prelude] (this file): the notation scope [go_scope] ([==], [!=] for
      Go's comparisons), the tactics and the hint databases of the
      development, and the lemmas on strings seen as byte lists that the
      components share.
    - [GoStrings]: [strings.Split] for a one-byte separator (line 144),
      [strings.TrimSpace] and [strings.Index] as net/http uses them on
      cookie lines, and the decimal printing and parsing of 64-bit
      integers.
    - [Base64]: [base64.URLEncoding], the text encoding of the tokens:
      [Encode] and [Decode] with the shifts and masks of the library.
    - [GoTime]: instants and durations in nanoseconds, the arithmetic of
      days, and the interfaces [TimeFormat] for [time.Format] and
      [TimeParse] for [time.Parse], with the laws [TimeLaws] that make
      the two a round trip.
    - [GoCalendar]: the civil date of an instant as the time package
      computes it ([Date_of], [Clock], [Weekday]), [time.Date] and
      [AddDate] (line 142), and [Format] by a layout (line 154), in UTC.
    - [GoTimeParse]: [time.Parse] by a layout, in UTC: the helpers
      [getnum], [atoi], [lookup] and [skip] of the time package, the
      switch over the elements of a layout ([timeparse.parse_std]) and
      the loop over the layout ([timeparse.parse_items]).
    - [Regexp]: the fragment of Go's regexp (RE2) syntax that the constant
      [domainReg] (line 115) uses: a parser from the pattern text to an
      abstract syntax tree, a relational semantics over positions of the
      text, an executable matcher and the proof that the two agree; the
      language of an expression over words ([regexp.lang]).
    - [NetHttp]: net/http's headers (a [gmap] from canonical keys to value
      lists), requests with their method, path and host, cookies, the
      response writer, [http.SetCookie], [http.Error], [http.NotFound]
      and [http.Redirect]; the invariant [http.wf] of a response; the
      readers of cookie lines, [http.readCookies] behind [r.Cookie(name)]
      (line 137) and [http.readSetCookies] of a client, which reads the
      attributes of a cookie as well ([http.read_attr],
      [http.set_attr]), and [http.Request_AddCookie], with which a
      client puts its cookies on a request.
    - [Cookies]: the two legs of a cookie between server and client, from
      [http.Cookie_String] to [http.readSetCookies] and from
      [http.Request_AddCookie] to [http.readCookies].
    - [Runtime]: what a handler runs in: the clock read by [time.Now], the
      heap of objects addressed by pointers, the binding of the martini
      context, the response writer; the state-and-panic monad [M] in which
      handlers are written, and total correctness [runtime.wp]; the
      session with [sessions.Get] and [sessions.Set_]; the invariant
      [runtime.wf] of a world.
    - [Xsrftoken]: the interface [TokenCodec] of the token library with the
      laws [TokenCodecLaws], [TokenCodecBinding] and [TokenCodecText], and
      a model of xsrftoken over an abstract MAC that satisfies them: the
      message with its fields cleaned of colons ([xsrftoken.clean]), the
      token in the URL encoding of [Base64].
    - [Csrf]: the package itself, definition by definition: the interface
      [Csrf] as a class, the struct [csrf], [csrf_GetToken],
      [csrf_ValidToken], [Options.Options], [domainReg], [Generate] with
      one definition per step ([new_csrf], [browser_get],
      [existing_token], [issue_token], [send_cookie], [cookie_domain],
      [csrf_cookie], [send_header]), and [Validate]; then what the two
      handlers compute, as the function [issuance] and as the state
      machine [vstep] with its function [verdict].  These, like
      [after_get], [held] and [passes_check] of [Browser] and [refused]
      and [admitted] of [Pipeline], are not translations of lines of
      the code but descriptions of what the lines compute; each is tied
      to the translation of the handlers by a theorem
      ([Generate_refines_issuance], [Validate_refines_vstep],
      [get_refines], [run_post], [protected_guards_handler]).
    - [Hostname]: the pattern of [domainReg] between its slashes as a
      syntax tree ([hostname.host]) and the validator of host names it
      stands for ([hostname.is_hostname]).
    - [Pipeline]: martini's handler chain ([martini.run]: stop as soon as
      a handler has written the response), the injection of the interface
      ([martini.inject]), the chain of the protected route of the package
      comment, lines 17-59 ([protected]), and the theorems over whole
      requests.
    - [Concurrent]: requests served at the same time: the requests in
      service with the handlers they have still to run ([pool.Thread],
      [pool.Pool]), in one heap and under one clock; a turn of the loop
      of [context.run] in one of them ([pool.advance]); schedules
      ([pool.exec]) and the states of a site ([pool.reachable]); the
      chains of the two routes [/protected] as lists of handlers
      ([page_chain], [protected_chain], [page_handler]); and what a
      handler keeps to so that its request is served as if alone
      ([Local]).
    - [Browser]: a client with a cookie jar ([jar.store],
      [jar.SetCookies]) that fetches the page and submits its form, as a
      transition system ([client_step], [client_reachable],
      [client_run]) whose requests and responses carry the cookie
      [_csrf] of lines 137 and 148-160 as text; and the client that
      keeps to the dates of its cookies ([jar.expired], [jar.live],
      [purge]).
    - [App]: the example application of lines 17-59, handler by handler
      ([index], [login], [protected_form], [validate],
      [protected_submit]), its routes ([routes]) and [main], the chain
      [Generate], router, recovery.  Of the handlers the example
      installs with [m.Use], [Generate] is a handler of the chain;
      [sessions.Sessions] is the session the handlers take and pass on,
      and [render.Renderer] the functions of the renderer the handlers
      call, neither a handler of its own; the logger and the server of
      static files of [martini.Classic] are left out.  The renderer
      ([render.HTML],
      [render.Redirect]) over the interface [Templates]; the router
      ([app.dispatch]) and the loop over handlers that pass the session on
      ([app.run]); and the site as a transition system ([step],
      [reachable]): one request at a time, each in a world of its own,
      the session kept between them.

    ** How state and operations correspond to the code

    A Go string is a [string]; [[]byte(s)] is [to_bytes s].  An instant
    is its number of nanoseconds since the Unix epoch, in UTC.  A pointer
    to a [csrf] is an index into the heap of the [World]; [c.MapTo(x, ...)]
    stores the pointer, not a copy, so the assignments to [x.Id] and
    [x.Token] that follow it are seen by the handlers downstream, as in Go.
    [time.Now()] reads the world's clock, an oracle [nat -> Z] of successive
    readings in nanoseconds, and advances it by one reading.  A handler is
    a computation in [M]: a function from the world to either a result and
    a new world, or a panic.  A request carries its cookies in its header,
    on Cookie lines, and [r.Cookie(name)] parses them; a response carries
    them on Set-Cookie lines.  The session is a [gmap] from keys to dynamic
    values; a missing key reads as [nil]; the handlers of the application
    take the session and return it, since [login] writes to it.  A
    template is executed through the interface [Templates], whose error
    the renderer answers with status 500.  The handlers are written against
    the codec interface, so every theorem about them holds for any token
    library, and the theorems that need the promises of the library assume
    [TokenCodecLaws], which the model of the library discharges.

    ** What the theorems show

    - [GoStrings], [Regexp], [NetHttp], [Runtime], [Xsrftoken]: the lemmas
      of the libraries the handlers are proved with: [Split] returns at
      least one field and its first field is the text before the first
      separator; [ParseInt] reads back what [FormatInt] prints; the matcher
      is sound and complete for the relational semantics; a header added
      is the header read; the first [WriteHeader] wins; the monad laws and
      the rules of [runtime.wp]; a token of the model verifies exactly when
      it was derived for the same key, subject and action at an instant
      within the validity window.
    - [Base64]: decoding an encoded text gives the text back, so the
      encoding is injective; its characters are those of the alphabet and
      the padding, four for every three bytes begun.  [Xsrftoken]
      concludes that a token is a text a cookie carries as it is, and
      that the token names its instant, its MAC and, for a MAC without
      collisions, the subject and the action up to colons; and that a
      candidate which carries the MAC of a token ([xsrftoken.tag_of])
      and is not the token is refused.
    - [GoTimeParse]: every element of a layout that [Format] prints of
      an instant is read back by the parser into the field it was
      printed from; [Parse] is a left inverse of [Format], up to the
      fraction of the second, for every layout that prints the date and
      the time of the day with the year in four digits and a delimiter
      after every number of variable width, [UnixDate] and [RFC1123]
      among them; the formatter and the parser keep [TimeLaws].  [Csrf]
      concludes that the two dates of the cookie, lines 142 and 154,
      name the same instant.
    - [Cookies]: a client reads a cookie off its Set-Cookie line with
      its name, its value and every attribute the server printed: the
      path, the domain, the expiry to the second, the age and the two
      flags; and the server reads the cookies a client has put on its
      request, in order, when the names are tokens and the values are
      made of cookie bytes.
    - [Csrf], on [Generate]: it refines [issuance] and never panics; what
      it leaves untouched; the object bound in the context is the one it
      fills; each branch (no subject, not a browser GET, cookie reuse,
      minting, cookie and header under their options); the domain of the
      cookie is always empty, because [domainReg] keeps the slashes of a
      JavaScript literal and matches nothing.
    - [Csrf], on [Validate]: it refines the state machine; the response
      stays unwritten exactly when a candidate verifies; the three
      rejections with their status and body; the header has precedence
      over the form.
    - [Csrf], on the methods: [ValidToken] accepts exactly the tokens of
      the window.
    - [Csrf], invariants and bounds: [Generate] and [Validate] keep the
      world well formed (the context binds a pointer of the heap, header
      keys are canonical, nothing is sent before the status); the cookie
      expires one day after the reading of the clock, and its line carries
      the date only for instants net/http considers valid.
    - [GoCalendar]: the year and the day of the year of a day count and
      [daysSinceEpoch] are inverse to each other, and so are the month
      and day with the table of months; [time.Date] of the fields of an
      instant is the instant; [AddDate] by days is a multiple of 24
      hours, and the date 24 hours later is the next day of the calendar
      at the same time of the day.  [Csrf] concludes that the cookie
      expires the day after the reading of the clock.
    - [Hostname]: on every text, the search for the pattern of
      [domainReg] without its slashes and the validator [is_hostname]
      give the same verdict.
    - [Pipeline]: the protected handler runs exactly when the request
      carries a candidate that verifies; a token handed out on a GET is
      accepted on a later request within the window and refused after the
      timeout; with a codec that binds a token to the normal form of its
      subject ([TokenCodecBinding], which the model gives for a MAC
      without collisions and the normal form [xsrftoken.clean]), it is
      refused in the session of a subject with another normal form and
      accepted in the session of a subject with the same one, so that the
      subjects [a:b] and [a_b] share their tokens; under the model of
      the library over a MAC without collisions, a candidate with the
      MAC of a token and another instant, or another text of its bytes,
      is refused; a token taken over
      from a cookie is handed out even when it no longer verifies, so
      that the cookie of one subject spoils the pages of the next;
      [Validate] without [Generate] panics.
    - [Browser]: the step of a GET computes the function [after_get] on
      the values of the jar; in every state a client reaches from an
      empty jar the cookie [_csrf] holds a token the server has minted;
      a token is minted once and shown by every later page, and its form
      is accepted within the window; a POST that is not answered 400
      carried a minted token that verifies; a client whose jar holds a
      token that no longer verifies for the subject of its session is
      answered 400 on every form it submits, until the cookie leaves the
      jar.  The client reads the cookie of the token with the date of
      line 142; a client that drops its cookies at their date is a client
      that evicts them one by one, and it is locked out by the expiry of
      the token only between 24 hours after the reading of the clock at
      line 140 and 24 hours after the reading at line 142; at the date
      of the cookie the next page has a new token, and its form is
      accepted.
    - [Concurrent]: [Generate], [Validate] and the handlers of the
      example keep to their request: they reach their object through
      the context, leave the objects of the other requests alone and
      depend on the clock through the readings they make.  Hence,
      whatever the turns the handlers of the requests in service take,
      a request that has come to rest has the response [martini.run]
      gives it alone in an empty heap, with readings of the clock that
      are among those made in the pool, in their order, and it has
      panicked if it panics alone; a request of the protected route does
      not panic; pages fetched at the same time each render a token of
      their own, and each token verifies within the window of its
      reading; no reading of the clock is made by two requests, so that
      the tokens of two pages are minted at different readings and are
      different when the clock goes forward.  In the other direction, the run of [martini.run] is the
      schedule of a pool with one request.  A pool that accepts no more
      requests comes to rest within as many turns as handlers are left.
    - [Runtime], [Csrf], [Pipeline], [App], on the clock: worlds that
      differ only in the readings already made are equivalent, every
      operation and handler takes equivalent worlds to equivalent results
      ([Forgetful]), and so the answer of the site to a request depends
      on the clock only from the reading the site has come to.
    - [App]: every request to the application is answered, with one of
      six statuses and without a panic, so the recovery handler is never
      needed; [POST /protected] answers 200 exactly when the session has
      a subject, the page renders and the candidate verifies; a request
      that no route matches is answered 404; the site has exactly one
      transition per request; in every reachable state the session is
      empty or the one of the login; in a reachable state a form is
      accepted only with a token derived for the subject of the login at
      an instant of the window; and the run login, form, submit of a
      browser ends with status 200.

    Theorems with hypotheses come with a witness on the sample requests of
    [Csrf.sample], [Pipeline.scenario], [Concurrent.tabs], [Browser.demo]
    and [App.visit],
    run with the codec [Xsrftoken.toy] (the library over a MAC that shows
    its arguments), the formatters [GoTime.unix_format] and
    [GoCalendar.utc_format], the parser [GoTimeParse.utc_parse] and the
    templates [App.plain_templates].

    ** Bounds and fuel

    The matcher's [*] is iterated with fuel [length text - position]: each
    useful iteration consumes at least one byte, so this is enough, which
    [Regexp.ends_complete] proves.  The parser of patterns runs on fuel
    [4 * length pattern + 4]; it is enough for [domainReg], which
    [Csrf.domainReg_compiles] shows by evaluation, and nothing is claimed
    of the parser on other patterns than those evaluated.  Instants are
    [Z] nanoseconds; [ParseInt] accepts what fits Go's int64, and the laws
    of the codec ask the instant of a token to fit it.  The lemmas on the
    table of months are checked by evaluation on the 365 or 366 days of a
    year ([Z_all_from]); the lemmas on years hold for every day count,
    before year 1 included, by linear arithmetic.  The loops over
    handlers ([martini.run], [app.run]) are structural on the list of
    handlers and need no fuel; the site takes one step per request, and
    [reachable] is the closure of these steps from the empty session.
    A byte is an [ascii]; the encoder and the decoder of [Base64] compute
    on its value in [Z] and keep a byte at its width with the mask
    [0xFF], so that what a shift moves past the eighth bit is dropped as
    in Go.  [strings.TrimSpace] removes the white space of ASCII; the two
    spaces of Unicode above it are sequences of two bytes that do not
    occur in the texts modelled.  The runs of the client are lists of
    events of any length.  A schedule of the pool is a list of arrivals
    and turns of any length; a turn is one handler, run as a whole, so
    that the readings of the clock of two requests interleave between
    their handlers; the readings a request makes are then any increasing
    selection of the readings of the clock, apart from the selections
    of the other requests, which is what the theorems on the pool
    quantify over.  The round trip of a date holds from January 1
    of the year 0 to the end of the year 9999 ([gotime.year_0],
    [gotime.year_10000]): outside, [Format] prints a sign or a fifth
    digit that [Parse] does not read as the year.  The lemmas on the
    numerals of [appendInt] are checked by evaluation up to 10000.

    ** Not modelled

    Every statement of src/csrf.go is modelled: the methods and the two
    handlers, and of the example of the package comment the options, the
    routes with their handlers and the order in which [Generate], the
    router and the recovery run.  What is left out belongs to the
    libraries and to the transport, which are not in the repository, and
    the package depends on it only through the interfaces above; of the
    example, the logger and the server of static files that
    [martini.Classic] installs before the handlers of the application,
    and the cookie in which [sessions.Sessions] keeps the session.

    The wire format of HTTP, TLS, the turns of the goroutines within a
    handler (in the pool of [Concurrent] a handler runs as a whole, and
    the site of [App] answers one request at a time), the parsing of
    forms (a request carries them parsed), the scope of a cookie on the side of the
    client (the jar is for one host and path, over a secure channel when
    the cookie asks for one) and its age (the client that keeps to the
    dates goes by Expires, which is all the middleware sets; any cookie
    may leave the jar by an event of its own as well), locations other
    than UTC, the 12-hour clock, numeric zones and the fractions of a
    second in layouts, HMAC-SHA1 (a parameter of the token model),
    the encoding of the session in its own cookie (the session is the map
    the store decodes), the text of the templates (an interface,
    [Templates]), route parameters, and the dependency injection of
    martini beyond the one binding this package makes. *)

From Stdlib Require Export ZArith Lia Ascii String.
From stdpp Require Export base tactics option list strings gmap.

(** ** Notation: Go's comparisons of strings and other plain data *)

Declare Scope go_scope.
Delimit Scope go_scope with go.
Notation "a == b" := (bool_decide (a = b))
  (at level 70, no associativity) : go_scope.
Notation "a != b" := (negb (bool_decide (a = b)))
  (at level 70, no associativity) : go_scope.
Open Scope go_scope.

(** ** Strings as byte lists *)

(** [[]byte(s)] and [string(b)]. *)
Definition to_bytes (s : string) : list ascii := list_ascii_of_string s.
Definition of_bytes (b : list ascii) : string := string_of_list_ascii b.

(** ** Checks over a range of integers *)

(** [f] on the [n] integers from [z] on: what a lemma on a finite range
    evaluates. *)
Fixpoint Z_all_from (f : Z → bool) (n : nat) (z : Z) : bool :=
  match n with
  | O => true
  | S n' => f z && Z_all_from f n' (z + 1)
  end.

(** ** Tactics *)

(** Case analysis on the guard the goal is stuck on. *)
Ltac case_cond :=
  first [ case_bool_decide | case_decide | case_match ]; simplify_eq/=.

Create HintDb go discriminated.
Create Rewrite HintDb go.
Create Rewrite HintDb run.

(** ** Lemmas shared by the components *)

Lemma of_to_bytes (s : string) : of_bytes (to_bytes s) = s.
Proof. apply string_of_list_ascii_of_string. Qed.

Lemma to_of_bytes (b : list ascii) : to_bytes (of_bytes b) = b.
Proof. apply list_ascii_of_string_of_list_ascii. Qed.

#[export] Hint Rewrite of_to_bytes to_of_bytes : go.

Lemma to_bytes_inj (s t : string) : to_bytes s = to_bytes t → s = t.
Proof. intros H. rewrite <-(of_to_bytes s), <-(of_to_bytes t). by f_equal. Qed.

Lemma of_bytes_inj (a b : list ascii) : of_bytes a = of_bytes b → a = b.
Proof. intros H. rewrite <-(to_of_bytes a), <-(to_of_bytes b). by f_equal. Qed.

Lemma to_bytes_app (s t : string) :
  to_bytes (s +:+ t) = to_bytes s ++ to_bytes t.
Proof.
  induction s as [|c s IH]; [done|].
  unfold to_bytes in *. cbn. by rewrite <-IH.
Qed.

Lemma of_bytes_app (a b : list ascii) :
  of_bytes (a ++ b) = of_bytes a +:+ of_bytes b.
Proof. apply to_bytes_inj. by rewrite to_bytes_app, !to_of_bytes. Qed.

Lemma to_bytes_length (s : string) : length (to_bytes s) = String.length s.
Proof.
  induction s as [|c s IH]; [done|]. unfold to_bytes in *. cbn. by rewrite IH.
Qed.

Lemma to_bytes_nil (s : string) : to_bytes s = [] ↔ s = "".
Proof. by destruct s. Qed.

#[export] Hint Rewrite to_bytes_app of_bytes_app to_bytes_length : go.

Lemma string_app_nil_r (s : string) : s +:+ "" = s.
Proof. apply to_bytes_inj. by rewrite to_bytes_app, app_nil_r. Qed.

Lemma string_app_assoc (s t u : string) : (s +:+ t) +:+ u = s +:+ t +:+ u.
Proof. apply to_bytes_inj. by rewrite !to_bytes_app, app_assoc. Qed.

Lemma string_app_inv_tail (s t u : string) : s +:+ u = t +:+ u → s = t.
Proof.
  intros H. apply to_bytes_inj, (app_inv_tail (to_bytes u)).
  by rewrite <-!to_bytes_app, H.
Qed.

Lemma string_app_inv_head (s t u : string) : u +:+ s = u +:+ t → s = t.
Proof.
  intros H. apply to_bytes_inj, (app_inv_head (to_bytes u)).
  by rewrite <-!to_bytes_app, H.
Qed.

#[export] Hint Rewrite string_app_nil_r string_app_assoc : go.

(** The two readings of a guard of the code. *)
Lemma neq_true {A} (a b : A) `{!Decision (a = b)} : (a != b) = true ↔ a ≠ b.
Proof. rewrite negb_true_iff. apply bool_decide_eq_false. Qed.

Lemma neq_false {A} (a b : A) `{!Decision (a = b)} : (a != b) = false ↔ a = b.
Proof. rewrite negb_false_iff. apply bool_decide_eq_true. Qed.

Lemma eq_true {A} (a b : A) `{!Decision (a = b)} : (a == b) = true ↔ a = b.
Proof. apply bool_decide_eq_true. Qed.

Lemma eq_false {A} (a b : A) `{!Decision (a = b)} : (a == b) = false ↔ a ≠ b.
Proof. apply bool_decide_eq_false. Qed.

(** Rewrite a guard whose outcome is known from the context. *)
Ltac guard_true := rewrite bool_decide_eq_true_2 by done.
Ltac guard_false := rewrite bool_decide_eq_false_2 by done.

(** A boolean check of every element, as a property of the list. *)
Lemma forallb_Forall {A} (f : A → bool) (l : list A) :
  forallb f l = true ↔ Forall (λ x, f x = true) l.
Proof.
  rewrite forallb_forall, Forall_forall. by setoid_rewrite list_elem_of_In.
Qed.

(** A map on bytes that moves none of the bytes of a text. *)
Lemma of_bytes_fmap_id (f : ascii → ascii) (s : string) :
  Forall (λ c, f c = c) (to_bytes s) → of_bytes (f <$> to_bytes s) = s.
Proof.
  intros H. rewrite <-(of_to_bytes s) at 2. f_equal.
  induction H; cbn; congruence.
Qed.

(** The ends of a list that is not empty. *)
Lemma Forall_head_last {A} (P : A → Prop) (l : list A) :
  l ≠ [] → Forall P l →
  ∃ x y, head l = Some x ∧ last l = Some y ∧ P x ∧ P y.
Proof.
  intros Hne H. destruct l as [|x l]; [done|].
  destruct (last (x :: l)) as [y|] eqn:E; [|by apply last_None in E].
  exists x, y. split_and!; [done..|by apply Forall_cons in H as []|].
  apply last_Some in E as [l' E]. rewrite E in H.
  by apply Forall_app in H as [_ [? _]%Forall_cons].
Qed.

(** Two lists cut at the first occurrence of a separator. *)
Lemma app_sep_inj {A} (x : A) (l1 l2 k1 k2 : list A) :
  x ∉ l1 → x ∉ k1 → l1 ++ x :: l2 = k1 ++ x :: k2 → l1 = k1 ∧ l2 = k2.
Proof.
  revert k1. induction l1 as [|a l1 IH]; intros [|b k1] H1 H2 E;
    simplify_eq/=.
  - done.
  - by apply not_elem_of_cons in H2 as [].
  - by apply not_elem_of_cons in H1 as [].
  - apply not_elem_of_cons in H1 as [_ H1], H2 as [_ H2].
    by destruct (IH k1 H1 H2) as [-> ->].
Qed.

(** A filter keeps a list whose elements all pass. *)
Lemma filter_Forall_id {A} (P : A → Prop) `{!∀ x, Decision (P x)} (l : list A) :
  Forall P l → filter P l = l.
Proof.
  induction 1 as [|x l Hx _ IH]; [done|].
  by rewrite filter_cons, decide_True, IH.
Qed.

(** Two predicates that agree on the elements of a list filter it
    alike. *)
Lemma filter_ext_elem {A} (P Q : A → Prop) `{!∀ x, Decision (P x)}
    `{!∀ x, Decision (Q x)} (l : list A) :
  (∀ x, x ∈ l → P x ↔ Q x) → filter P l = filter Q l.
Proof.
  induction l as [|x l IH]; [done|]. intros Hl.
  rewrite !filter_cons, IH by (intros y Hy; apply Hl; by right).
  pose proof (Hl x ltac:(by left)). by repeat case_decide; try tauto.
Qed.

(** Induction on a list three elements at a time. *)
Lemma list_ind3 {A} (P : list A → Prop) :
  P [] → (∀ x, P [x]) → (∀ x y, P [x; y]) →
  (∀ x y z l, P l → P (x :: y :: z :: l)) →
  ∀ l, P l.
Proof.
  intros H0 H1 H2 H3 l.
  cut (P l ∧ (∀ x, P (x :: l)) ∧ ∀ x y, P (x :: y :: l)); [by intros []|].
  induction l as [|z l (IH0 & IH1 & IH2)]; auto.
Qed.

(** A check that evaluates to [true] holds of every integer of the
    range. *)
Lemma Z_all_from_spec (f : Z → bool) n z :
  Z_all_from f n z = true →
  ∀ k, (z ≤ k < z + Z.of_nat n)%Z → f k = true.
Proof.
  revert z. induction n as [|n IH]; intros z H k Hk; [lia|].
  cbn [Z_all_from] in H. apply andb_prop in H as [Hz H].
  destruct (decide (k = z)) as [->|]; [done|]. apply (IH (z + 1)%Z); [done|lia].
Qed.
