(* ===== verification/GoStrings.v ===== *)
(** * Go's strings and strconv packages, as far as the code uses them

    [strings.Split(s, sep)] for a separator of one byte, which is how
    src/csrf.go calls it (line 144, [strings.Split(r.Host, ":")]): the
    fields of [s] between the occurrences of the separator, in order, with
    empty fields kept.  The result is never empty, so the index [[0]] that
    follows the call cannot be out of range; the fields joined with the
    separator are the text again.

    [strings.Index(s, sep)] for a separator of one byte ([strings.cut],
    the two parts of the text around the first separator) and
    [strings.TrimSpace(s)] on the white space of ASCII, with which
    net/http takes a cookie line apart.

    [strconv.FormatInt(n, 10)], which is also what [fmt]'s verb [%d]
    prints, and [strconv.ParseInt(s, 10, 64)], its partial inverse: an
    optional sign, at least one digit and nothing else, and a value that
    fits 64 bits.  The token library prints the issue time of a token with
    the first and reads it back with the second. *)

From Stdlib Require Import DecimalString DecimalZ DecimalPos.
From S2P Require Import Prelude.

(** ** Definitions *)

Module strings.

(** The fields of a byte list: the first field is extended byte by byte
    until a separator closes it. *)
Fixpoint fields (sep : ascii) (s : list ascii) : list (list ascii) :=
  match s with
  | [] => [[]]
  | c :: s' =>
      if decide (c = sep) then [] :: fields sep s'
      else match fields sep s' with
           | f :: fs => (c :: f) :: fs
           | [] => [[c]]
           end
  end.

(** [strings.Split(s, sep)] with [sep] one byte long. *)
Definition Split (s : string) (sep : ascii) : list string :=
  of_bytes <$> fields sep (to_bytes s).

(** [strings.Join(fs, sep)], the inverse of [Split]. *)
Fixpoint Join (fs : list string) (sep : ascii) : string :=
  match fs with
  | [] => ""
  | [f] => f
  | f :: fs' => f +:+ String sep (Join fs' sep)
  end.

(** The bytes of [s] before the first [sep]. *)
Fixpoint before (sep : ascii) (s : list ascii) : list ascii :=
  match s with
  | [] => []
  | c :: s' => if decide (c = sep) then [] else c :: before sep s'
  end.

(** [strings.Index(s, sep)] for a separator of one byte, as the two
    parts it cuts [s] into: [None] when the separator does not occur. *)
Fixpoint cut (sep : ascii) (s : list ascii) :
    option (list ascii * list ascii) :=
  match s with
  | [] => None
  | c :: s' =>
      if decide (c = sep) then Some ([], s')
      else (λ p : list ascii * list ascii, (c :: p.1, p.2)) <$> cut sep s'
  end.

(** The white space [strings.TrimSpace] removes from a text of ASCII:
    tab, line feed, vertical tab, form feed, carriage return, space. *)
Definition isSpace (c : ascii) : bool :=
  bool_decide (c ∈ ["009"; "010"; "011"; "012"; "013"; " "]%char).

Fixpoint trim_left (s : list ascii) : list ascii :=
  match s with
  | c :: s' => if isSpace c then trim_left s' else s
  | [] => []
  end.

Fixpoint trim_right (s : list ascii) : list ascii :=
  match s with
  | [] => []
  | c :: s' =>
      match trim_right s' with
      | [] => if isSpace c then [] else [c]
      | t => c :: t
      end
  end.

(** [strings.TrimSpace(s)]. *)
Definition TrimSpace (s : string) : string :=
  of_bytes (trim_right (trim_left (to_bytes s))).

End strings.

Module strconv.

(** [strconv.FormatInt(n, 10)]. *)
Definition FormatInt (n : Z) : string := NilZero.string_of_int (Z.to_int n).

(** The digits of an unsigned decimal numeral, if [s] is one. *)
Definition ParseUint (s : string) : option Z :=
  d ← NilZero.uint_of_string s; Some (Z.of_uint d).

(** [strconv.ParseInt(s, 10, 64)]: [None] stands for either error,
    syntax or range. *)
Definition ParseInt (s : string) : option Z :=
  n ← match s with
      | String c s' =>
          if c == "+"%char then ParseUint s'
          else if c == "-"%char then Z.opp <$> ParseUint s'
          else ParseUint s
      | EmptyString => None
      end;
  if bool_decide (- 2 ^ 63 ≤ n ≤ 2 ^ 63 - 1)%Z then Some n else None.

(** The bytes a decimal numeral is made of. *)
Definition is_digit (c : ascii) : bool :=
  (48 <=? N_of_ascii c)%N && (N_of_ascii c <=? 57)%N.

End strconv.

(** ** Properties of [strings.Split] *)

Section split.
Context (sep : ascii).
Implicit Types (s : list ascii) (t : string).

Lemma fields_nonempty s : strings.fields sep s ≠ [].
Proof. induction s as [|c s IH]; cbn; [done|]. by repeat case_match. Qed.

Lemma fields_cons s : ∃ f fs, strings.fields sep s = f :: fs.
Proof.
  destruct (strings.fields sep s) as [|f fs] eqn:E; [|by eauto].
  by destruct (fields_nonempty s).
Qed.

Lemma fields_head s :
  head (strings.fields sep s) = Some (strings.before sep s).
Proof.
  induction s as [|c s IH]; cbn; [done|].
  destruct (fields_cons s) as (f & fs & E). rewrite E in *.
  destruct (decide _); cbn in *; congruence.
Qed.

Lemma before_no_sep s : sep ∉ strings.before sep s.
Proof.
  induction s as [|c s IH]; cbn; [set_solver|].
  case_decide; set_solver.
Qed.

Lemma before_prefix s : strings.before sep s `prefix_of` s.
Proof.
  induction s as [|c s IH]; cbn; [done|].
  case_decide; [apply prefix_nil | by apply prefix_cons].
Qed.

Lemma before_no_sep_id s : sep ∉ s → strings.before sep s = s.
Proof.
  induction s as [|c s IH]; cbn; [done|].
  intros [? ?]%not_elem_of_cons. case_decide; [done|]. by rewrite IH.
Qed.

Lemma before_app s (t : list ascii) :
  sep ∉ s → strings.before sep (s ++ sep :: t) = s.
Proof.
  induction s as [|c s IH]; cbn; [by rewrite decide_True|].
  intros [? ?]%not_elem_of_cons. by rewrite decide_False, IH.
Qed.

Lemma fields_no_sep s : Forall (λ f, sep ∉ f) (strings.fields sep s).
Proof.
  induction s as [|c s IH]; cbn.
  - repeat constructor. set_solver.
  - destruct (fields_cons s) as (f & fs & E). rewrite E in *.
    inv IH. destruct (decide _); constructor; try done; [set_solver| |set_solver].
    by constructor.
Qed.

Lemma fields_length s :
  length (strings.fields sep s) = S (length (filter (sep =.) s)).
Proof.
  induction s as [|c s IH]; [done|]. rewrite filter_cons. cbn.
  destruct (fields_cons s) as (f & fs & E). rewrite E in *.
  repeat case_decide; simplify_eq/=; lia.
Qed.

(** The fields and the separators between them make up the text again,
    and a text put together from fields without separators splits into
    them. *)
Lemma fields_concat s :
  ∃ f fs, strings.fields sep s = f :: fs ∧ s = f ++ concat ((sep ::.) <$> fs).
Proof.
  induction s as [|c s (f & fs & E & Hs)]; cbn; [by exists [], []|].
  rewrite E. case_decide.
  - subst c. exists [], (f :: fs). by rewrite Hs at 1.
  - exists (c :: f), fs. by rewrite Hs at 1.
Qed.

Lemma fields_of_concat f fs :
  sep ∉ f → Forall (λ f, sep ∉ f) fs →
  strings.fields sep (f ++ concat ((sep ::.) <$> fs)) = f :: fs.
Proof.
  intros Hf Hfs. revert f Hf.
  induction Hfs as [|g fs Hg _ IH]; intros f Hf;
    (induction f as [|c f IHf];
     [|apply not_elem_of_cons in Hf as [? ?]; cbn in *;
       rewrite IHf by done; by case_decide]); cbn.
  - done.
  - case_decide; [|done]. by rewrite IH.
Qed.

End split.

Section cut.
Context (sep : ascii).
Implicit Types (s t : list ascii).

Lemma cut_app s t : sep ∉ s → strings.cut sep (s ++ sep :: t) = Some (s, t).
Proof.
  induction s as [|c s IH]; cbn; [by rewrite decide_True|].
  intros [? ?]%not_elem_of_cons. by rewrite decide_False, IH.
Qed.

Lemma cut_None s : sep ∉ s → strings.cut sep s = None.
Proof.
  induction s as [|c s IH]; cbn; [done|].
  intros [? ?]%not_elem_of_cons. by rewrite decide_False, IH.
Qed.

Lemma cut_Some s l r : strings.cut sep s = Some (l, r) → s = l ++ sep :: r ∧ sep ∉ l.
Proof.
  revert l. induction s as [|c s IH]; intros l; cbn; [done|].
  case_decide as Hc.
  { intros [= <- <-]. subst. split; [done|apply not_elem_of_nil]. }
  intros ([l' r'] & E & H)%fmap_Some. cbn in H. injection H as -> ->.
  destruct (IH _ E) as [Hs ?]. subst s. split; [done|].
  by apply not_elem_of_cons.
Qed.

End cut.

Section trim.
Implicit Types (s t : list ascii) (c : ascii).

(** Trimming leaves a text that neither starts nor ends with white space
    as it is. *)
Lemma trim_right_nonempty s c :
  strings.isSpace c = false → strings.trim_right (s ++ [c]) = s ++ [c].
Proof.
  intros Hc. induction s as [|d s IH]; cbn; [by rewrite Hc|].
  rewrite IH. by destruct s.
Qed.

Lemma trim_left_cons s c :
  strings.isSpace c = false → strings.trim_left (c :: s) = c :: s.
Proof. intros Hc. cbn. by rewrite Hc. Qed.

Lemma trim_left_space s c :
  strings.isSpace c = true → strings.trim_left (c :: s) = strings.trim_left s.
Proof. intros Hc. cbn. by rewrite Hc. Qed.

(** What is before a byte that is not white space stays. *)
Lemma trim_right_app s c t :
  strings.isSpace c = false →
  strings.trim_right (s ++ c :: t) = s ++ c :: strings.trim_right t.
Proof.
  intros Hc. induction s as [|d s IH]; cbn.
  - rewrite Hc. by destruct (strings.trim_right t).
  - rewrite IH. by destruct s.
Qed.

Lemma TrimSpace_app s c t x :
  head s = Some x → strings.isSpace x = false → strings.isSpace c = false →
  strings.TrimSpace (of_bytes (s ++ c :: t))
  = of_bytes (s ++ c :: strings.trim_right t).
Proof.
  intros Hs Hx Hc. unfold strings.TrimSpace. rewrite to_of_bytes. f_equal.
  rewrite <-trim_right_app by done. f_equal.
  destruct s; simplify_eq/=. by rewrite Hx.
Qed.

Lemma trim_right_last s c :
  last s = Some c → strings.isSpace c = false → strings.trim_right s = s.
Proof. intros [s' ->]%last_Some Hc. by apply trim_right_nonempty. Qed.

Lemma TrimSpace_ends t c d :
  head t = Some c → last t = Some d →
  strings.isSpace c = false → strings.isSpace d = false →
  strings.TrimSpace (of_bytes t) = of_bytes t.
Proof.
  intros Hh Hl Hc Hd. unfold strings.TrimSpace. rewrite to_of_bytes. f_equal.
  destruct t as [|c' t]; simplify_eq/=. rewrite Hc.
  by eapply trim_right_last.
Qed.

(** A space before a text that does not start with white space is
    trimmed. *)
Lemma TrimSpace_space t c d :
  head t = Some c → last t = Some d →
  strings.isSpace c = false → strings.isSpace d = false →
  strings.TrimSpace (of_bytes (" "%char :: t)) = of_bytes t.
Proof.
  intros Hh Hl Hc Hd. rewrite <-(TrimSpace_ends t c d) by done.
  unfold strings.TrimSpace. by rewrite !to_of_bytes.
Qed.

Lemma TrimSpace_id t :
  t ≠ [] → Forall (λ c, strings.isSpace c = false) t →
  strings.TrimSpace (of_bytes t) = of_bytes t.
Proof.
  intros Hne Ht. unfold strings.TrimSpace. rewrite to_of_bytes. f_equal.
  induction t as [|d t _] using rev_ind; [done|].
  replace (strings.trim_left (t ++ [d])) with (t ++ [d]).
  - apply Forall_app in Ht as [_ [Hd _]%Forall_cons].
    by apply trim_right_nonempty.
  - destruct t as [|c t]; cbn; by apply Forall_cons in Ht as [-> _].
Qed.

End trim.

Lemma Split_nonempty t sep : strings.Split t sep ≠ [].
Proof.
  unfold strings.Split. destruct (fields_cons sep (to_bytes t)) as (f & fs & ->).
  done.
Qed.

Lemma Split_head t sep :
  head (strings.Split t sep) = Some (of_bytes (strings.before sep (to_bytes t))).
Proof.
  unfold strings.Split. pose proof (fields_head sep (to_bytes t)) as H.
  destruct (strings.fields _ _); by simplify_eq/=.
Qed.

Lemma Split_Join t sep : strings.Join (strings.Split t sep) sep = t.
Proof.
  unfold strings.Split. rewrite <-(of_to_bytes t) at 2.
  induction (to_bytes t) as [|c s IH]; [done|].
  change (strings.fields sep (c :: s)) with
    (if decide (c = sep) then [] :: strings.fields sep s
     else match strings.fields sep s with
          | f :: fs => (c :: f) :: fs | [] => [[c]] end).
  destruct (fields_cons sep s) as (f & fs & E). rewrite E in *.
  change (of_bytes (c :: s)) with (String c (of_bytes s)). rewrite <-IH.
  case_decide; subst; [done|]. by destruct fs.
Qed.

(** The bytes of parts joined, and the parts of a text joined from parts
    that have no separator. *)
Lemma Join_bytes p ps sep :
  to_bytes (strings.Join (p :: ps) sep)
  = to_bytes p ++ concat ((sep ::.) <$> (to_bytes <$> ps)).
Proof.
  revert p. induction ps as [|q ps IH]; intros p.
  - cbn. by rewrite app_nil_r.
  - change (strings.Join (p :: q :: ps) sep)
      with (p +:+ String sep (strings.Join (q :: ps) sep)).
    rewrite to_bytes_app.
    change (to_bytes (String sep ?t)) with (sep :: to_bytes t).
    by rewrite IH.
Qed.

Lemma Split_of_Join p ps sep :
  Forall (λ q, sep ∉ to_bytes q) (p :: ps) →
  strings.Split (strings.Join (p :: ps) sep) sep = p :: ps.
Proof.
  intros [Hp Hps]%Forall_cons. unfold strings.Split.
  rewrite Join_bytes, fields_of_concat by (done || by apply Forall_fmap).
  cbn [fmap list_fmap]. rewrite of_to_bytes. f_equal.
  rewrite <-list_fmap_compose. rewrite <-(list_fmap_id ps) at 2.
  apply list_fmap_ext. intros _ q _. apply of_to_bytes.
Qed.

(** ** Properties of [strconv.FormatInt] and [strconv.ParseInt] *)

Section strconv.
Implicit Types (n : Z) (d : Decimal.uint).

Lemma string_of_uint_digits d :
  Forall (λ c, strconv.is_digit c = true)
    (to_bytes (NilEmpty.string_of_uint d)).
Proof. induction d; cbn; by constructor. Qed.

Lemma NilZero_string_of_uint_digits d :
  Forall (λ c, strconv.is_digit c = true)
    (to_bytes (NilZero.string_of_uint d)).
Proof.
  destruct d; try apply string_of_uint_digits. by repeat constructor.
Qed.

Lemma to_uint_nonnil (p : positive) : Pos.to_uint p ≠ Decimal.Nil.
Proof. apply Unsigned.to_uint_nonnil. Qed.

Lemma ParseUint_string_of_uint d :
  d ≠ Decimal.Nil →
  strconv.ParseUint (NilZero.string_of_uint d) = Some (Z.of_uint d).
Proof. intros Hd. unfold strconv.ParseUint. by rewrite NilZero.usu. Qed.

(** The text of a non-negative number is digits only; the text of a
    negative one is a minus sign and digits. *)
Lemma FormatInt_nonneg n :
  (0 ≤ n)%Z →
  Forall (λ c, strconv.is_digit c = true) (to_bytes (strconv.FormatInt n)).
Proof.
  intros Hn. unfold strconv.FormatInt.
  destruct n as [|p|p]; [by repeat constructor| |lia].
  apply NilZero_string_of_uint_digits.
Qed.

Lemma FormatInt_bytes n :
  Forall (λ c, c = "-"%char ∨ strconv.is_digit c = true)
    (to_bytes (strconv.FormatInt n)).
Proof.
  unfold strconv.FormatInt. destruct n as [|p|p]; cbn.
  - repeat constructor; by right.
  - eapply Forall_impl; [apply NilZero_string_of_uint_digits|]. by right.
  - constructor; [by left|].
    eapply Forall_impl; [apply NilZero_string_of_uint_digits|]. by right.
Qed.

Lemma FormatInt_no_byte n (c : ascii) :
  c ≠ "-"%char → strconv.is_digit c = false →
  c ∉ to_bytes (strconv.FormatInt n).
Proof.
  intros Hc Hd Hin.
  pose proof (proj1 (Forall_forall _ _) (FormatInt_bytes n) c Hin) as [?|?];
    congruence.
Qed.

Lemma Z_of_uint_to_uint (p : positive) : Z.of_uint (Pos.to_uint p) = Z.pos p.
Proof. unfold Z.of_uint. by rewrite Unsigned.of_to. Qed.

(** An unsigned numeral is read back by [ParseInt] through its third
    branch: its first byte is a digit, so no sign. *)
Lemma ParseInt_unsigned d (n : Z) :
  d ≠ Decimal.Nil → Z.of_uint d = n → (- 2 ^ 63 ≤ n ≤ 2 ^ 63 - 1)%Z →
  strconv.ParseInt (NilZero.string_of_uint d) = Some n.
Proof.
  intros Hd Hn Hr. unfold strconv.ParseInt.
  pose proof (ParseUint_string_of_uint d Hd) as Hp.
  pose proof (NilZero_string_of_uint_digits d) as Hdig.
  destruct (NilZero.string_of_uint d) as [|c s]; [done|].
  apply Forall_cons_1 in Hdig as [Hc _].
  repeat case_bool_decide; try by (subst c; cbn in Hc).
  all: rewrite Hp; cbn; subst n; try by rewrite bool_decide_eq_true_2.
Qed.

(** Round trip: what [FormatInt] prints of a 64-bit integer,
    [ParseInt] reads back. *)
Lemma ParseInt_FormatInt n :
  (- 2 ^ 63 ≤ n ≤ 2 ^ 63 - 1)%Z →
  strconv.ParseInt (strconv.FormatInt n) = Some n.
Proof.
  intros Hr. unfold strconv.FormatInt. destruct n as [|p|p]; cbn [Z.to_int].
  - by vm_compute.
  - apply ParseInt_unsigned; [apply to_uint_nonnil|apply Z_of_uint_to_uint|done].
  - cbn [NilZero.string_of_int]. unfold strconv.ParseInt.
    rewrite bool_decide_eq_false_2, bool_decide_eq_true_2 by done.
    rewrite ParseUint_string_of_uint, Z_of_uint_to_uint
      by apply to_uint_nonnil.
    cbn. by rewrite bool_decide_eq_true_2.
Qed.

Lemma FormatInt_inj n m : strconv.FormatInt n = strconv.FormatInt m → n = m.
Proof.
  unfold strconv.FormatInt. intros H. apply DecimalZ.to_int_inj.
  apply (f_equal NilZero.int_of_string) in H.
  rewrite !NilZero.isi in H; try by destruct n, m.
  all: try by (destruct n as [|p|p]; cbn; try done;
    intros [=E]; by apply to_uint_nonnil in E).
  all: try by (destruct m as [|p|p]; cbn; try done;
    intros [=E]; by apply to_uint_nonnil in E).
  congruence.
Qed.

(** The numeral of a positive integer does not start with a zero. *)
Lemma to_uint_no_leading_zero (p : positive) d :
  Pos.to_uint p ≠ Decimal.D0 d.
Proof.
  intros E. pose proof (DecimalPos.Unsigned.to_of (Pos.to_uint p)) as H.
  rewrite DecimalPos.Unsigned.of_to in H. cbn [N.to_uint] in H.
  assert (Decimal.nzhead (Pos.to_uint p) = Decimal.Nil
          ∨ Decimal.nzhead (Pos.to_uint p) ≠ Decimal.Nil) as [Hz|Hz]
    by (destruct (Decimal.nzhead _); (by left) || (by right)).
  - apply DecimalFacts.unorm_0 in Hz. rewrite Hz in H.
    by apply (DecimalPos.Unsigned.to_uint_nonzero p).
  - rewrite (DecimalFacts.unorm_nzhead _ Hz), E in H. symmetry in H.
    by apply DecimalFacts.nzhead_nonzero in H.
Qed.

Lemma FormatInt_head_pos n :
  (0 < n)%Z → head (to_bytes (strconv.FormatInt n)) ≠ Some "0"%char.
Proof.
  intros Hn. destruct n as [|p|p]; try lia. unfold strconv.FormatInt.
  cbn [Z.to_int NilZero.string_of_int].
  pose proof (to_uint_no_leading_zero p) as H0.
  pose proof (to_uint_nonnil p) as Hn0.
  unfold NilZero.string_of_uint.
  destruct (Pos.to_uint p) as [|d|d|d|d|d|d|d|d|d|d];
    [done|by destruct (H0 d)|by intros [=]..].
Qed.

Lemma FormatInt_nonempty n : strconv.FormatInt n ≠ "".
Proof.
  unfold strconv.FormatInt. destruct n as [|p|p]; cbn; try done.
  pose proof (to_uint_nonnil p). by destruct (Pos.to_uint p).
Qed.

End strconv.
