(* ===== verification/Base64.v ===== *)
(** * Go's encoding/base64: the URL encoding

    The token library returns its tokens in [base64.URLEncoding], the
    alphabet of RFC 4648 that is safe in URLs and file names, with [=] as
    padding.  This file models [EncodeToString] and [DecodeString] of
    that encoding on byte lists, with the shifts and masks of the
    library.

    - [Encode] turns each group of three bytes into four characters, and
      a last group of one or two bytes into two or three characters and
      padding.
    - [Decode] turns each group of four characters back into three bytes.
      It refuses a character that is not of the alphabet, a length that
      is not a multiple of four, and padding that is not at the end.  A
      byte is kept at its width: what a shift moves past the eighth bit
      is dropped ([byte]).

    The theorems: decoding an encoded text gives the text back, the
    encoding is injective, its characters are those of the alphabet and
    the padding, and its length is four characters for every three bytes
    begun. *)

From S2P Require Import Prelude.

(** ** Definitions *)

Module base64.

Local Open Scope Z_scope.

(** [encodeURL], the alphabet, and the padding character. *)
Definition encodeURL : string :=
  "ABCDEFGHIJKLMNOPQRSTUVWXYZabcdefghijklmnopqrstuvwxyz0123456789-_".

Definition padChar : ascii := "="%char.

(** [uint(b)] of a byte, and [byte(n)] of an integer: its low eight
    bits. *)
Definition uint (c : ascii) : Z := Z.of_N (N_of_ascii c).
Definition byte (n : Z) : ascii := ascii_of_N (Z.to_N (Z.land n 255)).

(** [enc.encode[i]] and [enc.decodeMap[c]], where [None] is [0xFF]. *)
Definition encode_char (i : Z) : ascii :=
  nth (Z.to_nat i) (to_bytes encodeURL) padChar.

Definition decode_char (c : ascii) : option Z :=
  (λ ic : nat * ascii, Z.of_nat ic.1) <$>
  list_find (λ c', c' = c) (to_bytes encodeURL).

(** [enc.encode[val>>shift&0x3F]]. *)
Definition sextet (val shift : Z) : ascii :=
  encode_char (Z.land (Z.shiftr val shift) 63).

(** The method [Encode] of an encoding. *)
Fixpoint Encode (src : list ascii) : list ascii :=
  match src with
  | [] => []
  | [b0] =>
      let val := Z.shiftl (uint b0) 16 in
      [sextet val 18; sextet val 12; padChar; padChar]
  | [b0; b1] =>
      let val := Z.lor (Z.shiftl (uint b0) 16) (Z.shiftl (uint b1) 8) in
      [sextet val 18; sextet val 12; sextet val 6; padChar]
  | b0 :: b1 :: b2 :: rest =>
      let val := Z.lor (Z.lor (Z.shiftl (uint b0) 16) (Z.shiftl (uint b1) 8))
                       (uint b2) in
      sextet val 18 :: sextet val 12 :: sextet val 6 :: sextet val 0
      :: Encode rest
  end.

(** The method [decode] of an encoding, a quantum of four characters at
    a time. *)
Fixpoint Decode (src : list ascii) : option (list ascii) :=
  match src with
  | [] => Some []
  | c0 :: c1 :: c2 :: c3 :: rest =>
      d0 ← decode_char c0;
      d1 ← decode_char c1;
      let b0 := byte (Z.lor (Z.shiftl d0 2) (Z.shiftr d1 4)) in
      if c2 == padChar then
        if (c3 == padChar) && (rest == []) then Some [b0] else None
      else
        d2 ← decode_char c2;
        let b1 := byte (Z.lor (Z.shiftl d1 4) (Z.shiftr d2 2)) in
        if c3 == padChar then
          if rest == [] then Some [b0; b1] else None
        else
          d3 ← decode_char c3;
          let b2 := byte (Z.lor (Z.shiftl d2 6) d3) in
          tail ← Decode rest;
          Some (b0 :: b1 :: b2 :: tail)
  | _ => None
  end.

(** [enc.EncodeToString(src)] and [enc.DecodeString(s)], which skips the
    line ends of its argument. *)
Definition EncodeToString (src : string) : string :=
  of_bytes (Encode (to_bytes src)).

Definition DecodeString (s : string) : option string :=
  of_bytes <$>
  Decode (filter (λ c, c ∉ ["010"; "013"]%char) (to_bytes s)).

(** The characters of an encoded text: those of the alphabet and the
    padding. *)
Definition url_safe (c : ascii) : Prop :=
  c ∈ to_bytes encodeURL ∨ c = padChar.

(** What the lemmas on the alphabet evaluate on its 64 indices. *)
Definition encode_char_ok (i : Z) : bool :=
  bool_decide (decode_char (encode_char i) = Some i)
  && bool_decide (encode_char i ∉ [padChar; "010"; "013"]%char).

End base64.

Import base64.
Local Open Scope Z_scope.

(** ** Bytes and bits *)

Section bits.
Implicit Types (a b n k : Z) (c : ascii).

Lemma uint_range c : 0 ≤ uint c < 256.
Proof. unfold uint. pose proof (N_ascii_bounded c). lia. Qed.

Lemma land_ones_255 n : Z.land n 255 = n mod 256.
Proof. apply (Z.land_ones n 8). lia. Qed.

Lemma land_ones_63 n : Z.land n 63 = n mod 64.
Proof. apply (Z.land_ones n 6). lia. Qed.

Lemma byte_uint n c : n mod 256 = uint c → byte n = c.
Proof.
  intros E. unfold byte. rewrite land_ones_255, E. unfold uint.
  by rewrite N2Z.id, ascii_N_embedding.
Qed.

(** A value below the shift shares no bit with what is shifted, so their
    disjunction is their sum. *)
Lemma land_shiftl_small a b k :
  0 ≤ k → 0 ≤ b < 2 ^ k → Z.land (Z.shiftl a k) b = 0.
Proof.
  intros Hk Hb. apply Z.bits_inj'; intros n Hn.
  rewrite Z.land_spec, Z.bits_0. destruct (decide (n < k)).
  { by rewrite Z.shiftl_spec_low. }
  rewrite (proj2 (Z.testbit_false b n Hn)), andb_false_r; [done|].
  rewrite Z.div_small; [done|]. split; [lia|].
  apply Z.lt_le_trans with (2 ^ k); [lia|]. apply Z.pow_le_mono_r; lia.
Qed.

Lemma lor_shiftl_add a b k :
  0 ≤ k → 0 ≤ b < 2 ^ k → Z.lor (Z.shiftl a k) b = a * 2 ^ k + b.
Proof.
  intros Hk Hb. pose proof (land_shiftl_small a b k Hk Hb) as H.
  by rewrite <-Z.shiftl_mul_pow2, <-Z.lxor_lor, Z.add_nocarry_lxor.
Qed.

End bits.

(** Bit operations of the encoder and the decoder, as arithmetic. *)
Ltac bits_to_arith :=
  repeat first
    [ rewrite land_ones_63 | rewrite land_ones_255
    | rewrite Z.shiftr_div_pow2 by lia
    | rewrite lor_shiftl_add by (try done; Z.div_mod_to_equations; lia)
    | rewrite Z.shiftl_mul_pow2 by lia ].

(** ** The alphabet *)

Section alphabet.
Implicit Types (i : Z) (c : ascii).

Lemma encode_char_spec i : 0 ≤ i < 64 → encode_char_ok i = true.
Proof.
  intros Hi. apply (Z_all_from_spec encode_char_ok 64 0); [by vm_compute|lia].
Qed.

Lemma decode_encode_char i :
  0 ≤ i < 64 → decode_char (encode_char i) = Some i.
Proof.
  intros [H _]%encode_char_spec%andb_prop. by apply bool_decide_eq_true in H.
Qed.

Lemma encode_char_plain i :
  0 ≤ i < 64 → encode_char i ∉ [padChar; "010"; "013"]%char.
Proof.
  intros [_ H]%encode_char_spec%andb_prop. by apply bool_decide_eq_true in H.
Qed.

Lemma encode_char_not_pad i : 0 ≤ i < 64 → (encode_char i == padChar) = false.
Proof.
  intros Hi%encode_char_plain. apply bool_decide_eq_false. set_solver.
Qed.

Lemma encode_char_alphabet i :
  0 ≤ i < 64 → encode_char i ∈ to_bytes encodeURL.
Proof.
  intros Hi. pose proof (decode_encode_char i Hi) as H.
  unfold decode_char in H. apply fmap_Some in H as ([j c] & H & _).
  apply list_find_Some in H as (H & -> & _). by eapply list_elem_of_lookup_2.
Qed.

(** A sextet is a character of the alphabet, and decodes to its six
    bits. *)
Lemma sextet_decode val shift :
  decode_char (sextet val shift) = Some (Z.shiftr val shift mod 64).
Proof.
  unfold sextet. rewrite land_ones_63. apply decode_encode_char.
  by apply Z.mod_pos_bound.
Qed.

Lemma sextet_not_pad val shift : (sextet val shift == padChar) = false.
Proof.
  unfold sextet. rewrite land_ones_63. apply encode_char_not_pad.
  by apply Z.mod_pos_bound.
Qed.

End alphabet.

(** ** Decoding an encoded text *)

Section round_trip.
Implicit Types (src : list ascii).

(** The three bytes of a quantum, from its four sextets. *)
Lemma quantum_byte0 (b0 b1 b2 : ascii) :
  let val := 65536 * uint b0 + 256 * uint b1 + uint b2 in
  byte (Z.lor (Z.shiftl (Z.shiftr val 18 mod 64) 2)
          (Z.shiftr (Z.shiftr val 12 mod 64) 4)) = b0.
Proof.
  pose proof (uint_range b0). pose proof (uint_range b1).
  pose proof (uint_range b2). intros val. apply byte_uint. subst val.
  bits_to_arith. Z.div_mod_to_equations. lia.
Qed.

Lemma quantum_byte1 (b0 b1 b2 : ascii) :
  let val := 65536 * uint b0 + 256 * uint b1 + uint b2 in
  byte (Z.lor (Z.shiftl (Z.shiftr val 12 mod 64) 4)
          (Z.shiftr (Z.shiftr val 6 mod 64) 2)) = b1.
Proof.
  pose proof (uint_range b0). pose proof (uint_range b1).
  pose proof (uint_range b2). intros val. apply byte_uint. subst val.
  bits_to_arith. Z.div_mod_to_equations. lia.
Qed.

Lemma quantum_byte2 (b0 b1 b2 : ascii) :
  let val := 65536 * uint b0 + 256 * uint b1 + uint b2 in
  byte (Z.lor (Z.shiftl (Z.shiftr val 6 mod 64) 6)
          (Z.shiftr val 0 mod 64)) = b2.
Proof.
  pose proof (uint_range b0). pose proof (uint_range b1).
  pose proof (uint_range b2). intros val. apply byte_uint. subst val.
  bits_to_arith. Z.div_mod_to_equations. lia.
Qed.

(** The value the encoder builds of three bytes. *)
Lemma quantum_val (b0 b1 b2 : ascii) :
  Z.lor (Z.lor (Z.shiftl (uint b0) 16) (Z.shiftl (uint b1) 8)) (uint b2)
  = 65536 * uint b0 + 256 * uint b1 + uint b2.
Proof.
  pose proof (uint_range b0). pose proof (uint_range b1).
  pose proof (uint_range b2).
  change 16 with (8 + 8). rewrite <-Z.shiftl_shiftl, <-Z.shiftl_lor by lia.
  bits_to_arith. lia.
Qed.

Lemma quantum_val2 (b0 b1 : ascii) :
  Z.lor (Z.shiftl (uint b0) 16) (Z.shiftl (uint b1) 8)
  = 65536 * uint b0 + 256 * uint b1 + uint "000".
Proof. rewrite <-quantum_val. by rewrite Z.lor_0_r. Qed.

Lemma quantum_val1 (b0 : ascii) :
  Z.shiftl (uint b0) 16 = 65536 * uint b0 + 256 * uint "000" + uint "000".
Proof. rewrite <-quantum_val. by rewrite Z.shiftl_0_l, !Z.lor_0_r. Qed.

End round_trip.

Section decode_encode.
Implicit Types (src : list ascii).

Lemma Decode_Encode src : Decode (Encode src) = Some src.
Proof.
  induction src as [|b0|b0 b1|b0 b1 b2 src IH] using list_ind3.
  - done.
  - cbn [Encode Decode]. rewrite quantum_val1, !sextet_decode.
    cbn [mbind option_bind]. rewrite quantum_byte0.
    done.
  - cbn [Encode Decode]. rewrite quantum_val2, !sextet_decode.
    cbn [mbind option_bind]. rewrite sextet_not_pad, quantum_byte0, quantum_byte1.
    done.
  - cbn [Encode Decode]. rewrite quantum_val, !sextet_decode.
    cbn [mbind option_bind].
    rewrite !sextet_not_pad, quantum_byte0, quantum_byte1, quantum_byte2, IH.
    done.
Qed.

End decode_encode.

(** ** The encoded text *)

Section encoded.
Implicit Types (src : list ascii) (s : string).

Lemma sextet_url_safe val shift : url_safe (sextet val shift).
Proof.
  left. unfold sextet. rewrite land_ones_63. apply encode_char_alphabet.
  by apply Z.mod_pos_bound.
Qed.

Lemma padChar_url_safe : url_safe padChar.
Proof. by right. Qed.

Lemma Encode_url_safe src : Forall url_safe (Encode src).
Proof.
  induction src using list_ind3; cbn [Encode];
    repeat first [ apply Forall_nil_2 | apply Forall_cons_2 ];
    auto using sextet_url_safe, padChar_url_safe.
Qed.

(** No line end among them. *)
Lemma url_safe_not_line_end c : url_safe c → c ∉ ["010"; "013"]%char.
Proof.
  intros [Hc| ->]; [|by apply (bool_decide_unpack _)].
  revert c Hc. apply Forall_forall. by apply (bool_decide_unpack _).
Qed.

(** Four characters for every three bytes begun. *)
Lemma Encode_length src :
  Z.of_nat (length (Encode src)) = 4 * ((Z.of_nat (length src) + 2) / 3).
Proof.
  induction src as [| | |b0 b1 b2 src IH] using list_ind3; [done..|].
  cbn [Encode length]. Z.div_mod_to_equations. lia.
Qed.

Lemma Encode_inj src src' : Encode src = Encode src' → src = src'.
Proof.
  intros E%(f_equal Decode). rewrite !Decode_Encode in E. by injection E.
Qed.

(** Decoding a string that was encoded gives the string back. *)
Lemma DecodeString_EncodeToString s :
  DecodeString (EncodeToString s) = Some s.
Proof.
  unfold DecodeString, EncodeToString. rewrite to_of_bytes.
  rewrite filter_Forall_id, Decode_Encode; [by cbn; rewrite of_to_bytes|].
  eapply Forall_impl; [apply Encode_url_safe|]. apply url_safe_not_line_end.
Qed.

Lemma EncodeToString_inj s s' : EncodeToString s = EncodeToString s' → s = s'.
Proof.
  intros E%(f_equal DecodeString).
  rewrite !DecodeString_EncodeToString in E. by injection E.
Qed.

Lemma EncodeToString_url_safe s :
  Forall url_safe (to_bytes (EncodeToString s)).
Proof. unfold EncodeToString. rewrite to_of_bytes. apply Encode_url_safe. Qed.

End encoded.

(** ** The encoder and the decoder at work *)

(** The vectors of RFC 4648, section 10, and texts the decoder
    refuses: a character that is not of the alphabet, a text cut short,
    padding in the middle. *)
Example EncodeToString_samples :
  EncodeToString "" = "" ∧
  EncodeToString "f" = "Zg==" ∧
  EncodeToString "fo" = "Zm8=" ∧
  EncodeToString "foo" = "Zm9v" ∧
  EncodeToString "foob" = "Zm9vYg==" ∧
  EncodeToString "fooba" = "Zm9vYmE=" ∧
  EncodeToString "foobar" = "Zm9vYmFy".
Proof. by vm_compute. Qed.

Example DecodeString_samples :
  DecodeString "Zm9vYmFy" = Some "foobar" ∧
  DecodeString "Zm9vYg==" = Some "foob" ∧
  DecodeString "Zm9v+mFy" = None ∧
  DecodeString "Zm9vYmF" = None ∧
  DecodeString "Zm==YmFy" = None ∧
  DecodeString "Zm9vYg=" = None.
Proof. by vm_compute. Qed.

(** The decoder does not check the bits a last quantum leaves over: two
    texts decode to the same byte. *)
Example DecodeString_not_injective :
  DecodeString "Zg==" = Some "f" ∧ DecodeString "Zh==" = Some "f".
Proof. by vm_compute. Qed.
