(* ===== verification/GoTime.v ===== *)
(** * Go's time package, as far as the middleware and xsrftoken use it

    An instant is its number of nanoseconds since the Unix epoch, a [Z]:
    what [t.UnixNano()] returns.  src/csrf.go, line 142, computes the
    cookie's expiry as [time.Now().AddDate(0, 0, 1)], one calendar day
    later, which is 24 hours when the server's location is UTC (what the
    model assumes: a location with daylight saving moves the instant by 23
    or 25 hours twice a year).  [gotime.AddDate] is that arithmetic;
    GoCalendar has the computation of the time package and proves the two
    equal.  Line 154 and Cookie.String format an instant by a layout;
    the handlers are written against the interface [TimeFormat], of
    which GoCalendar has the instance for UTC.  A client reads the date
    back with [time.Parse]: the interface [TimeParse], with the laws
    [TimeLaws] that make the two a round trip; GoTimeParse has the
    instance and proves the laws. *)

From S2P Require Import Prelude GoStrings.

(** ** Definitions *)

Module gotime.

Local Open Scope Z_scope.

(** Durations are nanoseconds. *)
Definition Nanosecond : Z := 1.
Definition Second : Z := 1000000000 * Nanosecond.
Definition Minute : Z := 60 * Second.
Definition Hour : Z := 60 * Minute.

(** [days] times 24 hours after [t]. *)
Definition AddDate (t : Z) (days : Z) : Z := t + days * (24 * Hour).

(** [t.Add(d)], [t.Sub(u)], [t.After(u)], [t.Unix()]. *)
Definition Add (t d : Z) : Z := t + d.
Definition Sub (t u : Z) : Z := t - u.
Definition After (t u : Z) : bool := bool_decide (u < t).
Definition Unix (t : Z) : Z := t `div` Second.

(** The zero [time.Time], January 1 of the year 1, and [t.IsZero()]. *)
Definition zero : Z := -62135596800000000000.
Definition IsZero (t : Z) : bool := bool_decide (t = zero).

(** The instant at the start of the second of [t]: what is left of [t]
    in a text that prints no fraction of a second. *)
Definition floor_sec (t : Z) : Z := t - t mod 1000000000.

(** January 1 of the year 0 and of the year 10000, at midnight: the
    instants between them have a year of four digits. *)
Definition year_0 : Z := -62167219200000000000.
Definition year_10000 : Z := 253402300800000000000.

(** The bytes of a date in a layout of letters, digits and
    punctuation. *)
Definition date_byte (c : ascii) : bool :=
  bool_decide (c ∈ to_bytes
    " ,-:0123456789ABCDEFGHIJKLMNOPQRSTUVWXYZabcdefghijklmnopqrstuvwxyz").

(** The layouts the code names. *)
Definition UnixDate : string := "Mon Jan _2 15:04:05 MST 2006".
Definition RFC1123 : string := "Mon, 02 Jan 2006 15:04:05 MST".

(** Go's int64, the type of [UnixNano] and of what [strconv.ParseInt]
    returns for a bit size of 64. *)
Definition MinInt64 : Z := - 2 ^ 63.
Definition MaxInt64 : Z := 2 ^ 63 - 1.
Definition is_int64 (n : Z) : bool :=
  bool_decide (MinInt64 ≤ n ≤ MaxInt64).

End gotime.

(** [t.Format(layout)]: the text of an instant in a layout. *)
Class TimeFormat := Format : Z → string → string.

(** [time.Parse(layout, value)]: the instant a text names in a layout,
    if it names one. *)
Class TimeParse := Parse : string → string → option Z.

(** What a client relies on when it reads the date of a cookie: the
    parser reads what the formatter prints in the layout [RFC1123], up
    to the fraction of the second, and the text is made of the bytes of
    a date and ends in none that [TrimSpace] would take. *)
Class TimeLaws `{TimeFormat, TimeParse} : Prop := {
  Parse_Format_RFC1123 t :
    (gotime.year_0 ≤ t < gotime.year_10000)%Z →
    Parse gotime.RFC1123 (Format t gotime.RFC1123)
    = Some (gotime.floor_sec t);
  Format_RFC1123_bytes t :
    (gotime.year_0 ≤ t < gotime.year_10000)%Z →
    forallb gotime.date_byte (to_bytes (Format t gotime.RFC1123)) = true;
  Format_RFC1123_last t :
    (gotime.year_0 ≤ t < gotime.year_10000)%Z →
    ∃ c, last (to_bytes (Format t gotime.RFC1123)) = Some c
         ∧ strings.isSpace c = false
}.

(** A formatter to run the model with: the seconds since the epoch in
    decimal, whatever the layout. *)
Definition unix_format : TimeFormat := λ t _, strconv.FormatInt (gotime.Unix t).

(** ** Properties *)

Lemma AddDate_one_day t : gotime.AddDate t 1 = (t + 86400000000000)%Z.
Proof. reflexivity. Qed.

Lemma AddDate_after t days :
  (0 < days)%Z → gotime.After (gotime.AddDate t days) t = true.
Proof.
  intros. apply bool_decide_eq_true. unfold gotime.AddDate, gotime.Hour,
    gotime.Minute, gotime.Second, gotime.Nanosecond. lia.
Qed.

(** [t.Unix()] is positive from the first second after the epoch on. *)
Lemma Unix_pos t : (0 < gotime.Unix t ↔ 1000000000 ≤ t)%Z.
Proof.
  unfold gotime.Unix, gotime.Second, gotime.Nanosecond.
  pose proof (Z.div_mod t (1000000000 * 1) ltac:(done)).
  pose proof (Z.mod_pos_bound t (1000000000 * 1) ltac:(done)). lia.
Qed.

Lemma Unix_AddDate t days :
  gotime.Unix (gotime.AddDate t days) = (gotime.Unix t + days * 86400)%Z.
Proof.
  unfold gotime.Unix, gotime.AddDate, gotime.Hour, gotime.Minute,
    gotime.Second, gotime.Nanosecond.
  replace (t + days * (24 * (60 * (60 * (1000000000 * 1)))))%Z
    with (t + (days * 86400) * (1000000000 * 1))%Z by lia.
  by rewrite Z.div_add by lia.
Qed.

(** The start of the second of an instant is at most a second before
    it. *)
Lemma floor_sec_range t :
  (gotime.floor_sec t ≤ t < gotime.floor_sec t + gotime.Second)%Z.
Proof.
  unfold gotime.floor_sec, gotime.Second, gotime.Nanosecond.
  pose proof (Z.mod_pos_bound t 1000000000 ltac:(done)). lia.
Qed.

Lemma floor_sec_AddDate t n :
  gotime.floor_sec (gotime.AddDate t n) = gotime.AddDate (gotime.floor_sec t) n.
Proof.
  unfold gotime.floor_sec, gotime.AddDate, gotime.Hour, gotime.Minute,
    gotime.Second, gotime.Nanosecond.
  Z.div_mod_to_equations. lia.
Qed.
