(* ===== verification/GoCalendar.v ===== *)
(** * Go's calendar: dates, [AddDate] and [Format] in UTC

    src/csrf.go, line 142, computes the expiry of the cookie as
    [time.Now().AddDate(0, 0, 1)], and line 154 prints it with
    [expire.Format(time.UnixDate)].  The time package does both through
    the civil date of the instant; this file follows it.

    - [year_yday] and [month_day] are the two halves of [absDate]: the
      year and the day of the year of a day count, by cycles of 400, 100
      and 4 years, then the month and the day of the month, by the table
      [daysBefore].  Days are counted from January 1 of year 1.
    - [Date_of], [Clock] and [Weekday] are the methods of [time.Time] for
      an instant in nanoseconds since the Unix epoch, in UTC.
    - [Date] is [time.Date], with its normalisation of fields out of
      range, and [AddDate] is [t.AddDate(years, months, days)]: the
      fields of [t], changed, and put together again.
    - [Format] is [t.Format(layout)] for the elements of a layout in
      [std_table]; [UnixDate] and [RFC1123] use no others.  The 12-hour
      clock, numeric zones and fractions of a second are not modelled.
    - [next_day] is the day after a date as a calendar gives it; the
      functions named [..._ok] are the checks the lemmas on the table of
      months evaluate over the days of a year.

    The theorems: [year_yday] and [daysSinceEpoch], [month_day] and
    [yday_of] are inverse to each other; [Date] of the fields of an
    instant is the instant; [AddDate] by days is [gotime.AddDate], a
    multiple of 24 hours; the date 24 hours later is [next_day]. *)

From S2P Require Import Prelude GoStrings GoTime.

(** ** Definitions *)

Module calendar.

Local Open Scope Z_scope.

Definition secondsPerDay : Z := 86400.

(** The seconds from January 1 of year 1 to the Unix epoch. *)
Definition unixToInternal : Z := 62135596800.

Definition isLeap (year : Z) : bool :=
  (year mod 4 =? 0) && (negb (year mod 100 =? 0) || (year mod 400 =? 0)).

Definition year_len (year : Z) : Z := if isLeap year then 366 else 365.

(** [daysBefore[m]]: the days of a year that is not a leap year before
    the month [m + 1]. *)
Definition daysBefore : list Z :=
  [0; 31; 59; 90; 120; 151; 181; 212; 243; 273; 304; 334; 365].

Definition days_before (month : Z) : Z := nth (Z.to_nat month) daysBefore 0.

(** [absDate], first half: the year of the day [d] and the day of the
    year, from 0.  A count of cycles of 100 or of 1 years that reaches 4
    is cut back to 3, for the last day of a cycle that ends in a leap
    year. *)
Definition year_yday (d : Z) : Z * Z :=
  let n400 := d / 146097 in
  let d := d - 146097 * n400 in
  let n := d / 36524 in
  let n100 := n - n / 4 in
  let d := d - 36524 * n100 in
  let n4 := d / 1461 in
  let d := d - 1461 * n4 in
  let n := d / 365 in
  let n1 := n - n / 4 in
  let d := d - 365 * n1 in
  (400 * n400 + 100 * n100 + 4 * n4 + n1 + 1, d).

(** [absDate], second half: the month, from 1, and the day of the month
    of a day of the year.  The month is estimated as if every month had
    31 days, which is too low by one month at most. *)
Definition month_day (leap : bool) (yday : Z) : Z * Z :=
  if leap && (yday =? 31 + 29 - 1) then (2, 29)
  else
    let day := if leap && (31 + 29 - 1 <? yday) then yday - 1 else yday in
    let month := day / 31 in
    let end_ := days_before (month + 1) in
    if end_ <=? day then (month + 2, day - end_ + 1)
    else (month + 1, day - days_before month + 1).

(** [daysSinceEpoch]: the days before January 1 of [year]. *)
Definition daysSinceEpoch (year : Z) : Z :=
  let y := year - 1 in
  let n400 := y / 400 in
  let y := y - 400 * n400 in
  let n100 := y / 100 in
  let y := y - 100 * n100 in
  let n4 := y / 4 in
  let y := y - 4 * n4 in
  146097 * n400 + 36524 * n100 + 1461 * n4 + 365 * y.

(** The day of the year of a day of a month, as [time.Date] adds it up. *)
Definition yday_of (leap : bool) (month day : Z) : Z :=
  days_before (month - 1) + (if leap && (3 <=? month) then 1 else 0)
  + (day - 1).

(** *** Instants *)

(** The seconds of an instant since January 1 of year 1, and its
    nanoseconds within the second. *)
Definition abs (t : Z) : Z := gotime.Unix t + unixToInternal.
Definition nsec (t : Z) : Z := t mod 1000000000.

(** [t.Date()], [t.Clock()] and [t.Weekday()] (Sunday is 0). *)
Definition Date_of (t : Z) : Z * Z * Z :=
  let '(year, yday) := year_yday (abs t / secondsPerDay) in
  let '(month, day) := month_day (isLeap year) yday in
  (year, month, day).

Definition Clock (t : Z) : Z * Z * Z :=
  let sec := abs t mod secondsPerDay in
  let hour := sec / 3600 in
  let sec := sec - hour * 3600 in
  let min := sec / 60 in
  (hour, min, sec - min * 60).

Definition Weekday (t : Z) : Z :=
  ((abs t + secondsPerDay) mod (7 * secondsPerDay)) / secondsPerDay.

(** [norm(hi, lo, base)]: [lo] brought into the range of [base], the
    excess carried to [hi]. *)
Definition norm (hi lo base : Z) : Z * Z := (hi + lo / base, lo mod base).

(** [time.Date(year, month, day, hour, min, sec, nsec, time.UTC)]. *)
Definition Date (year month day hour min sec nsec : Z) : Z :=
  let '(year, m) := norm year (month - 1) 12 in
  let month := m + 1 in
  let '(sec, nsec) := norm sec nsec 1000000000 in
  let '(min, sec) := norm min sec 60 in
  let '(hour, min) := norm hour min 60 in
  let '(day, hour) := norm day hour 24 in
  let d := daysSinceEpoch year + yday_of (isLeap year) month day in
  let abs := d * secondsPerDay + hour * 3600 + min * 60 + sec in
  (abs - unixToInternal) * 1000000000 + nsec.

(** [t.AddDate(years, months, days)]. *)
Definition AddDate (t years months days : Z) : Z :=
  let '(year, month, day) := Date_of t in
  let '(hour, min, sec) := Clock t in
  Date (year + years) (month + months) (day + days) hour min sec (nsec t).

(** *** The calendar *)

Definition days_in (leap : bool) (month : Z) : Z :=
  if month =? 2 then (if leap then 29 else 28)
  else if (month =? 4) || (month =? 6) || (month =? 9) || (month =? 11)
       then 30 else 31.

(** The day after a date. *)
Definition next_day (ymd : Z * Z * Z) : Z * Z * Z :=
  let '(year, month, day) := ymd in
  if day <? days_in (isLeap year) month then (year, month, day + 1)
  else if month <? 12 then (year, month + 1, 1)
  else (year + 1, 1, 1).

(** What the lemmas on [month_day] evaluate on every day of a year: the
    month and the day are those of a date and give the day of the year
    back; the day after is the next of the month or the first of the next
    month, and the last day is December 31; a date gives itself back. *)
Definition month_day_ok (leap : bool) (yd : Z) : bool :=
  let md := month_day leap yd in
  (1 <=? md.1) && (md.1 <=? 12) && (1 <=? md.2)
  && (md.2 <=? days_in leap md.1) && (yday_of leap md.1 md.2 =? yd).

Definition month_day_next_ok (leap : bool) (yd : Z) : bool :=
  let md := month_day leap yd in
  if yd + 1 <? (if leap then 366 else 365) then
    bool_decide (month_day leap (yd + 1) =
                 if md.2 <? days_in leap md.1 then (md.1, md.2 + 1)
                 else (md.1 + 1, 1))
    && ((md.2 <? days_in leap md.1) || (md.1 <? 12))
  else bool_decide (md = (12, 31)).

Definition yday_of_ok (leap : bool) (m d : Z) : bool :=
  bool_decide (month_day leap (yday_of leap m d) = (m, d)).

(** *** Formatting by a layout *)

Definition longDayNames : list string :=
  ["Sunday"; "Monday"; "Tuesday"; "Wednesday"; "Thursday"; "Friday";
   "Saturday"]%string.

Definition longMonthNames : list string :=
  ["January"; "February"; "March"; "April"; "May"; "June"; "July";
   "August"; "September"; "October"; "November"; "December"]%string.

(** The elements of a layout. *)
Inductive Std : Type :=
| stdLongMonth | stdMonth | stdNumMonth | stdZeroMonth
| stdLongWeekDay | stdWeekDay
| stdDay | stdUnderDay | stdZeroDay
| stdHour | stdMinute | stdZeroMinute | stdSecond | stdZeroSecond
| stdLongYear | stdYear | stdTZ.

(** The text of each element in a layout; of two that start alike, the
    longer comes first. *)
Definition std_table : list (string * Std) :=
  [("January", stdLongMonth); ("Jan", stdMonth);
   ("Monday", stdLongWeekDay); ("Mon", stdWeekDay); ("MST", stdTZ);
   ("01", stdZeroMonth); ("02", stdZeroDay); ("04", stdZeroMinute);
   ("05", stdZeroSecond); ("06", stdYear);
   ("15", stdHour); ("1", stdNumMonth);
   ("2006", stdLongYear); ("2", stdDay); ("_2", stdUnderDay);
   ("4", stdMinute); ("5", stdSecond)]%string.

Fixpoint has_prefix (p l : list ascii) : bool :=
  match p, l with
  | [], _ => true
  | c :: p', c' :: l' => (c == c') && has_prefix p' l'
  | _ :: _, [] => false
  end.

(** [nextStdChunk]: the element a layout starts with, and its length. *)
Definition nextStdChunk (l : list ascii) : option (Std * nat) :=
  (λ ks : nat * (string * Std), (ks.2.2, String.length ks.2.1)) <$>
  list_find (λ ks : string * Std, has_prefix (to_bytes ks.1) l = true)
    std_table.

Inductive Item : Type :=
| Lit (c : ascii)
| Chunk (std : Std).

(** The elements and the literal bytes of a layout; [skip] counts the
    bytes left of the element being read. *)
Fixpoint tokenize (skip : nat) (l : list ascii) : list Item :=
  match l with
  | [] => []
  | c :: l' =>
      match skip with
      | S k => tokenize k l'
      | O =>
          match nextStdChunk l with
          | Some (std, n) => Chunk std :: tokenize (n - 1) l'
          | None => Lit c :: tokenize 0 l'
          end
      end
  end.

(** [appendInt]: [x] in decimal, with zeros in front up to [width]
    digits. *)
Definition appendInt (x : Z) (width : nat) : string :=
  let digits := to_bytes (strconv.FormatInt (Z.abs x)) in
  (if x <? 0 then "-"%string else ""%string)
  +:+ of_bytes (replicate (width - length digits) "0"%char ++ digits).

Definition name_of (names : list string) (i : Z) : string :=
  nth (Z.to_nat i) names ""%string.

Definition short (name : string) : string := String.substring 0 3 name.

Definition render (t : Z) (std : Std) : string :=
  let '(year, month, day) := Date_of t in
  let '(hour, min, sec) := Clock t in
  match std with
  | stdLongMonth => name_of longMonthNames (month - 1)
  | stdMonth => short (name_of longMonthNames (month - 1))
  | stdNumMonth => appendInt month 0
  | stdZeroMonth => appendInt month 2
  | stdLongWeekDay => name_of longDayNames (Weekday t)
  | stdWeekDay => short (name_of longDayNames (Weekday t))
  | stdDay => appendInt day 0
  | stdUnderDay =>
      (if day <? 10 then " "%string else ""%string) +:+ appendInt day 0
  | stdZeroDay => appendInt day 2
  | stdHour => appendInt hour 2
  | stdMinute => appendInt min 0
  | stdZeroMinute => appendInt min 2
  | stdSecond => appendInt sec 0
  | stdZeroSecond => appendInt sec 2
  | stdLongYear => appendInt year 4
  | stdYear => appendInt (Z.abs year mod 100) 2
  | stdTZ => "UTC"%string
  end.

Definition render_item (t : Z) (i : Item) : string :=
  match i with
  | Lit c => String c ""
  | Chunk std => render t std
  end.

(** [t.Format(layout)] in UTC. *)
Definition Format (t : Z) (layout : string) : string :=
  foldr (λ i s, render_item t i +:+ s) ""%string
    (tokenize 0 (to_bytes layout)).

End calendar.

(** The formatter of the time package, for instants in UTC. *)
Definition utc_format : TimeFormat := calendar.Format.

Import calendar.
Local Open Scope Z_scope.

(** ** Years *)

Section years.
Implicit Types (d y yd n : Z).

Lemma year_len_range y : 365 ≤ year_len y ≤ 366.
Proof. unfold year_len. case_match; lia. Qed.

Lemma daysSinceEpoch_succ y :
  daysSinceEpoch (y + 1) = daysSinceEpoch y + year_len y.
Proof.
  unfold daysSinceEpoch, year_len, isLeap.
  repeat case_match; Z.div_mod_to_equations; lia.
Qed.

Lemma daysSinceEpoch_mono y n :
  0 ≤ n → daysSinceEpoch y + 365 * n ≤ daysSinceEpoch (y + n).
Proof.
  intros Hn. pattern n. apply natlike_ind; [|clear n Hn; intros n Hn IH|done].
  - replace (y + 0) with y by lia. lia.
  - replace (y + Z.succ n) with ((y + n) + 1) by lia.
    rewrite daysSinceEpoch_succ. pose proof (year_len_range (y + n)). lia.
Qed.

(** A day is the day [yday] of its year. *)
Lemma year_yday_spec d :
  d = daysSinceEpoch (year_yday d).1 + (year_yday d).2
  ∧ 0 ≤ (year_yday d).2 < year_len (year_yday d).1.
Proof.
  unfold year_yday, daysSinceEpoch, year_len, isLeap. cbn [fst snd].
  repeat case_match; Z.div_mod_to_equations; lia.
Qed.

(** No day before January 1 of a later year is a day of that year. *)
Lemma daysSinceEpoch_lt y y' yd :
  y < y' → 0 ≤ yd < year_len y → daysSinceEpoch y + yd < daysSinceEpoch y'.
Proof.
  intros Hy Hyd.
  pose proof (daysSinceEpoch_mono (y + 1) (y' - y - 1) ltac:(lia)) as Hm.
  replace (y + 1 + (y' - y - 1)) with y' in Hm by lia.
  rewrite daysSinceEpoch_succ in Hm. lia.
Qed.

Lemma year_yday_unique y yd :
  0 ≤ yd < year_len y → year_yday (daysSinceEpoch y + yd) = (y, yd).
Proof.
  intros Hyd.
  destruct (year_yday_spec (daysSinceEpoch y + yd)) as [E Hr].
  destruct (year_yday _) as [y' yd']. cbn [fst snd] in *.
  assert (y' = y) as ->; [|f_equal; lia].
  destruct (Z.lt_trichotomy y' y) as [Hlt|[->|Hgt]]; [|done|].
  - pose proof (daysSinceEpoch_lt y' y yd' Hlt Hr). lia.
  - pose proof (daysSinceEpoch_lt y y' yd Hgt Hyd). lia.
Qed.

Lemma year_yday_succ d :
  year_yday (d + 1) =
  if (year_yday d).2 + 1 <? year_len (year_yday d).1
  then ((year_yday d).1, (year_yday d).2 + 1)
  else ((year_yday d).1 + 1, 0).
Proof.
  destruct (year_yday_spec d) as [E Hr].
  destruct (year_yday d) as [y yd]. cbn [fst snd] in *.
  case_match; rewrite E.
  - rewrite <-Z.add_assoc. apply year_yday_unique. lia.
  - replace (daysSinceEpoch y + yd + 1) with (daysSinceEpoch (y + 1) + 0)
      by (rewrite daysSinceEpoch_succ; lia).
    apply year_yday_unique. pose proof (year_len_range (y + 1)). lia.
Qed.

End years.

(** ** Months

    The table of months is checked on every day of a year, leap or not,
    by evaluation. *)

Section months.
Implicit Types (leap : bool) (yd m d : Z).

Lemma month_day_spec leap yd :
  0 ≤ yd < (if leap then 366 else 365) → month_day_ok leap yd = true.
Proof.
  intros Hyd. destruct leap.
  - apply (Z_all_from_spec (month_day_ok true) 366 0); [by vm_compute|lia].
  - apply (Z_all_from_spec (month_day_ok false) 365 0); [by vm_compute|lia].
Qed.

Lemma month_day_next leap yd :
  0 ≤ yd < (if leap then 366 else 365) → month_day_next_ok leap yd = true.
Proof.
  intros Hyd. destruct leap.
  - apply (Z_all_from_spec (month_day_next_ok true) 366 0);
      [by vm_compute|lia].
  - apply (Z_all_from_spec (month_day_next_ok false) 365 0);
      [by vm_compute|lia].
Qed.

Lemma month_day_unique leap m d :
  1 ≤ m ≤ 12 → 1 ≤ d ≤ days_in leap m →
  month_day leap (yday_of leap m d) = (m, d).
Proof.
  intros Hm Hd.
  assert (Z_all_from (λ m, Z_all_from (yday_of_ok leap m)
            (Z.to_nat (days_in leap m)) 1) 12 1 = true) as H
    by (destruct leap; by vm_compute).
  eapply Z_all_from_spec in H; [|split; [apply Hm|lia]]. cbn beta in H.
  eapply Z_all_from_spec in H; [|split; [apply Hd|lia]].
  by apply bool_decide_eq_true in H.
Qed.

End months.

(** ** Instants *)

Section instants.
Implicit Types (t n : Z).

Lemma norm_id hi lo base : 0 ≤ lo < base → norm hi lo base = (hi, lo).
Proof.
  intros. unfold norm. rewrite Z.div_small, Z.mod_small by done.
  f_equal. lia.
Qed.

Lemma abs_split t :
  t = (abs t - unixToInternal) * 1000000000 + nsec t ∧
  0 ≤ nsec t < 1000000000.
Proof.
  unfold abs, nsec, gotime.Unix, gotime.Second, gotime.Nanosecond.
  Z.div_mod_to_equations. lia.
Qed.

Lemma abs_AddDate t n :
  abs (gotime.AddDate t n) = abs t + n * secondsPerDay ∧
  nsec (gotime.AddDate t n) = nsec t.
Proof.
  unfold abs, nsec, gotime.AddDate, gotime.Unix, gotime.Hour, gotime.Minute,
    gotime.Second, gotime.Nanosecond, secondsPerDay.
  Z.div_mod_to_equations. lia.
Qed.

(** The fields of [Clock] are in range and make up the second of the
    day. *)
Lemma Clock_range t :
  0 ≤ (Clock t).1.1 < 24 ∧ 0 ≤ (Clock t).1.2 < 60 ∧ 0 ≤ (Clock t).2 < 60 ∧
  abs t mod secondsPerDay =
    (Clock t).1.1 * 3600 + (Clock t).1.2 * 60 + (Clock t).2.
Proof.
  unfold Clock, secondsPerDay. cbn [fst snd]. Z.div_mod_to_equations. lia.
Qed.

(** The fields of [Date_of] are those of a date of the calendar, the
    date of the day of the instant. *)
Lemma Date_of_spec t :
  1 ≤ (Date_of t).1.2 ≤ 12 ∧
  1 ≤ (Date_of t).2 ≤ days_in (isLeap (Date_of t).1.1) (Date_of t).1.2 ∧
  abs t / secondsPerDay =
    daysSinceEpoch (Date_of t).1.1
    + yday_of (isLeap (Date_of t).1.1) (Date_of t).1.2 (Date_of t).2.
Proof.
  unfold Date_of. destruct (year_yday_spec (abs t / secondsPerDay)) as [E Hr].
  destruct (year_yday _) as [y yd]. cbn [fst snd] in *.
  unfold year_len in Hr.
  pose proof (month_day_spec (isLeap y) yd Hr) as H. unfold month_day_ok in H.
  destruct (month_day _ _) as [m d]. cbn [fst snd] in *. lia.
Qed.

(** [Date] of the fields of an instant, with [n] more days, is the
    instant [n] times 24 hours later. *)
Lemma Date_fields t n :
  Date (Date_of t).1.1 (Date_of t).1.2 ((Date_of t).2 + n)
    (Clock t).1.1 (Clock t).1.2 (Clock t).2 (nsec t)
  = gotime.AddDate t n.
Proof.
  destruct (Date_of_spec t) as (Hm & Hd & E).
  destruct (Date_of t) as [[y m] d].
  destruct (Clock_range t) as (Hh & Hmi & Hs & Hc).
  destruct (Clock t) as [[h mi] s]. cbn [fst snd] in *.
  pose proof (abs_split t) as [Ht Hn].
  unfold Date. rewrite (norm_id y (m - 1) 12) by lia.
  repeat (rewrite norm_id by lia; lazy beta iota zeta).
  replace (m - 1 + 1) with m by lia. unfold yday_of in *.
  unfold gotime.AddDate, gotime.Hour, gotime.Minute, gotime.Second,
    gotime.Nanosecond.
  pose proof (Z.div_mod (abs t) secondsPerDay ltac:(done)) as Hq.
  unfold secondsPerDay in *. lia.
Qed.

(** [t.AddDate(0, 0, n)] in UTC is [n] times 24 hours later. *)
Lemma AddDate_days t n : AddDate t 0 0 n = gotime.AddDate t n.
Proof.
  unfold AddDate. pose proof (Date_fields t n) as H.
  destruct (Date_of t) as [[y m] d], (Clock t) as [[h mi] s].
  by rewrite !Z.add_0_r.
Qed.

(** [time.Date] of the fields of an instant is the instant. *)
Lemma Date_Date_of t :
  Date (Date_of t).1.1 (Date_of t).1.2 (Date_of t).2
    (Clock t).1.1 (Clock t).1.2 (Clock t).2 (nsec t) = t.
Proof.
  pose proof (Date_fields t 0) as H. rewrite Z.add_0_r in H. rewrite H.
  unfold gotime.AddDate. lia.
Qed.

End instants.

(** ** The day after *)

Section next_day.
Implicit Types (t n : Z).

(** The date 24 hours later is the next day of the calendar. *)
Lemma Date_of_next_day t :
  Date_of (gotime.AddDate t 1) = next_day (Date_of t).
Proof.
  unfold Date_of. destruct (abs_AddDate t 1) as [-> _].
  replace ((abs t + 1 * secondsPerDay) / secondsPerDay)
    with (abs t / secondsPerDay + 1)
    by (unfold secondsPerDay; Z.div_mod_to_equations; lia).
  rewrite year_yday_succ.
  destruct (year_yday_spec (abs t / secondsPerDay)) as [_ Hr].
  destruct (year_yday _) as [y yd]. cbn [fst snd] in *.
  unfold year_len in *.
  pose proof (month_day_next (isLeap y) yd Hr) as H.
  unfold month_day_next_ok in H. unfold next_day.
  destruct (month_day (isLeap y) yd) as [m d]. cbn [fst snd] in H.
  destruct (yd + 1 <? _).
  - apply andb_prop in H as [->%bool_decide_eq_true H].
    destruct (d <? _); [done|]. cbn in H. by rewrite H.
  - apply bool_decide_eq_true in H as [= -> ->].
    replace (31 <? days_in (isLeap y) 12) with false by done.
    by destruct (isLeap (y + 1)).
Qed.

(** ... at the same time of the day, and the next day of the week. *)
Lemma Clock_AddDate t n : Clock (gotime.AddDate t n) = Clock t.
Proof.
  unfold Clock. destruct (abs_AddDate t n) as [-> _].
  by rewrite Z_mod_plus_full.
Qed.

Lemma Weekday_next_day t :
  Weekday (gotime.AddDate t 1) = (Weekday t + 1) mod 7.
Proof.
  unfold Weekday. destruct (abs_AddDate t 1) as [-> _].
  unfold secondsPerDay. Z.div_mod_to_equations. lia.
Qed.

End next_day.

(** ** Formatting *)

Example tokenize_RFC1123 :
  tokenize 0 (to_bytes gotime.RFC1123) =
  [Chunk stdWeekDay; Lit ","; Lit " "; Chunk stdZeroDay; Lit " ";
   Chunk stdMonth; Lit " "; Chunk stdLongYear; Lit " "; Chunk stdHour;
   Lit ":"; Chunk stdZeroMinute; Lit ":"; Chunk stdZeroSecond; Lit " ";
   Chunk stdTZ]%char.
Proof. by vm_compute. Qed.

Example tokenize_UnixDate :
  tokenize 0 (to_bytes gotime.UnixDate) =
  [Chunk stdWeekDay; Lit " "; Chunk stdMonth; Lit " "; Chunk stdUnderDay;
   Lit " "; Chunk stdHour; Lit ":"; Chunk stdZeroMinute; Lit ":";
   Chunk stdZeroSecond; Lit " "; Chunk stdTZ; Lit " ";
   Chunk stdLongYear]%char.
Proof. by vm_compute. Qed.

(** The text of an instant in the layout [RFC1123], by its fields. *)
Lemma Format_RFC1123 t :
  Format t gotime.RFC1123 =
  let '(year, month, day) := Date_of t in
  let '(hour, min, sec) := Clock t in
  (short (name_of longDayNames (Weekday t)) +:+ ", " +:+ appendInt day 2
   +:+ " " +:+ short (name_of longMonthNames (month - 1)) +:+ " "
   +:+ appendInt year 4 +:+ " " +:+ appendInt hour 2 +:+ ":"
   +:+ appendInt min 2 +:+ ":" +:+ appendInt sec 2 +:+ " UTC")%string.
Proof.
  unfold Format. rewrite tokenize_RFC1123. cbn [foldr render_item].
  unfold render. by destruct (Date_of t) as [[y m] d], (Clock t) as [[h mi] s].
Qed.

(** Instants of which the text is known: the epoch, the start of the Go
    playground, a leap day and the last second before the epoch. *)
Example Format_samples :
  Format 0 gotime.RFC1123 = "Thu, 01 Jan 1970 00:00:00 UTC"%string ∧
  Format 1257894000000000000 gotime.RFC1123
    = "Tue, 10 Nov 2009 23:00:00 UTC"%string ∧
  Format 1257894000000000000 gotime.UnixDate
    = "Tue Nov 10 23:00:00 UTC 2009"%string ∧
  Format 951782400000000000 gotime.UnixDate
    = "Tue Feb 29 00:00:00 UTC 2000"%string ∧
  Format (-1) "2006-01-02 15:04:05" = "1969-12-31 23:59:59"%string.
Proof. by vm_compute. Qed.

Example AddDate_samples :
  Format (AddDate 951782400000000000 0 0 1) gotime.UnixDate
    = "Wed Mar  1 00:00:00 UTC 2000"%string ∧
  Format (AddDate 1257894000000000000 0 1 21) gotime.RFC1123
    = "Thu, 31 Dec 2009 23:00:00 UTC"%string ∧
  Format (AddDate 1257894000000000000 0 2 0) gotime.RFC1123
    = "Sun, 10 Jan 2010 23:00:00 UTC"%string.
Proof. by vm_compute. Qed.
