(* ===== verification/GoTimeParse.v ===== *)
(** * Go's [time.Parse], for the layouts of GoCalendar

    What a client does with the date a cookie carries: net/http reads the
    attribute Expires of a Set-Cookie line with [time.Parse(time.RFC1123,
    ...)], the inverse of the [Format] that Cookie.String and line 154 of
    src/csrf.go print it with.  This file follows the parser of the time
    package (format.go) over the elements of [calendar.std_table].

    - [getnum], [atoi], [lookup] (with the case-folding [match] of the
      package, here [match_fold]), [cutspace] and [parseNanoseconds] are
      the helpers of that name.
    - [parse_std] is the body of the switch of [Parse]: one element of the
      layout read from the front of the value, into the [Fields] of the
      time under construction.  A field out of its range and a syntax
      error are both [None].
    - [parse_items] is the loop of [Parse] over the layout; the literal
      text between two elements is skipped as the helper [skip] does, a
      run of spaces in the layout taking any run of spaces of the value.
    - [Parse] puts the fields together with [calendar.Date], which brings
      a day past the end of its month into the next.  The server's
      location is UTC, as everywhere in the model: a zone abbreviation
      other than UTC is then unknown to the location, and Go reads such
      a time as UTC as well.
    - [rendered], [field_of], [fields_after], [delimited], [separated],
      [complete] and [layout_ok] are what the round trip is stated with;
      [digits] and the functions named [..._ok] are the checks the lemmas
      on numerals evaluate.

    The theorems: every element printed by [calendar.render] is read back
    by [parse_std] into the field it was printed from ([parse_render]),
    also after a run of spaces; no element but the day padded with a
    space is read from a value that starts with a space; [Parse] is a
    left inverse of [Format], up to the nanoseconds a layout does not
    print, for every layout that is [layout_ok] and the years 0 to 9999
    ([Parse_Format]); the formatter and the parser of UTC keep the laws
    of [TimeLaws] ([utc_laws]). *)

From S2P Require Import Prelude GoStrings GoTime GoCalendar.

(** ** Definitions *)

Module timeparse.

Import calendar.
Local Open Scope Z_scope.

(** The time under construction: the variables of [Parse]. *)
Record Fields : Type := mkFields {
  f_year : Z;
  f_month : Z;
  f_day : Z;
  f_hour : Z;
  f_min : Z;
  f_sec : Z;
  f_nsec : Z
}.

(** Their initial values: January 1 of year 0, midnight. *)
Definition zero_fields : Fields := mkFields 0 1 1 0 0 0 0.

Definition with_year (v : Z) (f : Fields) : Fields :=
  mkFields v (f_month f) (f_day f) (f_hour f) (f_min f) (f_sec f) (f_nsec f).
Definition with_month (v : Z) (f : Fields) : Fields :=
  mkFields (f_year f) v (f_day f) (f_hour f) (f_min f) (f_sec f) (f_nsec f).
Definition with_day (v : Z) (f : Fields) : Fields :=
  mkFields (f_year f) (f_month f) v (f_hour f) (f_min f) (f_sec f) (f_nsec f).
Definition with_hour (v : Z) (f : Fields) : Fields :=
  mkFields (f_year f) (f_month f) (f_day f) v (f_min f) (f_sec f) (f_nsec f).
Definition with_min (v : Z) (f : Fields) : Fields :=
  mkFields (f_year f) (f_month f) (f_day f) (f_hour f) v (f_sec f) (f_nsec f).
Definition with_sec (v : Z) (f : Fields) : Fields :=
  mkFields (f_year f) (f_month f) (f_day f) (f_hour f) (f_min f) v (f_nsec f).
Definition with_nsec (v : Z) (f : Fields) : Fields :=
  mkFields (f_year f) (f_month f) (f_day f) (f_hour f) (f_min f) (f_sec f) v.

(** [isDigit(s, i)] and the value of the digit [s[i]]. *)
Definition isDigit (s : list ascii) (i : nat) : bool :=
  from_option strconv.is_digit false (s !! i).

Definition digit (c : ascii) : Z := Z.of_N (N_of_ascii c) - 48.

Definition digit_at (s : list ascii) (i : nat) : Z :=
  from_option digit 0 (s !! i).

(** [getnum(s, fixed)]: one or two digits at the front of [s], two when
    [fixed]. *)
Definition getnum (s : list ascii) (fixed : bool) : option (Z * list ascii) :=
  if negb (isDigit s 0) then None
  else if negb (isDigit s 1) then
    if fixed then None else Some (digit_at s 0, drop 1 s)
  else Some (digit_at s 0 * 10 + digit_at s 1, drop 2 s).

(** [atoi(s)]: a sign, then digits only.  No text of the parser is long
    enough for the overflow check of [leadingInt] to apply. *)
Definition atoi (s : list ascii) : option Z :=
  let signed := bool_decide (head s = Some "-"%char ∨ head s = Some "+"%char) in
  let neg := bool_decide (head s = Some "-"%char) in
  let s := if signed then drop 1 s else s in
  if forallb strconv.is_digit s
  then Some ((if neg then -1 else 1) * foldl (λ x c, x * 10 + digit c) 0 s)
  else None.

(** [match(s1, s2)]: equal up to the case of letters.  The lower-case
    form of a byte has bit 5 set. *)
Definition match_byte (c1 c2 : ascii) : bool :=
  (c1 == c2)
  || (let l1 := Z.lor (Z.of_N (N_of_ascii c1)) 32 in
      let l2 := Z.lor (Z.of_N (N_of_ascii c2)) 32 in
      (l1 =? l2) && (97 <=? l1) && (l1 <=? 122)).

Fixpoint match_fold (s1 s2 : list ascii) : bool :=
  match s1, s2 with
  | c1 :: s1', c2 :: s2' => match_byte c1 c2 && match_fold s1' s2'
  | _, _ => true
  end.

(** [lookup(tab, val)]: the index of the first name of [tab] that [val]
    starts with, and the rest of [val]; [i] is the index of the head of
    [tab]. *)
Fixpoint lookup_from (i : Z) (tab : list string) (val : list ascii) :
    option (Z * list ascii) :=
  match tab with
  | [] => None
  | v :: tab' =>
      if (String.length v <=? length val)%nat
         && match_fold (take (String.length v) val) (to_bytes v)
      then Some (i, drop (String.length v) val)
      else lookup_from (i + 1) tab' val
  end.

Definition lookup (tab : list string) (val : list ascii) :
    option (Z * list ascii) := lookup_from 0 tab val.

Definition shortDayNames : list string := short <$> longDayNames.
Definition shortMonthNames : list string := short <$> longMonthNames.

(** [cutspace(s)]. *)
Fixpoint cutspace (s : list ascii) : list ascii :=
  match s with
  | c :: s' => if c == " "%char then cutspace s' else s
  | [] => []
  end.

(** The number of digits [s] starts with. *)
Fixpoint leading_digits (s : list ascii) : nat :=
  match s with
  | c :: s' => if strconv.is_digit c then S (leading_digits s') else O
  | [] => O
  end.

(** [parseNanoseconds(value, nbytes)] for a value that starts with a
    period and has digits up to [nbytes]: the digits as a fraction of a
    second. *)
Definition parseNanoseconds (value : list ascii) (nbytes : nat) : option Z :=
  ns ← atoi (drop 1 (take nbytes value));
  if (ns <? 0) || (1000000000 <=? ns) then None
  else Some (ns * 10 ^ (10 - Z.of_nat nbytes)).

(** A field with the check of its range. *)
Definition in_range (lo hi : Z) (set : Z → Fields → Fields) (f : Fields)
    (r : option (Z * list ascii)) : option (Fields * list ascii) :=
  '(v, rest) ← r;
  if (lo <=? v) && (v <=? hi) then Some (set v f, rest) else None.

(** A zone abbreviation: three or four capital letters, the last a T. *)
Definition zone_length (value : list ascii) : option nat :=
  if bool_decide (value !! 2%nat = Some "T"%char) then Some 3%nat
  else if bool_decide (value !! 3%nat = Some "T"%char) then Some 4%nat
  else None.

Definition is_upper (c : ascii) : bool :=
  (65 <=? N_of_ascii c)%N && (N_of_ascii c <=? 90)%N.

(** The seconds, and a fraction of a second after them even when the
    layout has none. *)
Definition parse_sec (fixed : bool) (value : list ascii) (f : Fields) :
    option (Fields * list ascii) :=
  '(f, value) ← in_range 0 59 with_sec f (getnum value fixed);
  if bool_decide (head value = Some "."%char) && isDigit value 1 then
    let n := (2 + leading_digits (drop 2 value))%nat in
    ns ← parseNanoseconds value n; Some (with_nsec ns f, drop n value)
  else Some (f, value).

(** One element of the layout, read from the front of [value]: the body
    of the switch of [Parse]. *)
Definition parse_std (std : Std) (value : list ascii) (f : Fields) :
    option (Fields * list ascii) :=
  match std with
  | stdYear =>
      if (length value <? 2)%nat then None
      else
        y ← atoi (take 2 value);
        Some (with_year (if 69 <=? y then y + 1900 else y + 2000) f,
              drop 2 value)
  | stdLongYear =>
      if (length value <? 4)%nat || negb (isDigit value 0) then None
      else y ← atoi (take 4 value); Some (with_year y f, drop 4 value)
  | stdMonth =>
      '(i, rest) ← lookup shortMonthNames value;
      Some (with_month (i + 1) f, rest)
  | stdLongMonth =>
      '(i, rest) ← lookup longMonthNames value;
      Some (with_month (i + 1) f, rest)
  | stdNumMonth => in_range 1 12 with_month f (getnum value false)
  | stdZeroMonth => in_range 1 12 with_month f (getnum value true)
  | stdWeekDay =>
      r ← lookup shortDayNames value; Some (f, r.2)
  | stdLongWeekDay =>
      r ← lookup longDayNames value; Some (f, r.2)
  | stdDay => in_range 0 31 with_day f (getnum value false)
  | stdUnderDay =>
      let value :=
        if bool_decide (head value = Some " "%char) then drop 1 value
        else value in
      in_range 0 31 with_day f (getnum value false)
  | stdZeroDay => in_range 0 31 with_day f (getnum value true)
  | stdHour => in_range 0 23 with_hour f (getnum value false)
  | stdMinute => in_range 0 59 with_min f (getnum value false)
  | stdZeroMinute => in_range 0 59 with_min f (getnum value true)
  | stdSecond => parse_sec false value f
  | stdZeroSecond => parse_sec true value f
  | stdTZ =>
      if bool_decide (take 3 value = to_bytes "UTC") then Some (f, drop 3 value)
      else
        n ← zone_length value;
        if forallb is_upper (take n value) then Some (f, drop n value)
        else None
  end.

(** The loop of [Parse] over the elements of the layout.  [spaced] says
    that the literal text being skipped has just had a run of spaces
    taken: [skip] takes the run of the layout and the run of the value at
    once, whatever their lengths. *)
Fixpoint parse_items (items : list Item) (spaced : bool)
    (value : list ascii) (f : Fields) : option Fields :=
  match items with
  | [] => if bool_decide (value = []) then Some f else None
  | Lit c :: items' =>
      if c == " "%char then
        if spaced then parse_items items' true value f
        else if bool_decide (value = [] ∨ head value = Some " "%char)
             then parse_items items' true (cutspace value) f
             else None
      else if bool_decide (head value = Some c)
           then parse_items items' false (drop 1 value) f
           else None
  | Chunk std :: items' =>
      '(f', value') ← parse_std std value f;
      parse_items items' false value' f'
  end.

(** [time.Date] of the fields. *)
Definition instant (f : Fields) : Z :=
  Date (f_year f) (f_month f) (f_day f) (f_hour f) (f_min f) (f_sec f)
    (f_nsec f).

(** [time.Parse(layout, value)], in UTC. *)
Definition Parse (layout value : string) : option Z :=
  instant <$>
    parse_items (tokenize 0 (to_bytes layout)) false (to_bytes value)
      zero_fields.

(** *** What the lemmas on decimal numerals evaluate *)

(** The digit of a value below ten. *)
Definition digit_char (n : Z) : ascii := ascii_of_N (Z.to_N (48 + n)).

(** [x] in [w] digits, for [x] below [10 ^ w]. *)
Fixpoint digits (w : nat) (x : Z) : list ascii :=
  match w with
  | O => []
  | S w' => digits w' (x / 10) ++ [digit_char (x mod 10)]
  end.

Definition appendInt_ok (w : nat) (x : Z) : bool :=
  bool_decide (to_bytes (appendInt x w) = digits w x).

Definition appendInt_short_ok (x : Z) : bool :=
  bool_decide (to_bytes (appendInt x 0)
               = if x <? 10 then digits 1 x else digits 2 x).

Definition digit_char_ok (n : Z) : bool :=
  strconv.is_digit (digit_char n) && (digit (digit_char n) =? n).

(** *** What the round trip is stated with *)

(** The bytes [Format] prints for the elements of a layout. *)
Definition rendered (t : Z) (items : list Item) : list ascii :=
  foldr (λ i s, to_bytes (render_item t i) ++ s) [] items.

(** The fields after an element printed from [t] has been read: the
    field of [t] the element prints; a year of two digits is read into
    the century from 1969 on. *)
Definition field_of (t : Z) (std : Std) (f : Fields) : Fields :=
  match std with
  | stdLongMonth | stdMonth | stdNumMonth | stdZeroMonth =>
      with_month (Date_of t).1.2 f
  | stdLongWeekDay | stdWeekDay | stdTZ => f
  | stdDay | stdUnderDay | stdZeroDay => with_day (Date_of t).2 f
  | stdHour => with_hour (Clock t).1.1 f
  | stdMinute | stdZeroMinute => with_min (Clock t).1.2 f
  | stdSecond | stdZeroSecond => with_sec (Clock t).2 f
  | stdLongYear => with_year (Date_of t).1.1 f
  | stdYear =>
      let y := Z.abs (Date_of t).1.1 mod 100 in
      with_year (if 69 <=? y then y + 1900 else y + 2000) f
  end.

Definition fields_after (t : Z) (items : list Item) (f : Fields) : Fields :=
  foldl (λ f i, match i with Chunk std => field_of t std f | Lit _ => f end)
    f items.

(** The text after an element does not continue it: no digit after a
    number of one or two digits, no fraction after the seconds. *)
Definition no_fraction (rest : list ascii) : bool :=
  negb (bool_decide (head rest = Some "."%char) && isDigit rest 1).

Definition delimited (std : Std) (rest : list ascii) : bool :=
  match std with
  | stdNumMonth | stdDay | stdUnderDay | stdMinute => negb (isDigit rest 0)
  | stdSecond => negb (isDigit rest 0) && no_fraction rest
  | stdZeroSecond => no_fraction rest
  | _ => true
  end.

(** A literal byte that ends a number. *)
Definition delimiter (c : ascii) : bool :=
  negb (strconv.is_digit c) && (c != "."%char).

(** A layout of which every number of variable width, and the seconds,
    are followed by a delimiter or by nothing. *)
Definition needs_delimiter (std : Std) : bool :=
  match std with
  | stdNumMonth | stdDay | stdUnderDay | stdMinute | stdSecond
  | stdZeroSecond => true
  | _ => false
  end.

Fixpoint separated (items : list Item) : bool :=
  match items with
  | [] => true
  | Chunk std :: items' =>
      (if needs_delimiter std
       then match items' with
            | [] => true
            | Lit c :: _ => delimiter c
            | Chunk _ :: _ => false
            end
       else true)
      && separated items'
  | Lit _ :: items' => separated items'
  end.

(** A layout that prints every field of the date and of the clock, the
    year in four digits. *)
Definition prints (p : Std → bool) (items : list Item) : bool :=
  existsb (λ i, match i with Chunk std => p std | Lit _ => false end) items.

Definition is_long_year (std : Std) : bool :=
  match std with stdLongYear => true | _ => false end.
Definition is_short_year (std : Std) : bool :=
  match std with stdYear => true | _ => false end.
Definition is_month (std : Std) : bool :=
  match std with
  | stdLongMonth | stdMonth | stdNumMonth | stdZeroMonth => true
  | _ => false
  end.
Definition is_day (std : Std) : bool :=
  match std with stdDay | stdUnderDay | stdZeroDay => true | _ => false end.
Definition is_hour (std : Std) : bool :=
  match std with stdHour => true | _ => false end.
Definition is_min (std : Std) : bool :=
  match std with stdMinute | stdZeroMinute => true | _ => false end.
Definition is_sec (std : Std) : bool :=
  match std with stdSecond | stdZeroSecond => true | _ => false end.

Definition complete (items : list Item) : bool :=
  prints is_long_year items && negb (prints is_short_year items)
  && prints is_month items && prints is_day items && prints is_hour items
  && prints is_min items && prints is_sec items.

(** The layouts the round trip holds of. *)
Definition layout_ok (layout : string) : bool :=
  let items := tokenize 0 (to_bytes layout) in
  separated items && complete items.

End timeparse.

(** The parser of the time package, for instants in UTC. *)
Definition utc_parse : TimeParse := timeparse.Parse.

(** ** Examples *)

Import calendar timeparse.
Local Open Scope Z_scope.

Example Parse_samples :
  timeparse.Parse gotime.RFC1123 "Tue, 10 Nov 2009 23:00:00 UTC"
    = Some 1257894000000000000 ∧
  timeparse.Parse gotime.RFC1123 "tue, 10 nov 2009 23:00:00 GMT"
    = Some 1257894000000000000 ∧
  timeparse.Parse gotime.UnixDate "Wed Mar  1 00:00:00 UTC 2000"
    = Some 951868800000000000 ∧
  timeparse.Parse gotime.UnixDate "Wed Mar 01 00:00:00 UTC 2000"
    = Some 951868800000000000 ∧
  timeparse.Parse gotime.RFC1123 "Thu, 01 Jan 1970 00:00:00.25 UTC"
    = Some 250000000 ∧
  timeparse.Parse "Mon, 02-Jan-2006 15:04:05 MST" "Thu, 31-Dec-2009 23:00:00 GMT"
    = Some 1262300400000000000 ∧
  timeparse.Parse "2006-01-02 15:04:05" "1969-12-31 23:59:59" = Some (-1000000000) ∧
  timeparse.Parse "02 Jan 06" "31 Feb 70" = Some 5270400000000000.
Proof. by vm_compute. Qed.

(** Text that no layout reads: a month out of range, a weekday that is
    none, text after the last element, a value that ends early. *)
Example Parse_errors :
  timeparse.Parse "2006-01-02" "2009-13-10" = None ∧
  timeparse.Parse gotime.RFC1123 "Tux, 10 Nov 2009 23:00:00 UTC" = None ∧
  timeparse.Parse gotime.RFC1123 "Tue, 10 Nov 2009 23:00:00 UTC+1" = None ∧
  timeparse.Parse gotime.RFC1123 "Tue, 10 Nov 2009 23:00" = None ∧
  timeparse.Parse gotime.RFC1123 "" = None.
Proof. by vm_compute. Qed.

(** ** Decimal numerals *)

Section numerals.

Implicit Types (x n : Z) (w : nat) (rest : list ascii).

(** The digit of a remainder by ten is a digit, of that value. *)
Lemma digit_char_spec n :
  strconv.is_digit (digit_char (n mod 10)) = true
  ∧ digit (digit_char (n mod 10)) = n mod 10.
Proof.
  pose proof (Z_all_from_spec digit_char_ok 10 0 eq_refl (n mod 10)) as H.
  unfold digit_char_ok in H. rewrite andb_true_iff, Z.eqb_eq in H.
  apply H. pose proof (Z.mod_pos_bound n 10). lia.
Qed.

Lemma digits_length w x : length (digits w x) = w.
Proof.
  revert x. induction w as [|w IH]; intros x; [done|].
  cbn [digits]. rewrite length_app, IH. cbn. lia.
Qed.

Lemma digits_forallb w x : forallb strconv.is_digit (digits w x) = true.
Proof.
  revert x. induction w as [|w IH]; intros x; [done|].
  cbn [digits]. rewrite forallb_app, IH. cbn [forallb].
  by rewrite (proj1 (digit_char_spec x)).
Qed.

Lemma digits_value w x :
  foldl (λ v c, v * 10 + digit c) 0 (digits w x) = x mod 10 ^ Z.of_nat w.
Proof.
  revert x. induction w as [|w IH]; intros x.
  { cbn. by rewrite Z.mod_1_r. }
  cbn [digits]. rewrite foldl_app, IH. cbn [foldl].
  rewrite (proj2 (digit_char_spec x)), Nat2Z.inj_succ, Z.pow_succ_r by lia.
  rewrite (Z.rem_mul_r x 10) by lia. lia.
Qed.

(** A digit is no sign. *)
Lemma digit_not_sign (c : ascii) :
  strconv.is_digit c = true → c ≠ "-"%char ∧ c ≠ "+"%char.
Proof. by split; intros ->. Qed.

Lemma digits_head w x :
  (0 < w)%nat →
  ∃ c s, digits w x = c :: s ∧ strconv.is_digit c = true.
Proof.
  intros Hw. pose proof (digits_forallb w x) as H.
  pose proof (digits_length w x) as Hl.
  destruct (digits w x) as [|c s]; [cbn in Hl; lia|].
  exists c, s. split; [done|]. by apply andb_prop in H as [? _].
Qed.

(** [atoi] reads [w] digits back. *)
Lemma atoi_digits w x : atoi (digits w x) = Some (x mod 10 ^ Z.of_nat w).
Proof.
  unfold atoi. destruct w as [|w].
  { cbn. by rewrite Z.mod_1_r. }
  destruct (digits_head (S w) x ltac:(lia)) as (c & s & E & Hc).
  destruct (digit_not_sign c Hc). pose proof (digits_forallb (S w) x) as Hd.
  pose proof (digits_value (S w) x) as Hv. rewrite E in *. cbn [head].
  rewrite !bool_decide_eq_false_2 by (intros ?; destruct_or?; congruence).
  rewrite Hd, Hv. f_equal. lia.
Qed.

(** [getnum] reads two digits back, and one digit that no digit
    follows. *)
Lemma getnum_digits2 x rest fixed :
  getnum (digits 2 x ++ rest) fixed = Some (x mod 100, rest).
Proof.
  unfold getnum, isDigit, digit_at. cbn.
  destruct (digit_char_spec x) as [-> ->].
  destruct (digit_char_spec (x / 10)) as [-> ->]. cbn.
  do 2 f_equal. change 100 with (10 * 10). rewrite (Z.rem_mul_r x 10 10) by lia. lia.
Qed.

Lemma getnum_digits1 x rest :
  isDigit rest 0 = false →
  getnum (digits 1 x ++ rest) false = Some (x mod 10, rest).
Proof.
  intros Hr. unfold getnum, isDigit, digit_at in *.
  destruct (digit_char_spec x) as [Hd Hv].
  destruct rest as [|c rest]; cbn in *; by rewrite Hd, ?Hr, ?Hv.
Qed.

(** [appendInt] prints the digits. *)
Lemma appendInt_2 x : 0 ≤ x < 100 → to_bytes (appendInt x 2) = digits 2 x.
Proof.
  intros. apply (bool_decide_unpack _), Is_true_true_2.
  apply (Z_all_from_spec (appendInt_ok 2) 100 0); [by vm_compute|lia].
Qed.

Lemma appendInt_4 x : 0 ≤ x < 10000 → to_bytes (appendInt x 4) = digits 4 x.
Proof.
  intros. apply (bool_decide_unpack _), Is_true_true_2.
  apply (Z_all_from_spec (appendInt_ok 4) (Z.to_nat 10000) 0);
    [by vm_compute|lia].
Qed.

Lemma appendInt_0 x :
  0 ≤ x < 100 →
  to_bytes (appendInt x 0) = if x <? 10 then digits 1 x else digits 2 x.
Proof.
  intros. apply (bool_decide_unpack _), Is_true_true_2.
  apply (Z_all_from_spec appendInt_short_ok 100 0); [by vm_compute|lia].
Qed.

End numerals.

(** ** Names *)

Section names.

Implicit Types (i : Z) (rest : list ascii).

(** A name of the table that the value does not start with is passed
    over, whatever the length of the value. *)
Lemma lookup_from_skip i v tab val :
  match_fold (take (String.length v) val) (to_bytes v) = false →
  lookup_from i (v :: tab) val = lookup_from (i + 1) tab val.
Proof. intros H. cbn [lookup_from]. by rewrite H, andb_false_r. Qed.

Lemma match_fold_refl s : match_fold s s = true.
Proof.
  induction s as [|c s IH]; [done|]. cbn [match_fold]. unfold match_byte.
  by rewrite bool_decide_eq_true_2, IH.
Qed.

Lemma lookup_from_hit i v tab rest :
  lookup_from i (v :: tab) (to_bytes v ++ rest) = Some (i, rest).
Proof.
  cbn [lookup_from]. rewrite <-to_bytes_length.
  rewrite take_app_length, drop_app_length, match_fold_refl, length_app.
  by rewrite (proj2 (Nat.leb_le _ _)) by lia.
Qed.

End names.

(** The name of the [i]-th entry of a table is looked up as [i]. *)
Ltac lookup_name :=
  unfold lookup, shortDayNames, shortMonthNames, longDayNames,
    longMonthNames, name_of; cbn [fmap list_fmap nth Z.to_nat Pos.to_nat];
  repeat (rewrite lookup_from_skip by (by vm_compute));
  by rewrite lookup_from_hit.

(** One goal for each index below [n]. *)
Ltac each_index i n :=
  let H := fresh in
  assert (H : Exists (λ k, i = Z.of_nat k) (seq 0 n))
    by (apply Exists_exists; exists (Z.to_nat i); split;
        [apply elem_of_seq|]; lia);
  cbv [seq] in H; repeat (apply Exists_cons in H as [->|H]);
  [..|by apply Exists_nil in H].

Section tables.

Implicit Types (i : Z) (rest : list ascii).

Lemma lookup_shortDayNames i rest :
  0 ≤ i < 7 →
  lookup shortDayNames (to_bytes (short (name_of longDayNames i)) ++ rest)
  = Some (i, rest).
Proof. intros. each_index i 7%nat; lookup_name. Qed.

Lemma lookup_longDayNames i rest :
  0 ≤ i < 7 →
  lookup longDayNames (to_bytes (name_of longDayNames i) ++ rest)
  = Some (i, rest).
Proof. intros. each_index i 7%nat; lookup_name. Qed.

Lemma lookup_shortMonthNames i rest :
  0 ≤ i < 12 →
  lookup shortMonthNames (to_bytes (short (name_of longMonthNames i)) ++ rest)
  = Some (i, rest).
Proof. intros. each_index i 12%nat; lookup_name. Qed.

Lemma lookup_longMonthNames i rest :
  0 ≤ i < 12 →
  lookup longMonthNames (to_bytes (name_of longMonthNames i) ++ rest)
  = Some (i, rest).
Proof. intros. each_index i 12%nat; lookup_name. Qed.

End tables.

(** ** One element, printed and read back *)

Section elements.

Implicit Types (t x : Z) (rest : list ascii) (f : Fields) (std : Std).

Lemma Weekday_range t : 0 ≤ Weekday t < 7.
Proof. unfold Weekday, secondsPerDay. Z.div_mod_to_equations. lia. Qed.

Lemma days_in_le leap m : days_in leap m ≤ 31.
Proof. unfold days_in. repeat case_match; lia. Qed.

Lemma getnum_appendInt_2 x rest fixed :
  0 ≤ x < 100 →
  getnum (to_bytes (appendInt x 2) ++ rest) fixed = Some (x, rest).
Proof.
  intros. by rewrite appendInt_2, getnum_digits2, Z.mod_small by lia.
Qed.

Lemma getnum_appendInt_0 x rest :
  0 ≤ x < 100 → isDigit rest 0 = false →
  getnum (to_bytes (appendInt x 0) ++ rest) false = Some (x, rest).
Proof.
  intros. rewrite appendInt_0 by lia. destruct (Z.ltb_spec x 10).
  - by rewrite getnum_digits1, Z.mod_small by (done || lia).
  - by rewrite getnum_digits2, Z.mod_small by lia.
Qed.

Lemma in_range_ok lo hi set f v rest :
  lo ≤ v ≤ hi → in_range lo hi set f (Some (v, rest)) = Some (set v f, rest).
Proof.
  intros. unfold in_range. cbn.
  by rewrite (proj2 (Z.leb_le lo v)), (proj2 (Z.leb_le v hi)) by lia.
Qed.

(** What [appendInt] prints starts with a digit. *)
Lemma appendInt_0_head x rest :
  0 ≤ x < 100 →
  ∃ c s, to_bytes (appendInt x 0) ++ rest = c :: s
         ∧ strconv.is_digit c = true.
Proof.
  intros. rewrite appendInt_0 by lia.
  destruct (digits_head (if x <? 10 then 1%nat else 2%nat) x)
    as (c & s & E & Hc);
    [case_match; lia|].
  exists c, (s ++ rest). split; [|done]. by destruct (x <? 10); rewrite E.
Qed.

Lemma parse_sec_ok (fixed : bool) x rest f :
  0 ≤ x < 60 → no_fraction rest = true →
  getnum (to_bytes (appendInt x (if fixed then 2%nat else 0%nat)) ++ rest) fixed
    = Some (x, rest) →
  parse_sec fixed (to_bytes (appendInt x (if fixed then 2%nat else 0%nat)) ++ rest) f
  = Some (with_sec x f, rest).
Proof.
  intros Hx Hr E. unfold parse_sec. rewrite E, in_range_ok by lia.
  cbn. unfold no_fraction in Hr. by apply negb_true_iff in Hr as ->.
Qed.

(** The day of the month in a field of two columns. *)
Lemma parse_UnderDay d rest f :
  1 ≤ d ≤ 31 → isDigit rest 0 = false →
  parse_std stdUnderDay
    (to_bytes ((if d <? 10 then " " else "") +:+ appendInt d 0) ++ rest) f
  = Some (with_day d f, rest).
Proof.
  intros. cbn [parse_std]. rewrite to_bytes_app. destruct (Z.ltb_spec d 10).
  - change (to_bytes " ") with [" "%char]. cbn [app head].
    rewrite bool_decide_eq_true_2 by done. cbn [drop].
    by rewrite drop_0, getnum_appendInt_0, in_range_ok by (done || lia).
  - change (to_bytes "") with (@nil ascii). cbn [app].
    destruct (appendInt_0_head d rest ltac:(lia)) as (c & s' & E & Hc).
    rewrite bool_decide_eq_false_2
      by (rewrite E; cbn; intros [= ->]; done).
    by rewrite getnum_appendInt_0, in_range_ok by (done || lia).
Qed.

(** The year in four digits. *)
Lemma parse_LongYear y rest f :
  0 ≤ y ≤ 9999 →
  parse_std stdLongYear (to_bytes (appendInt y 4) ++ rest) f
  = Some (with_year y f, rest).
Proof.
  intros. cbn [parse_std]. rewrite appendInt_4 by lia.
  destruct (digits_head 4 y ltac:(lia)) as (c & s' & E & Hc).
  assert (isDigit (digits 4 y ++ rest) 0 = true) as -> by (rewrite E; exact Hc).
  rewrite length_app, digits_length. cbn [Nat.ltb Nat.leb Nat.add orb negb].
  rewrite take_app_length', drop_app_length' by (by rewrite digits_length).
  rewrite atoi_digits. cbn. by rewrite Z.mod_small by lia.
Qed.

(** The year in two digits: 69 to 99 stand for the years from 1969,
    0 to 68 for the years from 2000. *)
Lemma parse_Year x rest f :
  0 ≤ x < 100 →
  parse_std stdYear (to_bytes (appendInt x 2) ++ rest) f
  = Some (with_year (if 69 <=? x then x + 1900 else x + 2000) f, rest).
Proof.
  intros. cbn [parse_std]. rewrite appendInt_2 by lia.
  rewrite length_app, digits_length. cbn [Nat.ltb Nat.leb Nat.add].
  rewrite take_app_length', drop_app_length' by (by rewrite digits_length).
  rewrite atoi_digits. cbn [mbind option_bind].
  by rewrite Z.mod_small by (change (10 ^ Z.of_nat 2) with 100; lia).
Qed.

(** [parse_std] reads an element printed by [render] back into the
    field it was printed from, and leaves the text after it. *)
Lemma parse_render t std rest f :
  0 ≤ (Date_of t).1.1 ≤ 9999 → delimited std rest = true →
  parse_std std (to_bytes (render t std) ++ rest) f
  = Some (field_of t std f, rest).
Proof.
  intros Hy Hd. pose proof (Date_of_spec t) as (Hm & Hday & _).
  pose proof (Clock_range t) as (Hh & Hmi & Hs & _).
  pose proof (Weekday_range t) as Hw.
  pose proof (days_in_le (isLeap (Date_of t).1.1) (Date_of t).1.2).
  unfold render, field_of.
  destruct (Date_of t) as [[y m] d], (Clock t) as [[h mi] s].
  cbn [fst snd] in *.
  destruct std; cbn [delimited] in Hd;
    rewrite ?andb_true_iff, ?negb_true_iff in Hd; destruct_and?;
    try (by apply parse_UnderDay; [lia|]);
    try (by apply parse_LongYear);
    try (by apply parse_Year, Z.mod_pos_bound);
    try (by apply (parse_sec_ok false);
           [lia|done|apply getnum_appendInt_0; [lia|]]);
    try (by apply (parse_sec_ok true); [lia|done|apply getnum_appendInt_2; lia]);
    cbn [parse_std];
    rewrite ?lookup_longMonthNames, ?lookup_shortMonthNames,
      ?lookup_longDayNames, ?lookup_shortDayNames,
      ?getnum_appendInt_2, ?getnum_appendInt_0, ?in_range_ok by (done || lia);
    cbn [mbind option_bind fst snd];
    by rewrite ?Z.sub_add.
Qed.

End elements.

(** ** Spaces before an element *)

Section spaces.

Implicit Types (t : Z) (v rest : list ascii) (f : Fields) (std : Std).

Lemma cutspace_id v : head v ≠ Some " "%char → cutspace v = v.
Proof.
  destruct v as [|c v]; [done|]. cbn. intros H.
  by rewrite bool_decide_eq_false_2 by congruence.
Qed.

Lemma lookup_from_space i tab v :
  Forall (λ name, ∃ c s, to_bytes name = c :: s ∧ match_byte " " c = false)
    tab →
  lookup_from i tab (" "%char :: v) = None.
Proof.
  intros H. revert i. induction H as [|name tab (c & s & E & Hc) _ IH];
    intros i; [done|].
  rewrite lookup_from_skip; [apply IH|].
  rewrite <-to_bytes_length, E. cbn. by rewrite Hc.
Qed.

Lemma lookup_space tab v :
  tab ∈ [shortDayNames; longDayNames; shortMonthNames; longMonthNames] →
  lookup tab (" "%char :: v) = None.
Proof.
  intros H. apply lookup_from_space.
  repeat (apply elem_of_cons in H as [->|H]); [..|by apply elem_of_nil in H];
    repeat (apply Forall_cons_2; [by eexists _, _|]); apply Forall_nil_2.
Qed.

(** No element but the day padded with a space is read from a value
    that starts with a space. *)
Lemma parse_std_space std v f :
  std ≠ stdUnderDay → parse_std std (" "%char :: v) f = None.
Proof.
  intros Hs. destruct std; try done; cbn [parse_std];
    rewrite ?lookup_space by set_solver; try done.
  - by rewrite orb_true_r.
  - by destruct (_ <? _)%nat, v.
  - rewrite bool_decide_eq_false_2 by (by destruct v as [|? [|? ?]]).
    unfold zone_length. repeat case_bool_decide; by cbn.
Qed.

(** The day padded with a space is read the same after any run of
    spaces. *)
Lemma parse_std_UnderDay_cut v f r :
  parse_std stdUnderDay v f = Some r →
  parse_std stdUnderDay (cutspace v) f = Some r.
Proof.
  destruct v as [|c v]; [done|].
  destruct (decide (c = " "%char)) as [->|];
    [|by rewrite cutspace_id by (cbn; congruence)].
  intros E. cbn [parse_std head] in E.
  rewrite bool_decide_eq_true_2 in E by done. cbn [drop] in E.
  rewrite drop_0 in E.
  assert (isDigit v 0 = true) as Hv.
  { unfold getnum in E. by destruct (isDigit v 0). }
  destruct v as [|c v]; [done|]. cbn in Hv.
  assert (c ≠ " "%char) by (by intros ->).
  assert (cutspace (" "%char :: c :: v) = c :: v) as ->.
  { cbn. rewrite bool_decide_eq_true_2 by done.
    by rewrite bool_decide_eq_false_2. }
  cbn [parse_std head]. by rewrite bool_decide_eq_false_2 by congruence.
Qed.

(** An element printed by [render] is read back after a run of spaces
    of the layout as well. *)
Lemma parse_render_cut t std rest f :
  0 ≤ (Date_of t).1.1 ≤ 9999 → delimited std rest = true →
  parse_std std (cutspace (to_bytes (render t std) ++ rest)) f
  = Some (field_of t std f, rest).
Proof.
  intros Hy Hd. pose proof (parse_render t std rest f Hy Hd) as E.
  destruct (to_bytes (render t std) ++ rest) as [|c v]; [done|].
  destruct (decide (c = " "%char)) as [->|];
    [|by rewrite cutspace_id by (cbn; congruence)].
  destruct std; try (by rewrite parse_std_space in E).
  by apply parse_std_UnderDay_cut.
Qed.

End spaces.

(** ** A layout, printed and read back *)

Section layouts.

Context (t : Z).
Hypothesis year_range : 0 ≤ (Date_of t).1.1 ≤ 9999.

Implicit Types (items : list Item) (f : Fields) (std : Std).

Lemma to_bytes_Format layout :
  to_bytes (Format t layout) = rendered t (tokenize 0 (to_bytes layout)).
Proof.
  unfold Format, rendered.
  induction (tokenize 0 (to_bytes layout)) as [|i items IH]; [done|].
  cbn [foldr]. by rewrite to_bytes_app, IH.
Qed.

(** A delimiter ends the element before it. *)
Lemma separated_delimited std items :
  separated (Chunk std :: items) = true →
  delimited std (rendered t items) = true.
Proof.
  cbn [separated]. intros [H _]%andb_prop.
  assert (needs_delimiter std = false ∨
          negb (isDigit (rendered t items) 0) = true
          ∧ no_fraction (rendered t items) = true) as [Hn|[Hd Hf]].
  { destruct (needs_delimiter std); [right|by left].
    destruct items as [|[c|?] items]; [done| |done].
    unfold delimiter in H. apply andb_prop in H as [Hd Hc].
    unfold no_fraction, isDigit. cbn. split; [done|].
    apply negb_true_iff, andb_false_intro1, bool_decide_eq_false_2.
    apply neq_true in Hc. congruence. }
  - by destruct std.
  - destruct std; cbn [delimited]; by rewrite ?Hd, ?Hf.
Qed.

(** The loop of [Parse] reads what [Format] printed, element by
    element, also when a run of spaces has just been taken from the
    value. *)
Lemma parse_items_rendered items (spaced : bool) f :
  separated items = true →
  parse_items items spaced
    (if spaced then cutspace (rendered t items) else rendered t items) f
  = Some (fields_after t items f).
Proof.
  revert spaced f. induction items as [|[c|std] items IH]; intros spaced f Hs.
  - by destruct spaced.
  - change (rendered t (Lit c :: items)) with (c :: rendered t items).
    specialize (λ spaced, IH spaced f Hs). cbn [parse_items cutspace head].
    destruct (decide (c = " "%char)) as [->|Hc].
    + rewrite !bool_decide_eq_true_2 by done. destruct spaced; [apply (IH true)|].
      rewrite bool_decide_eq_true_2 by (by right). cbn [cutspace].
      rewrite bool_decide_eq_true_2 by done. apply (IH true).
    + rewrite !(bool_decide_eq_false_2 (c = " "%char)) by done.
      replace (if spaced then _ else _) with (c :: rendered t items)
        by (by destruct spaced).
      cbn [head drop]. rewrite bool_decide_eq_true_2, drop_0 by done.
      apply (IH false).
  - pose proof (separated_delimited std items Hs) as Hd.
    apply andb_prop in Hs as [_ Hs]. cbn [parse_items].
    change (rendered t (Chunk std :: items))
      with (to_bytes (render t std) ++ rendered t items).
    assert (parse_std std
              (if spaced
               then cutspace (to_bytes (render t std) ++ rendered t items)
               else to_bytes (render t std) ++ rendered t items) f
            = Some (field_of t std f, rendered t items)) as ->
      by (destruct spaced; by rewrite ?parse_render, ?parse_render_cut).
    apply (IH false _ Hs).
Qed.

(** The fields after a layout has been read: those of [t] that the
    layout prints, the others as they were. *)
Lemma fields_after_spec items f :
  prints is_short_year items = false →
  fields_after t items f =
  mkFields
    (if prints is_long_year items then (Date_of t).1.1 else f_year f)
    (if prints is_month items then (Date_of t).1.2 else f_month f)
    (if prints is_day items then (Date_of t).2 else f_day f)
    (if prints is_hour items then (Clock t).1.1 else f_hour f)
    (if prints is_min items then (Clock t).1.2 else f_min f)
    (if prints is_sec items then (Clock t).2 else f_sec f)
    (f_nsec f).
Proof.
  revert f. induction items as [|[c|std] items IH]; intros f Hs.
  - by destruct f.
  - by apply IH.
  - cbn [prints existsb] in Hs. apply orb_false_elim in Hs as [Hstd Hs].
    change (fields_after t (Chunk std :: items) f)
      with (fields_after t items (field_of t std f)).
    rewrite (IH _ Hs). unfold prints. clear IH year_range.
    destruct std; try done; unfold field_of;
      generalize (Date_of t), (Clock t); intros dt ck;
      cbn; f_equal; try done; by case_match.
Qed.

(** [time.Date] of the fields of an instant, without the nanoseconds,
    is the start of its second. *)
Lemma Date_floor_sec :
  Date (Date_of t).1.1 (Date_of t).1.2 (Date_of t).2
    (Clock t).1.1 (Clock t).1.2 (Clock t).2 0 = gotime.floor_sec t.
Proof.
  assert (abs (gotime.floor_sec t) = abs t ∧ nsec (gotime.floor_sec t) = 0) as [Ha Hn].
  { unfold gotime.floor_sec, abs, nsec, gotime.Unix, gotime.Second,
      gotime.Nanosecond. split; [f_equal|]; Z.div_mod_to_equations; lia. }
  rewrite <-(Date_Date_of (gotime.floor_sec t)) at 1.
  unfold Date_of, Clock. by rewrite Ha, Hn.
Qed.

End layouts.

(** ** The round trip *)

Example year_bounds :
  Date 0 1 1 0 0 0 0 = gotime.year_0 ∧ Date 10000 1 1 0 0 0 0 = gotime.year_10000 ∧
  Format gotime.year_0 gotime.RFC1123 = "Sat, 01 Jan 0000 00:00:00 UTC"%string ∧
  Format (gotime.year_10000 - 1) gotime.RFC1123
    = "Fri, 31 Dec 9999 23:59:59 UTC"%string.
Proof. by vm_compute. Qed.

(** The years of the instants between the bounds. *)
Lemma Date_of_year_range t :
  gotime.year_0 ≤ t < gotime.year_10000 → 0 ≤ (Date_of t).1.1 ≤ 9999.
Proof.
  intros Ht. unfold Date_of.
  destruct (year_yday_spec (abs t / secondsPerDay)) as [E Hr].
  destruct (year_yday _) as [y yd]. destruct (month_day _ _) as [m d].
  cbn [fst snd] in *.
  assert (daysSinceEpoch 0 ≤ abs t / secondsPerDay < daysSinceEpoch 10000)
    as Hd.
  { unfold abs, unixToInternal, gotime.Unix, gotime.Second,
      gotime.Nanosecond, secondsPerDay, gotime.year_0, gotime.year_10000 in *.
    change (daysSinceEpoch 0) with (-366).
    change (daysSinceEpoch 10000) with 3652059.
    Z.div_mod_to_equations. lia. }
  split.
  - destruct (Z.lt_ge_cases y 0) as [Hy|]; [|done].
    pose proof (daysSinceEpoch_lt y 0 yd Hy Hr). lia.
  - destruct (Z.le_gt_cases y 9999) as [|Hy]; [done|].
    pose proof (daysSinceEpoch_mono 10000 (y - 10000) ltac:(lia)) as Hm.
    replace (10000 + (y - 10000)) with y in Hm by lia. lia.
Qed.

(** [time.Parse] is a left inverse of [t.Format]: a layout that
    prints the year in four digits, the month, the day and the time of the
    day, with a delimiter after every number of variable width, reads
    what it prints of an instant of the years 0 to 9999 back as the start
    of the second of that instant: the nanoseconds are all that is lost,
    the weekday and the zone are read and agree. *)
Theorem Parse_Format layout t :
  layout_ok layout = true → gotime.year_0 ≤ t < gotime.year_10000 →
  timeparse.Parse layout (Format t layout) = Some (gotime.floor_sec t).
Proof.
  intros [Hs Hc]%andb_prop Ht%Date_of_year_range.
  unfold timeparse.Parse. rewrite to_bytes_Format.
  rewrite (parse_items_rendered t Ht _ false) by done.
  unfold complete in Hc. rewrite !andb_true_iff, negb_true_iff in Hc.
  destruct Hc as ((((((Hy & Hsy) & Hm) & Hd) & Hh) & Hmi) & Hse).
  rewrite fields_after_spec by done. rewrite Hy, Hm, Hd, Hh, Hmi, Hse.
  cbn [fmap option_fmap option_map]. f_equal. apply Date_floor_sec.
Qed.

Lemma Parse_Format_witness :
  timeparse.Parse gotime.RFC1123 (Format 1257894000123456789 gotime.RFC1123)
  = Some (gotime.floor_sec 1257894000123456789).
Proof.
  apply (Parse_Format gotime.RFC1123 1257894000123456789); [reflexivity|].
  unfold gotime.year_0, gotime.year_10000. lia.
Defined.

(** The layouts of the time package that the round trip holds of, and
    three it does not hold of: RFC 850 prints the year in two digits,
    a layout of the time of the day no date, and a layout of digits only
    has no delimiter after the month. *)
Example layout_ok_samples :
  layout_ok gotime.RFC1123 = true ∧ layout_ok gotime.UnixDate = true ∧
  layout_ok "Mon Jan _2 15:04:05 2006" = true ∧
  layout_ok "Mon, 02-Jan-2006 15:04:05 MST" = true ∧
  layout_ok "2006-01-02 15:04:05" = true ∧
  layout_ok "Monday, 02-Jan-06 15:04:05 MST" = false ∧
  layout_ok "15:04" = false ∧
  layout_ok "2006 1 2 15:4:5" = true ∧
  layout_ok "200612 15:04:05" = false.
Proof. by vm_compute. Qed.

(** Why the layouts are restricted: a year of two digits is read into
    the years 1969 to 2068, and without a delimiter January 12 and
    November 2 are printed alike. *)
Example Parse_Format_lossy :
  Format (-631152000000000000) "02 Jan 06 15:04:05"
    = "01 Jan 50 00:00:00"%string ∧
  timeparse.Parse "02 Jan 06 15:04:05" "01 Jan 50 00:00:00"
    = Some 2524608000000000000 ∧
  Format 1231718400000000000 "200612 15:04:05" = "2009112 00:00:00"%string ∧
  Format 1257120000000000000 "200612 15:04:05" = "2009112 00:00:00"%string ∧
  timeparse.Parse "200612 15:04:05" "2009112 00:00:00"
    = Some 1257120000000000000.
Proof. by vm_compute. Qed.

(** ** The text of a date *)

Section text.

Implicit Types (t : Z) (std : Std).

Lemma is_digit_date_byte (c : ascii) :
  strconv.is_digit c = true → gotime.date_byte c = true.
Proof.
  destruct c as [[] [] [] [] [] [] [] []]; (intros [=] || intros _);
    by vm_compute.
Qed.

Lemma digits_date_bytes w x : forallb gotime.date_byte (digits w x) = true.
Proof.
  apply forallb_Forall. pose proof (digits_forallb w x) as H.
  apply forallb_Forall in H. eapply Forall_impl; [done|].
  apply is_digit_date_byte.
Qed.

(** Every element of a layout prints bytes of a date. *)
Lemma render_date_bytes t std :
  0 ≤ (Date_of t).1.1 ≤ 9999 →
  forallb gotime.date_byte (to_bytes (render t std)) = true.
Proof.
  intros Hy. pose proof (Date_of_spec t) as (Hm & Hday & _).
  pose proof (Clock_range t) as (Hh & Hmi & Hs & _).
  pose proof (Weekday_range t) as Hw.
  pose proof (days_in_le (isLeap (Date_of t).1.1) (Date_of t).1.2).
  pose proof (Z.mod_pos_bound (Z.abs (Date_of t).1.1) 100 ltac:(lia)).
  unfold render.
  destruct (Date_of t) as [[y m] d], (Clock t) as [[h mi] s].
  cbn [fst snd] in *.
  destruct std; rewrite ?to_bytes_app, ?forallb_app,
    ?appendInt_2, ?appendInt_4, ?appendInt_0 by lia;
    try (by repeat case_match; rewrite ?digits_date_bytes).
  - assert (0 ≤ m - 1 < 12) as Hi by lia. revert Hi.
    generalize (m - 1). intros i Hi. each_index i 12%nat; by vm_compute.
  - assert (0 ≤ m - 1 < 12) as Hi by lia. revert Hi.
    generalize (m - 1). intros i Hi. each_index i 12%nat; by vm_compute.
  - each_index (Weekday t) 7%nat; by vm_compute.
  - each_index (Weekday t) 7%nat; by vm_compute.
Qed.

Lemma rendered_date_bytes t items :
  0 ≤ (Date_of t).1.1 ≤ 9999 →
  forallb (λ i, match i with Lit c => gotime.date_byte c | Chunk _ => true end)
    items = true →
  forallb gotime.date_byte (rendered t items) = true.
Proof.
  intros Hy. induction items as [|[c|std] items IH]; [done| |];
    cbn [forallb]; intros [Hc Hi]%andb_prop;
    change (rendered t (?i :: items))
      with (to_bytes (render_item t i) ++ rendered t items);
    rewrite forallb_app, IH by done; cbn [render_item].
  - cbn. by rewrite Hc.
  - by rewrite render_date_bytes.
Qed.

Lemma render_TZ t : render t stdTZ = "UTC"%string.
Proof.
  unfold render. by destruct (Date_of t) as [[y m] d], (Clock t) as [[h mi] s].
Qed.

(** The formatter and the parser of the time package keep the laws a
    client relies on. *)
Lemma utc_laws : @TimeLaws utc_format utc_parse.
Proof.
  split; intros t Ht.
  - by apply Parse_Format.
  - unfold Format, utc_format.
    rewrite to_bytes_Format, tokenize_RFC1123.
    by apply rendered_date_bytes; [apply Date_of_year_range|].
  - exists "C"%char. split; [|done]. unfold Format, utc_format.
    rewrite to_bytes_Format, tokenize_RFC1123. unfold rendered.
    cbn [foldr render_item]. by rewrite !last_app, render_TZ.
Qed.

End text.
