(* ===== verification/Regexp.v ===== *)
(** * Go's regexp package, for the syntax [domainReg] uses

    src/csrf.go, line 145, calls [regexp.Match(domainReg, []byte(domain))]:
    the pattern is compiled and the text is searched for a match that may
    start and end anywhere.  This file models the fragment of the RE2
    syntax the pattern of line 115 is written in (literals, escapes,
    classes of ranges, [(?:...)], [|], [*], [+], [?], and the anchors [^]
    and [$] without the multi-line flag, which hold at the two ends of
    the text only).

    - [Regexp] is the syntax tree, with the operator names of
      regexp/syntax.
    - [matches t re i j] is the specification: [re] matches the bytes of
      [t] from position [i] to position [j].
    - [ends t re i] is the matcher: every end position of a match of [re]
      that starts at [i].  Its [*] runs on fuel [length t - i].
    - [MatchRegexp] is the unanchored search, [Compile] a recursive-descent
      parser of patterns, [Match] their composition.
    - [lang re w] is the language of an expression without anchors, over
      words: [matches] between two positions of a text is [lang] of the
      bytes between them ([slice]). *)

From S2P Require Import Prelude.

(** ** Definitions *)

Module regexp.

Inductive Regexp : Type :=
| EmptyMatch
| Literal (c : ascii)
| CharClass (ranges : list (ascii * ascii))
| Concat (r1 r2 : Regexp)
| Alternate (r1 r2 : Regexp)
| Star (r : Regexp)
| Plus (r : Regexp)
| Quest (r : Regexp)
| BeginText
| EndText.

(** A byte is in a class when one of its ranges holds it. *)
Definition in_range (c : ascii) (lh : ascii * ascii) : bool :=
  (N_of_ascii lh.1 <=? N_of_ascii c)%N && (N_of_ascii c <=? N_of_ascii lh.2)%N.

Definition in_class (ranges : list (ascii * ascii)) (c : ascii) : bool :=
  existsb (in_range c) ranges.

(** The specification of matching, over positions of the text [t]. *)
Inductive matches (t : list ascii) : Regexp → nat → nat → Prop :=
| m_empty i : matches t EmptyMatch i i
| m_literal c i : t !! i = Some c → matches t (Literal c) i (S i)
| m_class rs c i :
    t !! i = Some c → in_class rs c = true → matches t (CharClass rs) i (S i)
| m_concat r1 r2 i j k :
    matches t r1 i j → matches t r2 j k → matches t (Concat r1 r2) i k
| m_alt_l r1 r2 i j : matches t r1 i j → matches t (Alternate r1 r2) i j
| m_alt_r r1 r2 i j : matches t r2 i j → matches t (Alternate r1 r2) i j
| m_star_nil r i : matches t (Star r) i i
| m_star_step r i j k :
    matches t r i j → matches t (Star r) j k → matches t (Star r) i k
| m_plus r i j k :
    matches t r i j → matches t (Star r) j k → matches t (Plus r) i k
| m_quest_nil r i : matches t (Quest r) i i
| m_quest_one r i j : matches t r i j → matches t (Quest r) i j
| m_begin : matches t BeginText 0 0
| m_end : matches t EndText (length t) (length t).

(** The language of an expression without anchors, over words rather than
    positions of a text: what [matches] says of the bytes between its two
    positions. *)
Inductive lang : Regexp → list ascii → Prop :=
| l_empty : lang EmptyMatch []
| l_literal c : lang (Literal c) [c]
| l_class rs c : in_class rs c = true → lang (CharClass rs) [c]
| l_concat r1 r2 w1 w2 :
    lang r1 w1 → lang r2 w2 → lang (Concat r1 r2) (w1 ++ w2)
| l_alt_l r1 r2 w : lang r1 w → lang (Alternate r1 r2) w
| l_alt_r r1 r2 w : lang r2 w → lang (Alternate r1 r2) w
| l_star_nil r : lang (Star r) []
| l_star_step r w1 w2 :
    lang r w1 → lang (Star r) w2 → lang (Star r) (w1 ++ w2)
| l_plus r w1 w2 : lang r w1 → lang (Star r) w2 → lang (Plus r) (w1 ++ w2)
| l_quest_nil r : lang (Quest r) []
| l_quest_one r w : lang r w → lang (Quest r) w.

Fixpoint anchor_free (re : Regexp) : bool :=
  match re with
  | EmptyMatch | Literal _ | CharClass _ => true
  | Concat r1 r2 | Alternate r1 r2 => anchor_free r1 && anchor_free r2
  | Star r | Plus r | Quest r => anchor_free r
  | BeginText | EndText => false
  end.

(** The bytes of [t] from position [i] up to position [j]. *)
Definition slice (t : list ascii) (i j : nat) : list ascii :=
  take (j - i) (drop i t).

(** Iteration of a one-step matcher from position [i]: the position
    itself, and what iteration reaches from every later position one step
    leads to.  A step that consumes nothing adds nothing, so only steps
    that advance are followed, and [fuel] counts them. *)
Fixpoint star_from (step : nat → list nat) (fuel i : nat) : list nat :=
  i :: match fuel with
       | 0 => []
       | S fuel' =>
           j ← filter (λ j, i < j) (step i); star_from step fuel' j
       end.

(** The matcher: the end positions of the matches of [re] from [i]. *)
Fixpoint ends (t : list ascii) (re : Regexp) (i : nat) : list nat :=
  match re with
  | EmptyMatch => [i]
  | Literal c => if t !! i == Some c then [S i] else []
  | CharClass rs =>
      match t !! i with
      | Some c => if in_class rs c then [S i] else []
      | None => []
      end
  | Concat r1 r2 => j ← ends t r1 i; ends t r2 j
  | Alternate r1 r2 => ends t r1 i ++ ends t r2 i
  | Star r => star_from (ends t r) (length t - i) i
  | Plus r => j ← ends t r i; star_from (ends t r) (length t - j) j
  | Quest r => i :: ends t r i
  | BeginText => if i == 0 then [i] else []
  | EndText => if i == length t then [i] else []
  end.

(** [re.Match(b)]: some match starts at some position of the text. *)
Definition MatchRegexp (re : Regexp) (b : list ascii) : bool :=
  existsb (λ i, ends b re i != []) (seq 0 (S (length b))).

(** *** The parser of patterns

    A recursive-descent parser of the fragment, on fuel: [parse_alt] reads
    an alternation, [parse_cat] a concatenation, [parse_atom] one atom.
    A pattern outside the fragment (a negated class, [.], a counted
    repetition, a flag group) is refused like an invalid one. *)

Local Open Scope char_scope.

Definition is_alnum (c : ascii) : bool :=
  in_class [("0", "9"); ("A", "Z"); ("a", "z")] c.

(** [\c] stands for [c] when [c] is an ASCII byte that is no letter and
    no digit. *)
Definition is_punct (c : ascii) : bool :=
  (N_of_ascii c <? 128)%N && negb (is_alnum c).

Definition is_meta (c : ascii) : bool :=
  bool_decide (c ∈ ["*"; "+"; "?"; "("; ")"; "|"; "["; "{"; "."; "\"]).

(** A concatenation ends at the end of the pattern, at [|] and at [)]. *)
Definition at_end (s : list ascii) : bool :=
  match s with
  | [] => true
  | c :: _ => (c == "|") || (c == ")")
  end.

(** The items of a class up to its closing bracket: [lo-hi], [\d],
    an escaped punctuation byte, or a byte that stands for itself. *)
Fixpoint parse_class (s : list ascii) (acc : list (ascii * ascii)) :
    option (list (ascii * ascii) * list ascii) :=
  match s with
  | [] => None
  | c :: s1 =>
      if c == "]" then
        if acc == [] then None else Some (rev acc, s1)
      else if c == "^" then
        if acc == [] then None else parse_class s1 ((c, c) :: acc)
      else if c == "\" then
        match s1 with
        | e :: s2 =>
            if e == "d" then parse_class s2 (("0", "9") :: acc)
            else if is_punct e then parse_class s2 ((e, e) :: acc)
            else None
        | [] => None
        end
      else
        match s1 with
        | d :: hi :: s2 =>
            if (d == "-") && (hi != "]") then
              if (hi == "\") || (N_of_ascii hi <? N_of_ascii c)%N then None
              else parse_class s2 ((c, hi) :: acc)
            else parse_class s1 ((c, c) :: acc)
        | _ => parse_class s1 ((c, c) :: acc)
        end
  end.

(** The repetition operator after an atom, if any: one of [*], [+], [?],
    which a [?] may follow (the lazy variant matches the same texts);
    a second operator is an error. *)
Definition parse_postfix (r : Regexp) (s : list ascii) :
    option (Regexp * list ascii) :=
  match s with
  | c :: s1 =>
      let op := if c == "*" then Some (Star r)
                else if c == "+" then Some (Plus r)
                else if c == "?" then Some (Quest r) else None in
      match op with
      | None => Some (r, s)
      | Some r' =>
          let s2 := match s1 with
                    | q :: s2 => if q == "?" then s2 else s1
                    | [] => s1
                    end in
          match s2 with
          | d :: _ =>
              if (d == "*") || (d == "+") || (d == "?") then None
              else Some (r', s2)
          | [] => Some (r', s2)
          end
      end
  | [] => Some (r, s)
  end.

(** What follows an opening parenthesis: [?:] of a non-capturing group,
    nothing for a capturing one (which matches the same texts). *)
Definition group_open (s : list ascii) : option (list ascii) :=
  match s with
  | q :: s1 =>
      if q == "?" then
        match s1 with
        | c :: s2 => if c == ":" then Some s2 else None
        | [] => None
        end
      else Some s
  | [] => Some s
  end.

Fixpoint parse_alt (fuel : nat) (s : list ascii) {struct fuel} :
    option (Regexp * list ascii) :=
  match fuel with
  | 0 => None
  | S fuel =>
      '(r1, s1) ← parse_cat fuel s;
      match s1 with
      | c :: s2 =>
          if c == "|" then
            '(r2, s3) ← parse_alt fuel s2; Some (Alternate r1 r2, s3)
          else Some (r1, s1)
      | [] => Some (r1, s1)
      end
  end
with parse_cat (fuel : nat) (s : list ascii) {struct fuel} :
    option (Regexp * list ascii) :=
  match fuel with
  | 0 => None
  | S fuel =>
      if at_end s then Some (EmptyMatch, s)
      else
        '(a, s1) ← parse_atom fuel s;
        '(r1, s2) ← parse_postfix a s1;
        if at_end s2 then Some (r1, s2)
        else '(r2, s3) ← parse_cat fuel s2; Some (Concat r1 r2, s3)
  end
with parse_atom (fuel : nat) (s : list ascii) {struct fuel} :
    option (Regexp * list ascii) :=
  match fuel with
  | 0 => None
  | S fuel =>
      match s with
      | [] => None
      | c :: s1 =>
          if c == "(" then
            s2 ← group_open s1;
            '(r, s3) ← parse_alt fuel s2;
            match s3 with
            | d :: s4 => if d == ")" then Some (r, s4) else None
            | [] => None
            end
          else if c == "[" then
            '(rs, s2) ← parse_class s1 []; Some (CharClass rs, s2)
          else if c == "\" then
            match s1 with
            | e :: s2 =>
                if e == "d" then Some (CharClass [("0", "9")], s2)
                else if is_punct e then Some (Literal e, s2)
                else None
            | [] => None
            end
          else if c == "^" then Some (BeginText, s1)
          else if c == "$" then Some (EndText, s1)
          else if is_meta c then None
          else Some (Literal c, s1)
      end
  end.

(** [regexp.Compile(pattern)]: the whole pattern is one alternation. *)
Definition Compile (pattern : string) : option Regexp :=
  let s := to_bytes pattern in
  match parse_alt (4 * length s + 4) s with
  | Some (re, []) => Some re
  | _ => None
  end.

(** [regexp.Match(pattern, b)]: whether [b] holds a match of the pattern,
    and the error of its compilation if any. *)
Definition Match (pattern : string) (b : list ascii) : bool * option string :=
  match Compile pattern with
  | Some re => (MatchRegexp re b, None)
  | None => (false, Some "error parsing regexp"%string)
  end.

Local Close Scope char_scope.

End regexp.

Import regexp.

(** ** The matcher agrees with the specification *)

Section matcher.
Context (t : list ascii).
Implicit Types (re r : Regexp) (i j k fuel : nat).

(** A match never moves backwards and stays within the text. *)
Lemma matches_le re i j : matches t re i j → i ≤ j.
Proof. induction 1; lia. Qed.

Lemma matches_bound re i j : matches t re i j → i ≤ length t → j ≤ length t.
Proof.
  induction 1; intros Hi; eauto;
    match goal with H : t !! _ = Some _ |- _ => apply lookup_lt_Some in H end;
    lia.
Qed.

(** Iterations of [r] that consume nothing can be dropped. *)
Lemma matches_star_inv r i k :
  matches t (Star r) i k →
  i = k ∨ ∃ j, i < j ∧ matches t r i j ∧ matches t (Star r) j k.
Proof.
  remember (Star r) as re eqn:E.
  induction 1 as [| | | | | | |? i j k H1 _ H2 IH| | | | |]; simplify_eq;
    [by left|].
  destruct (decide (i = j)) as [->|]; [by apply IH|].
  right. exists j. pose proof (matches_le _ _ _ H1). split_and!; [lia|done..].
Qed.

Section star.
Context (r : Regexp) (step : nat → list nat).

Lemma star_from_self fuel i : i ∈ star_from step fuel i.
Proof. destruct fuel; set_solver. Qed.

Lemma star_from_step fuel i j k :
  j ∈ step i → i < j → k ∈ star_from step fuel j →
  k ∈ star_from step (S fuel) i.
Proof.
  intros Hj Hij Hk. cbn. right. apply list_elem_of_bind.
  exists j. split; [done|]. by apply list_elem_of_filter.
Qed.

Lemma star_from_mono fuel fuel' i k :
  fuel ≤ fuel' → k ∈ star_from step fuel i → k ∈ star_from step fuel' i.
Proof.
  revert fuel' i. induction fuel as [|fuel IH]; intros fuel' i Hle.
  - intros ->%list_elem_of_singleton. apply star_from_self.
  - destruct fuel' as [|fuel']; [lia|]. cbn.
    rewrite !elem_of_cons, !list_elem_of_bind.
    intros [->|(j & Hk & Hj)]; [by left|right].
    exists j. split; [|done]. apply IH; [lia|done].
Qed.

Lemma star_from_sound fuel i k :
  (∀ i j, j ∈ step i → matches t r i j) →
  k ∈ star_from step fuel i → matches t (Star r) i k.
Proof.
  intros Hstep. revert i. induction fuel as [|fuel IH]; intros i; cbn.
  - intros ->%list_elem_of_singleton. constructor.
  - rewrite elem_of_cons, list_elem_of_bind.
    intros [->|(j & Hk & [_ Hj]%list_elem_of_filter)]; [constructor|].
    eapply m_star_step; eauto.
Qed.

(** The fuel [length t - i] is enough: every iteration that is followed
    consumes a byte. *)
Lemma star_from_complete i k :
  (∀ i j, matches t r i j → j ∈ step i) →
  i ≤ length t → matches t (Star r) i k →
  k ∈ star_from step (length t - i) i.
Proof.
  intros Hstep. remember (length t - i) as fuel eqn:E.
  revert i E. induction fuel as [fuel IH] using lt_wf_ind.
  intros i -> Hi [->|(j & Hij & H1 & H2)]%matches_star_inv.
  { apply star_from_self. }
  pose proof (matches_bound _ _ _ H1 Hi) as Hj.
  destruct (length t - i) as [|fuel] eqn:E; [lia|].
  eapply star_from_step; [by apply Hstep|done|].
  apply (star_from_mono (length t - j)); [lia|].
  eapply IH; [|done..]. lia.
Qed.

End star.

Lemma ends_sound re i j : j ∈ ends t re i → matches t re i j.
Proof.
  revert i j. induction re as [|c|rs|r1 IH1 r2 IH2|r1 IH1 r2 IH2|r IH|r IH|r IH| |];
    intros i j; cbn.
  - intros ->%list_elem_of_singleton. constructor.
  - case_bool_decide; [|by intros ?%elem_of_nil].
    intros ->%list_elem_of_singleton. by constructor.
  - destruct (t !! i) as [c|] eqn:E; [|by intros ?%elem_of_nil].
    destruct (in_class rs c) eqn:Ec; [|by intros ?%elem_of_nil].
    intros ->%list_elem_of_singleton. by econstructor.
  - intros (k & ? & ?)%list_elem_of_bind. econstructor; eauto.
  - intros [?|?]%elem_of_app; [apply m_alt_l|apply m_alt_r]; eauto.
  - apply star_from_sound, IH.
  - intros (k & Hj & Hk)%list_elem_of_bind.
    eapply m_plus; [by apply IH|]. eapply star_from_sound; [apply IH|done].
  - intros [->|?]%elem_of_cons; [constructor|]. apply m_quest_one; eauto.
  - case_bool_decide; [|by intros ?%elem_of_nil].
    intros ->%list_elem_of_singleton. subst. constructor.
  - case_bool_decide; [|by intros ?%elem_of_nil].
    intros ->%list_elem_of_singleton. subst. constructor.
Qed.

Lemma ends_complete re i j :
  matches t re i j → i ≤ length t → j ∈ ends t re i.
Proof.
  induction 1 as
    [i|c i Hc|rs c i Hc Hin|r1 r2 i j k H1 IH1 H2 IH2|r1 r2 i j _ IH
    |r1 r2 i j _ IH|r i|r i j k H1 IH1 H2 IH2|r i j k H1 IH1 H2 IH2
    |r i|r i j _ IH| |]; intros Hi; cbn.
  - set_solver.
  - rewrite Hc. rewrite bool_decide_eq_true_2 by done. set_solver.
  - rewrite Hc, Hin. set_solver.
  - apply list_elem_of_bind. exists j. split; [|by apply IH1].
    apply IH2. by eapply matches_bound.
  - apply elem_of_app. left. by apply IH.
  - apply elem_of_app. right. by apply IH.
  - apply star_from_self.
  - pose proof (matches_bound _ _ _ H1 Hi) as Hj.
    pose proof (matches_le _ _ _ H1) as Hij.
    destruct (decide (i = j)) as [->|]; [by apply IH2|].
    specialize (IH2 Hj). cbn in IH2.
    destruct (length t - i) as [|fuel] eqn:E; [lia|].
    eapply star_from_step; [by apply IH1|lia|].
    eapply star_from_mono; [|done]. lia.
  - apply list_elem_of_bind. exists j. split; [|by apply IH1].
    apply IH2. by eapply matches_bound.
  - set_solver.
  - right. by apply IH.
  - rewrite bool_decide_eq_true_2 by done. set_solver.
  - rewrite bool_decide_eq_true_2 by done. set_solver.
Qed.

Lemma ends_spec re i j :
  i ≤ length t → j ∈ ends t re i ↔ matches t re i j.
Proof. split; [apply ends_sound|intros; by apply ends_complete]. Qed.

End matcher.

Lemma MatchRegexp_spec re b :
  MatchRegexp re b = true ↔ ∃ i j, i ≤ length b ∧ matches b re i j.
Proof.
  unfold MatchRegexp. rewrite existsb_exists. split.
  - intros (i & [_ Hi]%in_seq & Hne). cbn beta in Hne. rewrite neq_true in Hne.
    destruct (ends b re i) as [|j l] eqn:E; [done|].
    exists i, j. split; [lia|]. apply ends_sound. rewrite E. set_solver.
  - intros (i & j & Hi & Hm). exists i. split; [apply in_seq; lia|].
    cbn beta. rewrite neq_true. apply ends_complete in Hm; [|done].
    intros E. rewrite E in Hm. set_solver.
Qed.

(** ** Positions and words

    On an expression without anchors, [matches] between two positions of a
    text is [lang] of the bytes between them. *)

Section slices.
Implicit Types (t u v w : list ascii) (i j k : nat).

Lemma slice_nil t i : regexp.slice t i i = [].
Proof. unfold regexp.slice. by rewrite Nat.sub_diag. Qed.

Lemma slice_one t i c : t !! i = Some c → regexp.slice t i (S i) = [c].
Proof.
  intros H. unfold regexp.slice. replace (S i - i) with 1 by lia.
  by rewrite (drop_S _ _ _ H).
Qed.

Lemma slice_app t i j k :
  i ≤ j → j ≤ k →
  regexp.slice t i k = regexp.slice t i j ++ regexp.slice t j k.
Proof.
  intros Hij Hjk. unfold regexp.slice.
  replace (k - i) with ((j - i) + (k - j)) by lia.
  rewrite <-take_take_drop, drop_drop. do 3 f_equal. lia.
Qed.

Lemma slice_all t : regexp.slice t 0 (length t) = t.
Proof. unfold regexp.slice. by rewrite Nat.sub_0_r, drop_0, firstn_all. Qed.

Lemma matches_lang t re i j :
  regexp.matches t re i j → regexp.anchor_free re = true →
  regexp.lang re (regexp.slice t i j).
Proof.
  induction 1 as [i|c i H|rs c i H Hc|r1 r2 i j k H1 IH1 H2 IH2| | | |
                  r i j k H1 IH1 H2 IH2|r i j k H1 IH1 H2 IH2| | | |];
    cbn; intros Hf; try done; try apply andb_prop in Hf as [? ?];
    rewrite ?slice_nil, ?(slice_one _ _ _ H);
    try (rewrite (slice_app t i j k)
           by eauto using matches_le);
    eauto using regexp.lang.
Qed.

Lemma lang_matches re w :
  regexp.lang re w →
  ∀ u v, regexp.matches (u ++ w ++ v) re (length u) (length u + length w).
Proof.
  induction 1 as [|c|rs c Hc|r1 r2 w1 w2 _ IH1 _ IH2| | | |
                  r w1 w2 _ IH1 _ IH2|r w1 w2 _ IH1 _ IH2| |];
    intros u v; cbn [length]; rewrite ?Nat.add_0_r, ?Nat.add_1_r;
    eauto using regexp.matches.
  1: constructor; by rewrite lookup_app_r, Nat.sub_diag by lia.
  1: econstructor; [|done]; by rewrite lookup_app_r, Nat.sub_diag by lia.
  all: specialize (IH1 u (w2 ++ v)); specialize (IH2 (u ++ w1) v);
    rewrite <-!(assoc_L (++)), length_app in *; rewrite Nat.add_assoc;
    eauto using regexp.matches.
Qed.

Lemma matches_whole_lang re w :
  regexp.anchor_free re = true →
  regexp.matches w re 0 (length w) ↔ regexp.lang re w.
Proof.
  intros Hf. split.
  - intros H%matches_lang; [|done]. by rewrite slice_all in H.
  - intros H. pose proof (lang_matches _ _ H [] []) as Hm.
    by rewrite app_nil_l, app_nil_r in Hm.
Qed.

End slices.

(** ** The parser on small patterns *)

Example Compile_alt :
  Compile "a|b*" =
  Some (Alternate (Literal "a") (Star (Literal "b"))).
Proof. reflexivity. Qed.

Example Compile_class :
  Compile "^[a-z\d\-]+$" =
  Some (Concat BeginText
         (Concat (Plus (CharClass [("a", "z"); ("0", "9"); ("-", "-")]%char))
                 EndText)).
Proof. reflexivity. Qed.

Example Compile_group :
  Compile "(?:ab)?\." =
  Some (Concat (Quest (Concat (Literal "a") (Literal "b"))) (Literal ".")).
Proof. reflexivity. Qed.

Example Compile_errors :
  Compile "a**" = None ∧ Compile "(a" = None ∧ Compile "a)" = None ∧
  Compile "[a" = None ∧ Compile "\q" = None ∧ Compile "*a" = None.
Proof. by repeat split. Qed.

Example Match_host : Match "^[a-z]+(?:\.[a-z]+)*$" (to_bytes "example.com") = (true, None).
Proof. by vm_compute. Qed.

Example Match_unanchored : Match "b+" (to_bytes "aabba") = (true, None).
Proof. by vm_compute. Qed.

Example Match_not : Match "^b+$" (to_bytes "aabba") = (false, None).
Proof. by vm_compute. Qed.

(** ** Patterns that match nothing *)

(** A pattern that asks for a byte and then for the beginning of the text
    has no match: the position after a byte is not the first. *)
Lemma matches_byte_before_begin t c re i j :
  ¬ matches t (Concat (Literal c) (Concat BeginText re)) i j.
Proof.
  intros H. inv H.
  repeat match goal with
         | H : matches _ (Literal _) _ _ |- _ => inv H
         | H : matches _ (Concat _ _) _ _ |- _ => inv H
         | H : matches _ BeginText _ _ |- _ => inv H
         end.
Qed.

Lemma MatchRegexp_byte_before_begin c re b :
  MatchRegexp (Concat (Literal c) (Concat BeginText re)) b = false.
Proof.
  apply not_true_is_false. intros (i & j & _ & H)%MatchRegexp_spec.
  by apply matches_byte_before_begin in H.
Qed.

(** Likewise a pattern that asks for a byte after the end of the text. *)
Lemma matches_byte_after_end t c i j :
  ¬ matches t (Concat EndText (Literal c)) i j.
Proof.
  intros H. inv H.
  repeat match goal with
         | H : matches _ (Literal _) _ _ |- _ => inv H
         | H : matches _ EndText _ _ |- _ => inv H
         end.
  match goal with H : _ !! _ = Some _ |- _ => apply lookup_lt_Some in H end.
  lia.
Qed.
