(* ===== verification/NetHttp.v ===== *)
(** * Go's net/http package, as far as the middleware uses it

    - [MIMEHeader]: the type [http.Header], a map from canonical keys to
      the list of values of the key; [Header_Get], [Header_Add] and
      [Header_Set] canonicalise the key they are given
      ([CanonicalHeaderKey]: the first letter and every letter after a
      hyphen in upper case, the others in lower case), as the server does
      for the keys of an incoming request.
    - [Request]: the fields of [*http.Request] the handlers and the
      router read: the method, the path of the URL ([URL_Path]), the host,
      the header.  The form is carried parsed: [PostForm] and [URLQuery]
      are the body and query parameters.
    - [Cookie], [Cookie_String], [SetCookie]: the cookie built at lines
      148-160 of src/csrf.go and its Set-Cookie line.
    - [readCookies], [Request_Cookie]: the cookies of a request, read off
      its Cookie lines: the parts between semicolons, trimmed, each cut
      at its first equals sign; a part is dropped when its name is not a
      token ([isToken]) or its value, without the double quotes around
      it, has a byte that is not a cookie byte ([isCookieByte]).
    - [Request_AddCookie], [readSetCookies]: the side of a client: the
      cookies of a request on one Cookie line, and the cookies of a
      response, read off its Set-Cookie lines with their attributes
      ([read_attr]); the date of Expires is read through the interface
      [TimeParse].
    - [ResponseWriter]: the header map a handler edits, the status
      ([0] until [WriteHeader] is called; the first call wins), the headers
      as they were when the status was written, and the body.
    - [Error]: [http.Error], the reply of [Validate] on a failure;
      [NotFound] and [Redirect], the replies of the router and of the
      example application.
    - [same_key]: the equivalence of header names that have the same
      canonical form, which the operations on header maps respect.
    - [canonical], [wf]: the invariant of a response (the keys of its
      header maps are canonical, and nothing is sent or written before
      the status), which every operation of the writer preserves. *)

From S2P Require Import Prelude GoStrings GoTime.

(** ** Definitions *)

(** [http.Header]. *)
Abbreviation MIMEHeader := (gmap string (list string)).

Module http.

Local Open Scope char_scope.

Definition is_lower (c : ascii) : bool :=
  (N_of_ascii "a" <=? N_of_ascii c)%N && (N_of_ascii c <=? N_of_ascii "z")%N.
Definition is_upper (c : ascii) : bool :=
  (N_of_ascii "A" <=? N_of_ascii c)%N && (N_of_ascii c <=? N_of_ascii "Z")%N.
Definition to_upper (c : ascii) : ascii :=
  if is_lower c then ascii_of_N (N_of_ascii c - 32) else c.
Definition to_lower (c : ascii) : ascii :=
  if is_upper c then ascii_of_N (N_of_ascii c + 32) else c.

(** [textproto.CanonicalMIMEHeaderKey]: [upper] says whether the next
    byte starts a word. *)
Fixpoint canonical_bytes (upper : bool) (s : list ascii) : list ascii :=
  match s with
  | [] => []
  | c :: s' =>
      let c' := if upper then to_upper c else to_lower c in
      c' :: canonical_bytes (c' == "-") s'
  end.

Definition CanonicalHeaderKey (key : string) : string :=
  of_bytes (canonical_bytes true (to_bytes key)).

Local Close Scope char_scope.

(** Two names of one header: header names are compared in their
    canonical form, so that their case does not matter. *)
Definition same_key (k1 k2 : string) : Prop :=
  CanonicalHeaderKey k1 = CanonicalHeaderKey k2.

(** [h.Get(key)]: the first value of the key, [""] when there is none. *)
Definition Header_Get (h : MIMEHeader) (key : string) : string :=
  match h !! CanonicalHeaderKey key with
  | Some (v :: _) => v
  | _ => ""
  end.

(** [h.Add(key, value)]: one more value for the key, after the others. *)
Definition Header_Add (h : MIMEHeader) (key value : string) : MIMEHeader :=
  let k := CanonicalHeaderKey key in
  <[k := default [] (h !! k) ++ [value]]> h.

(** [h.Set(key, value)]: the value replaces those of the key. *)
Definition Header_Set (h : MIMEHeader) (key value : string) : MIMEHeader :=
  <[CanonicalHeaderKey key := [value]]> h.

(** [http.Cookie], field by field. *)
Record Cookie : Type := mkCookie {
  Name : string;
  Value : string;
  Path : string;
  Domain : string;
  Expires : Z;
  RawExpires : string;
  MaxAge : Z;
  Secure : bool;
  HttpOnly : bool;
  Raw : string;
  Unparsed : list string
}.

(** The cookie net/http builds for a pair of the Cookie header. *)
Definition request_cookie (nv : string * string) : Cookie :=
  mkCookie nv.1 nv.2 "" "" gotime.zero "" 0 false false "" [].

(** The fields of [*http.Request] the handlers read. *)
Record Request : Type := mkRequest {
  Method : string;
  URL_Path : string;
  Host : string;
  Header : MIMEHeader;
  PostForm : MIMEHeader;
  URLQuery : MIMEHeader
}.

(** [isToken]: the bytes of a token of HTTP, which a cookie name is made
    of. *)
Definition isToken (c : ascii) : bool :=
  bool_decide (c ∈ to_bytes
    "!#$%&'*+-.0123456789ABCDEFGHIJKLMNOPQRSTUVWXYZ^_`abcdefghijklmnopqrstuvwxyz|~").

Definition isCookieNameValid (raw : string) : bool :=
  forallb isToken (to_bytes raw).

(** [isCookieByte]: the bytes of a cookie value, which are the printable
    bytes of ASCII but the space, the double quote, the comma, the
    semicolon and the backslash. *)
Definition isCookieByte (c : ascii) : bool :=
  let n := N_of_ascii c in
  ((n =? 33) || (35 <=? n) && (n <=? 43) || (45 <=? n) && (n <=? 58)
   || (60 <=? n) && (n <=? 91) || (93 <=? n) && (n <=? 126))%N.

(** [unquoteCookieValue(v)]: a value between double quotes loses them. *)
Definition unquoteCookieValue (v : string) : string :=
  match to_bytes v with
  | c :: t =>
      if (c == "034"%char) && (last t == Some "034"%char)
      then of_bytes (removelast t) else v
  | [] => v
  end.

(** [parseCookieValue(raw)]: [None] when a byte of the value is not a
    cookie byte. *)
Definition parseCookieValue (raw : string) : option string :=
  let raw := unquoteCookieValue raw in
  if forallb isCookieByte (to_bytes raw) then Some raw else None.

(** The body of the inner loop of [readCookies]: the cookie of one part
    of a Cookie line, when the part has one that passes the filter. *)
Definition read_pair (filter part : string) : option Cookie :=
  let part := strings.TrimSpace part in
  if part == "" then None
  else
    let '(name, val) :=
      match strings.cut "="%char (to_bytes part) with
      | Some (n, v) => (of_bytes n, of_bytes v)
      | None => (part, "")
      end in
    if negb (isCookieNameValid name) then None
    else if (filter != "") && (filter != name) then None
    else val ← parseCookieValue val; Some (request_cookie (name, val)).

(** The body of its outer loop: the cookies of one Cookie line. *)
Definition read_line (filter line : string) : list Cookie :=
  let parts := strings.Split (strings.TrimSpace line) ";"%char in
  if parts == [""] then [] else omap (read_pair filter) parts.

(** [readCookies(h, filter)]: the cookies of the Cookie lines of a
    header, those named [filter] only unless [filter] is empty. *)
Definition readCookies (h : MIMEHeader) (filter : string) : list Cookie :=
  default [] (h !! "Cookie") ≫= read_line filter.

(** [r.Cookie(name)]: the first cookie of that name; [None] is
    [ErrNoCookie]. *)
Definition Request_Cookie (r : Request) (name : string) : option Cookie :=
  head (readCookies (Header r) name).

(** [r.Form[key]]: the body parameters come before the query's. *)
Definition Request_Form (r : Request) (key : string) : list string :=
  default [] (PostForm r !! key) ++ default [] (URLQuery r !! key).

(** [r.FormValue(key)]: the first value, [""] when there is none. *)
Definition Request_FormValue (r : Request) (key : string) : string :=
  default "" (head (Request_Form r key)).

(** The response under construction. *)
Record ResponseWriter : Type := mkResponseWriter {
  w_header : MIMEHeader;
  w_status : Z;
  w_sent : MIMEHeader;
  w_body : string
}.

Definition new_ResponseWriter : ResponseWriter :=
  mkResponseWriter ∅ 0 ∅ "".

(** martini's [w.Written()]. *)
Definition Written (w : ResponseWriter) : bool := w_status w != 0%Z.

(** [w.Header().Add(key, value)] and [w.Header().Set(key, value)]. *)
Definition w_Header_Add (w : ResponseWriter) (key value : string) :
    ResponseWriter :=
  mkResponseWriter (Header_Add (w_header w) key value)
    (w_status w) (w_sent w) (w_body w).

Definition w_Header_Set (w : ResponseWriter) (key value : string) :
    ResponseWriter :=
  mkResponseWriter (Header_Set (w_header w) key value)
    (w_status w) (w_sent w) (w_body w).

(** [w.WriteHeader(code)]: the status and the headers are sent once. *)
Definition WriteHeader (w : ResponseWriter) (code : Z) : ResponseWriter :=
  if Written w then w
  else mkResponseWriter (w_header w) code (w_header w) (w_body w).

(** [w.Write(data)]: an unwritten status is written as 200 first. *)
Definition Write (w : ResponseWriter) (data : string) : ResponseWriter :=
  let w := WriteHeader w 200 in
  mkResponseWriter (w_header w) (w_status w) (w_sent w) (w_body w +:+ data).

Definition StatusBadRequest : Z := 400.
Definition StatusNotFound : Z := 404.
Definition StatusInternalServerError : Z := 500.

(** [http.Error(w, error, code)]. *)
Definition Error (w : ResponseWriter) (error : string) (code : Z) :
    ResponseWriter :=
  let w := w_Header_Set w "Content-Type" "text/plain; charset=utf-8" in
  let w := WriteHeader w code in
  Write w (error +:+ String "010" "").

(** A header map is canonical when its keys are. *)
Definition canonical (h : MIMEHeader) : Prop :=
  map_Forall (λ k _, CanonicalHeaderKey k = k) h.

(** The invariant of a response under construction: the keys of its
    headers are canonical, and nothing is sent before the status. *)
Definition wf (w : ResponseWriter) : Prop :=
  canonical (w_header w) ∧ canonical (w_sent w) ∧
  (w_status w = 0%Z → w_sent w = ∅ ∧ w_body w = "").

(** [http.NotFound(w, r)]. *)
Definition NotFound (w : ResponseWriter) : ResponseWriter :=
  Error w "404 page not found" StatusNotFound.

(** [http.StatusText(code)], for the codes of the redirections. *)
Definition StatusText (code : Z) : string :=
  if bool_decide (code = 301%Z) then "Moved Permanently"
  else if bool_decide (code = 302%Z) then "Found"
  else if bool_decide (code = 303%Z) then "See Other"
  else if bool_decide (code = 307%Z) then "Temporary Redirect"
  else if bool_decide (code = 401%Z) then "Unauthorized"
  else "".

(** [htmlEscape]: the five bytes HTML gives a meaning to, as entities. *)
Definition htmlEscape (s : string) : string :=
  of_bytes (to_bytes s ≫= λ c : ascii,
    if bool_decide (c = "&"%char) then to_bytes "&amp;"
    else if bool_decide (c = "<"%char) then to_bytes "&lt;"
    else if bool_decide (c = ">"%char) then to_bytes "&gt;"
    else if bool_decide (c = "034"%char) then to_bytes "&#34;"
    else if bool_decide (c = "'"%char) then to_bytes "&#39;"
    else [c]).

(** [http.Redirect(w, r, url, code)] for a [url] that is a clean absolute
    path, which is left as it is: the header Location, the status, and
    for a GET a short note with a link in the body. *)
Definition Redirect (w : ResponseWriter) (r : Request) (url : string)
    (code : Z) : ResponseWriter :=
  let w := WriteHeader (w_Header_Set w "Location" url) code in
  if Method r == "GET" then
    Write w ("<a href=" +:+ String "034"%char (htmlEscape url)
             +:+ String "034"%char (">" +:+ StatusText code +:+ "</a>."
             +:+ String "010"%char (String "010"%char "")))
  else w.

(** The bytes net/http replaces in the name and in the values of a
    cookie it prints. *)
Definition sanitizeName (s : string) : string :=
  of_bytes ((λ c, if bool_decide (c ∈ ["010"; "013"]%char)
                  then "-"%char else c) <$> to_bytes s).

Definition sanitizeValue (s : string) : string :=
  of_bytes ((λ c, if bool_decide (c ∈ ["010"; "013"; ";"]%char)
                  then " "%char else c) <$> to_bytes s).

(** [r.AddCookie(c)], with which a client makes its request: the
    cookies of a request are on one Cookie line, separated by a semicolon
    and a space. *)
Definition cookie_pair (c : Cookie) : string :=
  sanitizeName (Name c) +:+ "=" +:+ sanitizeValue (Value c).

Definition Request_AddCookie (r : Request) (c : Cookie) : Request :=
  let old := Header_Get (Header r) "Cookie" in
  let line := if old != "" then old +:+ "; " +:+ cookie_pair c
              else cookie_pair c in
  mkRequest (Method r) (URL_Path r) (Host r)
    (Header_Set (Header r) "Cookie" line) (PostForm r) (URLQuery r).

(** [isCookieExpiresByte] and [parseCookieExpiresValue]: the value of
    the attribute Expires may have commas and spaces as well. *)
Definition isCookieExpiresByte (c : ascii) : bool :=
  isCookieByte c || (c == ","%char) || (c == " "%char).

Definition parseCookieExpiresValue (raw : string) : option string :=
  let raw := unquoteCookieValue raw in
  if forallb isCookieExpiresByte (to_bytes raw) then Some raw else None.

(** [strings.ToLower], on the letters of ASCII. *)
Definition ToLower (s : string) : string :=
  of_bytes (to_lower <$> to_bytes s).

(** A cookie with one field changed. *)
Definition with_Path (v : string) (c : Cookie) : Cookie :=
  mkCookie (Name c) (Value c) v (Domain c) (Expires c) (RawExpires c)
    (MaxAge c) (Secure c) (HttpOnly c) (Raw c) (Unparsed c).
Definition with_Domain (v : string) (c : Cookie) : Cookie :=
  mkCookie (Name c) (Value c) (Path c) v (Expires c) (RawExpires c)
    (MaxAge c) (Secure c) (HttpOnly c) (Raw c) (Unparsed c).
Definition with_Expires (raw : string) (t : Z) (c : Cookie) : Cookie :=
  mkCookie (Name c) (Value c) (Path c) (Domain c) t raw
    (MaxAge c) (Secure c) (HttpOnly c) (Raw c) (Unparsed c).
Definition with_MaxAge (v : Z) (c : Cookie) : Cookie :=
  mkCookie (Name c) (Value c) (Path c) (Domain c) (Expires c) (RawExpires c)
    v (Secure c) (HttpOnly c) (Raw c) (Unparsed c).
Definition with_Secure (c : Cookie) : Cookie :=
  mkCookie (Name c) (Value c) (Path c) (Domain c) (Expires c) (RawExpires c)
    (MaxAge c) true (HttpOnly c) (Raw c) (Unparsed c).
Definition with_HttpOnly (c : Cookie) : Cookie :=
  mkCookie (Name c) (Value c) (Path c) (Domain c) (Expires c) (RawExpires c)
    (MaxAge c) (Secure c) true (Raw c) (Unparsed c).
Definition with_Unparsed (part : string) (c : Cookie) : Cookie :=
  mkCookie (Name c) (Value c) (Path c) (Domain c) (Expires c) (RawExpires c)
    (MaxAge c) (Secure c) (HttpOnly c) (Raw c) (Unparsed c ++ [part]).

(** The second layout [readSetCookies] tries for a date. *)
Definition cookie_date_layout : string := "Mon, 02-Jan-2006 15:04:05 MST".

(** The switch of the inner loop of [readSetCookies]: the attribute
    [attr] with the value [val], which are the two sides of [part], read
    into the cookie.  An attribute the loop does not know, or of which
    it cannot read the value, is kept in [Unparsed]. *)
Definition set_attr `{TimeParse} (c : Cookie) (part attr val : string) :
    Cookie :=
  let lowerAttr := ToLower attr in
  match (if lowerAttr == "expires" then parseCookieExpiresValue val
         else parseCookieValue val) with
  | None => with_Unparsed part c
  | Some val =>
      if lowerAttr == "secure" then with_Secure c
      else if lowerAttr == "httponly" then with_HttpOnly c
      else if lowerAttr == "domain" then with_Domain val c
      else if lowerAttr == "max-age" then
        match strconv.ParseInt val with
        | Some secs =>
            if (secs != 0%Z) && (head (to_bytes val) == Some "0"%char)
            then with_Unparsed part c
            else with_MaxAge (if (secs <=? 0)%Z then (-1)%Z else secs) c
        | None => with_Unparsed part c
        end
      else if lowerAttr == "expires" then
        match Parse gotime.RFC1123 val with
        | Some t => with_Expires val t c
        | None =>
            match Parse cookie_date_layout val with
            | Some t => with_Expires val t c
            | None => with_Unparsed part (with_Expires val gotime.zero c)
            end
        end
      else if lowerAttr == "path" then with_Path val c
      else with_Unparsed part c
  end.

(** The body of the inner loop: one part of a Set-Cookie line after the
    first, trimmed and cut at its first equals sign. *)
Definition read_attr `{TimeParse} (c : Cookie) (part : string) : Cookie :=
  let part := strings.TrimSpace part in
  if part == "" then c
  else
    match strings.cut "="%char (to_bytes part) with
    | Some (a, v) => set_attr c part (of_bytes a) (of_bytes v)
    | None => set_attr c part part ""
    end.

(** The cookie of one Set-Cookie line: the body of the outer loop of
    [readSetCookies].  The first part of the line has the name and the
    value, the others the attributes. *)
Definition read_set_cookie `{TimeParse} (line : string) : option Cookie :=
  let parts := strings.Split (strings.TrimSpace line) ";"%char in
  if parts == [""] then None
  else
    let part := strings.TrimSpace (default "" (head parts)) in
    match strings.cut "="%char (to_bytes part) with
    | None => None
    | Some (n, v) =>
        if negb (isCookieNameValid (of_bytes n)) then None
        else
          value ← parseCookieValue (of_bytes v);
          Some (foldl read_attr
                  (mkCookie (of_bytes n) value "" "" gotime.zero "" 0 false
                     false line [])
                  (tail parts))
    end.

(** [readSetCookies(h)], with which a client reads the cookies of a
    response. *)
Definition readSetCookies `{TimeParse} (h : MIMEHeader) : list Cookie :=
  omap read_set_cookie (default [] (h !! "Set-Cookie")).

(** [c.String()]: the Set-Cookie line of a cookie. *)
Definition Cookie_String `{TimeFormat} (c : Cookie) : string :=
  cookie_pair c
  +:+ (if Path c != "" then "; Path=" +:+ sanitizeValue (Path c) else "")
  +:+ (if Domain c != "" then "; Domain=" +:+ sanitizeValue (Domain c)
       else "")
  +:+ (if bool_decide (0 < gotime.Unix (Expires c))%Z
       then "; Expires=" +:+ Format (Expires c) gotime.RFC1123 else "")
  +:+ (if bool_decide (0 < MaxAge c)%Z
       then "; Max-Age=" +:+ strconv.FormatInt (MaxAge c)
       else if bool_decide (MaxAge c < 0)%Z then "; Max-Age=0" else "")
  +:+ (if HttpOnly c then "; HttpOnly" else "")
  +:+ (if Secure c then "; Secure" else "").

(** [http.SetCookie(w, cookie)]. *)
Definition SetCookie `{TimeFormat} (w : ResponseWriter) (c : Cookie) :
    ResponseWriter :=
  w_Header_Add w "Set-Cookie" (Cookie_String c).

End http.

(** ** Header maps *)

Section header.
Implicit Types (h : MIMEHeader) (k key v : string).

Lemma Header_Get_Add_eq h key v :
  http.Header_Get (http.Header_Add h key v) key =
  if http.Header_Get h key == "" then
    match h !! http.CanonicalHeaderKey key with
    | Some (_ :: _) => ""
    | _ => v
    end
  else http.Header_Get h key.
Proof.
  unfold http.Header_Get, http.Header_Add. rewrite lookup_insert_eq.
  destruct (h !! _) as [[|u us]|]; cbn; try done. by case_bool_decide.
Qed.

Lemma Header_Get_Add_fresh h key v :
  h !! http.CanonicalHeaderKey key = None →
  http.Header_Get (http.Header_Add h key v) key = v.
Proof.
  intros E. unfold http.Header_Get, http.Header_Add.
  by rewrite lookup_insert_eq, E.
Qed.

Lemma Header_Get_Add_ne h key key' v :
  http.CanonicalHeaderKey key ≠ http.CanonicalHeaderKey key' →
  http.Header_Get (http.Header_Add h key v) key' = http.Header_Get h key'.
Proof.
  intros. unfold http.Header_Get, http.Header_Add.
  by rewrite lookup_insert_ne.
Qed.

Lemma Header_Get_Set_eq h key v :
  http.Header_Get (http.Header_Set h key v) key = v.
Proof. unfold http.Header_Get, http.Header_Set. by rewrite lookup_insert_eq. Qed.

Lemma Header_Get_Set_ne h key key' v :
  http.CanonicalHeaderKey key ≠ http.CanonicalHeaderKey key' →
  http.Header_Get (http.Header_Set h key v) key' = http.Header_Get h key'.
Proof.
  intros. unfold http.Header_Get, http.Header_Set.
  by rewrite lookup_insert_ne.
Qed.

Lemma Header_Get_empty key : http.Header_Get ∅ key = "".
Proof. unfold http.Header_Get. by rewrite lookup_empty. Qed.

Lemma Header_Add_lookup h key v :
  http.Header_Add h key v !! http.CanonicalHeaderKey key =
  Some (default [] (h !! http.CanonicalHeaderKey key) ++ [v]).
Proof. unfold http.Header_Add. by rewrite lookup_insert_eq. Qed.

Lemma Header_Add_lookup_ne h key v k :
  k ≠ http.CanonicalHeaderKey key → http.Header_Add h key v !! k = h !! k.
Proof. intros. unfold http.Header_Add. by rewrite lookup_insert_ne. Qed.

End header.

#[export] Hint Rewrite Header_Get_Set_eq Header_Get_empty Header_Add_lookup
  : go.

(** The keys the package uses, in canonical form. *)
Example canonical_keys :
  http.CanonicalHeaderKey "X-CSRFToken" = "X-Csrftoken" ∧
  http.CanonicalHeaderKey "X-API-Key" = "X-Api-Key" ∧
  http.CanonicalHeaderKey "Set-Cookie" = "Set-Cookie" ∧
  http.CanonicalHeaderKey "content-type" = "Content-Type".
Proof. by vm_compute. Qed.

(** Canonicalisation is idempotent. *)
Lemma canonical_bytes_idemp upper s :
  http.canonical_bytes upper (http.canonical_bytes upper s) =
  http.canonical_bytes upper s.
Proof.
  revert upper. induction s as [|c s IH]; intros upper; [done|].
  cbn. f_equal.
  - destruct upper.
    + unfold http.to_upper. destruct (http.is_lower c) eqn:E; [|by rewrite E].
      revert E. clear. destruct c as [[] [] [] [] [] [] [] []]; by vm_compute.
    + unfold http.to_lower. destruct (http.is_upper c) eqn:E; [|by rewrite E].
      revert E. clear. destruct c as [[] [] [] [] [] [] [] []]; by vm_compute.
  - assert ((if upper then http.to_upper (if upper then http.to_upper c
                                           else http.to_lower c)
             else http.to_lower (if upper then http.to_upper c
                                 else http.to_lower c))
            = if upper then http.to_upper c else http.to_lower c) as ->;
      [|apply IH].
    destruct upper, c as [[] [] [] [] [] [] [] []]; by vm_compute.
Qed.

Lemma CanonicalHeaderKey_idemp key :
  http.CanonicalHeaderKey (http.CanonicalHeaderKey key) =
  http.CanonicalHeaderKey key.
Proof.
  unfold http.CanonicalHeaderKey. by rewrite to_of_bytes, canonical_bytes_idemp.
Qed.

(** ** The names of a header

    [same_key] is an equivalence, and the operations on header maps do not
    tell two names of the same header apart. *)

Section same_key.
Implicit Types (h : MIMEHeader) (k : string).

#[export] Instance same_key_equivalence : Equivalence http.same_key.
Proof.
  unfold http.same_key.
  split; [by intros ?|by intros ???|by intros ??? -> ->].
Qed.

#[export] Instance CanonicalHeaderKey_proper :
  Proper (http.same_key ==> (=)) http.CanonicalHeaderKey.
Proof. by intros k1 k2 E. Qed.

#[export] Instance Header_Get_proper h :
  Proper (http.same_key ==> (=)) (http.Header_Get h).
Proof. intros k1 k2 E. unfold http.Header_Get. by rewrite E. Qed.

#[export] Instance Header_Add_proper h :
  Proper (http.same_key ==> (=) ==> (=)) (http.Header_Add h).
Proof. intros k1 k2 E v ? <-. unfold http.Header_Add. by rewrite E. Qed.

#[export] Instance Header_Set_proper h :
  Proper (http.same_key ==> (=) ==> (=)) (http.Header_Set h).
Proof. intros k1 k2 E v ? <-. unfold http.Header_Set. by rewrite E. Qed.

Lemma same_key_canonical k : http.same_key (http.CanonicalHeaderKey k) k.
Proof. apply CanonicalHeaderKey_idemp. Qed.

(** A header set under one name is read under any other. *)
Lemma Header_Get_Set_same h k k' v :
  http.same_key k k' → http.Header_Get (http.Header_Set h k v) k' = v.
Proof. intros E. rewrite E. apply Header_Get_Set_eq. Qed.

Lemma Header_Get_Add_same h k k' v :
  http.same_key k k' → h !! http.CanonicalHeaderKey k = None →
  http.Header_Get (http.Header_Add h k v) k' = v.
Proof. intros E Hk. rewrite <-E. by apply Header_Get_Add_fresh. Qed.

End same_key.

Example same_key_case : http.same_key "x-csrftoken" "X-CSRFToken".
Proof. by vm_compute. Qed.

(** ** The response writer *)

Section response.
Implicit Types (w : http.ResponseWriter) (code : Z) (msg : string).

Lemma WriteHeader_status w code :
  http.w_status (http.WriteHeader w code) =
  if http.Written w then http.w_status w else code.
Proof. unfold http.WriteHeader. by destruct (http.Written w). Qed.

Lemma WriteHeader_fresh w code :
  http.w_status w = 0%Z →
  http.WriteHeader w code =
  http.mkResponseWriter (http.w_header w) code (http.w_header w)
    (http.w_body w).
Proof. intros E. unfold http.WriteHeader, http.Written. by rewrite E. Qed.

Lemma WriteHeader_written w code :
  http.w_status w ≠ 0%Z → http.WriteHeader w code = w.
Proof.
  intros E. unfold http.WriteHeader, http.Written.
  by rewrite bool_decide_eq_false_2.
Qed.

(** On a response that is not written yet, [http.Error] sends the code,
    the content type and the message followed by a newline. *)
Lemma Error_fresh w msg code :
  http.w_status w = 0%Z → code ≠ 0%Z →
  http.Error w msg code =
  let h := http.Header_Set (http.w_header w) "Content-Type"
             "text/plain; charset=utf-8" in
  http.mkResponseWriter h code h (http.w_body w +:+ msg +:+ String "010" "").
Proof.
  intros E Hc. unfold http.Error, http.Write.
  rewrite (WriteHeader_fresh (http.w_Header_Set _ _ _)) by done.
  by rewrite WriteHeader_written.
Qed.

(** Once the status is sent, [http.Error] can only add to the body. *)
Lemma Error_written w msg code :
  http.w_status w ≠ 0%Z →
  http.Error w msg code =
  http.mkResponseWriter
    (http.Header_Set (http.w_header w) "Content-Type"
       "text/plain; charset=utf-8")
    (http.w_status w) (http.w_sent w)
    (http.w_body w +:+ msg +:+ String "010" "").
Proof.
  intros E. unfold http.Error, http.Write. cbn zeta.
  by do 2 rewrite (WriteHeader_written (http.w_Header_Set _ _ _)) by done.
Qed.

Lemma Error_Written w msg code :
  code ≠ 0%Z → http.Written (http.Error w msg code) = true.
Proof.
  intros Hc. destruct (decide (http.w_status w = 0%Z)) as [E|E].
  - rewrite Error_fresh by done. unfold http.Written. cbn. by rewrite neq_true.
  - rewrite Error_written by done. unfold http.Written. cbn.
    by rewrite neq_true.
Qed.

Lemma Write_status w data :
  http.w_status (http.Write w data) =
  if http.Written w then http.w_status w else 200%Z.
Proof. unfold http.Write. cbn. apply WriteHeader_status. Qed.

Lemma Write_body w data :
  http.w_body (http.Write w data) = http.w_body w +:+ data.
Proof. unfold http.Write, http.WriteHeader. by destruct (http.Written w). Qed.

Lemma Error_status w msg code :
  http.w_status w = 0%Z → code ≠ 0%Z →
  http.w_status (http.Error w msg code) = code.
Proof. intros. by rewrite Error_fresh. Qed.

(** A redirection on a response that is not written yet: the status is
    the code, and the header Location is the target. *)
Lemma Redirect_status w r url code :
  http.w_status w = 0%Z → code ≠ 0%Z →
  http.w_status (http.Redirect w r url code) = code.
Proof.
  intros E Hc. unfold http.Redirect.
  rewrite (WriteHeader_fresh (http.w_Header_Set _ _ _)) by done.
  destruct (_ == _); [|done]. rewrite Write_status.
  unfold http.Written. cbn. by rewrite (proj2 (neq_true _ _)).
Qed.

Lemma Redirect_Location w r url code :
  http.w_status w = 0%Z →
  http.Header_Get (http.w_sent (http.Redirect w r url code)) "Location" = url.
Proof.
  intros E. unfold http.Redirect.
  rewrite (WriteHeader_fresh (http.w_Header_Set _ _ _)) by done.
  destruct (_ == _); cbn.
  - unfold http.Write.
    destruct (http.WriteHeader _ _) eqn:Ew; cbn.
    unfold http.WriteHeader in Ew. cbn in Ew.
    destruct (http.Written _); simplify_eq; apply Header_Get_Set_eq.
  - apply Header_Get_Set_eq.
Qed.

Lemma SetCookie_status `{TimeFormat} w c :
  http.w_status (http.SetCookie w c) = http.w_status w.
Proof. done. Qed.

Lemma w_Header_Add_status w k v :
  http.w_status (http.w_Header_Add w k v) = http.w_status w.
Proof. done. Qed.

End response.

(** ** The invariant of the response *)

Section wf.
Implicit Types (w : http.ResponseWriter) (h : MIMEHeader) (k v : string)
  (code : Z).

Lemma canonical_empty : http.canonical ∅.
Proof. apply map_Forall_empty. Qed.

Lemma canonical_insert h k vs :
  http.canonical h → http.canonical (<[http.CanonicalHeaderKey k := vs]> h).
Proof.
  intros Hh. apply map_Forall_insert_2; [apply CanonicalHeaderKey_idemp|done].
Qed.

Lemma Header_Add_canonical h k v :
  http.canonical h → http.canonical (http.Header_Add h k v).
Proof. apply canonical_insert. Qed.

Lemma Header_Set_canonical h k v :
  http.canonical h → http.canonical (http.Header_Set h k v).
Proof. apply canonical_insert. Qed.

Lemma new_ResponseWriter_wf : http.wf http.new_ResponseWriter.
Proof. split_and!; [apply canonical_empty..|done]. Qed.

Lemma w_Header_Add_wf w k v : http.wf w → http.wf (http.w_Header_Add w k v).
Proof.
  intros (Hh & Hs & Hu). split_and!; [by apply Header_Add_canonical|done..].
Qed.

Lemma w_Header_Set_wf w k v : http.wf w → http.wf (http.w_Header_Set w k v).
Proof.
  intros (Hh & Hs & Hu). split_and!; [by apply Header_Set_canonical|done..].
Qed.

Lemma WriteHeader_wf w code :
  code ≠ 0%Z → http.wf w → http.wf (http.WriteHeader w code).
Proof.
  intros Hc Hw. destruct (decide (http.w_status w = 0%Z)) as [E|E].
  - rewrite WriteHeader_fresh by done. destruct Hw as (Hh & Hs & Hu).
    by split_and!.
  - by rewrite WriteHeader_written.
Qed.

Lemma Write_wf w data : http.wf w → http.wf (http.Write w data).
Proof.
  intros Hw. unfold http.Write.
  pose proof (WriteHeader_wf w 200 ltac:(done) Hw) as (Hh & Hs & Hu).
  split_and!; [done..|]. cbn. rewrite WriteHeader_status.
  unfold http.Written.
  destruct (decide (http.w_status w = 0%Z)) as [E|E].
  - by rewrite (proj2 (neq_false _ _)).
  - by rewrite (proj2 (neq_true _ _)).
Qed.

Lemma Error_wf w msg code :
  code ≠ 0%Z → http.wf w → http.wf (http.Error w msg code).
Proof.
  intros Hc Hw. unfold http.Error.
  by apply Write_wf, WriteHeader_wf, w_Header_Set_wf.
Qed.

Lemma NotFound_wf w : http.wf w → http.wf (http.NotFound w).
Proof. by apply Error_wf. Qed.

Lemma Redirect_wf w r url code :
  code ≠ 0%Z → http.wf w → http.wf (http.Redirect w r url code).
Proof.
  intros Hc Hw. unfold http.Redirect.
  destruct (_ == _); [apply Write_wf|]; by apply WriteHeader_wf, w_Header_Set_wf.
Qed.

Lemma SetCookie_wf `{TimeFormat} w c : http.wf w → http.wf (http.SetCookie w c).
Proof. apply w_Header_Add_wf. Qed.

End wf.

#[export] Hint Resolve new_ResponseWriter_wf w_Header_Add_wf w_Header_Set_wf
  WriteHeader_wf Write_wf Error_wf NotFound_wf Redirect_wf SetCookie_wf : go.

(** ** Requests *)

Section request.
Implicit Types (r : http.Request) (name key : string).

Lemma Request_FormValue_post r key v vs :
  http.PostForm r !! key = Some (v :: vs) → http.Request_FormValue r key = v.
Proof.
  intros E. unfold http.Request_FormValue, http.Request_Form. by rewrite E.
Qed.

Lemma Request_FormValue_query r key v vs :
  default [] (http.PostForm r !! key) = [] →
  http.URLQuery r !! key = Some (v :: vs) → http.Request_FormValue r key = v.
Proof.
  intros E1 E2. unfold http.Request_FormValue, http.Request_Form.
  by rewrite E1, E2.
Qed.

Lemma Request_FormValue_none r key :
  default [] (http.PostForm r !! key) = [] →
  default [] (http.URLQuery r !! key) = [] →
  http.Request_FormValue r key = "".
Proof.
  intros E1 E2. unfold http.Request_FormValue, http.Request_Form.
  by rewrite E1, E2.
Qed.

End request.
