(* ===== verification/Cookies.v ===== *)
(** * Cookies on their way

    The server hands a cookie to the client on a Set-Cookie line
    ([http.Cookie_String]), the client reads it off the response
    ([http.readSetCookies]) and sends it back on the Cookie line of its
    later requests ([http.Request_AddCookie]), where [http.readCookies]
    finds it for [r.Cookie(name)].  This file shows that neither leg
    loses anything of a cookie whose name is a token and whose value is
    made of cookie bytes ([cookie_ok]):

    - the client reads the name and the value of such a cookie off its
      Set-Cookie line, whatever the attributes are ([read_back_pair]),
      and every attribute as the server printed it when the path and the
      domain are made of cookie bytes and the year of the expiry has four
      digits ([attrs_ok], [read_set_cookie_attrs]): the line is the pair
      and the parts of [attr_parts] joined by semicolons, and each part
      is read by [http.read_attr] into its field.  The date is read
      through the interfaces [TimeFormat] and [TimeParse] with their laws
      [TimeLaws]; it comes back to the second ([as_received]);
    - the cookies a client has put on its request are the cookies the
      server reads, in order, and [r.Cookie(name)] is the first of the
      name ([readCookies_with_cookies], [Request_Cookie_with_cookies]).

    A cookie that is not [cookie_ok] is dropped by the reader, or read
    with another value; the examples at the end show both, and the
    attributes the reader keeps apart. *)

From S2P Require Import Prelude GoStrings GoTime GoCalendar GoTimeParse NetHttp.

(** ** Definitions *)

(** A cookie the reader accepts as it is: its name is a token and its
    value is made of cookie bytes. *)
Definition cookie_ok (c : http.Cookie) : Prop :=
  http.isCookieNameValid (http.Name c) = true ∧
  forallb http.isCookieByte (to_bytes (http.Value c)) = true.

(** The Cookie line of a request the cookies of [jar] were added to, in
    this order. *)
Fixpoint cookie_line (jar : list http.Cookie) : string :=
  match jar with
  | [] => ""
  | c :: jar' =>
      match jar' with
      | [] => http.cookie_pair c
      | _ => http.cookie_pair c +:+ "; " +:+ cookie_line jar'
      end
  end.

(** What the reader keeps of a cookie. *)
Definition as_read (c : http.Cookie) : http.Cookie :=
  http.request_cookie (http.Name c, http.Value c).

(** The filter of [readCookies]. *)
Definition passes (only : string) (c : http.Cookie) : Prop :=
  only = "" ∨ only = http.Name c.

#[export] Instance passes_dec only c : Decision (passes only c).
Proof. unfold passes. apply _. Defined.

(** A request made with the cookies of [jar]. *)
Definition with_cookies (r : http.Request) (jar : list http.Cookie) :
    http.Request :=
  foldl http.Request_AddCookie r jar.

(** What a client reads off the Set-Cookie line of a cookie; the cookie
    as a Cookie line carries it when the line is not read at all. *)
Definition read_back `{TimeFormat, TimeParse} (c : http.Cookie) :
    http.Cookie :=
  default (as_read c) (http.read_set_cookie (http.Cookie_String c)).

(** The parts of the Set-Cookie line of a cookie after its pair, one for
    each attribute [c.String()] prints. *)
Definition attr_parts `{TimeFormat} (c : http.Cookie) : list string :=
  (if http.Path c != ""
   then [" Path=" +:+ http.sanitizeValue (http.Path c)] else [])
  ++ (if http.Domain c != ""
      then [" Domain=" +:+ http.sanitizeValue (http.Domain c)] else [])
  ++ (if bool_decide (0 < gotime.Unix (http.Expires c))%Z
      then [" Expires=" +:+ Format (http.Expires c) gotime.RFC1123] else [])
  ++ (if bool_decide (0 < http.MaxAge c)%Z
      then [" Max-Age=" +:+ strconv.FormatInt (http.MaxAge c)]
      else if bool_decide (http.MaxAge c < 0)%Z then [" Max-Age=0"] else [])
  ++ (if http.HttpOnly c then [" HttpOnly"] else [])
  ++ (if http.Secure c then [" Secure"] else []).

(** The text of parts, each after a semicolon. *)
Definition attr_text (parts : list string) : string :=
  foldr (λ q s, String ";" (q +:+ s)) "" parts.

(** The cookie of the Set-Cookie line of [c], field by field: the expiry
    to the second, and no expiry when none is printed; a negative
    [MaxAge] as -1; the line itself in [Raw]. *)
Definition as_received `{TimeFormat} (c : http.Cookie) : http.Cookie :=
  let dated := bool_decide (0 < gotime.Unix (http.Expires c))%Z in
  http.mkCookie (http.Name c) (http.Value c) (http.Path c) (http.Domain c)
    (if dated then gotime.floor_sec (http.Expires c) else gotime.zero)
    (if dated then Format (http.Expires c) gotime.RFC1123 else "")
    (if bool_decide (http.MaxAge c < 0)%Z then (-1)%Z else http.MaxAge c)
    (http.Secure c) (http.HttpOnly c) (http.Cookie_String c) [].

(** A cookie of which the attributes are read as they are printed: the
    path and the domain are made of cookie bytes, the year of the expiry
    has four digits, the age is an int. *)
Definition attrs_ok (c : http.Cookie) : Prop :=
  forallb http.isCookieByte (to_bytes (http.Path c)) = true ∧
  forallb http.isCookieByte (to_bytes (http.Domain c)) = true ∧
  (http.Expires c < gotime.year_10000)%Z ∧
  (http.MaxAge c ≤ gotime.MaxInt64)%Z.

(** A part of a Set-Cookie line as [c.String()] prints it: a space, then
    text without a semicolon that neither starts nor ends with white
    space. *)
Definition part_ok (q : string) : Prop :=
  ∃ t x y, to_bytes q = " "%char :: t ∧ head t = Some x ∧ last t = Some y ∧
           strings.isSpace x = false ∧ strings.isSpace y = false ∧
           ";"%char ∉ t.

(** The value of an attribute: no semicolon in it, and no white space at
    its end. *)
Definition value_ok (v : string) : Prop :=
  ";"%char ∉ to_bytes v ∧
  ∀ y, last (to_bytes v) = Some y → strings.isSpace y = false.

(** What follows the pair of a cookie on its Set-Cookie line: nothing,
    or attributes, each after a semicolon. *)
Definition attrs_like (s : string) : Prop :=
  s = "" ∨ ∃ t, s = String ";" t.

(** A byte that is neither white space nor one of the separators of a
    Cookie line. *)
Definition plain (c : ascii) : Prop :=
  strings.isSpace c = false ∧ c ≠ ";"%char.

(** ** The bytes of a cookie *)

Section bytes.
Implicit Types (c : ascii) (s : string).

Lemma isToken_spec c :
  http.isToken c = true →
  plain c ∧ c ≠ "="%char ∧ c ∉ ["010"; "013"]%char.
Proof.
  unfold http.isToken. intros Hc%bool_decide_eq_true. revert c Hc.
  apply Forall_forall. by apply (bool_decide_unpack _).
Qed.

Lemma isCookieByte_spec c :
  http.isCookieByte c = true →
  plain c ∧ c ≠ "034"%char ∧ c ∉ ["010"; "013"; ";"]%char.
Proof.
  destruct c as [[] [] [] [] [] [] [] []]; (intros [=] || intros _);
    by apply (bool_decide_unpack _).
Qed.

End bytes.

(** ** One cookie *)

Section pair.
Implicit Types (c : http.Cookie) (only part : string).

Lemma sanitizeName_id s :
  http.isCookieNameValid s = true → http.sanitizeName s = s.
Proof.
  intros H%forallb_Forall. apply of_bytes_fmap_id.
  eapply Forall_impl; [done|]. intros x (_ & _ & Hx)%isToken_spec.
  by rewrite bool_decide_eq_false_2.
Qed.

Lemma sanitizeValue_id s :
  forallb http.isCookieByte (to_bytes s) = true → http.sanitizeValue s = s.
Proof.
  intros H%forallb_Forall. apply of_bytes_fmap_id.
  eapply Forall_impl; [done|]. intros x (_ & _ & Hx)%isCookieByte_spec.
  by rewrite bool_decide_eq_false_2.
Qed.

Lemma unquoteCookieValue_id s :
  forallb http.isCookieByte (to_bytes s) = true →
  http.unquoteCookieValue s = s.
Proof.
  unfold http.unquoteCookieValue. destruct (to_bytes s) as [|x t]; [done|].
  intros [(_ & Hx & _)%isCookieByte_spec _]%andb_prop.
  by rewrite bool_decide_eq_false_2.
Qed.

Lemma parseCookieValue_ok s :
  forallb http.isCookieByte (to_bytes s) = true →
  http.parseCookieValue s = Some s.
Proof.
  intros H. unfold http.parseCookieValue.
  by rewrite unquoteCookieValue_id, H.
Qed.

(** The bytes of the pair of a cookie: its name, the equals sign and its
    value, none of them a space or a semicolon. *)
Lemma cookie_pair_bytes c :
  cookie_ok c →
  to_bytes (http.cookie_pair c)
  = to_bytes (http.Name c) ++ "="%char :: to_bytes (http.Value c).
Proof.
  intros [Hn Hv]. unfold http.cookie_pair.
  by rewrite sanitizeName_id, sanitizeValue_id, to_bytes_app.
Qed.

Lemma cookie_pair_plain c :
  cookie_ok c → Forall plain (to_bytes (http.cookie_pair c)).
Proof.
  intros Hc. rewrite cookie_pair_bytes by done.
  destruct Hc as [Hn%forallb_Forall Hv%forallb_Forall].
  apply Forall_app. split; [|apply Forall_cons; split].
  - eapply Forall_impl; [done|]. by intros x [? _]%isToken_spec.
  - done.
  - eapply Forall_impl; [done|]. by intros x [? _]%isCookieByte_spec.
Qed.

Lemma cookie_pair_nonempty c : cookie_ok c → to_bytes (http.cookie_pair c) ≠ [].
Proof. intros Hc. rewrite cookie_pair_bytes by done. by destruct (to_bytes _). Qed.

Lemma cookie_pair_ends c :
  cookie_ok c →
  ∃ x y, head (to_bytes (http.cookie_pair c)) = Some x ∧
         last (to_bytes (http.cookie_pair c)) = Some y ∧
         strings.isSpace x = false ∧ strings.isSpace y = false.
Proof.
  intros Hc.
  destruct (Forall_head_last plain (to_bytes (http.cookie_pair c)))
    as (x & y & ? & ? & [? _] & [? _]);
    [by apply cookie_pair_nonempty|by apply cookie_pair_plain|].
  by exists x, y.
Qed.

(** A part that is the pair of a cookie once trimmed gives the cookie,
    when it passes the filter. *)
Lemma read_pair_trimmed only part c :
  cookie_ok c → strings.TrimSpace part = http.cookie_pair c →
  http.read_pair only part
  = if decide (passes only c) then Some (as_read c) else None.
Proof.
  intros Hc Ht. pose proof (cookie_pair_nonempty c Hc) as Hne.
  unfold http.read_pair. rewrite Ht, cookie_pair_bytes by done.
  rewrite bool_decide_eq_false_2
    by (intros E; by rewrite E in Hne).
  destruct Hc as [Hn Hv]. rewrite cut_app, !of_to_bytes, Hn.
  - cbn [negb]. rewrite parseCookieValue_ok by done. unfold passes.
    destruct (decide (only = "")) as [->|]; [by rewrite decide_True by auto|].
    rewrite (bool_decide_eq_false_2 (only = "")) by done. cbn [negb andb].
    case_bool_decide; case_decide; by intuition.
  - apply forallb_Forall in Hn. intros Hin.
    eapply Forall_forall in Hn; [|done].
    by apply isToken_spec in Hn as (_ & ? & _).
Qed.

Lemma read_pair_ok only c :
  cookie_ok c →
  http.read_pair only (http.cookie_pair c)
  = if decide (passes only c) then Some (as_read c) else None.
Proof.
  intros Hc. apply read_pair_trimmed; [done|].
  destruct (cookie_pair_ends c Hc) as (x & y & ? & ? & ? & ?).
  rewrite <-(of_to_bytes (http.cookie_pair c)). by eapply TrimSpace_ends.
Qed.

Lemma read_pair_space only c :
  cookie_ok c →
  http.read_pair only (of_bytes (" "%char :: to_bytes (http.cookie_pair c)))
  = if decide (passes only c) then Some (as_read c) else None.
Proof.
  intros Hc. apply read_pair_trimmed; [done|].
  destruct (cookie_pair_ends c Hc) as (x & y & ? & ? & ? & ?).
  rewrite <-(of_to_bytes (http.cookie_pair c)) at 2. by eapply TrimSpace_space.
Qed.

End pair.

(** ** The Cookie line *)

Section line.
Implicit Types (c : http.Cookie) (jar : list http.Cookie) (only : string).

(** The parts of the line: the pair of the first cookie, and the pair of
    each other cookie after a semicolon and a space. *)
Lemma cookie_line_bytes c jar :
  to_bytes (cookie_line (c :: jar))
  = to_bytes (http.cookie_pair c)
    ++ concat ((";"%char ::.) <$>
               ((λ c, " "%char :: to_bytes (http.cookie_pair c)) <$> jar)).
Proof.
  revert c. induction jar as [|c' jar IH]; intros c.
  - cbn. by rewrite app_nil_r.
  - change (cookie_line (c :: c' :: jar))
      with (http.cookie_pair c +:+ "; " +:+ cookie_line (c' :: jar)).
    rewrite !to_bytes_app, IH. done.
Qed.

Lemma cookie_line_snoc c jar :
  jar ≠ [] →
  cookie_line (jar ++ [c]) = cookie_line jar +:+ "; " +:+ http.cookie_pair c.
Proof.
  induction jar as [|c1 [|c2 jar] IH]; [done|done|]. intros _.
  change (cookie_line ((c1 :: c2 :: jar) ++ [c]))
    with (http.cookie_pair c1 +:+ "; " +:+ cookie_line ((c2 :: jar) ++ [c])).
  rewrite IH by done.
  change (cookie_line (c1 :: c2 :: jar))
    with (http.cookie_pair c1 +:+ "; " +:+ cookie_line (c2 :: jar)).
  by rewrite !string_app_assoc.
Qed.

Lemma cookie_line_ends c jar :
  Forall cookie_ok (c :: jar) →
  ∃ x y, head (to_bytes (cookie_line (c :: jar))) = Some x ∧
         last (to_bytes (cookie_line (c :: jar))) = Some y ∧
         strings.isSpace x = false ∧ strings.isSpace y = false.
Proof.
  revert c. induction jar as [|c' jar IH]; intros c [Hc Hjar]%Forall_cons.
  { by apply cookie_pair_ends. }
  destruct (cookie_pair_ends c Hc) as (x & _ & Hx & _ & ? & _).
  destruct (IH c' Hjar) as (_ & y & _ & Hy & _ & ?). exists x, y.
  change (cookie_line (c :: c' :: jar))
    with (http.cookie_pair c +:+ "; " +:+ cookie_line (c' :: jar)).
  rewrite !to_bytes_app. split_and!; [|by rewrite !last_app, Hy|done..].
  destruct (to_bytes (http.cookie_pair c)); by simplify_eq/=.
Qed.

Lemma cookie_line_nonempty c jar :
  Forall cookie_ok (c :: jar) → cookie_line (c :: jar) ≠ "".
Proof.
  intros (x & _ & Hx & _)%cookie_line_ends E. by rewrite E in Hx.
Qed.

(** The reader on the parts of a line. *)
Lemma read_pairs_rest only jar :
  Forall cookie_ok jar →
  omap (http.read_pair only)
    (of_bytes <$> ((λ c, " "%char :: to_bytes (http.cookie_pair c)) <$> jar))
  = as_read <$> filter (passes only) jar.
Proof.
  induction 1 as [|c jar Hc _ IH]; [done|].
  cbn [fmap list_fmap omap list_omap]. rewrite read_pair_space by done.
  rewrite filter_cons, IH. by case_decide.
Qed.

(** The cookies of a line are the cookies that were put on it. *)
Lemma read_line_cookie_line only jar :
  Forall cookie_ok jar →
  http.read_line only (cookie_line jar)
  = as_read <$> filter (passes only) jar.
Proof.
  intros Hjar. destruct jar as [|c jar]; [done|].
  destruct (cookie_line_ends c jar Hjar) as (x & y & ? & ? & ? & ?).
  apply Forall_cons in Hjar as [Hc Hjar]. unfold http.read_line.
  rewrite <-(of_to_bytes (cookie_line _)), (TrimSpace_ends _ x y) by done.
  unfold strings.Split. rewrite to_of_bytes, cookie_line_bytes.
  rewrite fields_of_concat.
  - cbn [fmap list_fmap]. rewrite bool_decide_eq_false_2.
    + cbn [omap list_omap]. rewrite of_to_bytes, read_pair_ok by done.
      rewrite filter_cons, read_pairs_rest by done. by case_decide.
    + intros [= E _]. apply (f_equal to_bytes) in E.
      rewrite to_of_bytes in E. by apply cookie_pair_nonempty in E.
  - apply cookie_pair_plain in Hc. intros Hin.
    eapply Forall_forall in Hc; [|done]. by destruct Hc.
  - apply Forall_fmap. eapply Forall_impl; [done|]. intros c' Hc'. cbn.
    apply cookie_pair_plain in Hc'. intros [?|Hin]%elem_of_cons; [done|].
    eapply Forall_forall in Hc'; [|done]. by destruct Hc'.
Qed.

End line.

(** ** The request *)

Section request.
Implicit Types (c : http.Cookie) (jar : list http.Cookie) (r : http.Request)
  (only name : string).

Lemma with_cookies_snoc r jar c :
  with_cookies r (jar ++ [c]) = http.Request_AddCookie (with_cookies r jar) c.
Proof. unfold with_cookies. by rewrite foldl_app. Qed.

(** A request the cookies of [jar] were added to has one Cookie line,
    and the rest of the request is as it was. *)
Lemma with_cookies_Header r c jar :
  http.Header r !! "Cookie" = None → Forall cookie_ok (c :: jar) →
  http.Header (with_cookies r (c :: jar))
  = <["Cookie" := [cookie_line (c :: jar)]]> (http.Header r).
Proof.
  intros Hr. induction jar as [|c' jar IH] using rev_ind; intros Hjar.
  - cbn. unfold http.Header_Get, http.Header_Set.
    change (http.CanonicalHeaderKey "Cookie") with "Cookie". by rewrite Hr.
  - rewrite app_comm_cons, with_cookies_snoc, cookie_line_snoc by done.
    rewrite app_comm_cons in Hjar. apply Forall_app in Hjar as [Hjar _].
    cbn [http.Request_AddCookie http.Header]. rewrite IH by done.
    unfold http.Header_Get, http.Header_Set.
    change (http.CanonicalHeaderKey "Cookie") with "Cookie".
    rewrite lookup_insert_eq, insert_insert_eq.
    rewrite bool_decide_eq_false_2; [done|]. by apply cookie_line_nonempty.
Qed.

Lemma with_cookies_fields r jar :
  http.Method (with_cookies r jar) = http.Method r ∧
  http.URL_Path (with_cookies r jar) = http.URL_Path r ∧
  http.Host (with_cookies r jar) = http.Host r ∧
  http.PostForm (with_cookies r jar) = http.PostForm r ∧
  http.URLQuery (with_cookies r jar) = http.URLQuery r.
Proof.
  induction jar as [|c jar IH] using rev_ind; [done|].
  by rewrite with_cookies_snoc.
Qed.

Lemma with_cookies_Header_Get r jar key :
  http.CanonicalHeaderKey key ≠ "Cookie" →
  http.Header_Get (http.Header (with_cookies r jar)) key
  = http.Header_Get (http.Header r) key.
Proof.
  intros Hk. induction jar as [|c jar IH] using rev_ind; [done|].
  rewrite with_cookies_snoc. cbn [http.Request_AddCookie http.Header].
  rewrite Header_Get_Set_ne; [done|].
  change (http.CanonicalHeaderKey "Cookie") with "Cookie". congruence.
Qed.

Lemma with_cookies_FormValue r jar key :
  http.Request_FormValue (with_cookies r jar) key
  = http.Request_FormValue r key.
Proof.
  destruct (with_cookies_fields r jar) as (_ & _ & _ & Hp & Hq).
  unfold http.Request_FormValue, http.Request_Form. by rewrite Hp, Hq.
Qed.

(** The server reads the cookies the client has put on its request. *)
Lemma readCookies_with_cookies r jar only :
  http.Header r !! "Cookie" = None → Forall cookie_ok jar →
  http.readCookies (http.Header (with_cookies r jar)) only
  = as_read <$> filter (passes only) jar.
Proof.
  intros Hr Hjar. unfold http.readCookies. destruct jar as [|c jar].
  { cbn. by rewrite Hr. }
  rewrite with_cookies_Header, lookup_insert_eq by done. cbn [default id].
  rewrite bind_cons, read_line_cookie_line by done. apply app_nil_r.
Qed.

(** [r.Cookie(name)] is the first cookie of that name. *)
Lemma Request_Cookie_with_cookies r jar name :
  http.Header r !! "Cookie" = None → Forall cookie_ok jar → name ≠ "" →
  http.Request_Cookie (with_cookies r jar) name
  = as_read <$> head (filter (λ c, http.Name c = name) jar).
Proof.
  intros Hr Hjar Hn. unfold http.Request_Cookie.
  rewrite readCookies_with_cookies by done.
  rewrite (list_filter_iff _ (λ c, http.Name c = name)).
  - by destruct (filter _ jar).
  - intros c. unfold passes. naive_solver.
Qed.

End request.

(** ** The Set-Cookie line *)

Section set_cookie.
Context `{TimeFormat, TimeParse}.
Implicit Types (c : http.Cookie) (attrs : string) (h : MIMEHeader).

Lemma attrs_like_app attrs attrs' :
  attrs_like attrs → attrs_like attrs' → attrs_like (attrs +:+ attrs').
Proof. intros [->|[t ->]] H'; [done|]. right. by eexists. Qed.

Lemma attrs_like_if (b : bool) attrs :
  attrs_like attrs → attrs_like (if b then attrs else "").
Proof. destruct b; [done|by left]. Qed.

(** The line of a cookie is its pair, then its attributes. *)
Lemma Cookie_String_attrs c :
  ∃ attrs, http.Cookie_String c = http.cookie_pair c +:+ attrs ∧
           attrs_like attrs.
Proof.
  eexists. split; [done|].
  repeat first
    [ by right; eexists | by left | apply attrs_like_if
    | apply attrs_like_app | case_bool_decide ].
Qed.

(** An attribute changes neither the name nor the value. *)
Lemma read_attr_pair c part :
  http.Name (http.read_attr c part) = http.Name c
  ∧ http.Value (http.read_attr c part) = http.Value c.
Proof. unfold http.read_attr, http.set_attr. by repeat case_match. Qed.

Lemma read_attrs_pair c parts :
  http.Name (foldl http.read_attr c parts) = http.Name c
  ∧ http.Value (foldl http.read_attr c parts) = http.Value c.
Proof.
  revert c. induction parts as [|part parts IH]; intros c; [done|].
  cbn [foldl]. destruct (IH (http.read_attr c part)) as [-> ->].
  apply read_attr_pair.
Qed.

(** The parts of a Set-Cookie line: the pair, and the attributes cut at
    the semicolons. *)
Lemma Split_pair_attrs c attrs :
  cookie_ok c → attrs_like attrs →
  strings.Split (strings.TrimSpace (http.cookie_pair c +:+ attrs)) ";"
  = http.cookie_pair c
    :: tail (strings.Split
               (strings.TrimSpace (http.cookie_pair c +:+ attrs)) ";").
Proof.
  intros Hc Ha.
  destruct (cookie_pair_ends c Hc) as (x & y & Hx & Hy & ? & ?).
  assert (";"%char ∉ to_bytes (http.cookie_pair c)) as Hsemi.
  { intros Hin. pose proof (cookie_pair_plain c Hc) as Hp.
    eapply Forall_forall in Hp; [|done]. by destruct Hp. }
  assert (strings.TrimSpace (http.cookie_pair c) = http.cookie_pair c) as Ht.
  { rewrite <-(of_to_bytes (http.cookie_pair c)). by eapply TrimSpace_ends. }
  pose proof (Split_head (strings.TrimSpace (http.cookie_pair c +:+ attrs))
                ";") as Hh.
  destruct (strings.Split _ _) as [|p ps] eqn:E; [done|].
  cbn [tail]. f_equal. injection Hh as ->. destruct Ha as [->|[t ->]].
  - rewrite string_app_nil_r, Ht, before_no_sep_id by done.
    apply of_to_bytes.
  - rewrite <-(of_to_bytes (_ +:+ _)), to_bytes_app.
    change (to_bytes (String ";" t)) with (";"%char :: to_bytes t).
    rewrite (TrimSpace_app _ _ _ x), to_of_bytes, before_app by done.
    apply of_to_bytes.
Qed.

(** A client reads a cookie off its pair, then the attributes. *)
Lemma read_set_cookie_pair c attrs :
  cookie_ok c → attrs_like attrs →
  let line := http.cookie_pair c +:+ attrs in
  http.read_set_cookie line =
  Some (foldl http.read_attr
          (http.mkCookie (http.Name c) (http.Value c) "" "" gotime.zero "" 0 false
             false line [])
          (tail (strings.Split (strings.TrimSpace line) ";"))).
Proof.
  intros Hc Ha line. pose proof (cookie_pair_nonempty c Hc) as Hne.
  destruct (cookie_pair_ends c Hc) as (x & y & Hx & Hy & ? & ?).
  assert (strings.TrimSpace (http.cookie_pair c) = http.cookie_pair c) as Ht.
  { rewrite <-(of_to_bytes (http.cookie_pair c)). by eapply TrimSpace_ends. }
  unfold http.read_set_cookie. subst line.
  rewrite (Split_pair_attrs c attrs) by done. cbn [head default id tail].
  rewrite bool_decide_eq_false_2 by (by intros [= E%to_bytes_nil _]).
  rewrite Ht, cookie_pair_bytes by done. destruct Hc as [Hn Hv].
  rewrite cut_app, !of_to_bytes, Hn; [by rewrite parseCookieValue_ok|].
  apply forallb_Forall in Hn. intros Hin.
  eapply Forall_forall in Hn; [|done].
  by apply isToken_spec in Hn as (_ & ? & _).
Qed.

(** What a client reads off the Set-Cookie line of a cookie has its name
    and its value. *)
Lemma read_set_cookie_String c :
  cookie_ok c →
  http.read_set_cookie (http.Cookie_String c) = Some (read_back c).
Proof.
  intros Hc. unfold read_back.
  destruct (Cookie_String_attrs c) as (attrs & -> & Ha).
  by rewrite read_set_cookie_pair.
Qed.

Lemma read_back_pair c :
  cookie_ok c →
  http.Name (read_back c) = http.Name c
  ∧ http.Value (read_back c) = http.Value c.
Proof.
  intros Hc. unfold read_back.
  destruct (Cookie_String_attrs c) as (attrs & -> & Ha).
  rewrite read_set_cookie_pair by done. cbn [default id].
  match goal with
  | |- context [foldl http.read_attr ?b ?p] =>
      by destruct (read_attrs_pair b p) as [-> ->]
  end.
Qed.

Lemma read_back_ok c : cookie_ok c → cookie_ok (read_back c).
Proof.
  intros Hc. unfold cookie_ok. by destruct (read_back_pair c Hc) as [-> ->].
Qed.

(** The cookies a client reads off a response: one more for a cookie
    the server has set. *)
Lemma readSetCookies_SetCookie h c :
  cookie_ok c →
  http.readSetCookies (http.Header_Add h "Set-Cookie" (http.Cookie_String c))
  = http.readSetCookies h ++ [read_back c].
Proof.
  intros Hc. unfold http.readSetCookies.
  change "Set-Cookie" with (http.CanonicalHeaderKey "Set-Cookie") at 1.
  rewrite Header_Add_lookup. cbn [default id].
  change (http.CanonicalHeaderKey "Set-Cookie") with "Set-Cookie".
  rewrite omap_app. cbn [omap list_omap].
  by rewrite read_set_cookie_String.
Qed.

Lemma readSetCookies_Add_ne h key v :
  http.CanonicalHeaderKey key ≠ "Set-Cookie" →
  http.readSetCookies (http.Header_Add h key v) = http.readSetCookies h.
Proof.
  intros Hk. unfold http.readSetCookies.
  by rewrite Header_Add_lookup_ne.
Qed.

Lemma readSetCookies_Set_ne h key v :
  http.CanonicalHeaderKey key ≠ "Set-Cookie" →
  http.readSetCookies (http.Header_Set h key v) = http.readSetCookies h.
Proof.
  intros Hk. unfold http.readSetCookies, http.Header_Set.
  by rewrite lookup_insert_ne.
Qed.

End set_cookie.

(** ** The readers at work *)

(** A Cookie line with two cookies; a value between double quotes, which
    loses them; and values the reader drops: one with a space, one with
    a comma. *)
Example readCookies_samples :
  http.readCookies {["Cookie" := ["_csrf=abc; lang=en"]]} "_csrf"
    = [http.request_cookie ("_csrf", "abc")] ∧
  http.readCookies {["Cookie" := ["_csrf=abc; lang=en"]]} ""
    = [http.request_cookie ("_csrf", "abc");
       http.request_cookie ("lang", "en")] ∧
  http.readCookies {["Cookie" := ["_csrf=abc"; "_csrf=xyz"]]} "_csrf"
    = [http.request_cookie ("_csrf", "abc");
       http.request_cookie ("_csrf", "xyz")] ∧
  http.read_line "" ("a=" +:+ String "034" ("b" +:+ String "034" ""))
    = [http.request_cookie ("a", "b")] ∧
  http.read_line "" "a=b c; d=e"
    = [http.request_cookie ("d", "e")] ∧
  http.read_line "" "a=b,c" = [] ∧
  http.read_line "" "" = [].
Proof. by vm_compute. Qed.


(** ** The attributes of a Set-Cookie line *)

Section attributes.
Context `{TimeFormat, TimeParse, !TimeLaws}.
Implicit Types (c acc : http.Cookie) (q key v : string).

Lemma Join_attr_text q qs :
  strings.Join (q :: qs) ";" = q +:+ attr_text qs.
Proof.
  revert q. induction qs as [|r qs IH]; intros q.
  - cbn. by rewrite string_app_nil_r.
  - change (strings.Join (q :: r :: qs) ";")
      with (q +:+ String ";" (strings.Join (r :: qs) ";")).
    by rewrite IH.
Qed.

Lemma attr_text_app qs rs :
  attr_text (qs ++ rs) = attr_text qs +:+ attr_text rs.
Proof.
  induction qs as [|q qs IH]; [done|]. unfold attr_text in *.
  cbn [app foldr]. rewrite IH.
  change (String ";" ?x +:+ ?y) with (String ";" (x +:+ y)).
  by rewrite string_app_assoc.
Qed.

(** The line of a cookie is its pair and its attributes, joined by
    semicolons. *)
Lemma Cookie_String_Join c :
  http.Cookie_String c
  = strings.Join (http.cookie_pair c :: attr_parts c) ";".
Proof.
  rewrite Join_attr_text. unfold http.Cookie_String, attr_parts.
  rewrite !attr_text_app. f_equal.
  repeat (f_equal; [by repeat case_match; cbn; rewrite ?string_app_nil_r|]).
  by repeat case_match.
Qed.

(** *** The parts of the line *)

Lemma last_elem_of {A} (l : list A) y : last l = Some y → y ∈ l.
Proof. intros [l' ->]%last_Some. set_solver. Qed.

Lemma plain_value_ok v : Forall plain (to_bytes v) → value_ok v.
Proof.
  intros Hv. split.
  - intros Hin. eapply Forall_forall in Hv; [|done]. by destruct Hv.
  - intros y Hy%last_elem_of. eapply Forall_forall in Hv; [|done].
    by destruct Hv.
Qed.

Lemma cookie_bytes_value_ok v :
  forallb http.isCookieByte (to_bytes v) = true → value_ok v.
Proof.
  intros Hv%forallb_Forall. apply plain_value_ok.
  eapply Forall_impl; [done|]. by intros x [? _]%isCookieByte_spec.
Qed.

Lemma date_byte_spec (x : ascii) :
  gotime.date_byte x = true →
  http.isCookieExpiresByte x = true ∧ x ≠ ";"%char ∧ x ≠ "034"%char.
Proof.
  destruct x as [[] [] [] [] [] [] [] []]; (intros [=] || intros _);
    by vm_compute.
Qed.

Lemma date_value_ok t :
  (gotime.year_0 ≤ t < gotime.year_10000)%Z →
  value_ok (Format t gotime.RFC1123).
Proof.
  intros Ht. split.
  - pose proof (Format_RFC1123_bytes t Ht) as Hb%forallb_Forall.
    intros Hin. eapply Forall_forall in Hb; [|done].
    by apply date_byte_spec in Hb as (_ & ? & _).
  - intros y Hy. destruct (Format_RFC1123_last t Ht) as (y' & Hy' & ?).
    congruence.
Qed.

Lemma digit_cookie_byte (x : ascii) :
  strconv.is_digit x = true → http.isCookieByte x = true.
Proof.
  destruct x as [[] [] [] [] [] [] [] []]; (intros [=] || intros _);
    by vm_compute.
Qed.

Lemma FormatInt_cookie_bytes n :
  (0 ≤ n)%Z →
  forallb http.isCookieByte (to_bytes (strconv.FormatInt n)) = true.
Proof.
  intros Hn. apply forallb_Forall.
  eapply Forall_impl; [by apply FormatInt_nonneg|]. apply digit_cookie_byte.
Qed.

(** A key, an equals sign and a value make a part. *)
Lemma keyed_bytes key v :
  to_bytes (" " +:+ key +:+ "=" +:+ v)
  = " "%char :: to_bytes key ++ "="%char :: to_bytes v.
Proof. by rewrite !to_bytes_app. Qed.

Lemma keyed_ok key v k ks :
  to_bytes key = k :: ks → strings.isSpace k = false →
  ";"%char ∉ k :: ks → value_ok v →
  part_ok (" " +:+ key +:+ "=" +:+ v).
Proof.
  intros Hk Hs Hsemi [Hv Hl]. rewrite <-Hk in Hsemi.
  destruct (last ("="%char :: to_bytes v)) as [y|] eqn:Hy;
    [|by apply last_None in Hy].
  exists (to_bytes key ++ "="%char :: to_bytes v), k, y.
  split_and!; [apply keyed_bytes|by rewrite Hk|by rewrite last_app, Hy|done|
               |set_solver].
  destruct (to_bytes v) as [|z zs] eqn:E; [by injection Hy as <-|].
  apply Hl. rewrite last_cons in Hy.
  destruct (last (z :: zs)) eqn:El; [done|by apply last_None in El].
Qed.

Lemma flag_ok q :
  q ∈ [" HttpOnly"; " Secure"; " Max-Age=0"] → part_ok q.
Proof.
  intros Hq. repeat (apply elem_of_cons in Hq as [->|Hq]);
    [..|by apply elem_of_nil in Hq];
    (eexists _, _, _; split_and!; [reflexivity..|]);
    by apply (bool_decide_unpack _).
Qed.

(** The attributes of a cookie are parts. *)
Lemma attr_parts_ok c : attrs_ok c → Forall part_ok (attr_parts c).
Proof.
  intros (Hp & Hd & He & Hm). unfold attr_parts.
  repeat (apply Forall_app; split);
    repeat case_bool_decide; repeat case_match;
    try apply Forall_nil_2; apply Forall_singleton;
    try (apply flag_ok; set_solver).
  - rewrite sanitizeValue_id by done.
    by apply (keyed_ok "Path" _ "P" (to_bytes "ath"));
      [..|apply cookie_bytes_value_ok];
      first [done|by apply (bool_decide_unpack _)].
  - rewrite sanitizeValue_id by done.
    by apply (keyed_ok "Domain" _ "D" (to_bytes "omain"));
      [..|apply cookie_bytes_value_ok];
      first [done|by apply (bool_decide_unpack _)].
  - apply (keyed_ok "Expires" _ "E" (to_bytes "xpires"));
      [done|done|by apply (bool_decide_unpack _)|].
    apply date_value_ok. split; [|done].
    match goal with Hu : (0 < gotime.Unix _)%Z |- _ => apply Unix_pos in Hu end.
    unfold gotime.year_0. lia.
  - apply (keyed_ok "Max-Age" _ "M" (to_bytes "ax-Age"));
      [done|done|by apply (bool_decide_unpack _)|].
    apply cookie_bytes_value_ok, FormatInt_cookie_bytes. lia.
Qed.

(** The text of parts ends as its last part ends. *)
Lemma last_Join q qs :
  Forall part_ok qs →
  (∃ y, last (to_bytes q) = Some y ∧ strings.isSpace y = false) →
  ∃ y, last (to_bytes (strings.Join (q :: qs) ";")) = Some y
       ∧ strings.isSpace y = false.
Proof.
  intros Hqs. revert q. induction Hqs as [|r qs Hr _ IH]; intros q Hq; [done|].
  change (strings.Join (q :: r :: qs) ";")
    with (q +:+ String ";" (strings.Join (r :: qs) ";")).
  destruct (IH r) as (y & Hy & ?).
  { destruct Hr as (t & x & y & E & _ & Hy & _ & ? & _). exists y.
    by rewrite E, last_cons, Hy. }
  exists y. rewrite to_bytes_app.
  change (to_bytes (String ";" ?t)) with (";"%char :: to_bytes t).
  by rewrite last_app, last_cons, Hy.
Qed.

(** The parts a client cuts the line of a cookie into are its pair and
    its attributes. *)
Lemma Split_Cookie_String c :
  cookie_ok c → attrs_ok c →
  strings.Split (strings.TrimSpace (http.Cookie_String c)) ";"
  = http.cookie_pair c :: attr_parts c.
Proof.
  intros Hc Ha. pose proof (attr_parts_ok c Ha) as Hp.
  destruct (cookie_pair_ends c Hc) as (x & y & Hx & Hy & ? & ?).
  rewrite Cookie_String_Join.
  destruct (last_Join (http.cookie_pair c) (attr_parts c) Hp) as (z & Hz & ?);
    [by exists y|].
  rewrite <-(of_to_bytes (strings.Join _ _)).
  rewrite (TrimSpace_ends _ x z), of_to_bytes; [|..|done|done|done].
  - apply Split_of_Join. apply Forall_cons. split.
    + intros Hin. pose proof (cookie_pair_plain c Hc) as Hpl.
      eapply Forall_forall in Hpl; [|done]. by destruct Hpl.
    + eapply Forall_impl; [done|].
      intros q (t & ? & ? & -> & _ & _ & _ & _ & ?).
      by apply not_elem_of_cons.
  - rewrite Join_bytes. by destruct (to_bytes (http.cookie_pair c)).
Qed.

(** *** One attribute *)

(** A part with a key and a value is cut into the two. *)
Lemma read_attr_keyed acc key v k ks :
  to_bytes key = k :: ks → strings.isSpace k = false →
  ";"%char ∉ k :: ks → "="%char ∉ k :: ks → value_ok v →
  http.read_attr acc (" " +:+ key +:+ "=" +:+ v)
  = http.set_attr acc (key +:+ "=" +:+ v) key v.
Proof.
  intros Hk Hs Hsemi Heq Hv.
  destruct (keyed_ok key v k ks Hk Hs Hsemi Hv)
    as (t & x & y & Ht & Hx & Hy & ? & ? & _).
  assert (of_bytes t = key +:+ "=" +:+ v) as Et.
  { rewrite keyed_bytes in Ht. injection Ht as <-.
    rewrite of_bytes_app, of_to_bytes.
    change (of_bytes ("="%char :: ?l)) with (String "=" (of_bytes l)).
    by rewrite of_to_bytes. }
  unfold http.read_attr.
  rewrite <-(of_to_bytes (" " +:+ _)), Ht, (TrimSpace_space t x y) by done.
  rewrite Et, bool_decide_eq_false_2
    by (intros E%(f_equal to_bytes); rewrite to_bytes_app, Hk in E; done).
  rewrite to_bytes_app. change (to_bytes ("=" +:+ v)) with ("="%char :: to_bytes v).
  rewrite cut_app by (by rewrite Hk). by rewrite !of_to_bytes.
Qed.

(** The switch, key by key. *)
Lemma set_attr_Path acc part v :
  http.parseCookieValue v = Some v →
  http.set_attr acc part "Path" v = http.with_Path v acc.
Proof.
  intros Hv. unfold http.set_attr. change (http.ToLower "Path") with "path".
  rewrite Hv. by repeat (case_bool_decide; try done).
Qed.

Lemma set_attr_Domain acc part v :
  http.parseCookieValue v = Some v →
  http.set_attr acc part "Domain" v = http.with_Domain v acc.
Proof.
  intros Hv. unfold http.set_attr. change (http.ToLower "Domain") with "domain".
  rewrite Hv. by repeat (case_bool_decide; try done).
Qed.

Lemma set_attr_MaxAge acc part n :
  (0 < n ≤ gotime.MaxInt64)%Z →
  http.set_attr acc part "Max-Age" (strconv.FormatInt n)
  = http.with_MaxAge n acc.
Proof.
  intros Hn. unfold http.set_attr.
  change (http.ToLower "Max-Age") with "max-age".
  rewrite bool_decide_eq_false_2 by done.
  rewrite parseCookieValue_ok by (apply FormatInt_cookie_bytes; lia).
  rewrite ParseInt_FormatInt by (unfold gotime.MaxInt64 in Hn; lia).
  rewrite (bool_decide_eq_false_2 (head _ = _))
    by (apply FormatInt_head_pos; lia).
  rewrite andb_false_r, (proj2 (Z.leb_gt n 0)) by lia.
  by repeat (case_bool_decide; try done).
Qed.

Lemma unquoteCookieValue_unquoted v :
  head (to_bytes v) ≠ Some "034"%char → http.unquoteCookieValue v = v.
Proof.
  unfold http.unquoteCookieValue. destruct (to_bytes v) as [|x t]; [done|].
  cbn [head]. intros Hx. by rewrite bool_decide_eq_false_2 by congruence.
Qed.

Lemma parseCookieExpiresValue_date t :
  (gotime.year_0 ≤ t < gotime.year_10000)%Z →
  http.parseCookieExpiresValue (Format t gotime.RFC1123)
  = Some (Format t gotime.RFC1123).
Proof.
  intros Ht. pose proof (Format_RFC1123_bytes t Ht) as Hb%forallb_Forall.
  unfold http.parseCookieExpiresValue.
  rewrite unquoteCookieValue_unquoted.
  - replace (forallb _ _) with true; [done|]. symmetry.
    apply forallb_Forall. eapply Forall_impl; [done|].
    by intros x [? _]%date_byte_spec.
  - destruct (to_bytes (Format t gotime.RFC1123)) as [|x xs]; [done|].
    apply Forall_cons in Hb as [(_ & _ & ?)%date_byte_spec _]. cbn. congruence.
Qed.

Lemma set_attr_Expires acc part t :
  (gotime.year_0 ≤ t < gotime.year_10000)%Z →
  http.set_attr acc part "Expires" (Format t gotime.RFC1123)
  = http.with_Expires (Format t gotime.RFC1123) (gotime.floor_sec t) acc.
Proof.
  intros Ht. unfold http.set_attr.
  change (http.ToLower "Expires") with "expires".
  rewrite bool_decide_eq_true_2, parseCookieExpiresValue_date by done.
  rewrite Parse_Format_RFC1123 by done.
  by repeat (case_bool_decide; try done).
Qed.

(** *** The attributes, in the order of the line *)

(** The parts of one attribute, read into a cookie that does not have
    the attribute yet. *)
Lemma opt_Path acc p :
  forallb http.isCookieByte (to_bytes p) = true → http.Path acc = "" →
  foldl http.read_attr acc
    (if p != "" then [" Path=" +:+ http.sanitizeValue p] else [])
  = http.with_Path p acc.
Proof.
  intros Hp Ha. destruct (decide (p = "")) as [->|Hne].
  - destruct acc. by simplify_eq/=.
  - rewrite bool_decide_eq_false_2 by done. cbn [negb foldl].
    rewrite sanitizeValue_id by done.
    change (" Path=" +:+ ?v) with (" " +:+ "Path" +:+ "=" +:+ v).
    rewrite (read_attr_keyed acc "Path" p "P" (to_bytes "ath"));
      [by rewrite set_attr_Path by (by apply parseCookieValue_ok)|..];
      first [done|by apply (bool_decide_unpack _)
            |by apply cookie_bytes_value_ok].
Qed.

Lemma opt_Domain acc d :
  forallb http.isCookieByte (to_bytes d) = true → http.Domain acc = "" →
  foldl http.read_attr acc
    (if d != "" then [" Domain=" +:+ http.sanitizeValue d] else [])
  = http.with_Domain d acc.
Proof.
  intros Hd Ha. destruct (decide (d = "")) as [->|Hne].
  - destruct acc. by simplify_eq/=.
  - rewrite bool_decide_eq_false_2 by done. cbn [negb foldl].
    rewrite sanitizeValue_id by done.
    change (" Domain=" +:+ ?v) with (" " +:+ "Domain" +:+ "=" +:+ v).
    rewrite (read_attr_keyed acc "Domain" d "D" (to_bytes "omain"));
      [by rewrite set_attr_Domain by (by apply parseCookieValue_ok)|..];
      first [done|by apply (bool_decide_unpack _)
            |by apply cookie_bytes_value_ok].
Qed.

Lemma opt_Expires acc t :
  (t < gotime.year_10000)%Z →
  http.Expires acc = gotime.zero → http.RawExpires acc = "" →
  let dated := bool_decide (0 < gotime.Unix t)%Z in
  foldl http.read_attr acc
    (if dated then [" Expires=" +:+ Format t gotime.RFC1123] else [])
  = http.with_Expires (if dated then Format t gotime.RFC1123 else "")
      (if dated then gotime.floor_sec t else gotime.zero) acc.
Proof.
  intros Ht He Hr dated. subst dated. case_bool_decide as Hu.
  - assert (gotime.year_0 ≤ t < gotime.year_10000)%Z
      by (apply Unix_pos in Hu; unfold gotime.year_0; lia).
    cbn [foldl].
    change (" Expires=" +:+ ?v) with (" " +:+ "Expires" +:+ "=" +:+ v).
    rewrite (read_attr_keyed acc "Expires" _ "E" (to_bytes "xpires"));
      [by rewrite set_attr_Expires|..];
      first [done|by apply (bool_decide_unpack _)|by apply date_value_ok].
  - destruct acc. by simplify_eq/=.
Qed.

Lemma opt_MaxAge acc n :
  (n ≤ gotime.MaxInt64)%Z → http.MaxAge acc = 0%Z →
  foldl http.read_attr acc
    (if bool_decide (0 < n)%Z then [" Max-Age=" +:+ strconv.FormatInt n]
     else if bool_decide (n < 0)%Z then [" Max-Age=0"] else [])
  = http.with_MaxAge (if bool_decide (n < 0)%Z then (-1)%Z else n) acc.
Proof.
  intros Hn Ha. repeat case_bool_decide; try lia.
  - cbn [foldl].
    change (" Max-Age=" +:+ ?v) with (" " +:+ "Max-Age" +:+ "=" +:+ v).
    rewrite (read_attr_keyed acc "Max-Age" _ "M" (to_bytes "ax-Age"));
      [by rewrite set_attr_MaxAge by lia|..];
      try first [done|by apply (bool_decide_unpack _)].
    apply cookie_bytes_value_ok, FormatInt_cookie_bytes. lia.
  - by vm_compute.
  - assert (n = 0%Z) as -> by lia. destruct acc. by simplify_eq/=.
Qed.

Lemma opt_flags acc (httponly secure : bool) :
  http.HttpOnly acc = false → http.Secure acc = false →
  foldl http.read_attr
    (foldl http.read_attr acc (if httponly then [" HttpOnly"] else []))
    (if secure then [" Secure"] else [])
  = http.mkCookie (http.Name acc) (http.Value acc) (http.Path acc)
      (http.Domain acc) (http.Expires acc) (http.RawExpires acc)
      (http.MaxAge acc) secure httponly (http.Raw acc) (http.Unparsed acc).
Proof.
  intros Hh Hs. destruct acc. simplify_eq/=.
  by destruct httponly, secure; vm_compute.
Qed.

(** A client reads a cookie off its Set-Cookie line with every
    attribute the server printed. *)
Lemma read_set_cookie_attrs c :
  cookie_ok c → attrs_ok c →
  http.read_set_cookie (http.Cookie_String c) = Some (as_received c).
Proof.
  intros Hc Ha. destruct (Cookie_String_attrs c) as (attrs & E & Hl).
  pose proof (read_set_cookie_pair c attrs Hc Hl) as Hr. cbn zeta in Hr.
  rewrite <-E in Hr. rewrite Hr, Split_Cookie_String by done.
  destruct Ha as (Hp & Hd & He & Hm).
  cbn [tail]. f_equal. unfold attr_parts. rewrite !foldl_app.
  rewrite opt_Path, opt_Domain, opt_Expires, opt_MaxAge, opt_flags by done.
  by destruct c.
Qed.

Lemma read_back_attrs c :
  cookie_ok c → attrs_ok c → read_back c = as_received c.
Proof.
  intros Hc Ha. unfold read_back. by rewrite read_set_cookie_attrs.
Qed.

End attributes.

(** A Set-Cookie line as a client reads it, with the date of the first
    layout and of the second; attributes the reader does not know or
    cannot read, which it keeps apart; and a line with a semicolon in
    the value: the server has replaced it by a space, and the client
    drops the cookie. *)
Example read_set_cookie_samples :
  @http.read_set_cookie utc_parse
    "_csrf=abc; Path=/; Expires=Fri, 02 Jan 1970 00:16:40 UTC; Secure"
    = Some (http.mkCookie "_csrf" "abc" "/" "" 87400000000000
              "Fri, 02 Jan 1970 00:16:40 UTC" 0 true false
              "_csrf=abc; Path=/; Expires=Fri, 02 Jan 1970 00:16:40 UTC; Secure"
              []) ∧
  @http.read_set_cookie utc_parse
    "a=b; path=/x; Max-Age=60; HttpOnly; SameSite=Lax; Expires=Fri, 02-Jan-1970 00:16:40 GMT"
    = Some (http.mkCookie "a" "b" "/x" "" 87400000000000
              "Fri, 02-Jan-1970 00:16:40 GMT" 60 false true
              "a=b; path=/x; Max-Age=60; HttpOnly; SameSite=Lax; Expires=Fri, 02-Jan-1970 00:16:40 GMT"
              ["SameSite=Lax"]) ∧
  @http.read_set_cookie utc_parse
    "a=b; Max-Age=007; Expires=tomorrow; Max-Age=-5;; Path=a b"
    = Some (http.mkCookie "a" "b" "" "" gotime.zero "tomorrow" (-1) false
              false "a=b; Max-Age=007; Expires=tomorrow; Max-Age=-5;; Path=a b"
              ["Max-Age=007"; "Expires=tomorrow"; "Path=a b"]) ∧
  http.cookie_pair (http.request_cookie ("a", "b;c")) = "a=b c" ∧
  @http.read_set_cookie utc_parse "a=b c; Path=/" = None ∧
  @http.read_set_cookie utc_parse "Path=/"
    = Some (http.mkCookie "Path" "/" "" "" gotime.zero "" 0 false false
              "Path=/" []) ∧
  @http.read_set_cookie utc_parse "; Path=/" = None.
Proof. by vm_compute. Qed.
