(* ===== verification/Runtime.v ===== *)
(** * What a handler runs in

    A martini handler receives the session, the context, the request and
    the response writer, reads the clock, and allocates and mutates
    objects.  The [World] holds what it can change:

    - [clock] and [reads]: the readings of [time.Now()], an oracle from
      the number of readings so far to the instant read, in nanoseconds;
    - [heap]: the objects allocated with [&T{...}], addressed by their
      index; a pointer is a [nat], a pointer out of the heap is dangling;
    - [binding]: the pointer the martini context maps the interface
      [Csrf] to, [None] before [c.MapTo] is called;
    - [resp]: the response writer.

    A computation [M A] takes a world to a result and a new world, or
    panics.  [sessions] models the session as a map to dynamic values,
    read with [Get] and written with [Set_].  [runtime.wf] is the
    invariant of a world: the context binds a pointer of the heap and the
    response is well formed.

    Worlds are compared up to the readings the clock has already given
    ([≡] on [World] and [Res]); a computation is [Forgetful] when it takes
    equivalent worlds to equivalent results, which the operations of the
    monad are and [bind] preserves. *)

From S2P Require Import Prelude GoTime NetHttp.

(** ** Definitions *)

Section world.
Context {T : Type}.

Record World : Type := mkWorld {
  clock : nat → Z;
  reads : nat;
  heap : list T;
  binding : option nat;
  resp : http.ResponseWriter
}.

Inductive Res (A : Type) : Type :=
| Ok (a : A) (σ : World)
| Panic (msg : string).

Definition M (A : Type) : Type := World → Res A.

End world.

Arguments World : clear implicits.
Arguments Res : clear implicits.
Arguments M : clear implicits.
Arguments Ok {T A} a σ.
Arguments Panic {T A} msg.

#[export] Instance M_ret {T} : MRet (M T) := λ A a σ, Ok a σ.

#[export] Instance M_bind {T} : MBind (M T) := λ A B f m σ,
  match m σ with
  | Ok a σ' => f a σ'
  | Panic msg => Panic msg
  end.

(** Two worlds are equivalent when they differ at most in the readings
    the clock has already given; two results, when they are the same
    value in equivalent worlds or the same panic. *)
#[export] Instance World_equiv {T} : Equiv (World T) := λ σ1 σ2,
  reads σ1 = reads σ2 ∧ heap σ1 = heap σ2 ∧ binding σ1 = binding σ2 ∧
  resp σ1 = resp σ2 ∧ ∀ n, reads σ1 ≤ n → clock σ1 n = clock σ2 n.

Inductive Res_equiv {T A} : Equiv (Res T A) :=
| Ok_equiv a σ1 σ2 : σ1 ≡ σ2 → Ok a σ1 ≡ Ok a σ2
| Panic_equiv msg : Panic msg ≡ Panic msg.

#[export] Existing Instance Res_equiv.

(** A computation that does not depend on the past of the clock. *)
Abbreviation Forgetful m := (Proper ((≡) ==> (≡)) m).

Module runtime.

Section ops.
Context {T : Type}.

(** [panic(msg)]. *)
Definition panic {A} (msg : string) : M T A := λ _, Panic msg.

(** [time.Now()]: the next reading of the clock. *)
Definition Now : M T Z := λ σ,
  Ok (clock σ (reads σ))
     (mkWorld (clock σ) (S (reads σ)) (heap σ) (binding σ) (resp σ)).

(** [&T{...}]: a new object, at the end of the heap. *)
Definition alloc (v : T) : M T nat := λ σ,
  Ok (length (heap σ))
     (mkWorld (clock σ) (reads σ) (heap σ ++ [v]) (binding σ) (resp σ)).

(** [*p]. *)
Definition load (p : nat) : M T T := λ σ,
  match heap σ !! p with
  | Some v => Ok v σ
  | None => Panic "invalid memory address or nil pointer dereference"
  end.

(** [p.f = x], as the update [upd] of the object. *)
Definition store (p : nat) (upd : T → T) : M T unit := λ σ,
  match heap σ !! p with
  | Some v =>
      Ok tt (mkWorld (clock σ) (reads σ) (<[p := upd v]> (heap σ))
               (binding σ) (resp σ))
  | None => Panic "invalid memory address or nil pointer dereference"
  end.

(** [c.MapTo(p, ...)] for the interface [Csrf]: the context maps the
    interface to the pointer. *)
Definition MapTo (p : nat) : M T unit := λ σ,
  Ok tt (mkWorld (clock σ) (reads σ) (heap σ) (Some p) (resp σ)).

(** The value martini injects for an argument of type [Csrf]. *)
Definition Injected : M T nat := λ σ,
  match binding σ with
  | Some p => Ok p σ
  | None => Panic "Value not found for type csrf.Csrf"
  end.

(** An operation on the response writer [w]. *)
Definition on_w (f : http.ResponseWriter → http.ResponseWriter) :
    M T unit := λ σ,
  Ok tt (mkWorld (clock σ) (reads σ) (heap σ) (binding σ) (f (resp σ))).

(** The world a request starts in: nothing bound, nothing written. *)
Definition request_world (clk : nat → Z) (n : nat) (h : list T) : World T :=
  mkWorld clk n h None http.new_ResponseWriter.

(** The invariant of a world: the context binds a pointer of the heap,
    and the response is well formed. *)
Definition wf (σ : World T) : Prop :=
  (∀ p, binding σ = Some p → p < length (heap σ)) ∧ http.wf (resp σ).

(** Total correctness: from [σ] the computation [m] returns, without a
    panic, a result and a world that satisfy [Q]. *)
Definition wp {A} (m : M T A) (σ : World T) (Q : A → World T → Prop) : Prop :=
  match m σ with
  | Ok a σ' => Q a σ'
  | Panic _ => False
  end.

End ops.

End runtime.

Module sessions.

(** A value of type [interface{}], by its dynamic type. *)
Inductive any : Type :=
| nil
| of_string (s : string)
| of_int (n : Z)
| of_bool (b : bool)
| of_bytes (b : list ascii).

(** [s.Get(key)]: [nil] when the session has no such key. *)
Definition Get (s : gmap string any) (key : string) : any :=
  default nil (s !! key).

(** [s.Set(key, val)]. *)
Definition Set_ (s : gmap string any) (key : string) (v : any) :
    gmap string any :=
  <[key := v]> s.

End sessions.

(** The session of a request. *)
Abbreviation Session := (gmap string sessions.any).

(** ** The monad *)

Section monad.
Context {T : Type}.
Implicit Types (σ : World T).

Lemma run_ret {A} (a : A) σ : mret (M := M T) a σ = Ok a σ.
Proof. done. Qed.

Lemma run_bind {A B} (m : M T A) (f : A → M T B) σ :
  (m ≫= f) σ = match m σ with Ok a σ' => f a σ' | Panic msg => Panic msg end.
Proof. done. Qed.

Lemma run_bind_Ok {A B} (m : M T A) (f : A → M T B) σ a σ' :
  m σ = Ok a σ' → (m ≫= f) σ = f a σ'.
Proof. intros E. by rewrite run_bind, E. Qed.

Lemma run_bind_Panic {A B} (m : M T A) (f : A → M T B) σ msg :
  m σ = Panic msg → (m ≫= f) σ = Panic msg.
Proof. intros E. by rewrite run_bind, E. Qed.

(** The laws of a monad, pointwise. *)
Lemma M_left_id {A B} (a : A) (f : A → M T B) σ : (mret a ≫= f) σ = f a σ.
Proof. done. Qed.

Lemma M_right_id {A} (m : M T A) σ : (m ≫= mret) σ = m σ.
Proof. rewrite run_bind. by destruct (m σ). Qed.

Lemma M_assoc {A B C} (m : M T A) (f : A → M T B) (g : B → M T C) σ :
  ((m ≫= f) ≫= g) σ = (m ≫= λ a, f a ≫= g) σ.
Proof. rewrite !run_bind. by destruct (m σ). Qed.

(** What [bind] of a successful run is made of. *)
Lemma run_bind_inv {A B} (m : M T A) (f : A → M T B) σ b σ'' :
  (m ≫= f) σ = Ok b σ'' → ∃ a σ', m σ = Ok a σ' ∧ f a σ' = Ok b σ''.
Proof. rewrite run_bind. destruct (m σ); naive_solver. Qed.

End monad.

(** ** Equivalent worlds

    The operations of the monad take equivalent worlds to equivalent
    results, so a handler made of them does not depend on the readings
    of the clock that were made before it runs. *)

Section equiv.
Context {T : Type}.
Implicit Types (σ : World T).

#[export] Instance World_equivalence : Equivalence (≡@{World T}).
Proof.
  split.
  - by intros σ.
  - intros σ1 σ2 (Hr & Hh & Hb & Hw & Hc).
    split_and!; [done..|]. intros n Hn. symmetry. apply Hc. lia.
  - intros σ1 σ2 σ3 (Hr & Hh & Hb & Hw & Hc) (Hr' & Hh' & Hb' & Hw' & Hc').
    split_and!; [congruence..|]. intros n Hn.
    rewrite Hc by done. apply Hc'. lia.
Qed.

#[export] Instance Res_equivalence {A} : Equivalence (≡@{Res T A}).
Proof.
  split.
  - intros [a σ|msg]; by constructor.
  - intros ?? []; by constructor.
  - intros ??? [] H'; inv H'; constructor. by etrans.
Qed.

#[export] Instance ret_forgetful {A} (a : A) : Forgetful (mret (M := M T) a).
Proof. intros σ1 σ2 E. by constructor. Qed.

#[export] Instance bind_forgetful {A B} (m : M T A) (f : A → M T B) :
  Forgetful m → (∀ a, Forgetful (f a)) → Forgetful (m ≫= f).
Proof.
  intros Hm Hf σ1 σ2 E. rewrite !run_bind.
  destruct (Hm σ1 σ2 E); [by apply Hf|by constructor].
Qed.

#[export] Instance panic_forgetful {A} msg :
  Forgetful (runtime.panic (T := T) (A := A) msg).
Proof. intros σ1 σ2 E. by constructor. Qed.

#[export] Instance Now_forgetful : Forgetful (runtime.Now (T := T)).
Proof.
  intros σ1 σ2 (Hr & Hh & Hb & Hw & Hc). unfold runtime.Now.
  rewrite (Hc (reads σ1)), Hr by done. constructor.
  split_and!; cbn; [done..|]. intros n Hn. apply Hc. lia.
Qed.

#[export] Instance alloc_forgetful v : Forgetful (runtime.alloc (T := T) v).
Proof.
  intros σ1 σ2 (Hr & Hh & Hb & Hw & Hc). unfold runtime.alloc.
  rewrite Hh. constructor. by split_and!; cbn; [..|congruence|].
Qed.

#[export] Instance load_forgetful p : Forgetful (runtime.load (T := T) p).
Proof.
  intros σ1 σ2 E. pose proof E as (Hr & Hh & Hb & Hw & Hc).
  unfold runtime.load. rewrite Hh. destruct (_ !! _); by constructor.
Qed.

#[export] Instance store_forgetful p upd :
  Forgetful (runtime.store (T := T) p upd).
Proof.
  intros σ1 σ2 (Hr & Hh & Hb & Hw & Hc). unfold runtime.store.
  rewrite Hh. destruct (_ !! _); constructor.
  by split_and!; cbn; [..|congruence|].
Qed.

#[export] Instance MapTo_forgetful p : Forgetful (runtime.MapTo (T := T) p).
Proof.
  intros σ1 σ2 (Hr & Hh & Hb & Hw & Hc). constructor. by split_and!.
Qed.

#[export] Instance Injected_forgetful : Forgetful (runtime.Injected (T := T)).
Proof.
  intros σ1 σ2 E. pose proof E as (Hr & Hh & Hb & Hw & Hc).
  unfold runtime.Injected. rewrite Hb. destruct (binding σ2); by constructor.
Qed.

#[export] Instance on_w_forgetful f : Forgetful (runtime.on_w (T := T) f).
Proof.
  intros σ1 σ2 (Hr & Hh & Hb & Hw & Hc). constructor.
  by split_and!; cbn; [..|congruence|].
Qed.

(** What holds after a run holds after the run from an equivalent world,
    when it does not tell equivalent worlds apart. *)
Lemma wp_equiv {A} (m : M T A) σ1 σ2 (Q : A → World T → Prop) :
  Forgetful m → σ1 ≡ σ2 → (∀ a, Proper ((≡) ==> iff) (Q a)) →
  runtime.wp m σ1 Q ↔ runtime.wp m σ2 Q.
Proof.
  intros Hm E HQ. unfold runtime.wp.
  destruct (Hm σ1 σ2 E) as [a σ1' σ2' E'|]; [by apply HQ|done].
Qed.

(** The past of the clock can be replaced by any other. *)
Lemma clock_past_equiv σ clk :
  (∀ n, reads σ ≤ n → clock σ n = clk n) →
  σ ≡ mkWorld clk (reads σ) (heap σ) (binding σ) (resp σ).
Proof. intros Hc. by split_and!. Qed.

End equiv.

(** Computations made of forgetful parts, by cases on what they branch
    on. *)
Ltac solve_forgetful :=
  repeat first
    [ progress intros
    | by apply _
    | match goal with
      | |- Proper _ (if ?b then _ else _) => destruct b
      | |- Proper _ (match ?x with _ => _ end) => destruct x
      | |- Proper _ (let '(_, _) := ?x in _) => destruct x
      end
    | apply bind_forgetful ].

(** ** Total correctness *)

Section wp.
Context {T : Type}.
Implicit Types (σ : World T).

Lemma wp_Ok {A} (m : M T A) σ a σ' (Q : A → World T → Prop) :
  m σ = Ok a σ' → Q a σ' → runtime.wp m σ Q.
Proof. intros E HQ. unfold runtime.wp. by rewrite E. Qed.

Lemma wp_inv {A} (m : M T A) σ (Q : A → World T → Prop) :
  runtime.wp m σ Q → ∃ a σ', m σ = Ok a σ' ∧ Q a σ'.
Proof. unfold runtime.wp. destruct (m σ); naive_solver. Qed.

Lemma wp_ret {A} (a : A) σ (Q : A → World T → Prop) :
  Q a σ → runtime.wp (mret a) σ Q.
Proof. done. Qed.

Lemma wp_bind {A B} (m : M T A) (f : A → M T B) σ (Q : B → World T → Prop) :
  runtime.wp m σ (λ a σ', runtime.wp (f a) σ' Q) → runtime.wp (m ≫= f) σ Q.
Proof. unfold runtime.wp. rewrite run_bind. by destruct (m σ). Qed.

Lemma wp_mono {A} (m : M T A) σ (P Q : A → World T → Prop) :
  (∀ a σ', P a σ' → Q a σ') → runtime.wp m σ P → runtime.wp m σ Q.
Proof. unfold runtime.wp. destruct (m σ); eauto. Qed.

Lemma wp_Panic {A} (m : M T A) σ msg (Q : A → World T → Prop) :
  m σ = Panic msg → ¬ runtime.wp m σ Q.
Proof. intros E. unfold runtime.wp. rewrite E. tauto. Qed.

End wp.

(** ** Pointers *)

Section heap.
Context {T : Type}.
Implicit Types (σ : World T) (v : T) (p : nat).

Lemma run_alloc v σ :
  runtime.alloc v σ =
  Ok (length (heap σ))
     (mkWorld (clock σ) (reads σ) (heap σ ++ [v]) (binding σ) (resp σ)).
Proof. done. Qed.

Lemma run_load σ p v : heap σ !! p = Some v → runtime.load p σ = Ok v σ.
Proof. intros E. unfold runtime.load. by rewrite E. Qed.

Lemma run_load_dangling σ p :
  length (heap σ) ≤ p → ∃ msg, runtime.load p σ = Panic msg.
Proof.
  intros H. unfold runtime.load. rewrite lookup_ge_None_2 by done. eauto.
Qed.

Lemma run_store σ p v upd :
  heap σ !! p = Some v →
  runtime.store p upd σ =
  Ok tt (mkWorld (clock σ) (reads σ) (<[p := upd v]> (heap σ))
           (binding σ) (resp σ)).
Proof. intros E. unfold runtime.store. by rewrite E. Qed.

(** A new object is read back, and does not move the others. *)
Lemma lookup_alloc_new (h : list T) v : (h ++ [v]) !! length h = Some v.
Proof. by rewrite lookup_app_r, Nat.sub_diag. Qed.

Lemma lookup_alloc_old (h : list T) v p :
  p < length h → (h ++ [v]) !! p = h !! p.
Proof. intros. by rewrite lookup_app_l. Qed.

Lemma insert_alloc_new (h : list T) v v' :
  <[length h := v']> (h ++ [v]) = h ++ [v'].
Proof.
  rewrite insert_app_r_alt, Nat.sub_diag by done. done.
Qed.

End heap.

#[export] Hint Rewrite @lookup_alloc_new @insert_alloc_new : go.

(** ** The invariant of the world *)

Section wf.
Context {T : Type}.
Implicit Types (σ : World T).

Lemma request_world_wf clk n (h : list T) :
  runtime.wf (runtime.request_world clk n h).
Proof. split; [done|apply new_ResponseWriter_wf]. Qed.

(** In a well-formed world the injected pointer can be dereferenced. *)
Lemma wf_Injected_load σ p :
  runtime.wf σ → binding σ = Some p → is_Some (heap σ !! p).
Proof. intros [Hb _] E. by apply lookup_lt_is_Some, Hb. Qed.

Lemma on_w_wf σ f :
  (∀ w, http.wf w → http.wf (f w)) → runtime.wf σ →
  runtime.wp (runtime.on_w f) σ (λ _ σ', runtime.wf σ').
Proof. intros Hf [Hb Hw]. split; [done|by apply Hf]. Qed.

End wf.

(** ** Sessions *)

Lemma sessions_Get_Some (s : Session) key v :
  s !! key = Some v → sessions.Get s key = v.
Proof. intros E. unfold sessions.Get. by rewrite E. Qed.

Lemma sessions_Get_Set (s : Session) key v :
  sessions.Get (sessions.Set_ s key v) key = v.
Proof. unfold sessions.Get, sessions.Set_. by rewrite lookup_insert_eq. Qed.

Lemma sessions_Get_Set_ne (s : Session) key key' v :
  key ≠ key' → sessions.Get (sessions.Set_ s key v) key' = sessions.Get s key'.
Proof.
  intros. unfold sessions.Get, sessions.Set_. by rewrite lookup_insert_ne.
Qed.

Lemma sessions_Get_None (s : Session) key :
  s !! key = None → sessions.Get s key = sessions.nil.
Proof. intros E. unfold sessions.Get. by rewrite E. Qed.
