(* ===== verification/Xsrftoken.v ===== *)
(** * The token library

    src/csrf.go calls [xsrftoken.Generate(key, userID, actionID)] (line
    140) and [xsrftoken.Valid(token, key, userID, actionID)] (line 98) of
    a package that is not part of the repository.  The middleware is
    verified against the interface [TokenCodec]: [derive] and [verify]
    with the instant as an argument, and the laws [TokenCodecLaws] the
    specification states for them.

    - A token verifies exactly when it is [derive]d from the same key,
      subject and action at an instant of the validity window: not older
      than [Timeout] (24 hours), and at most one minute in the future.
    - The instant of a token can be read off it.
    - [TokenCodecBinding]: tokens of two subjects differ when the normal
      forms of the subjects do, and a subject has the tokens of its normal
      form.
    - [TokenCodecText]: a token is not empty, and it is made of bytes a
      cookie carries.

    [xsrftoken.Generate] and [xsrftoken.Valid] read the clock and call
    the codec.  The second half of the file is a model of the library over
    an abstract MAC: the message is the subject and the action, cleaned
    of colons ([clean]), and the instant in decimal, with colons between
    them; the token is the URL encoding of the MAC, a colon and the
    instant.  To verify a token the library decodes it, reads the instant
    after the last colon, checks the window and compares the token with
    the one it derives for that instant.  The model satisfies the laws
    whatever the MAC is, and binds a token to its subject up to colons
    when the MAC has no collisions: the subjects [a:b] and [a_b] have the
    same tokens. *)

From S2P Require Import Prelude GoStrings Base64 GoTime NetHttp Runtime.

(** ** Definitions *)

(** The interface of the token library: [derive key subject action now]
    and [verify token key subject action now]. *)
Class TokenCodec : Type := {
  derive : string → string → string → Z → string;
  verify : string → string → string → string → Z → bool
}.

Module xsrftoken.

Local Open Scope Z_scope.

(** The duration a token is valid for, and the grace given to a token
    that comes from a clock ahead of the verifier's. *)
Definition Timeout : Z := 24 * gotime.Hour.
Definition Grace : Z := 1 * gotime.Minute.

(** The validity window of a token issued at [issue], seen at [now]. *)
Definition in_window (issue now : Z) : bool :=
  negb (bool_decide (Timeout ≤ gotime.Sub now issue))
  && negb (gotime.After issue (gotime.Add now Grace)).

(** [xsrftoken.Generate(key, userID, actionID)]. *)
Definition Generate `{TokenCodec} {T} (key userID actionID : string) :
    M T string :=
  now ← runtime.Now; mret (derive key userID actionID now).

(** [xsrftoken.Valid(token, key, userID, actionID)]. *)
Definition Valid `{TokenCodec} {T} (token key userID actionID : string) :
    M T bool :=
  now ← runtime.Now; mret (verify token key userID actionID now).

(** *** A model of the library *)

(** The bytes after the last [sep] of [s], if [sep] occurs. *)
Fixpoint after_last (sep : ascii) (s : list ascii) : option (list ascii) :=
  match s with
  | [] => None
  | c :: s' =>
      match after_last sep s' with
      | Some t => Some t
      | None => if decide (c = sep) then Some s' else None
      end
  end.

(** The bytes before the last [sep] of [s], if [sep] occurs. *)
Fixpoint before_last (sep : ascii) (s : list ascii) : option (list ascii) :=
  match s with
  | [] => None
  | c :: s' =>
      match before_last sep s' with
      | Some t => Some (c :: t)
      | None => if decide (c = sep) then Some [] else None
      end
  end.

(** The MAC a token carries: what its text has before the last colon,
    where the library cuts the instant off. *)
Definition tag_of (token : string) : option string :=
  data ← base64.DecodeString token;
  of_bytes <$> before_last ":"%char (to_bytes data).

(** [clean(s)], which is [strings.Replace(s, ":", "_", -1)]: the
    separator of the message does not occur in its fields. *)
Definition clean_byte (c : ascii) : ascii :=
  if decide (c = ":"%char) then "_"%char else c.

Definition clean (s : string) : string := of_bytes (clean_byte <$> to_bytes s).

Section model.
Context (mac : string → string → string).

(** The message the MAC is computed on: [fmt.Fprintf(h, "%s:%s:%d",
    clean(userID), clean(actionID), now.UnixNano())]. *)
Definition message (userID actionID : string) (now : Z) : string :=
  clean userID +:+ ":" +:+ clean actionID +:+ ":" +:+ strconv.FormatInt now.

(** The token: the MAC, a colon and the instant, in the URL encoding. *)
Definition generateAtTime (key userID actionID : string) (now : Z) : string :=
  base64.EncodeToString
    (mac key (message userID actionID now) +:+ ":" +:+ strconv.FormatInt now).

Definition validAtTime (token key userID actionID : string) (now : Z) : bool :=
  match base64.DecodeString token with
  | None => false
  | Some data =>
      match after_last ":"%char (to_bytes data) with
      | None => false
      | Some digits =>
          match strconv.ParseInt (of_bytes digits) with
          | None => false
          | Some nanos =>
              if bool_decide (Timeout ≤ gotime.Sub now nanos) then false
              else if gotime.After nanos (gotime.Add now Grace) then false
              else token == generateAtTime key userID actionID nanos
          end
      end
  end.

End model.

End xsrftoken.

(** The model of the library as a codec. *)
Definition model_codec (mac : string → string → string) : TokenCodec := {|
  derive := xsrftoken.generateAtTime mac;
  verify := xsrftoken.validAtTime mac
|}.

(** A codec to run the model with: the library over a MAC that shows its
    arguments, enough to evaluate the handlers on concrete requests. *)
Module toy.

Definition mac (key msg : string) : string := "mac(" +:+ key +:+ "," +:+ msg +:+ ")".

Definition codec : TokenCodec := model_codec mac.

End toy.

(** The laws of a codec. *)
Class TokenCodecLaws `{TokenCodec} : Prop := {
  verify_iff token key subject action now :
    verify token key subject action now = true ↔
    ∃ issue, gotime.is_int64 issue = true ∧
             xsrftoken.in_window issue now = true ∧
             token = derive key subject action issue;
  derive_instant key subject action t t' :
    derive key subject action t = derive key subject action t' → t = t'
}.

(** The binding of a token to its subject, which a MAC without
    collisions gives.  The library reads a subject up to a normal form
    ([clean]): tokens of two subjects whose normal forms differ are
    different, whatever their instants, and a subject has the tokens of
    its normal form. *)
Class TokenCodecBinding `{TokenCodec} (normal : string → string) : Prop := {
  derive_subject key subject subject' action t t' :
    derive key subject action t = derive key subject' action t' →
    normal subject = normal subject';
  derive_normal key subject action t :
    derive key (normal subject) action t = derive key subject action t
}.

(** The text of a token: it is not empty, and it is made of bytes a
    cookie carries as they are. *)
Class TokenCodecText `{TokenCodec} : Prop := {
  derive_nonempty key subject action t : derive key subject action t ≠ "";
  derive_cookie_bytes key subject action t :
    forallb http.isCookieByte (to_bytes (derive key subject action t)) = true
}.

(** ** The library and the past of the clock *)

#[export] Instance xsrftoken_Generate_forgetful `{TokenCodec} {T}
    key userID actionID :
  Forgetful (xsrftoken.Generate (T := T) key userID actionID).
Proof. unfold xsrftoken.Generate. solve_forgetful. Qed.

#[export] Instance xsrftoken_Valid_forgetful `{TokenCodec} {T}
    token key userID actionID :
  Forgetful (xsrftoken.Valid (T := T) token key userID actionID).
Proof. unfold xsrftoken.Valid. solve_forgetful. Qed.

(** ** The window *)

Section window.
Local Open Scope Z_scope.
Implicit Types (issue now : Z).

Lemma in_window_spec issue now :
  xsrftoken.in_window issue now = true ↔
  now - issue < 86400000000000 ∧ issue ≤ now + 60000000000.
Proof.
  unfold xsrftoken.in_window, gotime.Sub, gotime.After, gotime.Add.
  rewrite andb_true_iff, !negb_true_iff, !bool_decide_eq_false.
  change xsrftoken.Timeout with 86400000000000.
  change xsrftoken.Grace with 60000000000. lia.
Qed.

Lemma in_window_now now : xsrftoken.in_window now now = true.
Proof. apply in_window_spec. lia. Qed.

Lemma in_window_expired issue now :
  86400000000000 ≤ now - issue → xsrftoken.in_window issue now = false.
Proof.
  intros. apply not_true_is_false. rewrite in_window_spec. lia.
Qed.

Lemma in_window_future issue now :
  now + 60000000000 < issue → xsrftoken.in_window issue now = false.
Proof.
  intros. apply not_true_is_false. rewrite in_window_spec. lia.
Qed.

End window.

(** ** What the laws give *)

Section laws.
Context `{TokenCodecLaws}.
Implicit Types (key subject action token : string) (issue now : Z).

(** A token verifies within its window. *)
Lemma verify_derive key subject action issue now :
  gotime.is_int64 issue = true → xsrftoken.in_window issue now = true →
  verify (derive key subject action issue) key subject action now = true.
Proof. intros. apply verify_iff. eauto. Qed.

(** Out of its window a token is refused, whatever the key. *)
Lemma verify_derive_out key subject action issue now :
  xsrftoken.in_window issue now = false →
  verify (derive key subject action issue) key subject action now = false.
Proof.
  intros Hw. apply not_true_is_false. intros (t & _ & Ht & E)%verify_iff.
  apply derive_instant in E. congruence.
Qed.

(** A token that verifies is a token of the subject. *)
Lemma verify_derived token key subject action now :
  verify token key subject action now = true →
  ∃ issue, token = derive key subject action issue.
Proof. intros (t & _ & _ & E)%verify_iff. eauto. Qed.

(** Verification depends on the instant through the window only. *)
Lemma verify_window key subject action issue now :
  gotime.is_int64 issue = true →
  verify (derive key subject action issue) key subject action now =
  xsrftoken.in_window issue now.
Proof.
  intros Hi. destruct (xsrftoken.in_window issue now) eqn:Hw.
  - by apply verify_derive.
  - by apply verify_derive_out.
Qed.

(** A token of one subject is refused for another, when their normal
    forms differ; when they agree, the two subjects have the same
    tokens. *)
Lemma verify_other_subject `{!TokenCodecBinding normal} key subject subject'
    action issue now :
  normal subject ≠ normal subject' →
  verify (derive key subject action issue) key subject' action now = false.
Proof.
  intros Hne. apply not_true_is_false. intros (t & _ & _ & E)%verify_iff.
  by apply derive_subject in E.
Qed.

Lemma derive_same_normal `{!TokenCodecBinding normal} key subject subject'
    action t :
  normal subject = normal subject' →
  derive key subject action t = derive key subject' action t.
Proof.
  intros E. by rewrite <-(derive_normal key subject), E, derive_normal.
Qed.

Lemma verify_same_normal `{!TokenCodecBinding normal} key subject subject'
    action issue now :
  gotime.is_int64 issue = true → normal subject = normal subject' →
  verify (derive key subject action issue) key subject' action now =
  xsrftoken.in_window issue now.
Proof.
  intros Hi E. rewrite (derive_same_normal _ _ _ _ _ E).
  by apply verify_window.
Qed.

End laws.

(** ** The model satisfies the laws *)

Section after_last.
Context (sep : ascii).
Implicit Types (s t : list ascii).

Lemma after_last_None s : xsrftoken.after_last sep s = None ↔ sep ∉ s.
Proof.
  induction s as [|c s IH]; cbn; [set_solver|].
  destruct (xsrftoken.after_last sep s) eqn:E.
  - split; [intros [=]|]. intros [_ Hn%IH]%not_elem_of_cons. done.
  - destruct (decide (c = sep)) as [->|]; [split; [intros [=]|set_solver]|].
    split; [|done]. intros _. apply not_elem_of_cons. split; [done|].
    by apply IH.
Qed.

Lemma after_last_app s t :
  sep ∉ t → xsrftoken.after_last sep (s ++ sep :: t) = Some t.
Proof.
  intros Ht. induction s as [|c s IH]; cbn.
  - rewrite (proj2 (after_last_None t) Ht). by rewrite decide_True.
  - by rewrite IH.
Qed.

Lemma before_last_None s :
  sep ∉ s → xsrftoken.before_last sep s = None.
Proof.
  induction s as [|c s IH]; [done|]. intros [Hc Hs]%not_elem_of_cons.
  cbn. rewrite IH by done. by rewrite decide_False.
Qed.

Lemma before_last_app s t :
  sep ∉ t → xsrftoken.before_last sep (s ++ sep :: t) = Some s.
Proof.
  intros Ht. induction s as [|c s IH]; cbn; [|by rewrite IH].
  by rewrite before_last_None, decide_True.
Qed.

Lemma after_last_Some s t :
  xsrftoken.after_last sep s = Some t →
  ∃ s', s = s' ++ sep :: t ∧ sep ∉ t.
Proof.
  revert t. induction s as [|c s IH]; intros t; cbn; [done|].
  destruct (xsrftoken.after_last sep s) as [t'|] eqn:E.
  - intros [= <-]. destruct (IH _ eq_refl) as (s' & -> & Ht').
    by exists (c :: s').
  - case_decide; [|done]. intros [= <-]. subst c. exists [].
    split; [done|]. by apply after_last_None.
Qed.

End after_last.

Section clean.
Implicit Types (s : string).

Lemma clean_no_colon s : ":"%char ∉ to_bytes (xsrftoken.clean s).
Proof.
  unfold xsrftoken.clean. rewrite to_of_bytes, list_elem_of_fmap.
  intros (c & E & _). unfold xsrftoken.clean_byte in E. by case_decide.
Qed.

Lemma clean_id s : ":"%char ∉ to_bytes s → xsrftoken.clean s = s.
Proof.
  intros Hs. apply of_bytes_fmap_id, Forall_forall. intros c Hc.
  unfold xsrftoken.clean_byte. rewrite decide_False; [done|by intros ->].
Qed.

Lemma clean_idemp s : xsrftoken.clean (xsrftoken.clean s) = xsrftoken.clean s.
Proof. apply clean_id, clean_no_colon. Qed.

End clean.

Section model.
Context (mac : string → string → string).
Implicit Types (key subject action token : string) (issue now t : Z).

(** The instant is what follows the last colon of the decoded token. *)
Lemma instant_of_token tag now :
  xsrftoken.after_last ":"%char
    (to_bytes (tag +:+ ":" +:+ strconv.FormatInt now)) =
  Some (to_bytes (strconv.FormatInt now)).
Proof.
  rewrite to_bytes_app. change (to_bytes (":" +:+ ?s)) with (":"%char :: to_bytes s).
  apply after_last_app. by apply FormatInt_no_byte.
Qed.

Lemma validAtTime_generateAtTime key subject action issue now :
  gotime.is_int64 issue = true →
  xsrftoken.validAtTime mac
    (xsrftoken.generateAtTime mac key subject action issue)
    key subject action now = xsrftoken.in_window issue now.
Proof.
  intros Hi%bool_decide_eq_true. unfold xsrftoken.validAtTime.
  unfold xsrftoken.generateAtTime at 1.
  rewrite DecodeString_EncodeToString, instant_of_token, of_to_bytes.
  rewrite ParseInt_FormatInt by done. unfold xsrftoken.in_window.
  case_bool_decide; [done|]. destruct (gotime.After _ _); [done|].
  cbn. by rewrite bool_decide_eq_true_2.
Qed.

Lemma validAtTime_inv token key subject action now :
  xsrftoken.validAtTime mac token key subject action now = true →
  ∃ issue, gotime.is_int64 issue = true ∧
           xsrftoken.in_window issue now = true ∧
           token = xsrftoken.generateAtTime mac key subject action issue.
Proof.
  unfold xsrftoken.validAtTime, xsrftoken.in_window.
  destruct (base64.DecodeString token) as [data|]; [|done].
  destruct (xsrftoken.after_last _ _) as [digits|]; [|done].
  destruct (strconv.ParseInt _) as [nanos|] eqn:Hp; [|done].
  case_bool_decide; [done|]. destruct (gotime.After _ _) eqn:Ha; [done|].
  intros Ht%bool_decide_eq_true. exists nanos. split_and!; [| |done].
  - unfold strconv.ParseInt in Hp. apply bind_Some in Hp as (n & _ & Hn).
    case_bool_decide; simplify_eq. by apply bool_decide_eq_true.
  - by rewrite bool_decide_eq_false_2, Ha.
Qed.

(** The text a token encodes names its instant and its MAC. *)
Lemma generateAtTime_inj key key' subject subject' action action' t t' :
  xsrftoken.generateAtTime mac key subject action t =
  xsrftoken.generateAtTime mac key' subject' action' t' →
  t = t' ∧
  mac key (xsrftoken.message subject action t)
  = mac key' (xsrftoken.message subject' action' t').
Proof.
  unfold xsrftoken.generateAtTime. intros E%EncodeToString_inj.
  assert (t = t') as <-.
  { apply (f_equal to_bytes) in E.
    apply (f_equal (xsrftoken.after_last ":"%char)) in E.
    rewrite !instant_of_token in E. injection E as E.
    by apply FormatInt_inj, to_bytes_inj. }
  split; [done|]. by apply string_app_inv_tail in E.
Qed.

Lemma generateAtTime_instant key key' subject subject' action action' t t' :
  xsrftoken.generateAtTime mac key subject action t =
  xsrftoken.generateAtTime mac key' subject' action' t' → t = t'.
Proof. by intros [? _]%generateAtTime_inj. Qed.

(** The MAC of a token is the MAC of its message. *)
Lemma tag_of_generateAtTime key subject action t :
  xsrftoken.tag_of (xsrftoken.generateAtTime mac key subject action t)
  = Some (mac key (xsrftoken.message subject action t)).
Proof.
  unfold xsrftoken.tag_of, xsrftoken.generateAtTime.
  rewrite DecodeString_EncodeToString. cbn. rewrite to_bytes_app.
  change (to_bytes (":" +:+ ?s)) with (":"%char :: to_bytes s).
  rewrite before_last_app by (by apply FormatInt_no_byte).
  cbn. by rewrite of_to_bytes.
Qed.

(** The message names its instant. *)
Lemma message_instant subject action t t' :
  xsrftoken.message subject action t = xsrftoken.message subject action t' →
  t = t'.
Proof.
  unfold xsrftoken.message. intros E.
  do 4 apply string_app_inv_head in E. by apply FormatInt_inj.
Qed.

(** A candidate that carries the MAC of a token and is not that token is
    refused, when the MAC has no collisions: the instant of a token
    cannot be edited, and its bytes have one encoding. *)
Lemma validAtTime_keeps_tag key subject action t token now :
  (∀ m m', mac key m = mac key m' → m = m') →
  token ≠ xsrftoken.generateAtTime mac key subject action t →
  xsrftoken.tag_of token
  = xsrftoken.tag_of (xsrftoken.generateAtTime mac key subject action t) →
  xsrftoken.validAtTime mac token key subject action now = false.
Proof.
  intros mac_inj Hne Htag.
  destruct (xsrftoken.validAtTime _ _ _ _ _ _) eqn:E; [|done].
  apply validAtTime_inv in E as (t' & _ & _ & ->).
  rewrite !tag_of_generateAtTime in Htag. injection Htag as Htag.
  by apply mac_inj, message_instant in Htag as ->.
Qed.

Lemma model_laws : @TokenCodecLaws (model_codec mac).
Proof.
  split.
  - intros token key subject action now. split.
    + apply validAtTime_inv.
    + intros (issue & Hi & Hw & ->). cbn.
      by rewrite validAtTime_generateAtTime.
  - intros key subject action t t'. apply generateAtTime_instant.
Qed.

(** The message names the normal forms of its subject and its action:
    neither has a colon. *)
Lemma message_inj subject subject' action action' t :
  xsrftoken.message subject action t = xsrftoken.message subject' action' t →
  xsrftoken.clean subject = xsrftoken.clean subject' ∧
  xsrftoken.clean action = xsrftoken.clean action'.
Proof.
  unfold xsrftoken.message. intros E%(f_equal to_bytes).
  rewrite !to_bytes_app in E.
  change (to_bytes ":") with [":"%char] in E. cbn [app] in E.
  apply app_sep_inj in E as [Hs E]; [|apply clean_no_colon..].
  apply app_sep_inj in E as [Ha _]; [|apply clean_no_colon..].
  split; by apply to_bytes_inj.
Qed.

Lemma message_normal subject action t :
  xsrftoken.message (xsrftoken.clean subject) action t
  = xsrftoken.message subject action t.
Proof. unfold xsrftoken.message. by rewrite clean_idemp. Qed.

(** The token is a text of the URL encoding, which a cookie carries. *)
Lemma url_safe_isCookieByte c : base64.url_safe c → http.isCookieByte c = true.
Proof.
  intros [Hc| ->]; [|done]. revert c Hc. apply Forall_forall.
  by apply (bool_decide_unpack _).
Qed.

Lemma model_text : @TokenCodecText (model_codec mac).
Proof.
  split; intros key subject action t; cbn; unfold xsrftoken.generateAtTime.
  - intros E. apply (f_equal base64.DecodeString) in E.
    rewrite DecodeString_EncodeToString in E.
    destruct (mac _ _); by simplify_eq/=.
  - apply forallb_Forall. eapply Forall_impl; [apply EncodeToString_url_safe|].
    apply url_safe_isCookieByte.
Qed.

(** With a MAC that has no collisions, the token names its subject up to
    colons. *)
Lemma model_binding :
  (∀ key m m', mac key m = mac key m' → m = m') →
  @TokenCodecBinding (model_codec mac) xsrftoken.clean.
Proof.
  intros mac_inj. split.
  - intros key subject subject' action t t' E. cbn in E.
    apply generateAtTime_inj in E as [<- E%mac_inj].
    by apply message_inj in E as [? _].
  - intros key subject action t. cbn. unfold xsrftoken.generateAtTime.
    by rewrite message_normal.
Qed.

End model.

(** ** The toy codec *)

Lemma toy_mac_inj key m m' : toy.mac key m = toy.mac key m' → m = m'.
Proof.
  unfold toy.mac. intros E.
  do 3 apply string_app_inv_head in E. by apply string_app_inv_tail in E.
Qed.

Lemma toy_codec_binding : @TokenCodecBinding toy.codec xsrftoken.clean.
Proof. apply model_binding, toy_mac_inj. Qed.

Lemma toy_codec_laws : @TokenCodecLaws toy.codec.
Proof. apply model_laws. Qed.

Lemma toy_codec_text : @TokenCodecText toy.codec.
Proof. apply model_text. Qed.

(** A token of the toy codec: the URL encoding of
    [mac(token123,123456:POST:1000):1000]. *)
Example toy_token :
  @derive toy.codec "token123" "123456" "POST" 1000 =
  "bWFjKHRva2VuMTIzLDEyMzQ1NjpQT1NUOjEwMDApOjEwMDA=" ∧
  base64.DecodeString "bWFjKHRva2VuMTIzLDEyMzQ1NjpQT1NUOjEwMDApOjEwMDA=" =
  Some "mac(token123,123456:POST:1000):1000".
Proof. by vm_compute. Qed.

Example toy_verify :
  let token := "bWFjKHRva2VuMTIzLDEyMzQ1NjpQT1NUOjEwMDApOjEwMDA=" in
  @verify toy.codec token "token123" "123456" "POST" 2000 = true ∧
  @verify toy.codec token "token123" "654321" "POST" 2000 = false ∧
  @verify toy.codec token "token123" "123456" "POST" 86400000001000 = false ∧
  @verify toy.codec "garbage" "token123" "123456" "POST" 2000 = false ∧
  @verify toy.codec "bWFjKHRva2VuMTIzLDEyMzQ1NjpQT1NUOjEwMDApOjEwMDB="
    "token123" "123456" "POST" 2000 = false.
Proof. by vm_compute. Qed.

(** Two subjects that differ in a colon have the same tokens. *)
Example toy_colon_subjects :
  @derive toy.codec "token123" "a:b" "POST" 1000 =
  @derive toy.codec "token123" "a_b" "POST" 1000 ∧
  @verify toy.codec (@derive toy.codec "token123" "a:b" "POST" 1000)
    "token123" "a_b" "POST" 2000 = true.
Proof. by vm_compute. Qed.

(** A candidate with the instant of a token edited, and one with the
    last character of its text changed in the bits that encode nothing:
    both carry the MAC of the token, and are refused. *)
Example toy_tampered :
  let token := "bWFjKHRva2VuMTIzLDEyMzQ1NjpQT1NUOjEwMDApOjEwMDA=" in
  let edited := base64.EncodeToString "mac(token123,123456:POST:1000):1001" in
  let recoded := "bWFjKHRva2VuMTIzLDEyMzQ1NjpQT1NUOjEwMDApOjEwMDB=" in
  xsrftoken.tag_of edited = xsrftoken.tag_of token ∧
  @verify toy.codec edited "token123" "123456" "POST" 2000 = false ∧
  base64.DecodeString recoded = base64.DecodeString token ∧
  @verify toy.codec recoded "token123" "123456" "POST" 2000 = false.
Proof. by vm_compute. Qed.

(** With a MAC that does not depend on its message, the token of the
    next instant is the token with its last character changed, and it
    verifies: what a changed token is refused for is the MAC. *)
Example constant_mac_mutation :
  let codec := model_codec (λ _ _, "x") in
  @derive codec "key" "123456" "POST" 1000 = "eDoxMDAw" ∧
  @derive codec "key" "123456" "POST" 1001 = "eDoxMDAx" ∧
  @verify codec "eDoxMDAx" "key" "123456" "POST" 2000 = true.
Proof. by vm_compute. Qed.
