(* ===== verification/Csrf.v ===== *)
(** * The package csrf (src/csrf.go)

    The definitions follow the source top to bottom.

    - [Csrf] is the interface of lines 74-79, [csrf] the struct of lines
      81-88; [csrf_GetToken] and [csrf_ValidToken] are the methods of
      [*csrf] (lines 92-99), whose receiver is a pointer into the heap of
      the world, and [csrf_Csrf] says that [*csrf] implements [Csrf].
    - [Options.Options] is the struct of lines 102-113 and [domainReg] the
      pattern of line 115, character for character.
    - [Generate] (lines 119-169) is the composition of its steps:
      [new_csrf] (121-122), the lookup of the subject (123-132, of which
      [subject] is the value),
      [browser_get] (135), [existing_token] (137), [cookie_domain]
      (144-147), [csrf_cookie] (148-160), [send_cookie] (141-162, with
      the [AddDate(0, 0, 1)] of line 142 as the time package computes it),
      [issue_token] (137-163) and [send_header] (164-166).
    - [Validate] (lines 175-190) is written against the interface, with
      its two channels [header_token] (176) and [form_token] (182).

    Then come what the handlers compute ([issuance] for [Generate]; the
    state machine [vstep], its function [verdict] and the response
    [reply] for [Validate]) and the sample requests the witnesses run
    on.  The lemmas named [run_...] are the equations of the steps in
    the worlds they run in; the theorems after them are the properties
    of [Validate], of [Generate] (the invariant of the world among them),
    of the cookie, its expiry and its pattern, and of the methods. *)

From S2P Require Import Prelude GoStrings GoTime GoCalendar GoTimeParse Regexp.
From S2P Require Import NetHttp Runtime Xsrftoken.

(** ** Definitions *)

(** [type csrf struct]. *)
Record csrf : Type := mk_csrf {
  Token : string;
  Id : string;
  Secret : string
}.

(** The assignments [x.Id = v] and [x.Token = v]. *)
Definition set_Id (v : string) (c : csrf) : csrf :=
  mk_csrf (Token c) v (Secret c).
Definition set_Token (v : string) (c : csrf) : csrf :=
  mk_csrf v (Id c) (Secret c).

(** [type Csrf interface]: a type with the two methods. *)
Class Csrf (X : Type) : Type := {
  GetToken : X → M csrf string;
  ValidToken : X → string → M csrf bool
}.

(** The action every token of the package is scoped to. *)
Definition action : string := "POST".

(** [func (c *csrf) GetToken() string]. *)
Definition csrf_GetToken (c : nat) : M csrf string :=
  x ← runtime.load c; mret (Token x).

(** [func (c *csrf) ValidToken(t string) bool]. *)
Definition csrf_ValidToken `{TokenCodec} (c : nat) (t : string) :
    M csrf bool :=
  x ← runtime.load c; xsrftoken.Valid t (Secret x) (Id x) action.

#[export] Instance csrf_Csrf `{TokenCodec} : Csrf nat := {|
  GetToken := csrf_GetToken;
  ValidToken := csrf_ValidToken
|}.

(** [type Options struct]. *)
Module Options.
Record Options : Type := mk {
  Secret : string;
  SessionKey : string;
  SetHeader : bool;
  SetCookie : bool;
  Secure : bool
}.
End Options.

(** [const domainReg]. *)
Definition domainReg : string :=
  "/^\.?[a-z\d]+(?:(?:[a-z\d]*)|(?:[a-z\d\-]*[a-z\d]))(?:\.[a-z\d]+(?:(?:[a-z\d]*)|(?:[a-z\d\-]*[a-z\d])))*$/".

(** The pattern without its first and last byte, the slashes. *)
Definition domainReg_unslashed : string :=
  String.substring 1 (String.length domainReg - 2) domainReg.

(** The names of the channels. *)
Definition cookie_name : string := "_csrf".
Definition header_name : string := "X-CSRFToken".
Definition form_key : string := "_csrf".
Definition api_key_header : string := "X-API-Key".

(** [x := &csrf{Secret: opts.Secret}; c.MapTo(x, ...)]. *)
Definition new_csrf (opts : Options.Options) : M csrf nat :=
  x ← runtime.alloc (mk_csrf "" "" (Options.Secret opts));
  runtime.MapTo x;;
  mret x.

(** [r.Method == "GET" && r.Header.Get("X-API-Key") == ""]. *)
Definition browser_get (r : http.Request) : bool :=
  (http.Method r == "GET")
  && (http.Header_Get (http.Header r) api_key_header == "").

(** [ex, err := r.Cookie("_csrf"); err == nil && ex.Value != ""]: the
    value of the cookie when the test holds. *)
Definition existing_token (r : http.Request) : option string :=
  match http.Request_Cookie r cookie_name with
  | Some ex => if http.Value ex != "" then Some (http.Value ex) else None
  | None => None
  end.

(** The domain of the cookie: the host without its port if it matches
    [domainReg], else empty.  The index [[0]] panics on an empty slice. *)
Definition cookie_domain (r : http.Request) : M csrf string :=
  match strings.Split (http.Host r) ":" with
  | domain :: _ =>
      let '(ok, err) := regexp.Match domainReg (to_bytes domain) in
      if negb ok || (err != None) then mret "" else mret domain
  | [] => runtime.panic "index out of range"
  end.

(** [&http.Cookie{...}]. *)
Definition csrf_cookie `{TimeFormat} (opts : Options.Options)
    (token domain : string) (expire : Z) : http.Cookie :=
  {| http.Name := "_csrf";
     http.Value := token;
     http.Path := "/";
     http.Domain := domain;
     http.Expires := expire;
     http.RawExpires := Format expire gotime.UnixDate;
     http.MaxAge := 0;
     http.Secure := Options.Secure opts;
     http.HttpOnly := false;
     http.Raw := "_csrf=" +:+ token;
     http.Unparsed := ["token=" +:+ token] |}.

(** [if opts.SetCookie { ... http.SetCookie(w, cookie) }]. *)
Definition send_cookie `{TimeFormat} (opts : Options.Options)
    (r : http.Request) (x : nat) : M csrf unit :=
  if Options.SetCookie opts then
    now ← runtime.Now;
    let expire := calendar.AddDate now 0 0 1 in
    domain ← cookie_domain r;
    c ← runtime.load x;
    runtime.on_w (λ w,
      http.SetCookie w (csrf_cookie opts (Token c) domain expire))
  else mret tt.

(** The token of the request: the cookie's if it carries one, else a new
    one, which is sent as a cookie. *)
Definition issue_token `{TokenCodec, TimeFormat} (opts : Options.Options)
    (r : http.Request) (x : nat) : M csrf unit :=
  match existing_token r with
  | Some v => runtime.store x (set_Token v)
  | None =>
      c ← runtime.load x;
      token ← xsrftoken.Generate (Secret c) (Id c) action;
      runtime.store x (set_Token token);;
      send_cookie opts r x
  end.

(** [if opts.SetHeader { w.Header().Add("X-CSRFToken", x.Token) }]. *)
Definition send_header (opts : Options.Options) (x : nat) : M csrf unit :=
  if Options.SetHeader opts then
    c ← runtime.load x;
    runtime.on_w (λ w, http.w_Header_Add w header_name (Token c))
  else mret tt.

(** [func Generate(opts *Options) martini.Handler]. *)
Definition Generate `{TokenCodec, TimeFormat} (opts : Options.Options)
    (s : Session) (r : http.Request) : M csrf unit :=
  x ← new_csrf opts;
  match sessions.Get s (Options.SessionKey opts) with
  | sessions.nil => mret tt
  | sessions.of_string uid =>
      runtime.store x (set_Id uid);;
      if browser_get r then
        issue_token opts r x;;
        send_header opts x
      else mret tt
  | _ => mret tt
  end.

(** [r.Header.Get("X-CSRFToken")] and [r.FormValue("_csrf")]. *)
Definition header_token (r : http.Request) : string :=
  http.Header_Get (http.Header r) header_name.
Definition form_token (r : http.Request) : string :=
  http.Request_FormValue r form_key.

(** [http.Error(w, msg, http.StatusBadRequest)]. *)
Definition reject (msg : string) : M csrf unit :=
  runtime.on_w (λ w, http.Error w msg http.StatusBadRequest).

(** [func Validate(r *http.Request, w http.ResponseWriter, x Csrf)]. *)
Definition Validate `{Csrf X} (r : http.Request) (x : X) : M csrf unit :=
  if header_token r != "" then
    ok ← ValidToken x (header_token r);
    if negb ok then reject "Invalid X-CSRFToken" else mret tt
  else if form_token r != "" then
    ok ← ValidToken x (form_token r);
    if negb ok then reject "Invalid _csrf token" else mret tt
  else reject "Bad Request".

(** The subject [Generate] finds in the session: the value under the
    session key when it is a string, else none. *)
Definition subject (opts : Options.Options) (s : Session) : string :=
  match sessions.Get s (Options.SessionKey opts) with
  | sessions.of_string uid => uid
  | _ => ""
  end.

(** *** What [Generate] computes

    The object [Generate] leaves in the heap, the number of clock
    readings it has made and the response it has built, as a function of
    the options, the session, the request, the clock and the response so
    far.  [Generate_refines_issuance] proves that the handler computes it.
    The domain of the cookie is empty here because [cookie_domain]
    returns nothing else ([run_cookie_domain]). *)

Record Issuance : Type := mkIssuance {
  iss_csrf : csrf;
  iss_reads : nat;
  iss_resp : http.ResponseWriter
}.

Definition with_header (opts : Options.Options) (token : string)
    (w : http.ResponseWriter) : http.ResponseWriter :=
  if Options.SetHeader opts then http.w_Header_Add w header_name token else w.

Definition issuance `{TokenCodec, TimeFormat} (opts : Options.Options)
    (s : Session) (r : http.Request) (clk : nat → Z) (n : nat)
    (w : http.ResponseWriter) : Issuance :=
  let secret := Options.Secret opts in
  match sessions.Get s (Options.SessionKey opts) with
  | sessions.of_string uid =>
      if browser_get r then
        match existing_token r with
        | Some v => mkIssuance (mk_csrf v uid secret) n (with_header opts v w)
        | None =>
            let token := derive secret uid action (clk n) in
            if Options.SetCookie opts then
              let expire := gotime.AddDate (clk (S n)) 1 in
              mkIssuance (mk_csrf token uid secret) (S (S n))
                (with_header opts token
                   (http.SetCookie w (csrf_cookie opts token "" expire)))
            else
              mkIssuance (mk_csrf token uid secret) (S n)
                (with_header opts token w)
        end
      else mkIssuance (mk_csrf "" uid secret) n w
  | _ => mkIssuance (mk_csrf "" "" secret) n w
  end.

(** The world of a request while and after [Generate] runs in it: the
    heap of the initial world [σ] with one more object, which the context
    is bound to. *)
Definition cell (σ : World csrf) (c : csrf) (n : nat)
    (w : http.ResponseWriter) : World csrf :=
  mkWorld (clock σ) n (heap σ ++ [c]) (Some (length (heap σ))) w.

Definition issued (σ : World csrf) (i : Issuance) : World csrf :=
  cell σ (iss_csrf i) (iss_reads i) (iss_resp i).

(** *** What [Validate] decides

    The states of the validation of a request: [NotChecked] at the start,
    then the channel that carried a candidate with the result of its
    verification, or [RejectedNoToken].  [vstep] is the transition
    relation, [verdict] the state it leads to, [reply] the response of a
    state. *)

Inductive vstate : Type :=
| NotChecked
| HeaderChecked (ok : bool)
| FormChecked (ok : bool)
| RejectedNoToken.

Inductive vstep (r : http.Request) (valid : string → bool) :
    vstate → vstate → Prop :=
| step_header :
    header_token r ≠ "" →
    vstep r valid NotChecked (HeaderChecked (valid (header_token r)))
| step_form :
    header_token r = "" → form_token r ≠ "" →
    vstep r valid NotChecked (FormChecked (valid (form_token r)))
| step_none :
    header_token r = "" → form_token r = "" →
    vstep r valid NotChecked RejectedNoToken.

Definition verdict (r : http.Request) (valid : string → bool) : vstate :=
  if header_token r != "" then HeaderChecked (valid (header_token r))
  else if form_token r != "" then FormChecked (valid (form_token r))
  else RejectedNoToken.

(** The candidate token of a request: the header's, else the form's. *)
Definition candidate (r : http.Request) : option string :=
  if header_token r != "" then Some (header_token r)
  else if form_token r != "" then Some (form_token r)
  else None.

Definition accepted (v : vstate) : bool :=
  match v with
  | HeaderChecked ok | FormChecked ok => ok
  | _ => false
  end.

(** The message of a rejection. *)
Definition rejection (v : vstate) : option string :=
  match v with
  | HeaderChecked false => Some "Invalid X-CSRFToken"
  | FormChecked false => Some "Invalid _csrf token"
  | RejectedNoToken => Some "Bad Request"
  | _ => None
  end.

Definition reply (v : vstate) (w : http.ResponseWriter) :
    http.ResponseWriter :=
  match rejection v with
  | Some msg => http.Error w msg http.StatusBadRequest
  | None => w
  end.

(** The clock is read once when there is a candidate to verify. *)
Definition verdict_reads (v : vstate) : nat :=
  match v with
  | HeaderChecked _ | FormChecked _ => 1
  | _ => 0
  end.

(** The world after [Validate] has reached the state [v] from [σ]. *)
Definition validated (σ : World csrf) (v : vstate) : World csrf :=
  mkWorld (clock σ) (reads σ + verdict_reads v) (heap σ) (binding σ)
    (reply v (resp σ)).

(** *** Sample data

    The options and the session of the example in the package comment
    (lines 17-59), a clock, and requests to run the handlers on. *)

Module sample.

Definition opts : Options.Options :=
  Options.mk "token123" "userId" true true false.

Definition session : Session := {["userId" := sessions.of_string "123456"]}.

Definition clk (n : nat) : Z := (1000000000000 + Z.of_nat n)%Z.

Definition world : World csrf := runtime.request_world clk 0 [].

(** A GET of a browser that has no cookie yet. *)
Definition get : http.Request :=
  http.mkRequest "GET" "/protected" "example.com:3000" ∅ ∅ ∅.

(** A GET of a browser that sends the cookie [_csrf] with value [v], and
    a GET of an API client. *)
Definition get_cookie (v : string) : http.Request :=
  http.mkRequest "GET" "/protected" "example.com:3000"
    {["Cookie" := ["_csrf=" +:+ v]]} ∅ ∅.

Definition get_api : http.Request :=
  http.mkRequest "GET" "/protected" "example.com:3000"
    {["X-Api-Key" := ["k"]]} ∅ ∅.

(** A POST that carries [token] in the header, or in the form. *)
Definition post_header (token : string) : http.Request :=
  http.mkRequest "POST" "/protected" "example.com:3000"
    {["X-Csrftoken" := [token]]} ∅ ∅.

Definition post_form (token : string) : http.Request :=
  http.mkRequest "POST" "/protected" "example.com:3000" ∅
    {["_csrf" := [token]]} ∅.

(** The object of a request of the subject, and a world that holds it. *)
Definition object : csrf := mk_csrf "" "123456" "token123".

Definition bound : World csrf :=
  mkWorld clk 0 [object] (Some 0) http.new_ResponseWriter.

End sample.

(** ** The steps of a handler on the object it has allocated *)

Section cell.
Context (σ : World csrf).
Implicit Types (c : csrf) (n : nat) (w : http.ResponseWriter).

Lemma run_new_csrf opts :
  new_csrf opts σ =
  Ok (length (heap σ))
     (cell σ (mk_csrf "" "" (Options.Secret opts)) (reads σ) (resp σ)).
Proof. done. Qed.

Lemma run_cell_load c n w :
  runtime.load (length (heap σ)) (cell σ c n w) = Ok c (cell σ c n w).
Proof. apply run_load, lookup_alloc_new. Qed.

Lemma run_cell_store upd c n w :
  runtime.store (length (heap σ)) upd (cell σ c n w) =
  Ok tt (cell σ (upd c) n w).
Proof.
  erewrite run_store by apply lookup_alloc_new.
  unfold cell. cbn. by rewrite insert_alloc_new.
Qed.

Lemma run_cell_Now c n w :
  runtime.Now (cell σ c n w) = Ok (clock σ n) (cell σ c (S n) w).
Proof. done. Qed.

Lemma run_cell_on_w f c n w :
  runtime.on_w f (cell σ c n w) = Ok tt (cell σ c n (f w)).
Proof. done. Qed.

Lemma run_cell_Injected c n w :
  runtime.Injected (cell σ c n w) = Ok (length (heap σ)) (cell σ c n w).
Proof. done. Qed.

End cell.

#[export] Hint Rewrite @run_bind run_new_csrf run_cell_load run_cell_store
  run_cell_Now run_cell_on_w run_cell_Injected @run_ret : run.

(** Run the next steps of a computation in a world of the form [cell]. *)
Ltac run := autorewrite with run; cbn beta iota.

(** ** The names of the token header *)

(** [Validate] finds the token under any name of its header. *)
Lemma header_token_same_key r k :
  http.same_key k header_name →
  http.Header_Get (http.Header r) k = header_token r.
Proof. intros E. unfold header_token. by rewrite E. Qed.

(** ** The handlers and the past of the clock

    Every step of the two handlers takes equivalent worlds to equivalent
    results: what a handler does depends on the readings of the clock it
    makes, not on those made before it. *)

Section forgetful.
Context `{TokenCodec, TimeFormat}.
Implicit Types (opts : Options.Options) (s : Session) (r : http.Request)
  (x : nat).

#[export] Instance csrf_GetToken_forgetful x : Forgetful (csrf_GetToken x).
Proof. unfold csrf_GetToken. solve_forgetful. Qed.

#[export] Instance csrf_ValidToken_forgetful x t :
  Forgetful (csrf_ValidToken x t).
Proof. unfold csrf_ValidToken. solve_forgetful. Qed.

#[export] Instance new_csrf_forgetful opts : Forgetful (new_csrf opts).
Proof. unfold new_csrf. solve_forgetful. Qed.

#[export] Instance cookie_domain_forgetful r : Forgetful (cookie_domain r).
Proof. unfold cookie_domain. solve_forgetful. Qed.

#[export] Instance send_cookie_forgetful opts r x :
  Forgetful (send_cookie opts r x).
Proof. unfold send_cookie. solve_forgetful. Qed.

#[export] Instance issue_token_forgetful opts r x :
  Forgetful (issue_token opts r x).
Proof. unfold issue_token. solve_forgetful. Qed.

#[export] Instance send_header_forgetful opts x :
  Forgetful (send_header opts x).
Proof. unfold send_header. solve_forgetful. Qed.

#[export] Instance Generate_forgetful opts s r : Forgetful (Generate opts s r).
Proof. unfold Generate. solve_forgetful. Qed.

#[export] Instance reject_forgetful msg : Forgetful (reject msg).
Proof. unfold reject. solve_forgetful. Qed.

#[export] Instance Validate_forgetful r x : Forgetful (Validate r x).
Proof. unfold Validate, ValidToken, csrf_Csrf. solve_forgetful. Qed.

End forgetful.

(** ** The pattern of the cookie domain *)

(** The pattern compiles, and starts with a literal slash followed by the
    beginning-of-text anchor. *)
Lemma domainReg_compiles :
  ∃ re, regexp.Compile domainReg =
        Some (regexp.Concat (regexp.Literal "/")
                (regexp.Concat regexp.BeginText re)).
Proof. eexists. by vm_compute. Qed.

Lemma domainReg_no_match b : regexp.Match domainReg b = (false, None).
Proof.
  unfold regexp.Match. destruct domainReg_compiles as (re & ->).
  by rewrite MatchRegexp_byte_before_begin.
Qed.

Section cookie_domain.
Implicit Types (r : http.Request) (σ : World csrf).

Lemma run_cookie_domain r σ : cookie_domain r σ = Ok "" σ.
Proof.
  unfold cookie_domain.
  destruct (strings.Split _ _) as [|d ds] eqn:E;
    [by apply Split_nonempty in E|].
  by rewrite domainReg_no_match.
Qed.

End cookie_domain.

#[export] Hint Rewrite run_cookie_domain : run.

(** ** [Generate] computes [issuance] *)

Section generate.
Context `{TokenCodec, TimeFormat}.
Implicit Types (opts : Options.Options) (s : Session) (r : http.Request)
  (σ : World csrf) (c : csrf) (n : nat) (w : http.ResponseWriter).

Lemma run_send_header opts σ c n w :
  send_header opts (length (heap σ)) (cell σ c n w) =
  Ok tt (cell σ c n (with_header opts (Token c) w)).
Proof.
  unfold send_header, with_header. destruct (Options.SetHeader opts); by run.
Qed.

Lemma run_send_cookie opts r σ c n w :
  send_cookie opts r (length (heap σ)) (cell σ c n w) =
  if Options.SetCookie opts then
    Ok tt (cell σ c (S n)
             (http.SetCookie w
                (csrf_cookie opts (Token c) ""
                   (gotime.AddDate (clock σ n) 1))))
  else Ok tt (cell σ c n w).
Proof.
  unfold send_cookie. destruct (Options.SetCookie opts); run; [|done].
  by rewrite AddDate_days.
Qed.

Lemma run_issue_token opts r σ c n w :
  issue_token opts r (length (heap σ)) (cell σ c n w) =
  match existing_token r with
  | Some v => Ok tt (cell σ (set_Token v c) n w)
  | None =>
      let token := derive (Secret c) (Id c) action (clock σ n) in
      send_cookie opts r (length (heap σ))
        (cell σ (set_Token token c) (S n) w)
  end.
Proof.
  unfold issue_token, xsrftoken.Generate.
  destruct (existing_token r); by run.
Qed.

Lemma run_Generate opts s r σ :
  Generate opts s r σ =
  Ok tt (issued σ (issuance opts s r (clock σ) (reads σ) (resp σ))).
Proof.
  unfold Generate, issuance, issued. run.
  destruct (sessions.Get s _) as [|uid| | |]; try done. run.
  destruct (browser_get r); [|done]. run. rewrite run_issue_token.
  destruct (existing_token r) as [v|]; cbn; run.
  - by rewrite run_send_header.
  - rewrite run_send_cookie.
    destruct (Options.SetCookie opts); run; by rewrite run_send_header.
Qed.

End generate.

(** ** The methods of [*csrf] *)

Section methods.
Context `{TokenCodec}.
Implicit Types (σ : World csrf) (c : csrf) (x : nat) (t : string).

Lemma run_csrf_GetToken σ x c :
  heap σ !! x = Some c → csrf_GetToken x σ = Ok (Token c) σ.
Proof. intros E. unfold csrf_GetToken. by rewrite run_bind, (run_load _ _ c). Qed.

Lemma run_csrf_ValidToken σ x c t :
  heap σ !! x = Some c →
  csrf_ValidToken x t σ =
  Ok (verify t (Secret c) (Id c) action (clock σ (reads σ)))
     (mkWorld (clock σ) (S (reads σ)) (heap σ) (binding σ) (resp σ)).
Proof.
  intros E. unfold csrf_ValidToken. by rewrite run_bind, (run_load _ _ c).
Qed.

Lemma run_csrf_ValidToken_dangling σ x t :
  heap σ !! x = None → ∃ msg, csrf_ValidToken x t σ = Panic msg.
Proof.
  intros E. unfold csrf_ValidToken, runtime.load. rewrite run_bind.
  unfold runtime.load. rewrite E. eauto.
Qed.

End methods.

(** ** [Validate] reaches the verdict *)

Section validate.
Context `{TokenCodec}.
Implicit Types (r : http.Request) (σ : World csrf) (c : csrf) (x : nat)
  (v : vstate) (valid : string → bool).

(** The transition relation is total and deterministic: it leads to
    [verdict] and nowhere else. *)
Lemma vstep_verdict r valid v :
  vstep r valid NotChecked v ↔ v = verdict r valid.
Proof.
  unfold verdict. split.
  - intros Hs. inv Hs; repeat case_bool_decide; by simplify_eq/=.
  - intros ->. repeat case_bool_decide; cbn; by constructor.
Qed.

Lemma vstep_terminal r valid v v' :
  vstep r valid v v' → v = NotChecked ∧ v' ≠ NotChecked.
Proof. by destruct 1. Qed.

Lemma verdict_accepted r valid :
  accepted (verdict r valid) = true ↔
  ∃ t, candidate r = Some t ∧ valid t = true.
Proof.
  unfold verdict, candidate. repeat case_bool_decide; cbn; naive_solver.
Qed.

Lemma reply_accepted v w : accepted v = true → reply v w = w.
Proof. by destruct v as [|[]|[]|]. Qed.

Lemma reply_rejected v w :
  accepted v = false → v ≠ NotChecked →
  ∃ msg, rejection v = Some msg ∧
         reply v w = http.Error w msg http.StatusBadRequest.
Proof. unfold reply. destruct v as [|[]|[]|]; naive_solver. Qed.

(** The response of a rejection, on a response that is not written yet:
    status 400, the content type, the message and a newline. *)
Lemma reply_fresh v w msg :
  rejection v = Some msg → http.w_status w = 0%Z →
  reply v w =
  let h := http.Header_Set (http.w_header w) "Content-Type"
             "text/plain; charset=utf-8" in
  http.mkResponseWriter h 400 h (http.w_body w +:+ msg +:+ String "010" "").
Proof. intros E Hw. unfold reply. rewrite E. by apply Error_fresh. Qed.

Lemma reply_Written v w :
  http.w_status w = 0%Z → v ≠ NotChecked →
  http.Written (reply v w) = negb (accepted v).
Proof.
  intros Hw Hv. destruct (accepted v) eqn:Ha.
  - rewrite reply_accepted by done. unfold http.Written. rewrite Hw.
    by apply neq_false.
  - destruct (reply_rejected v w Ha Hv) as (msg & _ & ->).
    by apply Error_Written.
Qed.

Lemma reply_wf v w : http.wf w → http.wf (reply v w).
Proof.
  intros Hw. unfold reply. destruct (rejection v); [|done].
  by apply Error_wf.
Qed.

Theorem Validate_verdict r x σ c :
  heap σ !! x = Some c →
  Validate r x σ =
  Ok tt (validated σ
           (verdict r (λ t, verify t (Secret c) (Id c) action
                              (clock σ (reads σ))))).
Proof.
  intros Hx. unfold Validate, verdict, validated, reject. cbn [ValidToken csrf_Csrf].
  repeat case_bool_decide; cbn [negb];
    rewrite ?run_bind, ?(run_csrf_ValidToken _ _ c) by done;
    try destruct (verify _ _ _ _ _); cbn; unfold runtime.on_w; cbn;
    rewrite ?Nat.add_0_r, ?Nat.add_1_r; try done.
  all: by destruct σ.
Qed.

End validate.

(** ** The properties of [Validate] *)

Section validate_properties.
Context `{TokenCodec}.
Implicit Types (r : http.Request) (σ : World csrf) (c : csrf) (x : nat).

(** [C1] Safety of the guard.  On a response that is not written yet,
    [Validate] returns without a panic, and it leaves the response
    unwritten, so that the chain goes on to the protected handler, exactly
    when the request carries a candidate token (the header's if it is not
    empty, else the form's) that verifies for the secret and the subject
    of the object [x] points to, the action POST and the instant read
    from the clock. *)
Theorem Validate_accepts_iff r x σ c :
  heap σ !! x = Some c → http.w_status (resp σ) = 0%Z →
  runtime.wp (Validate r x) σ (λ _ σ',
    http.Written (resp σ') = false ↔
    ∃ t, candidate r = Some t ∧
         verify t (Secret c) (Id c) action (clock σ (reads σ)) = true).
Proof.
  intros Hx Hw. eapply wp_Ok; [by apply Validate_verdict|]. cbn.
  rewrite reply_Written, negb_false_iff, verdict_accepted; [done..|].
  unfold verdict. by repeat case_bool_decide.
Qed.

(** [C5] Refinement of the state machine of validation.  [Validate] takes
    the one transition [vstep] allows from [NotChecked]: the response and
    the clock of the final world are those of the state reached, and
    nothing else of the world changes. *)
Theorem Validate_refines_vstep r x σ c :
  heap σ !! x = Some c →
  runtime.wp (Validate r x) σ (λ _ σ',
    ∃ v, vstep r (λ t, verify t (Secret c) (Id c) action
                         (clock σ (reads σ))) NotChecked v ∧
         σ' = validated σ v).
Proof.
  intros Hx. eapply wp_Ok; [by apply Validate_verdict|].
  eexists. split; [by apply vstep_verdict|done].
Qed.

(** [C35] A header token that does not verify is answered with status 400
    and the body "Invalid X-CSRFToken" followed by a newline, whatever the
    form holds. *)
Theorem Validate_bad_header r x σ c :
  heap σ !! x = Some c → http.w_status (resp σ) = 0%Z →
  header_token r ≠ "" →
  verify (header_token r) (Secret c) (Id c) action (clock σ (reads σ))
    = false →
  runtime.wp (Validate r x) σ (λ _ σ',
    http.w_status (resp σ') = 400%Z ∧
    http.w_body (resp σ') =
      http.w_body (resp σ) +:+ "Invalid X-CSRFToken" +:+ String "010" "" ∧
    http.Header_Get (http.w_sent (resp σ')) "Content-Type" =
      "text/plain; charset=utf-8").
Proof.
  intros Hx Hw Hh Hv. eapply wp_Ok; [by apply Validate_verdict|].
  unfold verdict. rewrite (proj2 (neq_true _ _) Hh), Hv.
  unfold validated. cbn [resp]. erewrite reply_fresh; [|done..].
  split_and!; [done..|apply Header_Get_Set_eq].
Qed.

(** [C36] With no header token, a form token that does not verify is
    answered with status 400 and the body "Invalid _csrf token". *)
Theorem Validate_bad_form r x σ c :
  heap σ !! x = Some c → http.w_status (resp σ) = 0%Z →
  header_token r = "" → form_token r ≠ "" →
  verify (form_token r) (Secret c) (Id c) action (clock σ (reads σ))
    = false →
  runtime.wp (Validate r x) σ (λ _ σ',
    http.w_status (resp σ') = 400%Z ∧
    http.w_body (resp σ') =
      http.w_body (resp σ) +:+ "Invalid _csrf token" +:+ String "010" "").
Proof.
  intros Hx Hw Hh Hf Hv. eapply wp_Ok; [by apply Validate_verdict|].
  unfold verdict.
  rewrite (proj2 (neq_false _ _) Hh), (proj2 (neq_true _ _) Hf), Hv.
  unfold validated. cbn [resp]. by erewrite reply_fresh.
Qed.

End validate_properties.

Section validate_interface.
Context `{Csrf X}.
Implicit Types (r : http.Request) (σ : World csrf) (x : X).

(** [C37] A request with neither channel is answered with status 400 and
    the body "Bad Request", without a call to [ValidToken]: whatever
    implements the interface, the clock is not read and the heap not
    touched. *)
Theorem Validate_no_token r x σ :
  header_token r = "" → form_token r = "" →
  Validate r x σ =
  Ok tt (mkWorld (clock σ) (reads σ) (heap σ) (binding σ)
           (http.Error (resp σ) "Bad Request" http.StatusBadRequest)).
Proof.
  intros Hh Hf. unfold Validate.
  by rewrite (proj2 (neq_false _ _) Hh), (proj2 (neq_false _ _) Hf).
Qed.

(** [C34] The header has precedence: when the header token is not empty,
    the form and the cookies of the request play no part in what
    [Validate] does. *)
Theorem Validate_header_precedence r r' x σ :
  header_token r ≠ "" → http.Header r' = http.Header r →
  Validate r' x σ = Validate r x σ.
Proof.
  intros Hh E. unfold Validate.
  assert (header_token r' = header_token r) as ->
    by (unfold header_token; by rewrite E).
  by rewrite (proj2 (neq_true _ _) Hh).
Qed.

End validate_interface.

(** The hypotheses of the properties of [Validate] hold of the sample
    requests. *)
Lemma Validate_accepts_iff_witness :
  runtime.wp (Validate (H := @csrf_Csrf toy.codec)
                (sample.post_header "garbage") 0) sample.bound
    (λ _ σ',
      http.Written (resp σ') = false ↔
      ∃ t, candidate (sample.post_header "garbage") = Some t ∧
           @verify toy.codec t "token123" "123456" action
             (sample.clk 0) = true).
Proof.
  exact (@Validate_accepts_iff toy.codec (sample.post_header "garbage") 0
           sample.bound sample.object eq_refl eq_refl).
Defined.

Lemma Validate_refines_vstep_witness :
  runtime.wp (Validate (H := @csrf_Csrf toy.codec)
                (sample.post_form "garbage") 0) sample.bound
    (λ _ σ',
      ∃ v, vstep (sample.post_form "garbage")
             (λ t, @verify toy.codec t "token123" "123456" action
                     (sample.clk 0)) NotChecked v ∧
           σ' = validated sample.bound v).
Proof.
  exact (@Validate_refines_vstep toy.codec (sample.post_form "garbage") 0
           sample.bound sample.object eq_refl).
Defined.

Lemma Validate_bad_header_witness :
  runtime.wp (Validate (H := @csrf_Csrf toy.codec)
                (sample.post_header "garbage") 0) sample.bound
    (λ _ σ',
      http.w_status (resp σ') = 400%Z ∧
      http.w_body (resp σ') =
        "" +:+ "Invalid X-CSRFToken" +:+ String "010" "" ∧
      http.Header_Get (http.w_sent (resp σ')) "Content-Type" =
        "text/plain; charset=utf-8").
Proof.
  refine (@Validate_bad_header toy.codec (sample.post_header "garbage") 0
            sample.bound sample.object eq_refl eq_refl _ _);
    by vm_compute.
Defined.

Lemma Validate_bad_form_witness :
  runtime.wp (Validate (H := @csrf_Csrf toy.codec)
                (sample.post_form "garbage") 0) sample.bound
    (λ _ σ',
      http.w_status (resp σ') = 400%Z ∧
      http.w_body (resp σ') =
        "" +:+ "Invalid _csrf token" +:+ String "010" "").
Proof.
  refine (@Validate_bad_form toy.codec (sample.post_form "garbage") 0
            sample.bound sample.object eq_refl eq_refl _ _ _);
    by vm_compute.
Defined.

Lemma Validate_no_token_witness :
  Validate (H := @csrf_Csrf toy.codec) sample.get 0 sample.bound =
  Ok tt (mkWorld sample.clk 0 [sample.object] (Some 0)
           (http.Error http.new_ResponseWriter "Bad Request"
              http.StatusBadRequest)).
Proof.
  refine (@Validate_no_token nat (@csrf_Csrf toy.codec) sample.get 0
            sample.bound _ _); by vm_compute.
Defined.

Lemma Validate_header_precedence_witness :
  Validate (H := @csrf_Csrf toy.codec)
    (http.mkRequest "POST" "" "" {["X-Csrftoken" := ["t"]]}
       {["_csrf" := ["u"]]} ∅) 0 sample.bound =
  Validate (H := @csrf_Csrf toy.codec) (sample.post_header "t") 0
    sample.bound.
Proof.
  refine (@Validate_header_precedence nat (@csrf_Csrf toy.codec)
            (sample.post_header "t") _ 0 sample.bound _ eq_refl).
  by vm_compute.
Defined.

(** ** The properties of [Generate] *)

Lemma header_keys_distinct :
  http.CanonicalHeaderKey "Set-Cookie" ≠ http.CanonicalHeaderKey header_name.
Proof. by vm_compute. Qed.

Section issuance_facts.
Context `{TokenCodec, TimeFormat}.
Implicit Types (opts : Options.Options) (s : Session) (r : http.Request)
  (clk : nat → Z) (n : nat) (w : http.ResponseWriter) (token : string).

(** [with_header] and [http.SetCookie] edit the header map only. *)
Lemma with_header_frame opts token w :
  http.w_status (with_header opts token w) = http.w_status w ∧
  http.w_body (with_header opts token w) = http.w_body w ∧
  http.w_sent (with_header opts token w) = http.w_sent w.
Proof. unfold with_header. by destruct (Options.SetHeader opts). Qed.

Lemma with_header_cookie opts token w :
  http.w_header (with_header opts token w) !! "Set-Cookie" =
  http.w_header w !! "Set-Cookie".
Proof.
  unfold with_header. destruct (Options.SetHeader opts); [|done].
  apply Header_Add_lookup_ne, header_keys_distinct.
Qed.

Lemma with_header_Get opts token w :
  Options.SetHeader opts = true →
  http.w_header w !! http.CanonicalHeaderKey header_name = None →
  http.Header_Get (http.w_header (with_header opts token w)) header_name
  = token.
Proof.
  intros Hh E. unfold with_header. rewrite Hh.
  cbn [http.w_header http.w_Header_Add]. by apply Header_Get_Add_fresh.
Qed.

(** What [issuance] leaves untouched. *)
Lemma issuance_frame opts s r clk n w :
  let i := issuance opts s r clk n w in
  n ≤ iss_reads i ≤ n + 2 ∧
  Secret (iss_csrf i) = Options.Secret opts ∧
  http.w_status (iss_resp i) = http.w_status w ∧
  http.w_body (iss_resp i) = http.w_body w ∧
  http.w_sent (iss_resp i) = http.w_sent w.
Proof.
  unfold issuance. repeat case_match; cbn;
    rewrite ?(proj1 (with_header_frame _ _ _)),
      ?(proj1 (proj2 (with_header_frame _ _ _))),
      ?(proj2 (proj2 (with_header_frame _ _ _)));
    split_and!; (done || lia).
Qed.

(** The object of the issuance has the subject of the session and the
    configured secret; a request that is not a browser GET gets no token
    and no reading of the clock. *)
Lemma issuance_subject opts s r clk n w :
  Id (iss_csrf (issuance opts s r clk n w)) = subject opts s.
Proof. unfold issuance, subject. by repeat case_match. Qed.

Lemma issuance_secret opts s r clk n w :
  Secret (iss_csrf (issuance opts s r clk n w)) = Options.Secret opts.
Proof. unfold issuance. by repeat case_match. Qed.

Lemma issuance_not_browser_get opts s r clk n w :
  browser_get r = false →
  issuance opts s r clk n w =
  mkIssuance (mk_csrf "" (subject opts s) (Options.Secret opts)) n w.
Proof.
  intros Hb. unfold issuance, subject. rewrite Hb. by repeat case_match.
Qed.

(** The world of an object is well formed when its response is. *)
Lemma cell_wf (σ : World csrf) c n w :
  http.wf w → runtime.wf (cell σ c n w).
Proof.
  intros Hw. split; [|done]. intros p [= <-]. cbn.
  rewrite length_app. cbn. lia.
Qed.

Lemma with_header_wf opts token w :
  http.wf w → http.wf (with_header opts token w).
Proof.
  intros Hw. unfold with_header. destruct (Options.SetHeader opts); [|done].
  by apply w_Header_Add_wf.
Qed.

Lemma issuance_wf opts s r clk n w :
  http.wf w → http.wf (iss_resp (issuance opts s r clk n w)).
Proof.
  intros Hw. unfold issuance.
  repeat case_match; cbn; auto using with_header_wf, SetCookie_wf.
Qed.

(** With neither channel configured the response is left alone. *)
Lemma issuance_quiet opts s r clk n w :
  Options.SetHeader opts = false → Options.SetCookie opts = false →
  iss_resp (issuance opts s r clk n w) = w.
Proof.
  intros Hh Hc. unfold issuance, with_header. rewrite Hh, Hc.
  by repeat case_match.
Qed.

End issuance_facts.

Section generate_properties.
Context `{TokenCodec, TimeFormat}.
Implicit Types (opts : Options.Options) (s : Session) (r : http.Request)
  (σ : World csrf) (c : csrf) (uid v : string).

(** [C2] Refinement.  In every world, for every session and request,
    [Generate] returns without a panic in the world [issuance] describes:
    the heap has one more object, which the context is bound to, and the
    clock and the response are those of the issuance. *)
Theorem Generate_refines_issuance opts s r σ :
  runtime.wp (Generate opts s r) σ (λ _ σ',
    σ' = issued σ (issuance opts s r (clock σ) (reads σ) (resp σ))).
Proof. eapply wp_Ok; [apply run_Generate|done]. Qed.

(** [C33] What [Generate] never touches.  It does not write the status,
    the body or the headers already sent, so the chain goes on after it;
    it reads the clock at most twice; it leaves the objects of the heap
    in place and adds one, with the configured secret, to which it binds
    the context. *)
Theorem Generate_frame opts s r σ :
  runtime.wp (Generate opts s r) σ (λ _ σ',
    clock σ' = clock σ ∧ reads σ ≤ reads σ' ≤ reads σ + 2 ∧
    (∃ c, heap σ' = heap σ ++ [c] ∧ Secret c = Options.Secret opts) ∧
    binding σ' = Some (length (heap σ)) ∧
    http.w_status (resp σ') = http.w_status (resp σ) ∧
    http.w_body (resp σ') = http.w_body (resp σ) ∧
    http.w_sent (resp σ') = http.w_sent (resp σ)).
Proof.
  eapply wp_Ok; [apply run_Generate|].
  destruct (issuance_frame opts s r (clock σ) (reads σ) (resp σ))
    as (? & ? & ? & ? & ?).
  cbn. split_and!; eauto; lia.
Qed.

(** [C7] The object the context is bound to is the one [Generate] goes on
    to fill: although [c.MapTo] is called before [x.Id] is assigned, a
    handler that is injected the interface after [Generate] reads the
    subject of the session and the configured secret through it, whatever
    the method of the request. *)
Theorem Generate_binds_subject opts s r σ uid :
  sessions.Get s (Options.SessionKey opts) = sessions.of_string uid →
  runtime.wp (Generate opts s r;; x ← runtime.Injected; runtime.load x) σ
    (λ c _, Id c = uid ∧ Secret c = Options.Secret opts).
Proof.
  intros Hs. eapply wp_bind, wp_Ok; [apply run_Generate|].
  unfold issued. eapply wp_bind, wp_Ok; [apply run_cell_Injected|].
  eapply wp_Ok; [apply run_cell_load|].
  unfold issuance. rewrite Hs. by repeat case_match.
Qed.

(** [C26] With no subject in the session (no value under the session key,
    or a value that is not a string), [Generate] issues nothing: the
    response is untouched, the clock is not read, and the object has an
    empty token and an empty subject. *)
Theorem Generate_no_subject opts s r σ :
  (∀ uid, sessions.Get s (Options.SessionKey opts) ≠ sessions.of_string uid) →
  Generate opts s r σ =
  Ok tt (cell σ (mk_csrf "" "" (Options.Secret opts)) (reads σ) (resp σ)).
Proof.
  intros Hs. rewrite run_Generate. unfold issuance, issued.
  destruct (sessions.Get s _) eqn:E; try done. by destruct (Hs s0).
Qed.

(** [C27] A request that is not a GET, or that carries a non-empty
    X-API-Key header, is issued nothing: the response is untouched and the
    clock is not read; the object has the subject of the session and an
    empty token. *)
Theorem Generate_not_browser_get opts s r σ uid :
  sessions.Get s (Options.SessionKey opts) = sessions.of_string uid →
  browser_get r = false →
  Generate opts s r σ =
  Ok tt (cell σ (mk_csrf "" uid (Options.Secret opts)) (reads σ) (resp σ)).
Proof.
  intros Hs Hb. rewrite run_Generate. unfold issuance, issued.
  by rewrite Hs, Hb.
Qed.

(** [C25] Reuse before mint.  On a browser GET whose cookie [_csrf] has a
    non-empty value, that value becomes the token as it is: the codec is
    not called, the clock is not read, no cookie is set, and the header is
    added under the option. *)
Theorem Generate_reuses_cookie opts s r σ uid v :
  sessions.Get s (Options.SessionKey opts) = sessions.of_string uid →
  browser_get r = true → existing_token r = Some v →
  Generate opts s r σ =
  Ok tt (cell σ (mk_csrf v uid (Options.Secret opts)) (reads σ)
           (with_header opts v (resp σ))).
Proof.
  intros Hs Hb Hc. rewrite run_Generate. unfold issuance, issued.
  by rewrite Hs, Hb, Hc.
Qed.

(** [C8] Minting.  On a browser GET with no usable cookie, the token is
    derived from the configured secret, the subject of the session and
    the action POST at the first reading of the clock. *)
Theorem Generate_mints opts s r σ uid :
  sessions.Get s (Options.SessionKey opts) = sessions.of_string uid →
  browser_get r = true → existing_token r = None →
  runtime.wp (Generate opts s r;; x ← runtime.Injected; GetToken x) σ
    (λ token _,
      token = derive (Options.Secret opts) uid "POST" (clock σ (reads σ))).
Proof.
  intros Hs Hb Hc. eapply wp_bind, wp_Ok; [apply run_Generate|].
  unfold issued. eapply wp_bind, wp_Ok; [apply run_cell_Injected|].
  eapply wp_Ok; [apply run_csrf_GetToken, lookup_alloc_new|].
  unfold issuance. rewrite Hs, Hb, Hc. by destruct (Options.SetCookie opts).
Qed.

(** The header channel.  With [SetHeader], on a browser GET of a
    subject, the response header X-CSRFToken holds the token [GetToken]
    reports, reused or minted (the response having no such header
    before). *)
Theorem Generate_header_sent opts s r σ uid :
  Options.SetHeader opts = true →
  sessions.Get s (Options.SessionKey opts) = sessions.of_string uid →
  browser_get r = true →
  http.w_header (resp σ) !! "X-Csrftoken" = None →
  runtime.wp (Generate opts s r;; x ← runtime.Injected; GetToken x) σ
    (λ token σ',
      http.Header_Get (http.w_header (resp σ')) "X-CSRFToken" = token).
Proof.
  intros Hh Hs Hb Hw. eapply wp_bind, wp_Ok; [apply run_Generate|].
  unfold issued. eapply wp_bind, wp_Ok; [apply run_cell_Injected|].
  eapply wp_Ok; [apply run_csrf_GetToken, lookup_alloc_new|].
  unfold issuance. rewrite Hs, Hb. cbn [resp cell].
  repeat case_match; cbn [iss_resp iss_csrf Token];
    apply with_header_Get; try done.
  rewrite <-Hw. by apply Header_Add_lookup_ne.
Qed.

(** [C38] The cookie channel.  With [SetCookie], a minted token is sent in
    one more Set-Cookie line: the cookie [_csrf] with the token as value,
    no domain, and an expiry one day after the second reading of the
    clock. *)
Theorem Generate_cookie_sent opts s r σ uid :
  Options.SetCookie opts = true →
  sessions.Get s (Options.SessionKey opts) = sessions.of_string uid →
  browser_get r = true → existing_token r = None →
  runtime.wp (Generate opts s r) σ (λ _ σ',
    let token :=
      derive (Options.Secret opts) uid "POST" (clock σ (reads σ)) in
    http.w_header (resp σ') !! "Set-Cookie" =
    Some (default [] (http.w_header (resp σ) !! "Set-Cookie") ++
          [http.Cookie_String
             (csrf_cookie opts token ""
                (gotime.AddDate (clock σ (S (reads σ))) 1))])).
Proof.
  intros Hk Hs Hb Hc. eapply wp_Ok; [apply run_Generate|].
  unfold issuance. rewrite Hs, Hb, Hc, Hk. cbn.
  rewrite with_header_cookie. apply Header_Add_lookup.
Qed.

(** No cookie is set unless a token is minted: when the option is
    off, when the request is not a browser GET, or when the token is
    reused, the Set-Cookie lines of the response are what they were. *)
Theorem Generate_cookie_only_minted opts s r σ :
  Options.SetCookie opts = false ∨ browser_get r = false
    ∨ is_Some (existing_token r) →
  runtime.wp (Generate opts s r) σ (λ _ σ',
    http.w_header (resp σ') !! "Set-Cookie" =
    http.w_header (resp σ) !! "Set-Cookie").
Proof.
  intros Hor. eapply wp_Ok; [apply run_Generate|].
  unfold issuance. cbn.
  destruct (sessions.Get s _); try done.
  destruct (browser_get r); [|done].
  destruct (existing_token r) as [v|]; [apply with_header_cookie|].
  destruct (Options.SetCookie opts); [|apply with_header_cookie].
  destruct Hor as [?|[?|[? ?]]]; done.
Qed.

End generate_properties.

Section generate_witnesses.
#[local] Existing Instance toy.codec.
#[local] Existing Instance unix_format.

Lemma Generate_binds_subject_witness :
  runtime.wp (Generate sample.opts sample.session (sample.post_form "x");;
              x ← runtime.Injected; runtime.load x) sample.world
    (λ c _, Id c = "123456" ∧ Secret c = "token123").
Proof.
  exact (Generate_binds_subject sample.opts sample.session
           (sample.post_form "x") sample.world "123456" eq_refl).
Defined.

Lemma Generate_no_subject_witness :
  Generate sample.opts ∅ sample.get sample.world =
  Ok tt (cell sample.world (mk_csrf "" "" "token123") 0
           http.new_ResponseWriter).
Proof.
  refine (Generate_no_subject sample.opts ∅ sample.get sample.world _).
  intros uid. by vm_compute.
Defined.

Lemma Generate_not_browser_get_witness :
  Generate sample.opts sample.session sample.get_api sample.world =
  Ok tt (cell sample.world (mk_csrf "" "123456" "token123") 0
           http.new_ResponseWriter).
Proof.
  exact (Generate_not_browser_get sample.opts sample.session sample.get_api
           sample.world "123456" eq_refl eq_refl).
Defined.

Lemma Generate_reuses_cookie_witness :
  Generate sample.opts sample.session (sample.get_cookie "stale")
    sample.world =
  Ok tt (cell sample.world (mk_csrf "stale" "123456" "token123") 0
           (with_header sample.opts "stale" http.new_ResponseWriter)).
Proof.
  exact (Generate_reuses_cookie sample.opts sample.session
           (sample.get_cookie "stale") sample.world "123456" "stale"
           eq_refl eq_refl eq_refl).
Defined.

Lemma Generate_mints_witness :
  runtime.wp (Generate sample.opts sample.session sample.get;;
              x ← runtime.Injected; GetToken x) sample.world
    (λ token _, token = derive "token123" "123456" "POST" (sample.clk 0)).
Proof.
  exact (Generate_mints sample.opts sample.session sample.get sample.world
           "123456" eq_refl eq_refl eq_refl).
Defined.

Lemma Generate_header_sent_witness :
  runtime.wp (Generate sample.opts sample.session sample.get;;
              x ← runtime.Injected; GetToken x) sample.world
    (λ token σ',
      http.Header_Get (http.w_header (resp σ')) "X-CSRFToken" = token).
Proof.
  exact (Generate_header_sent sample.opts sample.session sample.get
           sample.world "123456" eq_refl eq_refl eq_refl eq_refl).
Defined.

Lemma Generate_cookie_sent_witness :
  runtime.wp (Generate sample.opts sample.session sample.get) sample.world
    (λ _ σ',
      let token := derive "token123" "123456" "POST" (sample.clk 0) in
      http.w_header (resp σ') !! "Set-Cookie" =
      Some (default [] (http.w_header (resp sample.world) !! "Set-Cookie") ++
            [http.Cookie_String
               (csrf_cookie sample.opts token ""
                  (gotime.AddDate (sample.clk 1) 1))])).
Proof.
  exact (Generate_cookie_sent sample.opts sample.session sample.get
           sample.world "123456" eq_refl eq_refl eq_refl eq_refl).
Defined.

Lemma Generate_cookie_only_minted_witness :
  runtime.wp (Generate sample.opts sample.session (sample.get_cookie "stale"))
    sample.world
    (λ _ σ',
      http.w_header (resp σ') !! "Set-Cookie" =
      http.w_header (resp sample.world) !! "Set-Cookie").
Proof.
  refine (Generate_cookie_only_minted sample.opts sample.session
            (sample.get_cookie "stale") sample.world _).
  right; right. by eexists.
Defined.

End generate_witnesses.

(** ** The invariant of the world *)

Section wf_properties.
Context `{TokenCodec, TimeFormat}.
Implicit Types (opts : Options.Options) (s : Session) (r : http.Request)
  (σ : World csrf) (c : csrf) (x : nat).

(** [Generate] establishes the invariant of the world.  From a world
    whose response is well formed (canonical header keys, nothing sent
    before the status), whatever its heap and its context, it ends in a
    well-formed world: the context binds a pointer of the heap, and the
    response is still well formed. *)
Lemma Generate_wf opts s r σ :
  http.wf (resp σ) →
  runtime.wp (Generate opts s r) σ (λ _ σ', runtime.wf σ').
Proof.
  intros Hw. eapply wp_Ok; [apply run_Generate|].
  by apply cell_wf, issuance_wf.
Qed.

(** [Validate] preserves the invariant of the world, and in a
    well-formed world it never panics on the pointer it is injected. *)
Lemma Validate_wf r σ :
  runtime.wf σ → is_Some (binding σ) →
  runtime.wp (x ← runtime.Injected; Validate r x) σ
    (λ _ σ', runtime.wf σ').
Proof.
  intros Hσ [x Hx]. destruct (wf_Injected_load σ x Hσ Hx) as [c Hc].
  eapply wp_bind, wp_Ok; [unfold runtime.Injected; by rewrite Hx|].
  eapply wp_Ok; [by apply Validate_verdict|].
  destruct Hσ as [Hb Hw]. split; [done|]. by apply reply_wf.
Qed.

End wf_properties.

Lemma Generate_wf_witness :
  runtime.wp (@Generate toy.codec unix_format sample.opts sample.session
                sample.get) sample.world (λ _ σ', runtime.wf σ').
Proof.
  exact (@Generate_wf toy.codec unix_format sample.opts sample.session
           sample.get sample.world new_ResponseWriter_wf).
Defined.

Lemma Validate_wf_witness :
  runtime.wp (x ← runtime.Injected;
              Validate (H := @csrf_Csrf toy.codec) (sample.post_form "x") x)
    sample.bound (λ _ σ', runtime.wf σ').
Proof.
  refine (@Validate_wf toy.codec (sample.post_form "x") sample.bound _ _).
  - split; [|apply new_ResponseWriter_wf]. intros p [= <-]. cbn. lia.
  - by eexists.
Defined.

(** ** The cookie *)

(** The constant parts of the line of the cookie. *)
Lemma cookie_consts :
  http.sanitizeName "_csrf" = "_csrf" ∧ http.sanitizeValue "/" = "/" ∧
  ("/" != "") = true ∧ (("" : string) != "") = false ∧
  bool_decide (0 < 0)%Z = false.
Proof. by vm_compute. Qed.

Section cookie.
Context `{TimeFormat}.
Implicit Types (opts : Options.Options) (r : http.Request) (σ : World csrf).

(** [C6] The domain of the cookie is empty for every host, and computing
    it never panics: the index [[0]] is in range since [strings.Split]
    returns at least one field, and [domainReg], which keeps the slashes
    of a JavaScript literal around the pattern, asks for a byte before
    the beginning of the text and matches no host. *)
Theorem cookie_domain_always_empty r σ :
  runtime.wp (cookie_domain r) σ (λ domain σ', domain = "" ∧ σ' = σ).
Proof. eapply wp_Ok; [apply run_cookie_domain|done]. Qed.

(** The Set-Cookie line of the token cookie: the name and the value,
    the path [/], the expiry in the format of RFC 1123 when it is after
    the epoch, and [Secure] under the option; no domain, no [Max-Age], no
    [HttpOnly]. *)
Lemma Cookie_String_csrf_cookie opts token expire :
  http.sanitizeValue token = token →
  http.Cookie_String (csrf_cookie opts token "" expire) =
  "_csrf=" +:+ token +:+ "; Path=/"
  +:+ (if bool_decide (0 < gotime.Unix expire)%Z
       then "; Expires=" +:+ Format expire gotime.RFC1123 else "")
  +:+ (if Options.Secure opts then "; Secure" else "").
Proof.
  intros Hv. unfold http.Cookie_String, http.cookie_pair, csrf_cookie.
  cbn [http.Name http.Value http.Path http.Domain http.Expires http.MaxAge
       http.HttpOnly http.Secure].
  destruct cookie_consts as (-> & -> & -> & -> & ->). by rewrite Hv.
Qed.

(** The expiry of the cookie, at its boundary.  The cookie expires
    86400 seconds after the second of the clock reading.  Its Set-Cookie
    line carries the attribute [Expires] exactly when that instant is
    later than the epoch, that is for every reading from 86399 seconds
    before the epoch on; for an earlier reading the attribute is left out
    and the browser keeps the cookie for its session. *)
Theorem cookie_expiry_bound opts token now :
  http.sanitizeValue token = token →
  let c := csrf_cookie opts token "" (gotime.AddDate now 1) in
  gotime.Unix (http.Expires c) = (gotime.Unix now + 86400)%Z ∧
  http.Cookie_String c =
  "_csrf=" +:+ token +:+ "; Path=/"
  +:+ (if bool_decide (-86399000000000 ≤ now)%Z
       then "; Expires=" +:+ Format (gotime.AddDate now 1) gotime.RFC1123
       else "")
  +:+ (if Options.Secure opts then "; Secure" else "").
Proof.
  intros Hv. split; [apply Unix_AddDate|].
  rewrite Cookie_String_csrf_cookie by done. do 3 f_equal.
  rewrite (bool_decide_ext _ (-86399000000000 ≤ now)%Z); [done|].
  rewrite Unix_pos, AddDate_one_day. lia.
Qed.

(** The cookie expires the next day of the calendar.  The expiry
    [send_cookie] computes with [AddDate(0, 0, 1)], by taking the reading
    of the clock apart into its date and time of day and putting them
    together again with one more day, is the reading plus 24 hours: the
    day after in the calendar (the first of the next month after the last
    of a month, March 1 or February 29 after February 28), at the same
    time of the day. *)
Theorem send_cookie_next_day opts r σ c n w :
  Options.SetCookie opts = true →
  ∃ ck,
    send_cookie opts r (length (heap σ)) (cell σ c n w)
      = Ok tt (cell σ c (S n) (http.SetCookie w ck)) ∧
    http.Value ck = Token c ∧
    http.Expires ck = calendar.AddDate (clock σ n) 0 0 1 ∧
    http.Expires ck = (clock σ n + 86400000000000)%Z ∧
    calendar.Date_of (http.Expires ck)
      = calendar.next_day (calendar.Date_of (clock σ n)) ∧
    calendar.Clock (http.Expires ck) = calendar.Clock (clock σ n).
Proof.
  intros Hc. rewrite run_send_cookie, Hc. eexists. split; [done|].
  cbn [http.Value http.Expires csrf_cookie].
  split_and!; [done|by rewrite AddDate_days|done|apply Date_of_next_day
              |apply Clock_AddDate].
Qed.

End cookie.

Lemma send_cookie_next_day_witness :
  ∃ ck,
    @send_cookie utc_format sample.opts sample.get
      (length (heap sample.world))
      (cell sample.world sample.object 1 http.new_ResponseWriter)
      = Ok tt (cell sample.world sample.object 2
                 (@http.SetCookie utc_format http.new_ResponseWriter ck)) ∧
    http.Value ck = Token sample.object ∧
    http.Expires ck = calendar.AddDate (clock sample.world 1) 0 0 1 ∧
    http.Expires ck = (clock sample.world 1 + 86400000000000)%Z ∧
    calendar.Date_of (http.Expires ck)
      = calendar.next_day (calendar.Date_of (clock sample.world 1)) ∧
    calendar.Clock (http.Expires ck) = calendar.Clock (clock sample.world 1).
Proof.
  exact (@send_cookie_next_day utc_format sample.opts sample.get sample.world
           sample.object 1 http.new_ResponseWriter eq_refl).
Defined.

(** The cookie of the sample request, with the formatter of the time
    package: the line sent, and the field [RawExpires] of line 154. *)
Example cookie_line_utc :
  let c := @csrf_cookie utc_format sample.opts "abc" ""
             (calendar.AddDate (sample.clk 1) 0 0 1) in
  @http.Cookie_String utc_format c
    = "_csrf=abc; Path=/; Expires=Fri, 02 Jan 1970 00:16:40 UTC" ∧
  http.RawExpires c = "Fri Jan  2 00:16:40 UTC 1970".
Proof. by vm_compute. Qed.

(** [C39] The two dates of the cookie name one instant.  The field
    [RawExpires] of line 154, in the layout [UnixDate], and the attribute
    Expires of the Set-Cookie line, in the layout [RFC1123], are read
    back by [time.Parse] as the same instant: the expiry of line 142 at
    the start of its second, for every expiry of a year of four
    digits. *)
Theorem cookie_dates_agree opts token domain expire :
  (gotime.year_0 ≤ expire < gotime.year_10000)%Z →
  let c := @csrf_cookie utc_format opts token domain expire in
  timeparse.Parse gotime.UnixDate (http.RawExpires c)
    = Some (gotime.floor_sec expire) ∧
  timeparse.Parse gotime.RFC1123
      (calendar.Format (http.Expires c) gotime.RFC1123)
    = Some (gotime.floor_sec expire).
Proof. intros He. split; by apply Parse_Format. Qed.

Lemma cookie_dates_agree_witness :
  let c := @csrf_cookie utc_format sample.opts "abc" ""
             (gotime.AddDate (sample.clk 1) 1) in
  timeparse.Parse gotime.UnixDate (http.RawExpires c)
    = Some (gotime.floor_sec (gotime.AddDate (sample.clk 1) 1)) ∧
  timeparse.Parse gotime.RFC1123
      (calendar.Format (http.Expires c) gotime.RFC1123)
    = Some (gotime.floor_sec (gotime.AddDate (sample.clk 1) 1)).
Proof.
  apply (cookie_dates_agree sample.opts "abc" ""
           (gotime.AddDate (sample.clk 1) 1)).
  by vm_compute.
Defined.

Lemma cookie_expiry_bound_witness :
  let c := @csrf_cookie unix_format sample.opts "abc" ""
             (gotime.AddDate (-86399000000000) 1) in
  gotime.Unix (http.Expires c) = (gotime.Unix (-86399000000000) + 86400)%Z ∧
  @http.Cookie_String unix_format c =
  "_csrf=" +:+ "abc" +:+ "; Path=/"
  +:+ (if bool_decide (-86399000000000 ≤ -86399000000000)%Z
       then "; Expires=" +:+
            @Format unix_format (gotime.AddDate (-86399000000000) 1)
              gotime.RFC1123
       else "")
  +:+ (if Options.Secure sample.opts then "; Secure" else "").
Proof.
  exact (@cookie_expiry_bound unix_format sample.opts "abc"
           (-86399000000000) eq_refl).
Defined.

(** The pattern of the code has no match at all: it compiles, and
    in no text does any span of bytes match the compiled expression. *)
Theorem domainReg_matches_nothing :
  ∃ re, regexp.Compile domainReg = Some re ∧
        ∀ t i j, ¬ regexp.matches t re i j.
Proof.
  destruct domainReg_compiles as (re & E). eexists. split; [done|].
  intros t i j. apply matches_byte_before_begin.
Qed.

(** The slashes are what keeps the pattern from matching: without
    them it accepts a host name and refuses an upper-case or an empty
    one; with them, as the code has it, it refuses all three. *)
Example domainReg_slashes :
  regexp.Match domainReg_unslashed (to_bytes "example.com") = (true, None) ∧
  regexp.Match domainReg_unslashed (to_bytes "Example.com") = (false, None) ∧
  regexp.Match domainReg_unslashed (to_bytes "") = (false, None) ∧
  regexp.Match domainReg (to_bytes "example.com") = (false, None) ∧
  regexp.Match domainReg (to_bytes "/example.com/") = (false, None).
Proof. by vm_compute. Qed.

(** ** The properties of the methods *)

Section method_properties.
Context `{TokenCodecLaws}.
Implicit Types (σ : World csrf) (c : csrf) (x : nat) (t : string).

(** [C31] [csrf_ValidToken] accepts a candidate exactly when it is the token
    derived from the secret and the subject of the object for the action
    POST at an instant of the validity window that ends at the reading of
    the clock; it reads the clock once and changes nothing else. *)
Theorem ValidToken_iff σ x c t :
  heap σ !! x = Some c →
  runtime.wp (csrf_ValidToken x t) σ (λ ok σ',
    (ok = true ↔
     ∃ issue, gotime.is_int64 issue = true ∧
              xsrftoken.in_window issue (clock σ (reads σ)) = true ∧
              t = derive (Secret c) (Id c) "POST" issue) ∧
    reads σ' = S (reads σ) ∧ heap σ' = heap σ ∧ resp σ' = resp σ).
Proof.
  intros E. eapply wp_Ok; [by apply run_csrf_ValidToken|].
  split; [apply verify_iff|done].
Qed.

End method_properties.

Lemma ValidToken_iff_witness :
  runtime.wp (@csrf_ValidToken toy.codec 0 "garbage")
    sample.bound (λ ok σ',
    (ok = true ↔
     ∃ issue, gotime.is_int64 issue = true ∧
              xsrftoken.in_window issue (sample.clk 0) = true ∧
              "garbage" = @derive toy.codec "token123" "123456" "POST" issue) ∧
    reads σ' = 1 ∧ heap σ' = [sample.object] ∧
    resp σ' = http.new_ResponseWriter).
Proof.
  exact (@ValidToken_iff toy.codec toy_codec_laws sample.bound 0
           sample.object "garbage" eq_refl).
Defined.
