(* ===== verification/Hostname.v ===== *)
(** * The cookie domain pattern as a hostname validator

    src/csrf.go, line 115, declares [domainReg], the pattern line 145
    matches the host of the request against.  Between its two slashes the
    pattern describes host names: an optional leading dot, then labels
    separated by dots, a label being lower-case letters, digits and
    hyphens that starts and ends with a letter or a digit.

    - [hostname.is_label] and [hostname.is_hostname] are that description
      as a direct validator over the fields of the text;
    - [hostname.host] is the syntax tree [regexp.Compile] returns for the
      pattern without its slashes, [hostname.body] the same expression
      without its two anchors;
    - the theorems show that searching a text for the compiled pattern and
      running the validator on it agree on every text. *)

From S2P Require Import Prelude GoStrings Regexp Csrf.

(** ** Definitions *)

Module hostname.

Import regexp.
Local Open Scope char_scope.

(** The classes [[a-z\d]] and [[a-z\d\-]] of the pattern. *)
Definition alnum : list (ascii * ascii) := [("a", "z"); ("0", "9")].
Definition inner : list (ascii * ascii) :=
  [("a", "z"); ("0", "9"); ("-", "-")].

(** A label: bytes of [inner], the first and the last of [alnum]. *)
Definition is_label (l : list ascii) : bool :=
  forallb (in_class inner) l
  && from_option (in_class alnum) false (head l)
  && from_option (in_class alnum) false (last l).

(** The labels of a host name: its fields between dots, after one leading
    dot if there is one. *)
Definition labels (b : list ascii) : list (list ascii) :=
  strings.fields "." (if head b == Some "." then tail b else b).

Definition is_hostname (b : list ascii) : bool := forallb is_label (labels b).

(** The parts of the pattern: the alternation that ends a label (any
    number of [alnum] bytes, or [inner] bytes and one [alnum] byte), a
    label (one [alnum] byte or more, then that alternation), the
    repetition of a dot and a label, and the whole. *)
Definition label_tail : Regexp :=
  Alternate (Star (CharClass alnum))
            (Concat (Star (CharClass inner)) (CharClass alnum)).

Definition label : Regexp := Concat (Plus (CharClass alnum)) label_tail.

Definition more_labels : Regexp := Star (Concat (Literal ".") label).

Definition body : Regexp :=
  Concat (Quest (Literal "."))
         (Concat (Plus (CharClass alnum)) (Concat label_tail more_labels)).

Definition host : Regexp :=
  Concat BeginText
   (Concat (Quest (Literal "."))
     (Concat (Plus (CharClass alnum))
       (Concat label_tail (Concat more_labels EndText)))).

Local Close Scope char_scope.

End hostname.

(** ** The pattern compiles to [host], and [host] is [body] anchored *)

Import regexp hostname.

Lemma Compile_domainReg_unslashed : Compile domainReg_unslashed = Some host.
Proof. by vm_compute. Qed.

Ltac inv_matches :=
  repeat match goal with
    | H : matches _ (Concat _ _) _ _ |- _ => inv H
    | H : matches _ BeginText _ _ |- _ => inv H
    | H : matches _ EndText _ _ |- _ => inv H
    end.

Lemma matches_host t i j :
  matches t host i j ↔ i = 0 ∧ j = length t ∧ matches t body 0 (length t).
Proof.
  unfold host, body. split.
  - intros H. inv_matches. eauto 10 using matches.
  - intros (-> & -> & H). inv_matches. eauto 10 using matches.
Qed.

Lemma MatchRegexp_host b : MatchRegexp host b = true ↔ lang body b.
Proof.
  rewrite MatchRegexp_spec, <-matches_whole_lang by done. split.
  - by intros (i & j & _ & (_ & _ & H)%matches_host).
  - intros H. exists 0, (length b). split; [lia|]. by apply matches_host.
Qed.

(** ** The languages of the parts *)

Section classes.
Context (rs : list (ascii * ascii)).
Implicit Types (w : list ascii) (c : ascii).

Lemma lang_class_star w :
  lang (Star (CharClass rs)) w ↔ forallb (in_class rs) w = true.
Proof.
  split.
  - remember (Star (CharClass rs)) as re eqn:E.
    induction 1 as [| | | | | | |r w1 w2 H1 _ _ IH| | |]; simplify_eq; [done|].
    inv H1. cbn. by rewrite IH, andb_true_r.
  - induction w as [|c w IH]; cbn; [constructor|].
    intros [? ?]%andb_prop. apply (l_star_step _ [c]); [by constructor|auto].
Qed.

Lemma lang_class_plus w :
  lang (Plus (CharClass rs)) w ↔ w ≠ [] ∧ forallb (in_class rs) w = true.
Proof.
  split.
  - intros H. inv H. match goal with H : lang (CharClass _) _ |- _ => inv H end.
    match goal with H : lang (Star _) _ |- _ => apply lang_class_star in H end.
    cbn. split; [done|]. by apply andb_true_intro.
  - intros [Hne H]. destruct w as [|c w]; [done|]. cbn in H.
    apply andb_prop in H as [? ?]. apply (l_plus _ [c]); [by constructor|].
    by apply lang_class_star.
Qed.

End classes.

Lemma lang_concat r1 r2 w :
  lang (Concat r1 r2) w ↔ ∃ w1 w2, w = w1 ++ w2 ∧ lang r1 w1 ∧ lang r2 w2.
Proof.
  split; [intros H; inv H; eauto|].
  intros (w1 & w2 & -> & ? & ?). by constructor.
Qed.

Lemma lang_alt r1 r2 w : lang (Alternate r1 r2) w ↔ lang r1 w ∨ lang r2 w.
Proof.
  split; [intros H; inv H; eauto|].
  intros [?|?]; [by apply l_alt_l|by apply l_alt_r].
Qed.

Lemma lang_quest_literal c w : lang (Quest (Literal c)) w ↔ w = [] ∨ w = [c].
Proof.
  split.
  - intros H. inv H; [by left|]. right.
    by match goal with H : lang (Literal _) _ |- _ => inv H end.
  - intros [->| ->]; [apply l_quest_nil|apply l_quest_one; constructor].
Qed.

Lemma alnum_inner c : in_class alnum c = true → in_class inner c = true.
Proof.
  unfold in_class, alnum, inner. cbn [existsb].
  by destruct (in_range c ("a"%char, "z"%char)),
              (in_range c ("0"%char, "9"%char)).
Qed.

Lemma forallb_alnum_inner w :
  forallb (in_class alnum) w = true → forallb (in_class inner) w = true.
Proof.
  rewrite !forallb_forall. eauto using alnum_inner.
Qed.

Lemma forallb_last (P : ascii → bool) w c :
  forallb P w = true → last w = Some c → P c = true.
Proof.
  intros H (w' & ->)%last_Some. rewrite forallb_app in H.
  apply andb_prop in H as [_ H]. cbn in H. by rewrite andb_true_r in H.
Qed.

Lemma is_label_spec l :
  is_label l = true ↔
  forallb (in_class inner) l = true ∧
  (∃ c, head l = Some c ∧ in_class alnum c = true) ∧
  (∃ d, last l = Some d ∧ in_class alnum d = true).
Proof.
  unfold is_label. rewrite !andb_true_iff.
  destruct (head l), (last l); cbn; naive_solver.
Qed.

Lemma is_label_no_dot l : is_label l = true → "."%char ∉ l.
Proof.
  intros (H & _)%is_label_spec Hin.
  rewrite forallb_forall in H. by apply list_elem_of_In, H in Hin.
Qed.

(** A label of the pattern is a label of the validator. *)
Lemma lang_label w : lang label w ↔ is_label w = true.
Proof.
  unfold label, label_tail.
  rewrite lang_concat, is_label_spec. setoid_rewrite lang_alt.
  setoid_rewrite lang_concat. setoid_rewrite lang_class_plus.
  setoid_rewrite lang_class_star. split.
  - intros (w1 & w2 & -> & [Hne H1] & H2). destruct w1 as [|c w1]; [done|].
    cbn [forallb] in H1. apply andb_prop in H1 as [Hc H1].
    assert (forallb (in_class inner) (c :: w1) = true) as Hi
      by (apply forallb_alnum_inner; cbn [forallb]; by rewrite Hc).
    destruct H2 as [H2|(w3 & w4 & -> & H3 & H4)].
    + split_and!; [rewrite forallb_app, Hi; by apply forallb_alnum_inner
                  |by exists c|].
      destruct (last ((c :: w1) ++ w2)) as [d|] eqn:E;
        [|by apply last_None, app_nil in E as [? _]].
      exists d. split; [done|]. eapply forallb_last; [|done].
      rewrite forallb_app. cbn [forallb]. by rewrite Hc, H1, H2.
    + inv H4. split_and!; [|by exists c|].
      * rewrite !forallb_app, Hi, H3. cbn [forallb andb].
        by rewrite alnum_inner.
      * eexists. by rewrite (assoc_L (++)), last_snoc.
  - intros (Hi & (c & [w' ->]%head_Some & Hc) & (d & Hd & Hdc)).
    exists [c], w'. split_and!; [done..|cbn [forallb]; by rewrite Hc|].
    destruct w' as [|e w'] using rev_ind; [left; done|right].
    rewrite app_comm_cons, last_snoc in Hd. simplify_eq.
    cbn [forallb] in Hi. rewrite forallb_app in Hi.
    apply andb_prop in Hi as [_ [Hi _]%andb_prop].
    exists w', [d]. split_and!; [done..|by constructor].
Qed.

Lemma lang_more_labels w :
  lang more_labels w ↔
  ∃ ls, forallb is_label ls = true ∧ w = concat (("."%char ::.) <$> ls).
Proof.
  unfold more_labels. split.
  - remember (Star _) as re eqn:E.
    induction 1 as [| | | | | | |r w1 w2 H1 _ _ IH| | |]; simplify_eq;
      [by exists []|].
    destruct IH as (ls & Hls & ->); [done|].
    apply lang_concat in H1 as (? & l & -> & H & Hl%lang_label). inv H.
    exists (l :: ls). cbn. by rewrite Hl, Hls.
  - intros (ls & Hls & ->). induction ls as [|l ls IH]; cbn in *; [constructor|].
    apply andb_prop in Hls as [Hl Hls]. apply (l_star_step _ (_ :: l)); [|auto].
    apply (l_concat _ _ [_]); [constructor|by apply lang_label].
Qed.

(** The words of the pattern: an optional dot, a label, and dots and labels. *)
Lemma lang_body w :
  lang body w ↔
  ∃ q l ls, w = q ++ l ++ concat (("."%char ::.) <$> ls) ∧
    (q = [] ∨ q = ["."%char]) ∧ forallb is_label (l :: ls) = true.
Proof.
  unfold body. rewrite lang_concat. setoid_rewrite lang_quest_literal.
  split.
  - intros (q & ? & -> & Hq & (w1 & ? & -> & H1 & (w2 & w3 & -> & H2 & H3)
      %lang_concat)%lang_concat).
    apply lang_more_labels in H3 as (ls & Hls & ->).
    exists q, (w1 ++ w2), ls. rewrite <-(assoc_L (++)). split_and!; [done..|].
    cbn. rewrite Hls, andb_true_r. apply lang_label. by constructor.
  - intros (q & l & ls & -> & Hq & [Hl Hls]%andb_prop).
    apply lang_label in Hl. unfold label in Hl.
    apply lang_concat in Hl as (w1 & w2 & -> & H1 & H2).
    exists q, ((w1 ++ w2) ++ concat (("."%char ::.) <$> ls)).
    split_and!; [done..|]. rewrite <-(assoc_L (++)).
    do 2 (constructor; [done|]). apply lang_more_labels. eauto.
Qed.

(** ** The validator *)

Lemma labels_dot b : labels ("."%char :: b) = strings.fields "." b.
Proof. done. Qed.

Lemma labels_no_dot b :
  head b ≠ Some "."%char → labels b = strings.fields "." b.
Proof. unfold labels. by case_bool_decide. Qed.

Lemma labels_of_concat q l ls :
  q = [] ∨ q = ["."%char] → forallb is_label (l :: ls) = true →
  labels (q ++ l ++ concat (("."%char ::.) <$> ls)) = l :: ls.
Proof.
  intros Hq H. cbn [forallb] in H. apply andb_prop in H as [Hl Hls].
  assert (strings.fields "." (l ++ concat (("."%char ::.) <$> ls)) = l :: ls)
    as E.
  { apply fields_of_concat; [by apply is_label_no_dot|].
    apply Forall_forall. intros f Hf. apply is_label_no_dot.
    rewrite forallb_forall in Hls. by apply Hls, list_elem_of_In. }
  destruct Hq as [->| ->]; [|by rewrite <-E].
  rewrite <-E. apply labels_no_dot.
  apply is_label_spec in Hl as (_ & (c & [l' ->]%head_Some & Hc) & _).
  cbn. by intros [= ->].
Qed.

Lemma is_hostname_spec b : is_hostname b = true ↔ lang body b.
Proof.
  rewrite lang_body. unfold is_hostname. split.
  - intros H.
    destruct (fields_concat "." (if head b == Some "."%char then tail b else b))
      as (l & ls & E & Hb).
    unfold labels in H. rewrite E in H.
    case_bool_decide as Hd.
    + apply head_Some in Hd as [b' ->]. cbn in Hb.
      exists ["."%char], l, ls. by rewrite Hb at 1; auto.
    + exists [], l, ls. by auto.
  - intros (q & l & ls & -> & Hq & H). by rewrite labels_of_concat.
Qed.

(** ** The pattern and the validator agree *)

(** [C32] The pattern of line 115 without its slashes is a hostname
    validator.  On every text, searching it for the compiled pattern gives
    the verdict of [is_hostname]: an optional leading dot, then labels
    between dots, each of lower-case letters, digits and hyphens with a
    letter or a digit first and last; and the pattern compiles without an
    error. *)
Theorem domainReg_unslashed_is_hostname b :
  Match domainReg_unslashed b = (is_hostname b, None).
Proof.
  unfold Match. rewrite Compile_domainReg_unslashed. f_equal.
  apply eq_true_iff_eq. by rewrite MatchRegexp_host, is_hostname_spec.
Qed.

Example is_hostname_samples :
  is_hostname <$> (to_bytes <$> ["example.com"; ".example.com"; "a-b.c0";
                                 "localhost"; "127.0.0.1"])
    = [true; true; true; true; true] ∧
  is_hostname <$> (to_bytes <$> [""; "Example.com"; "a..b"; "example.com.";
                                 "-a.b"; "a-.b"; "example.com:3000";
                                 "/example.com/"])
    = [false; false; false; false; false; false; false; false].
Proof. by vm_compute. Qed.
