(* ===== verification/Pipeline.v ===== *)
(** * The handlers in a chain

    The package comment of src/csrf.go (lines 17-59) installs [Generate]
    for every request with [m.Use] and puts [Validate] in front of the
    handler of the route it protects.  martini runs the handlers of a
    request in order and stops after the first that has written the
    response; it injects into each the values mapped in the context, and
    panics when a handler asks for a type that is not mapped.

    [martini.run] is that loop, [martini.inject] the injection of the
    interface [Csrf], [protected] the chain of the protected route and
    [page] the chain of a route that hands the token to a page.  The
    theorems are about whole requests: the protected handler runs exactly
    when the request is accepted; a token handed out on a GET is accepted
    on a POST made within the validity window and refused after it; it
    is refused in the session of a subject with another normal form, and
    accepted in the session of a subject with the same one; a token taken
    over from a cookie is handed out even when it can no longer be
    accepted. *)

From S2P Require Import Prelude GoStrings GoTime Regexp NetHttp Runtime Xsrftoken Csrf.

(** ** Definitions *)

Module martini.

(** [c.Written()]. *)
Definition Written : M csrf bool := λ σ, Ok (http.Written (resp σ)) σ.

(** The loop of [context.run]: the handlers in order, until one has
    written the response. *)
Fixpoint run (hs : list (M csrf unit)) : M csrf unit :=
  match hs with
  | [] => mret tt
  | h :: hs' =>
      h;;
      written ← Written;
      if (written : bool) then mret tt else run hs'
  end.

(** A handler with an argument of type [Csrf]: the context injects the
    pointer the interface is mapped to. *)
Definition inject {A} (h : nat → M csrf A) : M csrf A :=
  x ← runtime.Injected; h x.

End martini.

(** [m.Use(csrf.Generate(opts))] and
    [m.Post("/protected", csrf.Validate, handler)]. *)
Definition protected `{TokenCodec, TimeFormat} (opts : Options.Options)
    (s : Session) (r : http.Request) (handler : M csrf unit) : M csrf unit :=
  martini.run
    [Generate opts s r; martini.inject (Validate r); handler].

(** [m.Use(csrf.Generate(opts))] and a handler that calls
    [x.GetToken()] for the page it renders: the token the page gets. *)
Definition page `{TokenCodec, TimeFormat} (opts : Options.Options)
    (s : Session) (r : http.Request) : M csrf string :=
  Generate opts s r;; martini.inject GetToken.

(** The object [Generate] leaves for a request that is not a browser
    GET. *)
Definition bare (opts : Options.Options) (uid : string) : csrf :=
  mk_csrf "" uid (Options.Secret opts).

(** The verification [Validate] makes of a candidate in [σ]. *)
Definition check `{TokenCodec} (opts : Options.Options) (uid : string)
    (σ : World csrf) (t : string) : bool :=
  verify t (Options.Secret opts) uid action (clock σ (reads σ)).

(** The world a request is refused in: the bare object, the clock read
    if there was a candidate, and the error written. *)
Definition refused (opts : Options.Options) (uid : string)
    (r : http.Request) (σ : World csrf) : World csrf :=
  validated (cell σ (bare opts uid) (reads σ) (resp σ))
    (verdict r (λ _, false)).

(** The world the handler of the protected route starts in. *)
Definition admitted (opts : Options.Options) (uid : string)
    (σ : World csrf) : World csrf :=
  cell σ (bare opts uid) (S (reads σ)) (resp σ).

(** A handler and the worlds of two requests, to run the chains on. *)
Module scenario.

Definition handler : M csrf unit :=
  runtime.on_w (λ w, http.Write w "You submitted a valid token").

(** The request that fetches the page, and a later one. *)
Definition first : World csrf := sample.world.
Definition later : World csrf := runtime.request_world sample.clk 7 [].

(** A request made a day after the first. *)
Definition next_day : World csrf :=
  runtime.request_world (λ n, sample.clk n + 86400000000000)%Z 7 [].

(** The token of the first request under the toy codec: the URL
    encoding of [mac(token123,123456:POST:1000000000000):1000000000000]. *)
Definition token : string :=
  "bWFjKHRva2VuMTIzLDEyMzQ1NjpQT1NUOjEwMDAwMDAwMDAwMDApOjEwMDAwMDAwMDAwMDA=".

(** The token of the first request with its instant moved on by a
    nanosecond: the URL encoding of
    [mac(token123,123456:POST:1000000000000):1000000000001]. *)
Definition edited : string :=
  "bWFjKHRva2VuMTIzLDEyMzQ1NjpQT1NUOjEwMDAwMDAwMDAwMDApOjEwMDAwMDAwMDAwMDE=".

(** The session after another subject has logged in. *)
Definition other_session : Session :=
  {["userId" := sessions.of_string "654321"]}.

(** The sessions of two subjects that differ in a colon. *)
Definition colon_session : Session :=
  {["userId" := sessions.of_string "a:b"]}.
Definition underscore_session : Session :=
  {["userId" := sessions.of_string "a_b"]}.

(** The token of the first request in [colon_session]: the URL encoding
    of [mac(token123,a_b:POST:1000000000000):1000000000000]. *)
Definition colon_token : string :=
  "bWFjKHRva2VuMTIzLGFfYjpQT1NUOjEwMDAwMDAwMDAwMDApOjEwMDAwMDAwMDAwMDA=".

End scenario.

(** ** The loop *)

Section run.
Implicit Types (h : M csrf unit) (hs : list (M csrf unit)) (σ : World csrf).

Lemma run_last h σ : martini.run [h] σ = h σ.
Proof.
  cbn [martini.run]. rewrite run_bind. destruct (h σ) as [[] σ'|]; [|done].
  unfold martini.Written. rewrite run_bind. by case_match.
Qed.

Lemma run_cons_written h hs σ σ' :
  h σ = Ok tt σ' → http.Written (resp σ') = true →
  martini.run (h :: hs) σ = Ok tt σ'.
Proof.
  intros E Hw. cbn [martini.run]. erewrite run_bind_Ok by done.
  unfold martini.Written. by rewrite run_bind, Hw.
Qed.

Lemma run_cons_unwritten h hs σ σ' :
  h σ = Ok tt σ' → http.Written (resp σ') = false →
  martini.run (h :: hs) σ = martini.run hs σ'.
Proof.
  intros E Hw. cbn [martini.run]. erewrite run_bind_Ok by done.
  unfold martini.Written. by rewrite run_bind, Hw.
Qed.

Lemma run_cons_Panic h hs σ msg :
  h σ = Panic msg → martini.run (h :: hs) σ = Panic msg.
Proof. intros E. cbn [martini.run]. by erewrite run_bind_Panic. Qed.

Lemma Written_status (w : http.ResponseWriter) :
  http.Written w = false ↔ http.w_status w = 0%Z.
Proof. unfold http.Written. by rewrite neq_false. Qed.

End run.

(** ** The chains and the past of the clock *)

Section forgetful.
Context `{TokenCodec, TimeFormat}.

#[export] Instance Written_forgetful : Forgetful martini.Written.
Proof.
  intros σ1 σ2 E. pose proof E as (_ & _ & _ & Hw & _).
  unfold martini.Written. rewrite Hw. by constructor.
Qed.

Lemma martini_run_forgetful (hs : list (M csrf unit)) :
  Forall (λ h, Forgetful h) hs → Forgetful (martini.run hs).
Proof. induction 1; cbn [martini.run]; solve_forgetful. Qed.

#[export] Instance inject_forgetful {A} (h : nat → M csrf A) :
  (∀ x, Forgetful (h x)) → Forgetful (martini.inject h).
Proof. intros Hh. unfold martini.inject. solve_forgetful. Qed.

#[export] Instance protected_forgetful opts s r (handler : M csrf unit) :
  Forgetful handler → Forgetful (protected opts s r handler).
Proof.
  intros Hh. apply martini_run_forgetful. repeat constructor; apply _.
Qed.

#[export] Instance page_forgetful opts s r : Forgetful (page opts s r).
Proof. unfold page. solve_forgetful. Qed.

End forgetful.

(** ** The protected route *)

Section protected.
Context `{TokenCodec, TimeFormat}.
Implicit Types (opts : Options.Options) (s : Session) (r : http.Request)
  (σ : World csrf) (uid : string) (handler : M csrf unit).

(** On a request that is not a browser GET, [Generate] leaves the bare
    object of the subject of the session. *)
Lemma run_Generate_bare opts s r σ :
  browser_get r = false →
  Generate opts s r σ
  = Ok tt (cell σ (bare opts (subject opts s)) (reads σ) (resp σ)).
Proof.
  intros Hb. rewrite run_Generate. unfold issuance, issued, subject.
  destruct (sessions.Get s _); by rewrite ?Hb.
Qed.

(** The chain of a request that is not a browser GET, in a world where
    nothing is written yet: [Generate] leaves the bare object, [Validate]
    reaches its verdict, and the handler runs if the verdict accepts. *)
Lemma run_protected_subject opts s r handler σ :
  browser_get r = false → http.w_status (resp σ) = 0%Z →
  protected opts s r handler σ =
  let uid := subject opts s in
  let v := verdict r (check opts uid σ) in
  let σ' := validated (cell σ (bare opts uid) (reads σ) (resp σ)) v in
  if accepted v then handler σ' else Ok tt σ'.
Proof.
  intros Hb Hw. unfold protected.
  erewrite run_cons_unwritten;
    [|by apply run_Generate_bare|by apply Written_status].
  set (σ1 := cell σ _ _ _).
  assert (martini.inject (Validate r) σ1 =
          Ok tt (validated σ1 (verdict r (check opts (subject opts s) σ))))
    as E.
  { unfold martini.inject. rewrite run_bind. cbn [runtime.Injected σ1 cell binding].
    by erewrite Validate_verdict by apply lookup_alloc_new. }
  cbn zeta. destruct (accepted _) eqn:Ha.
  - rewrite (run_cons_unwritten _ _ _ _ E); [apply run_last|].
    cbn [validated resp]. rewrite reply_accepted by done.
    by apply Written_status.
  - apply (run_cons_written _ _ _ _ E).
    cbn [validated resp]. rewrite reply_Written; [by rewrite Ha|done|].
    unfold verdict. by repeat case_bool_decide.
Qed.

Lemma run_protected opts s r handler σ uid :
  sessions.Get s (Options.SessionKey opts) = sessions.of_string uid →
  browser_get r = false → http.w_status (resp σ) = 0%Z →
  protected opts s r handler σ =
  let v := verdict r (check opts uid σ) in
  let σ' := validated (cell σ (bare opts uid) (reads σ) (resp σ)) v in
  if accepted v then handler σ' else Ok tt σ'.
Proof.
  intros Hs Hb Hw. rewrite run_protected_subject by done.
  unfold subject. by rewrite Hs.
Qed.

End protected.

(** ** The verdict depends on the candidate only *)

Lemma verdict_ext r (valid valid' : string → bool) :
  (∀ t, candidate r = Some t → valid t = valid' t) →
  verdict r valid = verdict r valid'.
Proof.
  unfold verdict, candidate.
  repeat case_bool_decide; intros E; try done; by rewrite (E _ eq_refl).
Qed.

Lemma verdict_candidate r (valid : string → bool) t :
  candidate r = Some t → accepted (verdict r valid) = valid t.
Proof.
  unfold verdict, candidate.
  repeat case_bool_decide; intros; by simplify_eq/=.
Qed.

Lemma verdict_reads_candidate r (valid : string → bool) t :
  candidate r = Some t → verdict_reads (verdict r valid) = 1.
Proof.
  unfold verdict, candidate.
  repeat case_bool_decide; intros; by simplify_eq/=.
Qed.

Lemma verdict_refused r : accepted (verdict r (λ _, false)) = false.
Proof. unfold verdict. by repeat case_bool_decide. Qed.

(** ** Whole requests *)

Section requests.
Context `{TokenCodec, TimeFormat}.
Implicit Types (opts : Options.Options) (s : Session) (r : http.Request)
  (σ : World csrf) (uid t : string) (handler : M csrf unit).

Lemma subject_Get opts s uid :
  sessions.Get s (Options.SessionKey opts) = sessions.of_string uid →
  subject opts s = uid.
Proof. intros Hs. unfold subject. by rewrite Hs. Qed.

(** The two ends of the chain, for the subject of the session, which is
    empty when the session has none. *)
Lemma run_protected_passed opts s r handler σ t :
  browser_get r = false → http.w_status (resp σ) = 0%Z →
  candidate r = Some t → check opts (subject opts s) σ t = true →
  protected opts s r handler σ = handler (admitted opts (subject opts s) σ).
Proof.
  intros Hb Hw Hc Hv. rewrite run_protected_subject by done.
  cbn zeta. rewrite (verdict_candidate _ _ t), Hv by done.
  unfold validated, admitted. cbn [clock reads heap binding resp cell].
  rewrite (verdict_reads_candidate _ _ t), Nat.add_1_r by done.
  rewrite reply_accepted; [done|]. by rewrite (verdict_candidate _ _ t).
Qed.

Lemma run_protected_failed opts s r handler σ :
  browser_get r = false → http.w_status (resp σ) = 0%Z →
  (∀ t, candidate r = Some t → check opts (subject opts s) σ t = false) →
  protected opts s r handler σ = Ok tt (refused opts (subject opts s) r σ).
Proof.
  intros Hb Hw Hv. rewrite run_protected_subject by done.
  cbn zeta. rewrite (verdict_ext r _ (λ _, false)) by done.
  by rewrite verdict_refused.
Qed.

Lemma run_protected_accepted opts s r handler σ uid t :
  sessions.Get s (Options.SessionKey opts) = sessions.of_string uid →
  browser_get r = false → http.w_status (resp σ) = 0%Z →
  candidate r = Some t → check opts uid σ t = true →
  protected opts s r handler σ = handler (admitted opts uid σ).
Proof.
  intros <-%subject_Get. apply run_protected_passed.
Qed.

Lemma run_protected_refused opts s r handler σ uid :
  sessions.Get s (Options.SessionKey opts) = sessions.of_string uid →
  browser_get r = false → http.w_status (resp σ) = 0%Z →
  (∀ t, candidate r = Some t → check opts uid σ t = false) →
  protected opts s r handler σ = Ok tt (refused opts uid r σ).
Proof.
  intros <-%subject_Get. apply run_protected_failed.
Qed.

(** The response of a refusal: status 400, and the headers of before
    with the content type of the message. *)
Lemma refused_resp opts uid r σ :
  http.w_status (resp σ) = 0%Z →
  ∃ msg,
    resp (refused opts uid r σ)
    = http.Error (resp σ) msg http.StatusBadRequest ∧
    http.w_status (resp (refused opts uid r σ)) = 400%Z.
Proof.
  intros Hw. unfold refused. cbn [validated resp cell].
  destruct (reply_rejected (verdict r (λ _, false)) (resp σ))
    as (msg & _ & ->); [apply verdict_refused| |].
  - unfold verdict. by repeat case_bool_decide.
  - exists msg. by rewrite Error_fresh.
Qed.

Lemma run_page opts s r σ :
  page opts s r σ =
  let i := issuance opts s r (clock σ) (reads σ) (resp σ) in
  Ok (Token (iss_csrf i)) (issued σ i).
Proof.
  unfold page, martini.inject. rewrite run_bind, run_Generate.
  unfold issued. rewrite run_bind, run_cell_Injected.
  by apply run_csrf_GetToken, lookup_alloc_new.
Qed.

End requests.

(** ** The properties of the chains *)

Section chain_properties.
Context `{TokenCodec, TimeFormat}.
Implicit Types (opts : Options.Options) (s : Session) (r : http.Request)
  (σ : World csrf) (uid t : string) (handler : M csrf unit).

(** [C40] [Generate] never ends the chain: in a world where nothing is
    written yet, the handlers after it run, in the world of the
    issuance. *)
Theorem Generate_continues opts s r hs σ :
  http.w_status (resp σ) = 0%Z →
  martini.run (Generate opts s r :: hs) σ =
  martini.run hs
    (issued σ (issuance opts s r (clock σ) (reads σ) (resp σ))).
Proof.
  intros Hw. apply run_cons_unwritten; [apply run_Generate|].
  apply Written_status. cbn [issued cell resp].
  destruct (issuance_frame opts s r (clock σ) (reads σ) (resp σ))
    as (_ & _ & -> & _). done.
Qed.

(** [C3] [Validate] guards the handler of the protected route.  For a
    request of a subject, either it carries a candidate that verifies and
    the chain is the handler, started in a world where the clock has been
    read once and nothing is written; or it carries none that verifies
    and the chain ends before the handler, in the world of the
    refusal. *)
Theorem protected_guards_handler opts s r handler σ uid :
  sessions.Get s (Options.SessionKey opts) = sessions.of_string uid →
  browser_get r = false → http.w_status (resp σ) = 0%Z →
  (∃ t, candidate r = Some t ∧ check opts uid σ t = true) ∧
    protected opts s r handler σ = handler (admitted opts uid σ)
  ∨ (∀ t, candidate r = Some t → check opts uid σ t = false) ∧
    protected opts s r handler σ = Ok tt (refused opts uid r σ).
Proof.
  intros Hs Hb Hw.
  destruct (candidate r) as [t|] eqn:Hc;
    [destruct (check opts uid σ t) eqn:Hv|].
  - left. split; [by eauto|]. by eapply run_protected_accepted.
  - right. assert (∀ t', Some t = Some t' → check opts uid σ t' = false)
      by (by intros ? [= <-]).
    split; [done|]. apply run_protected_refused; try done. by rewrite Hc.
  - right. split; [done|]. apply run_protected_refused; try done.
    by rewrite Hc.
Qed.

(** The protected handler does not run otherwise: when the request
    carries no candidate, or one that does not verify, the chain ends
    after [Validate] with status 400, whatever the handler is. *)
Theorem protected_refused opts s r handler σ uid :
  sessions.Get s (Options.SessionKey opts) = sessions.of_string uid →
  browser_get r = false → http.w_status (resp σ) = 0%Z →
  (∀ t, candidate r = Some t → check opts uid σ t = false) →
  protected opts s r handler σ = Ok tt (refused opts uid r σ) ∧
  http.w_status (resp (refused opts uid r σ)) = 400%Z.
Proof.
  intros Hs Hb Hw Hv. split; [by apply run_protected_refused|].
  by destruct (refused_resp opts uid r σ Hw) as (msg & _ & ?).
Qed.

(** [Validate] cannot run without [Generate]: when the context maps
    the interface to nothing, injecting it panics, and so does the
    chain. *)
Lemma Validate_without_Generate r hs σ :
  binding σ = None →
  ∃ msg, martini.run (martini.inject (Validate r) :: hs) σ = Panic msg.
Proof.
  intros Hb. eexists. apply run_cons_Panic.
  unfold martini.inject, runtime.Injected. by rewrite run_bind, Hb.
Qed.

(** A token taken over from the cookie is handed to the page as it
    is, and a request that sends it back is refused when it does not
    verify: the cookie outlives the token, and the subject of the
    session may have changed since the token was minted. *)
Theorem reused_token_refused opts s r1 r2 handler σ1 σ2 uid v :
  sessions.Get s (Options.SessionKey opts) = sessions.of_string uid →
  browser_get r1 = true → existing_token r1 = Some v →
  browser_get r2 = false → http.w_status (resp σ2) = 0%Z →
  candidate r2 = Some v → check opts uid σ2 v = false →
  runtime.wp (page opts s r1) σ1 (λ token σ',
    token = v ∧ reads σ' = reads σ1 ∧
    protected opts s r2 handler σ2 = Ok tt (refused opts uid r2 σ2)).
Proof.
  intros Hs Hb1 Hc Hb2 Hw Hc2 Hv. eapply wp_Ok; [apply run_page|].
  unfold issuance. rewrite Hs, Hb1, Hc. cbn. split_and!; [done..|].
  apply run_protected_refused; try done. intros t ?. by simplify_eq.
Qed.

End chain_properties.

Section lifecycle.
Context `{TokenCodecLaws, TimeFormat}.
Implicit Types (opts : Options.Options) (s : Session) (r : http.Request)
  (σ : World csrf) (uid t : string) (handler : M csrf unit).

(** [C4] Round trip.  The token a page gets on a browser GET of a subject
    is accepted on a later request of the same subject that sends it
    back, in the header or in the form, as long as the reading of the
    clock at validation is within the validity window of the reading at
    issuance: the protected handler runs. *)
Theorem token_round_trip opts s r1 r2 handler σ1 σ2 uid :
  sessions.Get s (Options.SessionKey opts) = sessions.of_string uid →
  browser_get r1 = true → existing_token r1 = None →
  browser_get r2 = false → http.w_status (resp σ2) = 0%Z →
  gotime.is_int64 (clock σ1 (reads σ1)) = true →
  xsrftoken.in_window (clock σ1 (reads σ1)) (clock σ2 (reads σ2)) = true →
  runtime.wp (page opts s r1) σ1 (λ token _,
    candidate r2 = Some token →
    protected opts s r2 handler σ2 = handler (admitted opts uid σ2)).
Proof.
  intros Hs Hb1 Hc Hb2 Hw Hi Hin. eapply wp_Ok; [apply run_page|].
  intros Hc2. eapply run_protected_accepted; try done.
  unfold issuance. rewrite Hs, Hb1, Hc.
  unfold check. destruct (Options.SetCookie opts); by apply verify_derive.
Qed.

(** [C28] Expiry.  The same token sent back when the clock has advanced by
    the timeout of 24 hours or more is refused with status 400, and the
    protected handler does not run. *)
Theorem token_expires opts s r1 r2 handler σ1 σ2 uid :
  sessions.Get s (Options.SessionKey opts) = sessions.of_string uid →
  browser_get r1 = true → existing_token r1 = None →
  browser_get r2 = false → http.w_status (resp σ2) = 0%Z →
  (xsrftoken.Timeout ≤ clock σ2 (reads σ2) - clock σ1 (reads σ1))%Z →
  runtime.wp (page opts s r1) σ1 (λ token _,
    candidate r2 = Some token →
    protected opts s r2 handler σ2 = Ok tt (refused opts uid r2 σ2)).
Proof.
  intros Hs Hb1 Hc Hb2 Hw Hout. eapply wp_Ok; [apply run_page|].
  intros Hc2. apply run_protected_refused; try done.
  intros t Ht. rewrite Hc2 in Ht. injection Ht as <-.
  unfold issuance. rewrite Hs, Hb1, Hc.
  unfold check. destruct (Options.SetCookie opts);
    by apply verify_derive_out, in_window_expired.
Qed.

End lifecycle.

Section binding.
Context `{TokenCodecLaws, TimeFormat}.
Context (normal : string → string) `{!TokenCodecBinding normal}.
Implicit Types (opts : Options.Options) (s : Session) (r : http.Request)
  (σ : World csrf) (uid t : string) (handler : M csrf unit).

(** The token minted for a subject does not pass the check of another,
    unless the two have the same normal form. *)
Lemma check_other_subject opts s r σ σ' uid uid' :
  sessions.Get s (Options.SessionKey opts) = sessions.of_string uid →
  browser_get r = true → existing_token r = None →
  normal uid ≠ normal uid' →
  check opts uid' σ'
    (Token (iss_csrf (issuance opts s r (clock σ) (reads σ) (resp σ))))
  = false.
Proof.
  intros Hs Hb Hc Hne. unfold issuance. rewrite Hs, Hb, Hc. unfold check.
  destruct (Options.SetCookie opts); by eapply verify_other_subject.
Qed.

Lemma check_same_normal opts s r σ σ' uid uid' :
  sessions.Get s (Options.SessionKey opts) = sessions.of_string uid →
  browser_get r = true → existing_token r = None →
  normal uid = normal uid' →
  gotime.is_int64 (clock σ (reads σ)) = true →
  check opts uid' σ'
    (Token (iss_csrf (issuance opts s r (clock σ) (reads σ) (resp σ))))
  = xsrftoken.in_window (clock σ (reads σ)) (clock σ' (reads σ')).
Proof.
  intros Hs Hb Hc He Hi. unfold issuance. rewrite Hs, Hb, Hc. unfold check.
  destruct (Options.SetCookie opts); by eapply verify_same_normal.
Qed.

(** [C29] A token is bound to its subject.  The token a page gets for one
    subject is refused on a request made in the session of another
    subject, at whatever instant, when the normal forms of the two
    subjects differ: the protected handler does not run. *)
Theorem token_bound_to_subject opts s1 s2 r1 r2 handler σ1 σ2 uid1 uid2 :
  sessions.Get s1 (Options.SessionKey opts) = sessions.of_string uid1 →
  sessions.Get s2 (Options.SessionKey opts) = sessions.of_string uid2 →
  normal uid1 ≠ normal uid2 →
  browser_get r1 = true → existing_token r1 = None →
  browser_get r2 = false → http.w_status (resp σ2) = 0%Z →
  runtime.wp (page opts s1 r1) σ1 (λ token _,
    candidate r2 = Some token →
    protected opts s2 r2 handler σ2 = Ok tt (refused opts uid2 r2 σ2)).
Proof.
  intros Hs1 Hs2 Hne Hb1 Hc1 Hb2 Hw. eapply wp_Ok; [apply run_page|].
  intros Hc2. apply run_protected_refused; try done.
  intros t Ht. rewrite Hc2 in Ht. injection Ht as <-.
  by eapply check_other_subject.
Qed.

(** The cookie outlives the subject.  When another subject logs in
    while the browser still holds the cookie of the first, [Generate]
    hands the pages of the second the token of the first, and every
    request that sends it back is refused. *)
Theorem stale_cookie_after_login opts s1 s2 r1 r2 r3 handler σ1 σ2 σ3
    uid1 uid2 :
  sessions.Get s1 (Options.SessionKey opts) = sessions.of_string uid1 →
  sessions.Get s2 (Options.SessionKey opts) = sessions.of_string uid2 →
  normal uid1 ≠ normal uid2 →
  browser_get r1 = true → existing_token r1 = None →
  browser_get r2 = true →
  browser_get r3 = false → http.w_status (resp σ3) = 0%Z →
  runtime.wp (page opts s1 r1) σ1 (λ token _,
    existing_token r2 = Some token → candidate r3 = Some token →
    runtime.wp (page opts s2 r2) σ2 (λ token' _, token' = token) ∧
    protected opts s2 r3 handler σ3 = Ok tt (refused opts uid2 r3 σ3)).
Proof.
  intros Hs1 Hs2 Hne Hb1 Hc1 Hb2 Hb3 Hw. eapply wp_Ok; [apply run_page|].
  intros Hc2 Hc3. split.
  - eapply wp_Ok; [apply run_page|]. cbn zeta. unfold issuance at 1.
    by rewrite Hs2, Hb2, Hc2.
  - apply run_protected_refused; try done.
    intros t Ht. rewrite Hc3 in Ht. injection Ht as <-.
    by eapply check_other_subject.
Qed.

(** [C22] Two subjects with one normal form share their tokens.  The
    token a page gets for one subject is accepted on a request made in
    the session of another subject whose normal form is the same, within
    the validity window: the protected handler runs.  Under the library
    the normal form replaces every colon by an underscore. *)
Theorem token_shared_by_normal_form opts s1 s2 r1 r2 handler σ1 σ2 uid1 uid2 :
  sessions.Get s1 (Options.SessionKey opts) = sessions.of_string uid1 →
  sessions.Get s2 (Options.SessionKey opts) = sessions.of_string uid2 →
  normal uid1 = normal uid2 →
  browser_get r1 = true → existing_token r1 = None →
  browser_get r2 = false → http.w_status (resp σ2) = 0%Z →
  gotime.is_int64 (clock σ1 (reads σ1)) = true →
  xsrftoken.in_window (clock σ1 (reads σ1)) (clock σ2 (reads σ2)) = true →
  runtime.wp (page opts s1 r1) σ1 (λ token _,
    candidate r2 = Some token →
    protected opts s2 r2 handler σ2 = handler (admitted opts uid2 σ2)).
Proof.
  intros Hs1 Hs2 He Hb1 Hc1 Hb2 Hw Hi Hin. eapply wp_Ok; [apply run_page|].
  intros Hc2. eapply run_protected_accepted; try done.
  by erewrite check_same_normal.
Qed.

End binding.

Section tampering.
Context `{TimeFormat} (mac : string → string → string).

(** [C30] Tampering.  Under the token library over a MAC without
    collisions, a request whose candidate carries the MAC of a token of
    the subject and is not that token is refused with status 400, and
    the protected handler does not run: the instant of a token cannot be
    edited to outlive the timeout, and no other text of its bytes is
    accepted in its place. *)
Theorem tampered_token_refused opts s r handler σ uid t token :
  (∀ m m', mac (Options.Secret opts) m = mac (Options.Secret opts) m' →
           m = m') →
  sessions.Get s (Options.SessionKey opts) = sessions.of_string uid →
  browser_get r = false → http.w_status (resp σ) = 0%Z →
  candidate r = Some token →
  token ≠ xsrftoken.generateAtTime mac (Options.Secret opts) uid action t →
  xsrftoken.tag_of token
  = xsrftoken.tag_of
      (xsrftoken.generateAtTime mac (Options.Secret opts) uid action t) →
  protected (H := model_codec mac) opts s r handler σ
  = Ok tt (refused opts uid r σ).
Proof.
  intros mac_inj Hs Hb Hw Hc Hne Htag.
  apply (run_protected_refused (H := model_codec mac)); try done.
  intros t0 Ht0. rewrite Hc in Ht0. injection Ht0 as <-.
  by apply (validAtTime_keeps_tag mac _ _ _ t).
Qed.

End tampering.

(** ** The chains on the sample requests *)

Section chain_witnesses.
#[local] Existing Instance toy.codec.
#[local] Existing Instance unix_format.

Lemma Generate_continues_witness :
  martini.run [Generate sample.opts sample.session sample.get;
               scenario.handler] scenario.first =
  martini.run [scenario.handler]
    (issued scenario.first
       (issuance sample.opts sample.session sample.get sample.clk 0
          http.new_ResponseWriter)).
Proof.
  exact (Generate_continues sample.opts sample.session sample.get
           [scenario.handler] scenario.first eq_refl).
Defined.

Lemma protected_guards_handler_witness :
  (∃ t, candidate (sample.post_header scenario.token) = Some t ∧
        check sample.opts "123456" scenario.later t = true) ∧
    protected sample.opts sample.session
      (sample.post_header scenario.token) scenario.handler scenario.later =
    scenario.handler (admitted sample.opts "123456" scenario.later)
  ∨ (∀ t, candidate (sample.post_header scenario.token) = Some t →
          check sample.opts "123456" scenario.later t = false) ∧
    protected sample.opts sample.session
      (sample.post_header scenario.token) scenario.handler scenario.later =
    Ok tt (refused sample.opts "123456"
             (sample.post_header scenario.token) scenario.later).
Proof.
  exact (protected_guards_handler sample.opts sample.session
           (sample.post_header scenario.token) scenario.handler
           scenario.later "123456" eq_refl eq_refl eq_refl).
Defined.

Lemma protected_refused_witness :
  protected sample.opts sample.session (sample.post_form "garbage")
    scenario.handler scenario.later =
  Ok tt (refused sample.opts "123456" (sample.post_form "garbage")
           scenario.later) ∧
  http.w_status
    (resp (refused sample.opts "123456" (sample.post_form "garbage")
             scenario.later)) = 400%Z.
Proof.
  refine (protected_refused sample.opts sample.session
            (sample.post_form "garbage") scenario.handler scenario.later
            "123456" eq_refl eq_refl eq_refl _).
  intros t [= <-]. by vm_compute.
Defined.

Lemma Validate_without_Generate_witness :
  ∃ msg, martini.run [martini.inject (Validate sample.get);
                      scenario.handler] sample.world = Panic msg.
Proof.
  exact (Validate_without_Generate sample.get [scenario.handler]
           sample.world eq_refl).
Defined.

Lemma reused_token_refused_witness :
  runtime.wp (page sample.opts sample.session (sample.get_cookie "stale"))
    scenario.first (λ token σ',
    token = "stale" ∧ reads σ' = 0 ∧
    protected sample.opts sample.session (sample.post_header "stale")
      scenario.handler scenario.later =
    Ok tt (refused sample.opts "123456" (sample.post_header "stale")
             scenario.later)).
Proof.
  exact (reused_token_refused sample.opts sample.session
           (sample.get_cookie "stale") (sample.post_header "stale")
           scenario.handler scenario.first scenario.later "123456" "stale"
           eq_refl eq_refl eq_refl eq_refl eq_refl eq_refl eq_refl).
Defined.

Lemma token_round_trip_witness :
  runtime.wp (page sample.opts sample.session sample.get) scenario.first
    (λ token _,
      candidate (sample.post_form scenario.token) = Some token →
      protected sample.opts sample.session
        (sample.post_form scenario.token) scenario.handler scenario.later =
      scenario.handler (admitted sample.opts "123456" scenario.later)).
Proof.
  exact (@token_round_trip toy.codec toy_codec_laws unix_format
           sample.opts sample.session sample.get
           (sample.post_form scenario.token) scenario.handler
           scenario.first scenario.later "123456"
           eq_refl eq_refl eq_refl eq_refl eq_refl eq_refl eq_refl).
Defined.

Lemma token_expires_witness :
  runtime.wp (page sample.opts sample.session sample.get) scenario.first
    (λ token _,
      candidate (sample.post_header scenario.token) = Some token →
      protected sample.opts sample.session
        (sample.post_header scenario.token) scenario.handler
        scenario.next_day =
      Ok tt (refused sample.opts "123456"
               (sample.post_header scenario.token) scenario.next_day)).
Proof.
  refine (@token_expires toy.codec toy_codec_laws unix_format
            sample.opts sample.session sample.get
            (sample.post_header scenario.token) scenario.handler
            scenario.first scenario.next_day "123456"
            eq_refl eq_refl eq_refl eq_refl eq_refl _).
  by vm_compute.
Defined.

Lemma token_bound_to_subject_witness :
  runtime.wp (page sample.opts sample.session sample.get) scenario.first
    (λ token _,
      candidate (sample.post_header scenario.token) = Some token →
      protected sample.opts scenario.other_session
        (sample.post_header scenario.token) scenario.handler scenario.later =
      Ok tt (refused sample.opts "654321"
               (sample.post_header scenario.token) scenario.later)).
Proof.
  refine (@token_bound_to_subject toy.codec toy_codec_laws unix_format
            xsrftoken.clean toy_codec_binding sample.opts sample.session
            scenario.other_session sample.get
            (sample.post_header scenario.token) scenario.handler
            scenario.first scenario.later "123456" "654321"
            eq_refl eq_refl _ eq_refl eq_refl eq_refl eq_refl).
  by vm_compute.
Defined.

Lemma stale_cookie_after_login_witness :
  runtime.wp (page sample.opts sample.session sample.get) scenario.first
    (λ token _,
      existing_token (sample.get_cookie scenario.token) = Some token →
      candidate (sample.post_form scenario.token) = Some token →
      runtime.wp (page sample.opts scenario.other_session
                    (sample.get_cookie scenario.token)) scenario.later
        (λ token' _, token' = token) ∧
      protected sample.opts scenario.other_session
        (sample.post_form scenario.token) scenario.handler scenario.later =
      Ok tt (refused sample.opts "654321"
               (sample.post_form scenario.token) scenario.later)).
Proof.
  refine (@stale_cookie_after_login toy.codec toy_codec_laws unix_format
            xsrftoken.clean toy_codec_binding sample.opts sample.session
            scenario.other_session sample.get
            (sample.get_cookie scenario.token)
            (sample.post_form scenario.token) scenario.handler
            scenario.first scenario.later scenario.later "123456" "654321"
            eq_refl eq_refl _ eq_refl eq_refl eq_refl eq_refl eq_refl).
  by vm_compute.
Defined.

Lemma token_shared_by_normal_form_witness :
  runtime.wp (page sample.opts scenario.colon_session sample.get)
    scenario.first
    (λ token _,
      candidate (sample.post_header scenario.colon_token) = Some token →
      protected sample.opts scenario.underscore_session
        (sample.post_header scenario.colon_token) scenario.handler
        scenario.later =
      scenario.handler (admitted sample.opts "a_b" scenario.later)).
Proof.
  exact (@token_shared_by_normal_form toy.codec toy_codec_laws unix_format
           xsrftoken.clean toy_codec_binding sample.opts
           scenario.colon_session scenario.underscore_session sample.get
           (sample.post_header scenario.colon_token) scenario.handler
           scenario.first scenario.later "a:b" "a_b"
           eq_refl eq_refl eq_refl eq_refl eq_refl eq_refl eq_refl eq_refl
           eq_refl).
Defined.

(** The token of the scenario is the one the page gets, and the two
    chains end as the theorems say: the handler writes its page on the
    later request, and the request of the next day is answered 400. *)
Lemma tampered_token_refused_witness :
  protected (H := model_codec toy.mac) sample.opts sample.session
    (sample.post_header scenario.edited) scenario.handler scenario.later
  = Ok tt (refused sample.opts "123456"
             (sample.post_header scenario.edited) scenario.later).
Proof.
  apply (tampered_token_refused toy.mac sample.opts sample.session _ _ _
           "123456" 1000000000000 scenario.edited);
    [apply toy_mac_inj|by vm_compute..].
Defined.

Example scenario_runs :
  runtime.wp (page sample.opts sample.session sample.get) scenario.first
    (λ token _, token = scenario.token) ∧
  runtime.wp (protected sample.opts sample.session
                (sample.post_header scenario.token) scenario.handler)
    scenario.later (λ _ σ',
      http.w_status (resp σ') = 200%Z ∧
      http.w_body (resp σ') = "You submitted a valid token") ∧
  runtime.wp (protected sample.opts sample.session
                (sample.post_header scenario.token) scenario.handler)
    scenario.next_day (λ _ σ',
      http.w_status (resp σ') = 400%Z ∧
      http.w_body (resp σ') = "Invalid X-CSRFToken" +:+ String "010" "").
Proof. by vm_compute. Qed.

(** The page of the subject [a:b] gets the token of [a_b], and the
    request of [a_b] that sends it is served. *)
Example colon_scenario_runs :
  runtime.wp (page sample.opts scenario.colon_session sample.get)
    scenario.first (λ token _, token = scenario.colon_token) ∧
  runtime.wp (protected sample.opts scenario.underscore_session
                (sample.post_header scenario.colon_token) scenario.handler)
    scenario.later (λ _ σ',
      http.w_status (resp σ') = 200%Z ∧
      http.w_body (resp σ') = "You submitted a valid token").
Proof. by vm_compute. Qed.

End chain_witnesses.
