(* ===== verification/Concurrent.v ===== *)
(** * Requests served at the same time

    The server answers every request in a goroutine of its own, and
    martini runs the handlers of a request in order in that goroutine
    ([context.run]).  The handlers of src/csrf.go share nothing they
    write: the options and [domainReg] are read, the object [Generate]
    allocates at line 121 is reached through the context of its request
    only.  What the requests do share is the heap the objects are
    allocated in and the clock.

    - [pool.Thread], [pool.Pool]: the requests in service, each with the
      handlers of its chain, the index of the next one, the binding of its
      context and its response writer; the heap and the readings of the
      clock are those of the process.
    - [pool.advance]: the next handler of one request runs, in the heap
      and at the reading of the clock the others have left.
      [pool.accept] takes a request into service.  [pool.exec] runs a
      schedule, [pool.reachable] are the states of a site.
    - [protected_chain], [page_chain]: the chains of the routes of the
      example, as lists of handlers.
    - [Local]: what a handler must keep to for its request to be served
      as if it were alone: it finds its object through the binding of its
      context, leaves the objects of the others alone, binds nothing but
      what it has allocated, and depends on the clock through the
      readings it makes.  [Generate], [Validate] and the handlers that
      write the response keep to it.

    A handler takes its turn as a whole: the handlers are functions of
    the world, and the readings of the clock of two requests interleave
    between their handlers.  A handler that panics leaves no world
    behind; the pool keeps the heap and the clock it had, and the request
    is at rest with the message of the panic.

    The theorems: whatever the schedule, a request that has come to rest
    has the response [martini.run] gives it alone in an empty heap, with
    the readings of the clock it has made among those of the others
    ([rest_alone], [protected_served_alone]), and if it has panicked it
    panics alone; the request that [martini.run] answers alone is served
    by the schedule of a pool with nothing else in it
    ([run_is_schedule]).  The readings of the clock two requests have
    made are apart: the invariant of the pool ([pool_ok]) gives every
    request readings of its own ([apart], [rest_apart]).  The tokens two
    pages of a subject mint at the same time both verify
    ([pages_minted_together]) and are minted at different readings, so
    that they are different when the clock goes forward
    ([pages_minted_apart]).  A pool that accepts no more requests comes
    to rest after as many turns as handlers are left
    ([pool_comes_to_rest]). *)

From S2P Require Import Prelude GoStrings GoTime GoCalendar NetHttp Runtime.
From stdpp Require Import functions.
From S2P Require Import Xsrftoken Csrf Pipeline.

(** ** Definitions *)

Module pool.

(** A request in service: [c.handlers], [c.index], the value the
    context maps the interface [Csrf] to, the response writer, and the
    panic that has ended it, if one has. *)
Record Thread : Type := mkThread {
  t_handlers : list (M csrf unit);
  t_index : nat;
  t_binding : option nat;
  t_resp : http.ResponseWriter;
  t_panic : option string
}.

(** The process: the readings of the clock made so far, the heap, and
    the requests in service. *)
Record Pool : Type := mkPool {
  p_reads : nat;
  p_heap : list csrf;
  p_threads : list Thread
}.

(** A request is taken into service: nothing is bound and nothing
    written. *)
Definition fresh (hs : list (M csrf unit)) : Thread :=
  mkThread hs 0 None http.new_ResponseWriter None.

Definition accept (hs : list (M csrf unit)) (P : Pool) : Pool :=
  mkPool (p_reads P) (p_heap P) (p_threads P ++ [fresh hs]).

(** The handler a request runs next: none after a panic, after the
    response is written, and at the end of the chain. *)
Definition next (th : Thread) : option (M csrf unit) :=
  if bool_decide (t_panic th = None) && negb (http.Written (t_resp th))
  then t_handlers th !! t_index th
  else None.

Section step.
Context (clk : nat → Z).

(** The world the next handler of a request runs in. *)
Definition world (P : Pool) (th : Thread) : World csrf :=
  mkWorld clk (p_reads P) (p_heap P) (t_binding th) (t_resp th).

(** The request after its handler has returned in [σ'], or panicked with
    [msg]. *)
Definition returned (th : Thread) (σ' : World csrf) : Thread :=
  mkThread (t_handlers th) (S (t_index th)) (binding σ') (resp σ') None.

Definition panicked (th : Thread) (msg : string) : Thread :=
  mkThread (t_handlers th) (t_index th) (t_binding th) (t_resp th) (Some msg).

(** One turn of the loop of [context.run] in the request [i]. *)
Definition advance (i : nat) (P : Pool) : option Pool :=
  th ← p_threads P !! i;
  h ← next th;
  Some match h (world P th) with
       | Ok _ σ' =>
           mkPool (reads σ') (heap σ') (<[i := returned th σ']> (p_threads P))
       | Panic msg =>
           mkPool (p_reads P) (p_heap P)
             (<[i := panicked th msg]> (p_threads P))
       end.

(** What happens in the process, and a schedule of it. *)
Inductive event : Type :=
| Accept (hs : list (M csrf unit))
| Advance (i : nat).

Definition step (e : event) (P : Pool) : option Pool :=
  match e with
  | Accept hs => Some (accept hs P)
  | Advance i => advance i P
  end.

Fixpoint exec (es : list event) (P : Pool) : option Pool :=
  match es with
  | [] => Some P
  | e :: es' => P' ← step e P; exec es' P'
  end.

(** The states of a site, which serves the chains of [site]. *)
Inductive reachable (site : list (M csrf unit) → Prop) : Pool → Prop :=
| reach_init n h : reachable site (mkPool n h [])
| reach_accept P hs :
    reachable site P → site hs → reachable site (accept hs P)
| reach_advance P i P' :
    reachable site P → advance i P = Some P' → reachable site P'.

(** The handlers the requests of a pool have still to run. *)
Definition left (th : Thread) : nat :=
  match next th with
  | Some _ => length (t_handlers th) - t_index th
  | None => 0
  end.

Definition work (P : Pool) : nat := sum_list_with left (p_threads P).

End step.

End pool.

(** The chains of the two routes of the example: [Generate] for every
    request, then [Validate] and the handler of the protected route, or
    the handler of a page. *)
Definition protected_chain `{TokenCodec, TimeFormat} (opts : Options.Options)
    (s : Session) (r : http.Request) (handler : M csrf unit) :
    list (M csrf unit) :=
  [Generate opts s r; martini.inject (Validate r); handler].

Definition page_chain `{TokenCodec, TimeFormat} (opts : Options.Options)
    (s : Session) (r : http.Request) (handler : M csrf unit) :
    list (M csrf unit) :=
  [Generate opts s r; handler].

(** *** What a handler keeps to *)

(** The object of the request of a world, and a world whose context
    binds no pointer out of the heap. *)
Definition object (σ : World csrf) : option csrf :=
  p ← binding σ; heap σ !! p.

Definition owned (σ : World csrf) : Prop :=
  ∀ p, binding σ = Some p → p < length (heap σ).

(** Two worlds in which a request is in the same state: the response and
    the object are the same, wherever the object is in the heap. *)
Definition sim (σ σ1 : World csrf) : Prop :=
  owned σ ∧ owned σ1 ∧ resp σ = resp σ1 ∧ object σ = object σ1.

(** What a handler leaves as it is: the clock is the same and has not
    been turned back, the objects of the others are where they were, and
    the context binds what it bound or something new. *)
Definition frame (σ σ' : World csrf) : Prop :=
  clock σ' = clock σ ∧ reads σ ≤ reads σ' ∧
  length (heap σ) ≤ length (heap σ') ∧
  (∀ q, q < length (heap σ) → binding σ ≠ Some q →
        heap σ' !! q = heap σ !! q) ∧
  (binding σ' = binding σ ∨
   ∃ p, binding σ' = Some p ∧ length (heap σ) ≤ p) ∧
  owned σ'.

(** The readings [σ] gives from its next one on, up to the next one of
    [σ'], are the readings [σ1] gives from its next one on. *)
Definition same_readings (σ σ' σ1 : World csrf) : Prop :=
  ∀ k, reads σ + k < reads σ' →
       clock σ (reads σ + k) = clock σ1 (reads σ1 + k).

Definition Local (h : M csrf unit) : Prop :=
  ∀ σ σ1, sim σ σ1 →
    match h σ with
    | Ok _ σ' =>
        frame σ σ' ∧
        (same_readings σ σ' σ1 →
         ∃ σ1', h σ1 = Ok tt σ1' ∧ sim σ' σ1' ∧
                reads σ1' = reads σ1 + (reads σ' - reads σ) ∧
                clock σ1' = clock σ1)
    | Panic msg =>
        (∀ k, clock σ (reads σ + k) = clock σ1 (reads σ1 + k)) →
        h σ1 = Panic msg
    end.

(** A handler that writes the response, from the object of the request
    and the response so far. *)
Definition responder (h : M csrf unit) : Prop :=
  ∃ f : option csrf → http.ResponseWriter → http.ResponseWriter,
    ∀ σ, h σ = Ok tt (mkWorld (clock σ) (reads σ) (heap σ) (binding σ)
                        (f (object σ) (resp σ))).

(** The readings of a clock a request makes among those of the others:
    some of them, in their order. *)
Definition increasing (ι : nat → nat) : Prop := ∀ a b, a < b → ι a < ι b.

Section alone.
Context (clk : nat → Z).

(** The world of a request that is served alone, with the readings [ι]
    of the clock. *)
Definition alone_world (ι : nat → nat) : World csrf :=
  runtime.request_world (clk ∘ ι) 0 [].

(** The request [th] of the pool [P] is where it is when it is served
    alone with the readings [ι] of the clock: its handlers so far have
    left the same response and the same object, or the handler it was in
    has panicked. *)
Definition alone (ι : nat → nat) (P : pool.Pool) (th : pool.Thread) : Prop :=
  increasing ι ∧
    match pool.t_panic th with
    | None =>
        ∃ σ1, martini.run (take (pool.t_index th) (pool.t_handlers th))
                (alone_world ι) = Ok tt σ1 ∧
              sim (pool.world clk P th) σ1 ∧ clock σ1 = clk ∘ ι ∧
              ∀ k, k < reads σ1 → ι k < pool.p_reads P
    | Some msg =>
        martini.run (take (S (pool.t_index th)) (pool.t_handlers th))
          (alone_world ι) = Panic msg
    end.

(** The invariant of the heap of a pool: every request has its object in
    the heap, and no two have the same. *)
Definition separate (P : pool.Pool) : Prop :=
  (∀ i th, pool.p_threads P !! i = Some th → owned (pool.world clk P th)) ∧
  ∀ i j th th' p, i ≠ j →
    pool.p_threads P !! i = Some th → pool.p_threads P !! j = Some th' →
    pool.t_binding th = Some p → pool.t_binding th' ≠ Some p.

(** The number of readings of the clock a request has made with its
    handlers so far, when it is served alone with the readings [ι]. *)
Definition made (ι : nat → nat) (th : pool.Thread) : nat :=
  match martini.run (take (pool.t_index th) (pool.t_handlers th))
          (alone_world ι) with
  | Ok _ σ1 => reads σ1
  | Panic _ => 0
  end.

(** The readings the requests have made are apart: no reading of the
    clock is a reading of two requests. *)
Definition apart (views : nat → nat → nat) (P : pool.Pool) : Prop :=
  ∀ i j th th' k k', i ≠ j →
    pool.p_threads P !! i = Some th → pool.p_threads P !! j = Some th' →
    pool.t_panic th = None → pool.t_panic th' = None →
    k < made (views i) th → k' < made (views j) th' →
    views i k ≠ views j k'.

(** The invariant of a pool: the requests are separate, their chains
    are chains of the site, and each is where it is when served alone
    with readings of its own. *)
Definition pool_ok (site : list (M csrf unit) → Prop) (P : pool.Pool) :
    Prop :=
  separate P ∧
  ∃ views, apart views P ∧
    ∀ i th, pool.p_threads P !! i = Some th →
            site (pool.t_handlers th) ∧ alone (views i) P th.

End alone.

(** *** The site of the example *)

(** The handler of a page, [func(s sessions.Session, r render.Render,
    x csrf.Csrf)]: it renders the token it gets from [x.GetToken()];
    [html] is [r.HTML(200, "protected", token)] on the response
    writer. *)
Definition page_handler
    (html : string → http.ResponseWriter → http.ResponseWriter) :
    M csrf unit :=
  martini.inject (λ x, token ← csrf_GetToken x; runtime.on_w (html token)).

(** The chains the site serves: pages, and protected routes whose
    handler writes the response. *)
Inductive example_site `{TokenCodec, TimeFormat} (opts : Options.Options) :
    list (M csrf unit) → Prop :=
| site_page s r html :
    example_site opts (page_chain opts s r (page_handler html))
| site_protected s r handler :
    responder handler →
    example_site opts (protected_chain opts s r handler).

(** A request on which [Generate] mints a token for the subject [uid]:
    the session has the subject (lines 123-132), the request is a GET
    of a browser (line 135), and it has no cookie [_csrf] to take a
    token from (line 137). *)
Definition mints (opts : Options.Options) (uid : string) (s : Session)
    (r : http.Request) : Prop :=
  sessions.Get s (Options.SessionKey opts) = sessions.of_string uid ∧
  browser_get r = true ∧ existing_token r = None.

(** The chains a schedule accepts are chains of a site. *)
Definition accepts (site : list (M csrf unit) → Prop) (e : pool.event) :
    Prop :=
  match e with
  | pool.Accept hs => site hs
  | pool.Advance _ => True
  end.

(** The request [i] of a pool. *)
Definition thread (P : pool.Pool) (i : nat) : pool.Thread :=
  default (pool.fresh []) (pool.p_threads P !! i).

(** The pool of one request that is at the handler [j] of its chain, in
    the world [σ]. *)
Definition solo (hs : list (M csrf unit)) (j : nat) (σ : World csrf) :
    pool.Pool :=
  pool.mkPool (reads σ) (heap σ)
    [pool.mkThread hs j (binding σ) (resp σ) None].

(** Two tabs of a browser fetch the page at the same time, and each
    submits the form of its page: the handlers of the four requests take
    turns. *)
Module tabs.

(** The page is the token, as text. *)
Definition html (token : string) (w : http.ResponseWriter) :
    http.ResponseWriter :=
  http.Write w token.

Definition page (s : Session) : list (M csrf unit) :=
  page_chain (H := toy.codec) (H0 := utc_format) sample.opts s sample.get
    (page_handler html).

Definition submit (t : string) : list (M csrf unit) :=
  protected_chain (H := toy.codec) (H0 := utc_format) sample.opts
    sample.session (sample.post_form t) scenario.handler.

(** The token of the second page: it is minted at the third reading of
    the clock. *)
Definition token2 : string :=
  "bWFjKHRva2VuMTIzLDEyMzQ1NjpQT1NUOjEwMDAwMDAwMDAwMDIpOjEwMDAwMDAwMDAwMDI=".

Definition schedule : list pool.event :=
  [pool.Accept (page sample.session); pool.Accept (page sample.session);
   pool.Advance 0; pool.Advance 1; pool.Advance 1; pool.Advance 0;
   pool.Accept (submit scenario.token); pool.Accept (submit token2);
   pool.Advance 3; pool.Advance 2; pool.Advance 2; pool.Advance 3;
   pool.Advance 3; pool.Advance 2].

Definition start : pool.Pool := pool.mkPool 0 [] [].

Definition rest : pool.Pool :=
  default start (pool.exec sample.clk schedule start).

(** The two pages are in service, and their handlers take the turns of
    the schedule. *)
Definition fetching : pool.Pool :=
  pool.accept (page sample.session) (pool.accept (page sample.session) start).

Definition turns : list nat := [0; 1; 1; 0].

Definition fetched : pool.Pool :=
  default fetching (pool.exec sample.clk (pool.Advance <$> turns) fetching).

End tabs.

(** ** Worlds in which a request is in the same state *)

Section sim.
Implicit Types (σ : World csrf) (c : csrf) (w : http.ResponseWriter).

Lemma sim_refl σ : owned σ → sim σ σ.
Proof. by intros Ho. Qed.

Lemma sim_sym σ σ1 : sim σ σ1 → sim σ1 σ.
Proof. by intros (? & ? & ? & ?). Qed.

Lemma sim_trans σ σ1 σ2 : sim σ σ1 → sim σ1 σ2 → sim σ σ2.
Proof.
  intros (? & ? & ? & ?) (? & ? & ? & ?). split_and!; [done..| |]; congruence.
Qed.

(** A context that binds a pointer of the heap has an object, and one
    that binds none has none. *)
Lemma owned_object σ p :
  owned σ → binding σ = Some p → ∃ c, heap σ !! p = Some c ∧ object σ = Some c.
Proof.
  intros Ho Hb. destruct (lookup_lt_is_Some_2 (heap σ) p) as [c Hc];
    [by apply Ho|].
  exists c. split; [done|]. unfold object. by rewrite Hb.
Qed.

Lemma object_None σ : owned σ → object σ = None → binding σ = None.
Proof.
  intros Ho Hn. destruct (binding σ) as [p|] eqn:Hb; [|done].
  destruct (owned_object σ p) as (c & _ & ?); [done..|congruence].
Qed.

Lemma owned_cell σ c n w : owned (cell σ c n w).
Proof. intros p [= <-]. cbn. rewrite length_app. cbn. lia. Qed.

Lemma object_cell σ c n w : object (cell σ c n w) = Some c.
Proof. unfold object. cbn. apply lookup_alloc_new. Qed.

Lemma sim_cell σ σ1 c n n1 w : sim (cell σ c n w) (cell σ1 c n1 w).
Proof.
  split_and!; [apply owned_cell..|done|by rewrite !object_cell].
Qed.

Lemma frame_refl σ : owned σ → frame σ σ.
Proof. intros Ho. split_and!; auto. Qed.

Lemma frame_trans σ σ' σ'' : frame σ σ' → frame σ' σ'' → frame σ σ''.
Proof.
  intros (Hc & Hr & Hl & Hq & Hb & Ho) (Hc' & Hr' & Hl' & Hq' & Hb' & Ho').
  split_and!; [congruence|lia|lia| | |done].
  - intros q Hlt Hne. rewrite Hq'; [by apply Hq|lia|].
    destruct Hb as [->|(p & -> & ?)]; [done|]. intros [= ->]. lia.
  - destruct Hb' as [->|(p & -> & ?)]; [done|]. right. exists p.
    split; [done|lia].
Qed.

(** The world a request starts in, alone. *)
Lemma alone_world_sim clk ι ι' : sim (alone_world clk ι) (alone_world clk ι').
Proof. by split_and!. Qed.

End sim.

(** ** The loop over two parts of a chain *)

Section run_app.
Implicit Types (h : M csrf unit) (hs : list (M csrf unit)) (σ : World csrf).

Lemma run_app hs hs' σ :
  http.Written (resp σ) = false →
  martini.run (hs ++ hs') σ =
  match martini.run hs σ with
  | Ok _ σ' =>
      if http.Written (resp σ') then Ok tt σ' else martini.run hs' σ'
  | Panic msg => Panic msg
  end.
Proof.
  revert σ. induction hs as [|h hs IH]; intros σ Hw; [by cbn; rewrite Hw|].
  cbn [app]. destruct (h σ) as [[] σ'|msg] eqn:E.
  - destruct (http.Written (resp σ')) eqn:Hw'.
    + by rewrite !(run_cons_written _ _ _ _ E), Hw'.
    + rewrite !(run_cons_unwritten _ _ _ _ E) by done. by apply IH.
  - by rewrite !(run_cons_Panic _ _ _ _ E).
Qed.

(** The handlers up to the next one, and the next one. *)
Lemma run_take_S hs (j : nat) h σ σ' :
  hs !! j = Some h → http.Written (resp σ) = false →
  martini.run (take j hs) σ = Ok tt σ' → http.Written (resp σ') = false →
  martini.run (take (S j) hs) σ = h σ'.
Proof.
  intros Hj Hw E Hw'. erewrite take_S_r by done.
  by rewrite run_app, E, Hw', run_last.
Qed.

(** The chain of a request that has come to rest. *)
Lemma run_take_rest hs (j : nat) σ σ' :
  http.Written (resp σ) = false →
  martini.run (take j hs) σ = Ok tt σ' →
  http.Written (resp σ') = true ∨ hs !! j = None →
  martini.run hs σ = Ok tt σ'.
Proof.
  intros Hw E [Hw'|Hj].
  - rewrite <-(take_drop j hs) at 1. by rewrite run_app, E, Hw'.
  - by rewrite take_ge in E by (by apply lookup_ge_None).
Qed.

Lemma run_take_Panic hs (j : nat) σ msg :
  http.Written (resp σ) = false →
  martini.run (take j hs) σ = Panic msg → martini.run hs σ = Panic msg.
Proof.
  intros Hw E. rewrite <-(take_drop j hs) at 1. by rewrite run_app, E.
Qed.

End run_app.

(** ** The handlers keep to their request *)

Section local.
Context `{TokenCodec, TimeFormat}.
Implicit Types (opts : Options.Options) (s : Session) (r : http.Request)
  (σ : World csrf) (h : M csrf unit) (hs : list (M csrf unit)).

(** [issuance] depends on the clock through the readings it makes. *)
Lemma issuance_local opts s r clk clk1 n n1 w :
  let i := issuance opts s r clk n w in
  (∀ k, n + k < iss_reads i → clk (n + k) = clk1 (n1 + k)) →
  issuance opts s r clk1 n1 w
  = mkIssuance (iss_csrf i) (n1 + (iss_reads i - n)) (iss_resp i).
Proof.
  intros i Hk. pose proof (Hk 0) as E0. pose proof (Hk 1) as E1.
  rewrite !Nat.add_0_r in E0. rewrite !Nat.add_1_r in E1.
  subst i. clear Hk. revert E0 E1. unfold issuance.
  repeat case_match; cbn; intros E0 E1; rewrite <-?E0, <-?E1 by lia;
    f_equal; lia.
Qed.

Lemma Generate_Local opts s r : Local (Generate opts s r).
Proof.
  intros σ σ1 (Ho & Ho1 & Hr & Hobj). rewrite run_Generate.
  set (i := issuance opts s r (clock σ) (reads σ) (resp σ)).
  pose proof (issuance_frame opts s r (clock σ) (reads σ) (resp σ)) as [Hn _].
  split.
  - split_and!; cbn; [done|apply Hn|rewrite length_app; lia| | |].
    + intros q Hq _. by apply lookup_app_l.
    + right. eauto.
    + apply owned_cell.
  - intros Hk. rewrite run_Generate, <-Hr.
    rewrite (issuance_local opts s r (clock σ) (clock σ1) (reads σ)
               (reads σ1) (resp σ)) by exact Hk. fold i.
    eexists. split; [done|]. unfold issued. cbn [iss_csrf iss_reads iss_resp].
    split_and!; [apply sim_cell|done..].
Qed.

(** The verdict depends on the clock when there is a candidate. *)
Lemma verdict_local r (valid valid1 : string → bool) :
  (verdict_reads (verdict r valid) = 1 → ∀ t, valid t = valid1 t) →
  verdict r valid1 = verdict r valid.
Proof.
  unfold verdict. repeat case_bool_decide; cbn; intros E;
    by rewrite ?E.
Qed.

Lemma Validate_Local r : Local (martini.inject (Validate r)).
Proof.
  intros σ σ1 (Ho & Ho1 & Hr & Hobj). unfold martini.inject.
  rewrite !run_bind. unfold runtime.Injected.
  destruct (binding σ) as [p|] eqn:Hb.
  - destruct (owned_object σ p) as (c & Hc & Hoc); [done..|].
    rewrite Hoc in Hobj. symmetry in Hobj.
    destruct (binding σ1) as [p1|] eqn:Hb1;
      [|by unfold object in Hobj; rewrite Hb1 in Hobj].
    assert (heap σ1 !! p1 = Some c) as Hc1
      by (by unfold object in Hobj; rewrite Hb1 in Hobj).
    rewrite (Validate_verdict r p σ c), (Validate_verdict r p1 σ1 c) by done.
    split.
    + split_and!; cbn; [done|lia|done|done|by left|exact Ho].
    + intros Hk. eexists. split; [done|]. unfold sim.
      rewrite (verdict_local r
                 (λ t, verify t (Secret c) (Id c) action (clock σ (reads σ)))
                 (λ t, verify t (Secret c) (Id c) action
                         (clock σ1 (reads σ1)))).
      * split_and!; cbn; [exact Ho|exact Ho1|by rewrite Hr| |lia|done].
        change (object σ = object σ1). congruence.
      * intros Hv t. specialize (Hk 0). cbn in Hk.
        rewrite !Nat.add_0_r in Hk. rewrite Hk; [done|lia].
  - intros _. rewrite (object_None σ1); [done..|].
    rewrite <-Hobj. unfold object. by rewrite Hb.
Qed.

Lemma responder_Local h : responder h → Local h.
Proof.
  intros [f Hf] σ σ1 (Ho & Ho1 & Hr & Hobj). rewrite !Hf. split.
  - by split_and!; cbn; auto.
  - intros _. eexists. split; [done|]. unfold sim.
    split_and!; cbn; [done..|by rewrite Hr, Hobj|done|lia|done].
Qed.

(** The readings of two worlds agree after a handler has made the same
    number of them in both. *)
Lemma readings_after σ σ' σ1 σ1' (k : nat) :
  frame σ σ' → clock σ1' = clock σ1 →
  reads σ1' = reads σ1 + (reads σ' - reads σ) →
  clock σ (reads σ + (reads σ' - reads σ + k))
  = clock σ1 (reads σ1 + (reads σ' - reads σ + k)) →
  clock σ' (reads σ' + k) = clock σ1' (reads σ1' + k).
Proof.
  intros (Hc & Hr & _) Hc1 Hr1 E. rewrite Hc, Hc1, Hr1.
  replace (reads σ' + k) with (reads σ + (reads σ' - reads σ + k)) by lia.
  rewrite E. f_equal. lia.
Qed.

(** A handler that has not written the response, and the rest of the
    chain. *)
Lemma run_Local_cons h hs σ σ' σ1 :
  Local (martini.run hs) → sim σ σ1 → h σ = Ok tt σ' →
  http.Written (resp σ') = false → frame σ σ' →
  (same_readings σ σ' σ1 →
   ∃ σ1', h σ1 = Ok tt σ1' ∧ sim σ' σ1' ∧
          reads σ1' = reads σ1 + (reads σ' - reads σ) ∧
          clock σ1' = clock σ1) →
  match martini.run hs σ' with
  | Ok _ σ'' =>
      frame σ σ'' ∧
      (same_readings σ σ'' σ1 →
       ∃ σ1'', martini.run (h :: hs) σ1 = Ok tt σ1'' ∧ sim σ'' σ1'' ∧
               reads σ1'' = reads σ1 + (reads σ'' - reads σ) ∧
               clock σ1'' = clock σ1)
  | Panic msg =>
      (∀ k, clock σ (reads σ + k) = clock σ1 (reads σ1 + k)) →
      martini.run (h :: hs) σ1 = Panic msg
  end.
Proof.
  intros IH Hs E Hw Hf Hh1. pose proof Hf as (_ & Hr & _ & _ & _ & Ho').
  pose proof (IH σ' σ' (sim_refl _ Ho')) as Hself.
  destruct (martini.run hs σ') as [[] σ''|msg] eqn:E'.
  - destruct Hself as [Hf' _]. pose proof Hf' as (_ & Hr' & _).
    split; [by eapply frame_trans|]. intros Hk.
    destruct Hh1 as (σ1' & E1 & Hs' & Hr1 & Hc1);
      [intros k Hlt; apply Hk; lia|].
    pose proof (IH σ' σ1' Hs') as IH1. rewrite E' in IH1.
    destruct IH1 as [_ IH1].
    destruct IH1 as (σ1'' & E1' & Hs'' & Hr1' & Hc1').
    { intros k Hlt. apply (readings_after σ σ' σ1); [done..|]. apply Hk. lia. }
    exists σ1''. split_and!; [|done|lia|congruence].
    rewrite (run_cons_unwritten _ _ _ _ E1); [done|].
    by destruct Hs' as (_ & _ & <- & _).
  - intros Hk. destruct Hh1 as (σ1' & E1 & Hs' & Hr1 & Hc1);
      [intros k _; apply Hk|].
    pose proof (IH σ' σ1' Hs') as IH1. rewrite E' in IH1.
    rewrite (run_cons_unwritten _ _ _ _ E1);
      [|by destruct Hs' as (_ & _ & <- & _)].
    apply IH1. intros k. by apply (readings_after σ σ' σ1).
Qed.

(** The loop of [context.run] over handlers that keep to their request
    keeps to it. *)
Lemma run_Local hs : Forall Local hs → Local (martini.run hs).
Proof.
  induction 1 as [|h hs Hh _ IH]; intros σ σ1 Hs.
  { cbn. split; [apply frame_refl, Hs|]. intros _. exists σ1.
    split_and!; [done..|lia|done]. }
  pose proof (Hh σ σ1 Hs) as Hh1. destruct (h σ) as [[] σ'|msg] eqn:E.
  - destruct Hh1 as [Hf Hh1].
    destruct (http.Written (resp σ')) eqn:Hw.
    + rewrite (run_cons_written _ _ _ _ E Hw). split; [done|].
      intros Hk. destruct (Hh1 Hk) as (σ1' & E1 & Hs' & ?).
      exists σ1'. split; [|done]. apply run_cons_written; [done|].
      destruct Hs' as (_ & _ & <- & _). done.
    + rewrite (run_cons_unwritten _ _ _ _ E Hw).
      by apply (run_Local_cons h hs σ σ' σ1).
  - rewrite (run_cons_Panic _ _ _ _ E). intros Hk.
    by apply run_cons_Panic, Hh1.
Qed.

End local.

(** ** A request in the pool and alone *)

Section alone_facts.
Context (clk : nat → Z).
Implicit Types (P : pool.Pool) (th : pool.Thread) (h : M csrf unit)
  (hs : list (M csrf unit)) (σ : World csrf) (ι : nat → nat).

Lemma next_Some th h :
  pool.next th = Some h ↔
  pool.t_panic th = None ∧ http.Written (pool.t_resp th) = false ∧
  pool.t_handlers th !! pool.t_index th = Some h.
Proof.
  unfold pool.next.
  case_bool_decide; destruct (http.Written _); cbn;
    (split; [by intros E|by intros (? & ? & ?)]).
Qed.

(** The readings a request has made alone can be followed by the
    readings the clock of the pool gives next. *)
Lemma alone_rebase (n : nat) hs ι σ1 :
  Forall Local hs → increasing ι →
  martini.run hs (alone_world clk ι) = Ok tt σ1 →
  (∀ k, k < reads σ1 → ι k < n) →
  ∃ ι' σ1', increasing ι' ∧
    martini.run hs (alone_world clk ι') = Ok tt σ1' ∧ sim σ1 σ1' ∧
    clock σ1' = clk ∘ ι' ∧ reads σ1' = reads σ1 ∧
    (∀ k, k < reads σ1 → ι' k = ι k) ∧ ∀ k, ι' (reads σ1 + k) = n + k.
Proof.
  intros Hl Hι E Hb.
  set (ι' := λ k, if decide (k < reads σ1) then ι k else n + (k - reads σ1)).
  pose proof (run_Local hs Hl _ _ (alone_world_sim clk ι ι')) as HL.
  rewrite E in HL. destruct HL as [_ HL].
  destruct HL as (σ1' & E' & Hs & Hr & Hc).
  { intros k Hk. cbn in *. unfold ι'. by rewrite decide_True by lia. }
  exists ι', σ1'. cbn in Hr. split_and!; [|done..|lia| |].
  - intros a b Hab. unfold ι'. repeat case_decide; try lia; [by apply Hι|].
    specialize (Hb a). lia.
  - intros k Hk. unfold ι'. by rewrite decide_True by done.
  - intros k. unfold ι'. rewrite decide_False by lia. lia.
Qed.

(** A request that waits while another runs is where it was. *)
Lemma alone_other ι P P' th :
  alone clk ι P th → pool.p_reads P ≤ pool.p_reads P' →
  owned (pool.world clk P' th) →
  object (pool.world clk P' th) = object (pool.world clk P th) →
  alone clk ι P' th.
Proof.
  intros (Hι & Ha) Hr Ho Hobj. split; [done|].
  destruct (pool.t_panic th); [done|].
  destruct Ha as (σ1 & E & (_ & Ho1 & Hw & Hobj1) & Hc & Hb).
  exists σ1. split; [done|]. split; [|split; [done|]].
  - unfold sim. split_and!; [done..|congruence].
  - intros k Hk. specialize (Hb k Hk). lia.
Qed.

(** A request that has just been accepted. *)
Lemma alone_fresh P hs : alone clk id P (pool.fresh hs).
Proof.
  split; [by intros a b|]. cbn. eexists.
  split_and!; [done..|]. cbn. lia.
Qed.

(** The readings a request has made are readings of the pool. *)
Lemma alone_made ι P th k :
  alone clk ι P th → pool.t_panic th = None → k < made clk ι th →
  ι k < pool.p_reads P.
Proof.
  intros [_ Ha] Hp. rewrite Hp in Ha. destruct Ha as (σ1 & E & _ & _ & Hb).
  unfold made. rewrite E. apply Hb.
Qed.

(** The next handler of a request has returned. *)
Lemma alone_returned ι P ts th h σ' :
  Forall Local (pool.t_handlers th) → alone clk ι P th →
  pool.next th = Some h → h (pool.world clk P th) = Ok tt σ' →
  ∃ ι', alone clk ι' (pool.mkPool (reads σ') (heap σ') ts)
          (pool.returned th σ') ∧
        ∀ k, k < made clk ι th ∧ ι' k = ι k ∨ pool.p_reads P ≤ ι' k.
Proof.
  intros Hl (Hι & Ha) (Hp & Hw & Hj)%next_Some E. rewrite Hp in Ha.
  destruct Ha as (σ1 & E1 & Hs & _ & Hb).
  destruct (alone_rebase (pool.p_reads P) _ ι σ1 (Forall_take _ _ _ Hl) Hι E1 Hb)
    as (ι' & σ1' & Hι' & E1' & Hs1 & Hc' & Hr' & Hb' & Hnext).
  pose proof (sim_trans _ _ _ Hs Hs1) as Hs'.
  pose proof (proj1 (Forall_lookup _ _) Hl _ _ Hj _ _ Hs') as HL.
  rewrite E in HL. destruct HL as [(_ & Hr & _) HL].
  destruct HL as (σ1'' & E'' & Hs'' & Hr'' & Hc'').
  { intros k Hk. cbn. rewrite Hc', Hr'. cbn. by rewrite Hnext. }
  assert (∀ k, k < reads σ1 ∧ ι' k = ι k ∨ pool.p_reads P ≤ ι' k) as Hnew.
  { intros k. destruct (decide (k < reads σ1)) as [Hlt|Hge]; [by auto|].
    right. replace k with (reads σ1 + (k - reads σ1)) by lia.
    rewrite Hnext. lia. }
  exists ι'. split; [|by unfold made; rewrite E1].
  split; [done|]. cbn [pool.returned pool.t_panic pool.t_index
    pool.t_handlers]. exists σ1''. split_and!; [|exact Hs''|congruence|].
  - rewrite (run_take_S _ _ h _ σ1'); [done..|].
    destruct Hs' as (_ & _ & <- & _). done.
  - intros k Hk. cbn in *. destruct (decide (k < reads σ1)) as [Hlt|Hge].
    + rewrite Hb' by done. specialize (Hb k Hlt). lia.
    + replace k with (reads σ1 + (k - reads σ1)) by lia. rewrite Hnext. lia.
Qed.

(** The next handler of a request has panicked. *)
Lemma alone_panicked ι P P' th h msg :
  Forall Local (pool.t_handlers th) → alone clk ι P th →
  pool.next th = Some h → h (pool.world clk P th) = Panic msg →
  ∃ ι', alone clk ι' P' (pool.panicked th msg).
Proof.
  intros Hl (Hι & Ha) (Hp & Hw & Hj)%next_Some E. rewrite Hp in Ha.
  destruct Ha as (σ1 & E1 & Hs & _ & Hb).
  destruct (alone_rebase (pool.p_reads P) _ ι σ1 (Forall_take _ _ _ Hl) Hι E1 Hb)
    as (ι' & σ1' & Hι' & E1' & Hs1 & Hc' & Hr' & Hb' & Hnext).
  pose proof (sim_trans _ _ _ Hs Hs1) as Hs'.
  pose proof (proj1 (Forall_lookup _ _) Hl _ _ Hj _ _ Hs') as HL.
  rewrite E in HL. exists ι'. split; [done|]. cbn.
  rewrite (run_take_S _ _ h _ σ1'); [|done..|].
  - apply HL. intros k. cbn. rewrite Hc', Hr'. cbn. by rewrite Hnext.
  - destruct Hs' as (_ & _ & <- & _). done.
Qed.

End alone_facts.

(** ** The invariant of the pool *)

Section pool_facts.
Context (clk : nat → Z).
Implicit Types (P : pool.Pool) (th : pool.Thread) (h : M csrf unit)
  (hs : list (M csrf unit)) (σ : World csrf) (i j : nat).

Lemma advance_inv i P P' :
  pool.advance clk i P = Some P' →
  ∃ th h, pool.p_threads P !! i = Some th ∧ pool.next th = Some h ∧
    P' = match h (pool.world clk P th) with
         | Ok _ σ' =>
             pool.mkPool (reads σ') (heap σ')
               (<[i := pool.returned th σ']> (pool.p_threads P))
         | Panic msg =>
             pool.mkPool (pool.p_reads P) (pool.p_heap P)
               (<[i := pool.panicked th msg]> (pool.p_threads P))
         end.
Proof.
  unfold pool.advance. destruct (_ !! i) as [th|]; [|done]. cbn.
  destruct (pool.next th) as [h|] eqn:Hn; [|done]. cbn. intros [= <-].
  by exists th, h.
Qed.

(** The object of a request that waits while another runs. *)
Lemma waiting_object P i j th th' σ' ts :
  separate clk P → i ≠ j →
  pool.p_threads P !! i = Some th → pool.p_threads P !! j = Some th' →
  frame (pool.world clk P th) σ' →
  let P' := pool.mkPool (reads σ') (heap σ') ts in
  owned (pool.world clk P' th') ∧
  object (pool.world clk P' th') = object (pool.world clk P th').
Proof.
  intros [Ho Hd] Hij Hi Hj (_ & _ & Hl & Hq & _). cbn in *. split.
  - intros p Hp. specialize (Ho j th' Hj p Hp). cbn in *. lia.
  - unfold object. cbn. destruct (pool.t_binding th') as [p|] eqn:Hp; [|done].
    cbn. apply Hq; [by apply (Ho j th' Hj)|]. intros Hb.
    by apply (Hd i j th th' p).
Qed.

Lemma separate_accept P hs : separate clk P → separate clk (pool.accept hs P).
Proof.
  intros [Ho Hd]. split.
  - intros i th [[_ Hi]|[_ <-]]%lookup_snoc_Some; [by apply (Ho i)|done].
  - intros i j th th' p Hij [[_ Hi]|[_ <-]]%lookup_snoc_Some
      [[_ Hj]|[_ <-]]%lookup_snoc_Some; try done. by apply (Hd i j).
Qed.

Lemma separate_returned P i th σ' :
  separate clk P → pool.p_threads P !! i = Some th →
  frame (pool.world clk P th) σ' →
  separate clk (pool.mkPool (reads σ') (heap σ')
                  (<[i := pool.returned th σ']> (pool.p_threads P))).
Proof.
  intros Hsep Hi Hf. pose proof Hsep as [Ho Hd].
  pose proof Hf as (_ & _ & Hl & _ & Hb & Ho').
  assert (∀ j th' p, i ≠ j → pool.p_threads P !! j = Some th' →
            pool.t_binding th' = Some p → binding σ' ≠ Some p) as Hnew.
  { intros j th' p Hij Hj Hp. pose proof (Ho j th' Hj p Hp) as Hlt.
    destruct Hb as [->|(q & -> & ?)]; cbn in *.
    - intros Hq. by apply (Hd i j th th' p).
    - intros [= ->]. lia. }
  split.
  - intros j th' [(<- & <- & _)|[Hij Hj]]%list_lookup_insert_Some;
      [exact Ho'|].
    by eapply (waiting_object P i j th th' σ').
  - intros j k th1 th2 p Hjk
      [(<- & <- & _)|[Hij Hj]]%list_lookup_insert_Some
      [(<- & <- & _)|[Hik Hk]]%list_lookup_insert_Some Hp; try done; cbn in *.
    + intros Hq. by apply (Hnew k th2 p).
    + by apply (Hnew j th1 p).
    + by apply (Hd j k th1 th2).
Qed.

Lemma separate_panicked P i th msg :
  separate clk P → pool.p_threads P !! i = Some th →
  separate clk (pool.mkPool (pool.p_reads P) (pool.p_heap P)
                  (<[i := pool.panicked th msg]> (pool.p_threads P))).
Proof.
  intros [Ho Hd] Hi. split.
  - intros j th' [(<- & <- & _)|[Hij Hj]]%list_lookup_insert_Some;
      [by apply (Ho i th)|by apply (Ho j)].
  - intros j k th1 th2 p Hjk
      [(<- & <- & _)|[Hij Hj]]%list_lookup_insert_Some
      [(<- & <- & _)|[Hik Hk]]%list_lookup_insert_Some; try done; cbn.
    + by apply (Hd i k).
    + by apply (Hd j i).
    + by apply (Hd j k).
Qed.

(** The readings of the requests stay apart: when a request is taken
    into service, and when the handler of a request has returned with
    readings that are the ones it had made or new ones of the pool, or
    has panicked. *)
Lemma apart_accept views P hs :
  apart clk views P →
  apart clk (<[length (pool.p_threads P) := id]> views) (pool.accept hs P).
Proof.
  intros Ha i j th th' k k' Hij Hi Hj Hp Hp' Hk Hk'. cbn in Hi, Hj.
  apply lookup_snoc_Some in Hi as [[Hlt Hi]|[-> <-]];
    [|by apply Nat.nlt_0_r in Hk].
  apply lookup_snoc_Some in Hj as [[Hlt' Hj]|[-> <-]];
    [|by apply Nat.nlt_0_r in Hk'].
  rewrite fn_lookup_insert_ne in Hk by lia.
  rewrite fn_lookup_insert_ne in Hk' by lia.
  rewrite !fn_lookup_insert_ne by lia. by eapply Ha.
Qed.

Lemma apart_returned views P i th σ' ι' :
  apart clk views P →
  (∀ j th', pool.p_threads P !! j = Some th' → alone clk (views j) P th') →
  pool.p_threads P !! i = Some th → pool.t_panic th = None →
  (∀ k, k < made clk (views i) th ∧ ι' k = views i k
        ∨ pool.p_reads P ≤ ι' k) →
  apart clk (<[i := ι']> views)
    (pool.mkPool (reads σ') (heap σ')
       (<[i := pool.returned th σ']> (pool.p_threads P))).
Proof.
  intros Ha Hal Hi Hp Hnew.
  assert (∀ j th' k k', i ≠ j → pool.p_threads P !! j = Some th' →
            pool.t_panic th' = None → k' < made clk (views j) th' →
            ι' k ≠ views j k') as Hone.
  { intros j th' k k' Hij Hj Hp' Hk'.
    destruct (Hnew k) as [[Hk ->]|Hge]; [by eapply Ha|].
    pose proof (alone_made clk _ P th' k' (Hal j th' Hj) Hp' Hk'). lia. }
  intros a b tha thb k k' Hab Hlka Hlkb Hpa Hpb Hk Hk'. cbn in Hlka, Hlkb.
  apply list_lookup_insert_Some in Hlka as [(<- & <- & _)|[Hia Hlka]];
    apply list_lookup_insert_Some in Hlkb as [(<- & <- & _)|[Hib Hlkb]];
    [done|..]; rewrite ?fn_lookup_insert, ?fn_lookup_insert_ne in * by done.
  - by eapply Hone.
  - apply not_eq_sym. by eapply Hone.
  - by eapply Ha.
Qed.

Lemma apart_panicked views P i th msg ι' (n : nat) (objs : list csrf) :
  apart clk views P → pool.p_threads P !! i = Some th →
  apart clk (<[i := ι']> views)
    (pool.mkPool n objs (<[i := pool.panicked th msg]> (pool.p_threads P))).
Proof.
  intros Ha Hi a b tha thb k k' Hab Hlka Hlkb Hpa Hpb Hk Hk'.
  cbn in Hlka, Hlkb.
  apply list_lookup_insert_Some in Hlka as [(<- & <- & _)|[Hia Hlka]];
    [done|].
  apply list_lookup_insert_Some in Hlkb as [(<- & <- & _)|[Hib Hlkb]];
    [done|].
  rewrite !fn_lookup_insert_ne in * by done. by eapply Ha.
Qed.

Section site.
Context (site : list (M csrf unit) → Prop).
Context (site_Local : ∀ hs, site hs → Forall Local hs).

Lemma pool_ok_accept P hs :
  site hs → pool_ok clk site P → pool_ok clk site (pool.accept hs P).
Proof.
  intros Hs (Hsep & views & Hap & Hth). split; [by apply separate_accept|].
  exists (<[length (pool.p_threads P) := id]> views).
  split; [by apply apart_accept|].
  intros i th [[Hlt Hi]|[-> <-]]%lookup_snoc_Some.
  - rewrite fn_lookup_insert_ne by lia.
    destruct (Hth i th Hi) as [? Ha]. split; [done|].
    apply (alone_other clk _ P); [done|cbn; lia| |done].
    exact (proj1 Hsep i th Hi).
  - rewrite fn_lookup_insert. split; [done|apply alone_fresh].
Qed.

(** The requests that wait while the handler of the request [i] runs
    and returns are where they were. *)
Lemma waiting_alone views P i th h σ' j th' :
  separate clk P → frame (pool.world clk P th) σ' →
  pool.p_threads P !! i = Some th → pool.next th = Some h →
  i ≠ j → pool.p_threads P !! j = Some th' →
  alone clk (views j) P th' →
  alone clk (views j)
    (pool.mkPool (reads σ') (heap σ')
       (<[i := pool.returned th σ']> (pool.p_threads P))) th'.
Proof.
  intros Hsep Hf Hi Hn Hij Hj Ha.
  destruct (waiting_object P i j th th' σ'
              (<[i := pool.returned th σ']> (pool.p_threads P)));
    try done.
  apply (alone_other clk _ P); try done. cbn. apply Hf.
Qed.

Lemma pool_ok_returned P i th h σ' :
  pool_ok clk site P → pool.p_threads P !! i = Some th →
  pool.next th = Some h → h (pool.world clk P th) = Ok tt σ' →
  frame (pool.world clk P th) σ' →
  pool_ok clk site
    (pool.mkPool (reads σ') (heap σ')
       (<[i := pool.returned th σ']> (pool.p_threads P))).
Proof.
  intros (Hsep & views & Hap & Hth) Hi Hn E Hf.
  destruct (Hth i th Hi) as [Hs Ha].
  destruct (alone_returned clk (views i) P
              (<[i := pool.returned th σ']> (pool.p_threads P)) th h σ')
    as (ι' & Ha' & Hnew); [by apply site_Local|done..|].
  split; [by apply separate_returned|]. exists (<[i := ι']> views). split.
  - apply apart_returned; [done|by intros; apply Hth|done| |done].
    by apply next_Some in Hn as [? _].
  - intros j th' [(<- & <- & _)|[Hij Hj]]%list_lookup_insert_Some.
    + by rewrite fn_lookup_insert.
    + rewrite fn_lookup_insert_ne by done.
      destruct (Hth j th' Hj) as [? Ha'']. split; [done|].
      by eapply waiting_alone.
Qed.

Lemma pool_ok_panicked P i th h msg :
  pool_ok clk site P → pool.p_threads P !! i = Some th →
  pool.next th = Some h → h (pool.world clk P th) = Panic msg →
  pool_ok clk site
    (pool.mkPool (pool.p_reads P) (pool.p_heap P)
       (<[i := pool.panicked th msg]> (pool.p_threads P))).
Proof.
  intros (Hsep & views & Hap & Hth) Hi Hn E.
  destruct (Hth i th Hi) as [Hs Ha].
  destruct (alone_panicked clk (views i) P
              (pool.mkPool (pool.p_reads P) (pool.p_heap P)
                 (<[i := pool.panicked th msg]> (pool.p_threads P)))
              th h msg) as [ι' Ha']; [by apply site_Local|done..|].
  split; [by apply separate_panicked|]. exists (<[i := ι']> views).
  split; [by apply apart_panicked|].
  intros j th' [(<- & <- & _)|[Hij Hj]]%list_lookup_insert_Some.
  - by rewrite fn_lookup_insert.
  - rewrite fn_lookup_insert_ne by done.
    destruct (Hth j th' Hj) as [? Ha'']. split; [done|].
    apply (alone_other clk _ P); [done|cbn; lia| |done].
    exact (proj1 Hsep j th' Hj).
Qed.

Lemma pool_ok_advance P i P' :
  pool_ok clk site P → pool.advance clk i P = Some P' → pool_ok clk site P'.
Proof.
  intros HP (th & h & Hi & Hn & ->)%advance_inv.
  pose proof HP as (Hsep & views & _ & Hth).
  destruct (Hth i th Hi) as [Hl%site_Local _].
  pose proof Hn as (_ & _ & Hj)%next_Some.
  pose proof (proj1 (Forall_lookup _ _) Hl _ _ Hj _ _
                (sim_refl _ (proj1 Hsep i th Hi))) as HL.
  destruct (h (pool.world clk P th)) as [[] σ'|msg] eqn:E.
  - destruct HL as [Hf _]. by eapply pool_ok_returned.
  - by eapply pool_ok_panicked.
Qed.

Lemma pool_ok_reachable P : pool.reachable clk site P → pool_ok clk site P.
Proof.
  induction 1 as [n h0|P hs _ IH Hs|P i P' _ IH Hadv].
  - split; [by split|]. exists (λ _, id). split; [|by intros i th].
    by intros i j th th' k k' _ ?.
  - by apply pool_ok_accept.
  - by apply (pool_ok_advance P i).
Qed.

(** A request that has come to rest is where the whole chain leaves it
    when [martini.run] serves it alone. *)
Lemma alone_rest ι P th :
  alone clk ι P th → pool.next th = None →
  match pool.t_panic th with
  | None =>
      ∃ σ1, martini.run (pool.t_handlers th) (alone_world clk ι) = Ok tt σ1 ∧
            sim (pool.world clk P th) σ1 ∧ made clk ι th = reads σ1 ∧
            ∀ k, k < reads σ1 → ι k < pool.p_reads P
  | Some msg =>
      martini.run (pool.t_handlers th) (alone_world clk ι) = Panic msg
  end.
Proof.
  intros [Hι Ha] Hn. unfold pool.next in Hn.
  destruct (pool.t_panic th) as [msg|]; [by eapply run_take_Panic|].
  destruct Ha as (σ1 & E & Hsim & _ & Hb). exists σ1.
  split_and!; [|done|by unfold made; rewrite E|done].
  apply (run_take_rest _ (pool.t_index th)); [done..|].
  destruct Hsim as (_ & _ & <- & _). cbn in *.
  destruct (http.Written _); [by left|by right].
Qed.

(** A request that has come to rest in the pool has the response and the
    object it has when [martini.run] serves it alone, with some of the
    readings of the clock; and it has panicked when it panics alone. *)
Lemma rest_alone P i th :
  pool.reachable clk site P → pool.p_threads P !! i = Some th →
  pool.next th = None →
  site (pool.t_handlers th) ∧
  ∃ ι, increasing ι ∧
    match pool.t_panic th with
    | None =>
        ∃ σ1, martini.run (pool.t_handlers th) (alone_world clk ι) = Ok tt σ1 ∧
              sim (pool.world clk P th) σ1 ∧
              ∀ k, k < reads σ1 → ι k < pool.p_reads P
    | Some msg =>
        martini.run (pool.t_handlers th) (alone_world clk ι) = Panic msg
    end.
Proof.
  intros (_ & views & _ & Hth)%pool_ok_reachable Hi Hn.
  destruct (Hth i th Hi) as [Hs Ha]. split; [done|].
  exists (views i). split; [apply Ha|].
  pose proof (alone_rest _ P th Ha Hn) as Hr.
  destruct (pool.t_panic th); [done|].
  destruct Hr as (σ1 & ? & ? & _ & ?). by exists σ1.
Qed.

(** Two requests that have come to rest without a panic have made
    readings of the clock of their own: each is where [martini.run]
    leaves it alone with its readings, and no reading of the one is a
    reading of the other. *)
Lemma rest_apart P i j th th' :
  pool.reachable clk site P → i ≠ j →
  pool.p_threads P !! i = Some th → pool.p_threads P !! j = Some th' →
  pool.next th = None → pool.next th' = None →
  pool.t_panic th = None → pool.t_panic th' = None →
  ∃ ι ι' σ1 σ1',
    martini.run (pool.t_handlers th) (alone_world clk ι) = Ok tt σ1 ∧
    martini.run (pool.t_handlers th') (alone_world clk ι') = Ok tt σ1' ∧
    sim (pool.world clk P th) σ1 ∧ sim (pool.world clk P th') σ1' ∧
    (∀ k, k < reads σ1 → ι k < pool.p_reads P) ∧
    (∀ k, k < reads σ1' → ι' k < pool.p_reads P) ∧
    ∀ k k', k < reads σ1 → k' < reads σ1' → ι k ≠ ι' k'.
Proof.
  intros (_ & views & Hap & Hth)%pool_ok_reachable Hij Hi Hj Hn Hn' Hp Hp'.
  pose proof (alone_rest _ P th (proj2 (Hth i th Hi)) Hn) as Hr.
  pose proof (alone_rest _ P th' (proj2 (Hth j th' Hj)) Hn') as Hr'.
  rewrite Hp in Hr. rewrite Hp' in Hr'.
  destruct Hr as (σ1 & E & Hs & Hm & Hb), Hr' as (σ1' & E' & Hs' & Hm' & Hb').
  exists (views i), (views j), σ1, σ1'. split_and!; [done..|].
  intros k k' Hk Hk'. rewrite <-Hm in Hk. rewrite <-Hm' in Hk'.
  by eapply Hap.
Qed.

End site.

End pool_facts.

(** ** Schedules *)

Section schedules.
Context (clk : nat → Z).
Implicit Types (P : pool.Pool) (th : pool.Thread) (es : list pool.event)
  (i : nat).

Lemma exec_reachable (site : list (M csrf unit) → Prop) es P P' :
  Forall (accepts site) es → pool.reachable clk site P →
  pool.exec clk es P = Some P' → pool.reachable clk site P'.
Proof.
  intros Hes. revert P. induction Hes as [|e es He _ IH]; intros P HP.
  { by intros [= <-]. }
  cbn. destruct (pool.step clk e P) as [P1|] eqn:E; [|done]. cbn.
  apply IH. destruct e as [hs|i]; cbn in *.
  - injection E as <-. by apply pool.reach_accept.
  - by apply (pool.reach_advance clk site P i).
Qed.

(** A schedule that runs ends in the pool it computes. *)
Lemma exec_rest es P :
  bool_decide (is_Some (pool.exec clk es P)) = true →
  pool.exec clk es P = Some (default P (pool.exec clk es P)).
Proof. intros [P' E]%bool_decide_eq_true. by rewrite E. Qed.

Lemma lookup_thread P i :
  i < length (pool.p_threads P) → pool.p_threads P !! i = Some (thread P i).
Proof.
  intros [th E]%lookup_lt_is_Some_2. unfold thread. by rewrite E.
Qed.

(** *** The work that is left *)

Lemma sum_list_with_insert {A} (f : A → nat) (l : list A) i x y :
  l !! i = Some x →
  f x + sum_list_with f (<[i := y]> l) = f y + sum_list_with f l.
Proof.
  revert i. induction l as [|z l IH]; intros [|i]; try done; simpl.
  - intros [= ->]. lia.
  - intros E. specialize (IH i E). lia.
Qed.

Lemma left_returned th h σ' :
  pool.next th = Some h → pool.left (pool.returned th σ') < pool.left th.
Proof.
  intros Hn. unfold pool.left at 2. rewrite Hn.
  apply next_Some in Hn as (_ & _ & Hj%lookup_lt_Some).
  unfold pool.left. destruct (pool.next _); cbn; lia.
Qed.

Lemma left_panicked th h msg :
  pool.next th = Some h → pool.left (pool.panicked th msg) < pool.left th.
Proof.
  intros Hn. unfold pool.left. rewrite Hn.
  apply next_Some in Hn as (_ & _ & Hj%lookup_lt_Some). cbn. lia.
Qed.

(** A turn of a request leaves less work in the pool. *)
Lemma advance_work i P P' :
  pool.advance clk i P = Some P' → pool.work P' < pool.work P.
Proof.
  intros (th & h & Hi & Hn & ->)%advance_inv. unfold pool.work.
  destruct (h _) as [[] σ'|msg]; cbn.
  - pose proof (sum_list_with_insert pool.left _ i th
                  (pool.returned th σ') Hi).
    pose proof (left_returned th h σ' Hn). lia.
  - pose proof (sum_list_with_insert pool.left _ i th
                  (pool.panicked th msg) Hi).
    pose proof (left_panicked th h msg Hn). lia.
Qed.

(** A request that has a handler to run can take its turn. *)
Lemma advance_next i P th :
  pool.p_threads P !! i = Some th → is_Some (pool.next th) →
  is_Some (pool.advance clk i P).
Proof. intros Hi [h Hn]. unfold pool.advance. rewrite Hi. cbn. by rewrite Hn. Qed.

End schedules.

(** ** The request that is served alone is served by a schedule *)

Section solo.
Context (clk : nat → Z).
Implicit Types (P : pool.Pool) (th : pool.Thread) (h : M csrf unit)
  (hs : list (M csrf unit)) (σ : World csrf).

Lemma solo_world hs j σ th :
  clock σ = clk → pool.p_threads (solo hs j σ) !! 0 = Some th →
  pool.world clk (solo hs j σ) th = σ.
Proof. intros <- [= <-]. by destruct σ. Qed.

(** One turn of the only request. *)
Lemma solo_advance hs j h σ σ' :
  clock σ = clk → hs !! j = Some h → http.Written (resp σ) = false →
  h σ = Ok tt σ' →
  pool.advance clk 0 (solo hs j σ) = Some (solo hs (S j) σ').
Proof.
  intros Hc Hj Hw E. unfold pool.advance. cbn.
  unfold pool.next. cbn. rewrite Hw, Hj. cbn.
  by rewrite (solo_world hs j σ _ Hc eq_refl), E.
Qed.

(** The turns of a request that is alone in the pool are the loop of
    [context.run]. *)
Lemma run_solo pre rest σ σ' :
  Forall Local rest → owned σ → clock σ = clk →
  http.Written (resp σ) = false →
  martini.run rest σ = Ok tt σ' →
  ∃ k, pool.exec clk (replicate k (pool.Advance 0))
         (solo (pre ++ rest) (length pre) σ)
       = Some (solo (pre ++ rest) (length pre + k) σ') ∧
       (http.Written (resp σ') = true ∨ k = length rest).
Proof.
  intros Hl. revert pre σ. induction Hl as [|h rest Hh _ IH];
    intros pre σ Ho Hc Hw E.
  { injection E as <-. exists 0. rewrite Nat.add_0_r. by split; [|right]. }
  pose proof (Hh σ σ (sim_refl _ Ho)) as HL.
  destruct (h σ) as [[] σ1|msg] eqn:E1;
    [|by rewrite (run_cons_Panic _ _ _ _ E1) in E].
  destruct HL as [(Hc1 & _ & _ & _ & _ & Ho1) _].
  assert (pool.advance clk 0 (solo (pre ++ h :: rest) (length pre) σ)
          = Some (solo (pre ++ h :: rest) (S (length pre)) σ1)) as Hadv.
  { apply (solo_advance _ _ h); [done| |done..].
    by rewrite lookup_app_r, Nat.sub_diag by lia. }
  destruct (http.Written (resp σ1)) eqn:Hw1.
  - rewrite (run_cons_written _ _ _ _ E1 Hw1) in E. injection E as <-.
    exists 1. cbn [replicate pool.exec pool.step].
    rewrite Hadv, Nat.add_1_r. by split; [|left].
  - rewrite (run_cons_unwritten _ _ _ _ E1 Hw1) in E.
    destruct (IH (pre ++ [h]) σ1) as (k & Hk & Hrest);
      [done|congruence|done..|].
    rewrite <-!app_assoc, length_app in Hk. cbn in Hk.
    exists (S k). cbn [replicate pool.exec pool.step]. rewrite Hadv.
    replace (length pre + S k) with (length pre + 1 + k) by lia.
    rewrite Nat.add_1_r in Hk. rewrite Nat.add_1_r.
    split; [exact Hk|]. destruct Hrest as [?| ->]; auto.
Qed.

(** A request that [martini.run] answers alone is answered by the pool
    that serves it and nothing else, in as many turns as handlers have
    run. *)
Theorem run_is_schedule hs (n : nat) (h0 : list csrf) σ' :
  Forall Local hs →
  martini.run hs (runtime.request_world clk n h0) = Ok tt σ' →
  ∃ k, pool.exec clk (pool.Accept hs :: replicate k (pool.Advance 0))
         (pool.mkPool n h0 [])
       = Some (solo hs k σ') ∧
       pool.next (thread (solo hs k σ') 0) = None.
Proof.
  intros Hl E.
  destruct (run_solo [] hs (runtime.request_world clk n h0) σ')
    as (k & Hk & Hrest); [done..|].
  exists k. split; [exact Hk|]. unfold pool.next. cbn.
  destruct Hrest as [->| ->]; [done|].
  rewrite lookup_ge_None_2 by done. by destruct (http.Written _).
Qed.

End solo.

(** ** The site of the example *)

Section example.
Context `{TokenCodec, TimeFormat}.
Implicit Types (opts : Options.Options) (s : Session) (r : http.Request)
  (σ : World csrf) (h handler : M csrf unit).

Lemma page_handler_Local html : Local (page_handler html).
Proof.
  intros σ σ1 (Ho & Ho1 & Hr & Hobj). unfold page_handler, martini.inject.
  rewrite !run_bind. unfold runtime.Injected.
  destruct (binding σ) as [p|] eqn:Hb.
  - destruct (owned_object σ p) as (c & Hc & Hoc); [done..|].
    rewrite Hoc in Hobj. symmetry in Hobj.
    destruct (binding σ1) as [p1|] eqn:Hb1;
      [|by unfold object in Hobj; rewrite Hb1 in Hobj].
    assert (heap σ1 !! p1 = Some c) as Hc1
      by (by unfold object in Hobj; rewrite Hb1 in Hobj).
    rewrite !run_bind, (run_csrf_GetToken σ p c),
      (run_csrf_GetToken σ1 p1 c) by done.
    split.
    + split_and!; cbn; [done|lia|done|done|by left|exact Ho].
    + intros _. eexists. split; [done|]. unfold sim.
      split_and!; cbn; [exact Ho|exact Ho1|by rewrite Hr| |lia|done].
      change (object σ = object σ1). congruence.
  - intros _. rewrite (object_None σ1); [done..|].
    rewrite <-Hobj. unfold object. by rewrite Hb.
Qed.

Lemma example_site_Local opts hs : example_site opts hs → Forall Local hs.
Proof.
  destruct 1; repeat constructor;
    auto using Generate_Local, Validate_Local, page_handler_Local,
      responder_Local.
Qed.

(** The chain of a protected route whose handler writes the response
    does not panic. *)
Lemma protected_total opts s r handler σ :
  responder handler → http.w_status (resp σ) = 0%Z →
  ∃ σ', protected opts s r handler σ = Ok tt σ'.
Proof.
  intros [f Hf] Hw. unfold protected.
  set (i := issuance opts s r (clock σ) (reads σ) (resp σ)).
  pose proof (issuance_frame opts s r (clock σ) (reads σ) (resp σ))
    as (_ & _ & Hst & _).
  rewrite (run_cons_unwritten _ _ _ _ (run_Generate opts s r σ))
    by (apply Written_status; unfold issued, cell; cbn [resp]; congruence).
  fold i. set (σ1 := issued σ i).
  assert (∃ σ2, martini.inject (Validate r) σ1 = Ok tt σ2) as [σ2 E].
  { unfold martini.inject. rewrite run_bind. subst σ1. unfold issued.
    rewrite run_cell_Injected.
    erewrite Validate_verdict by apply lookup_alloc_new. eauto. }
  destruct (http.Written (resp σ2)) eqn:Hw2.
  - rewrite (run_cons_written _ _ _ _ E Hw2). eauto.
  - rewrite (run_cons_unwritten _ _ _ _ E Hw2), run_last, Hf. eauto.
Qed.

(** The chain of a page, in a world where nothing is written yet. *)
Lemma run_page_chain opts s r html σ :
  http.w_status (resp σ) = 0%Z →
  let i := issuance opts s r (clock σ) (reads σ) (resp σ) in
  martini.run (page_chain opts s r (page_handler html)) σ =
  Ok tt (cell σ (iss_csrf i) (iss_reads i)
           (html (Token (iss_csrf i)) (iss_resp i))).
Proof.
  intros Hw i. unfold page_chain.
  pose proof (issuance_frame opts s r (clock σ) (reads σ) (resp σ))
    as (_ & _ & Hst & _).
  rewrite (run_cons_unwritten _ _ _ _ (run_Generate opts s r σ))
    by (apply Written_status; unfold issued, cell; cbn [resp]; congruence).
  fold i. rewrite run_last. unfold page_handler, martini.inject, issued.
  rewrite run_bind, run_cell_Injected, run_bind.
  by rewrite (run_csrf_GetToken _ _ (iss_csrf i)) by apply lookup_alloc_new.
Qed.

(** The token of a page of a subject that sends no cookie. *)
Lemma issuance_minted opts s r clk n w uid :
  sessions.Get s (Options.SessionKey opts) = sessions.of_string uid →
  browser_get r = true → existing_token r = None →
  let i := issuance opts s r clk n w in
  Token (iss_csrf i) = derive (Options.Secret opts) uid action (clk n) ∧
  n < iss_reads i.
Proof.
  intros Hs Hb He. unfold issuance. rewrite Hs, Hb, He.
  destruct (Options.SetCookie opts); cbn; split; (done || lia).
Qed.

(** The page of a request on which [Generate] mints, served alone: it
    renders the token minted at the first reading the request makes, on
    a response on which nothing is written. *)
Lemma page_alone opts s r html uid clk ι σ1 :
  mints opts uid s r →
  martini.run (page_chain opts s r (page_handler html)) (alone_world clk ι)
    = Ok tt σ1 →
  0 < reads σ1 ∧
  ∃ w, resp σ1 = html (derive (Options.Secret opts) uid action (clk (ι 0))) w
       ∧ http.w_status w = 0%Z ∧ http.w_body w = "".
Proof.
  intros (Hs & Hb & He). rewrite run_page_chain by done. intros [= <-].
  destruct (issuance_minted opts s r (clk ∘ ι) 0 http.new_ResponseWriter uid)
    as [Ht Hr]; [done..|].
  pose proof (issuance_frame opts s r (clk ∘ ι) 0 http.new_ResponseWriter)
    as (_ & _ & Hst & Hbody & _).
  cbn in *. split; [lia|]. eexists. by rewrite Ht.
Qed.

End example.

(** ** Requests of the example, served at the same time *)

Section served.
Context `{TokenCodec, TimeFormat}.
Context (opts : Options.Options) (clk : nat → Z).
Implicit Types (P : pool.Pool) (th : pool.Thread) (s : Session)
  (r : http.Request) (handler : M csrf unit) (i : nat).

(** A request for a page that has come to rest has not panicked. *)
Lemma page_no_panic P i th s r html :
  pool.reachable clk (example_site opts) P →
  pool.p_threads P !! i = Some th →
  pool.t_handlers th = page_chain opts s r (page_handler html) →
  pool.next th = None → pool.t_panic th = None.
Proof.
  intros HP Hi Hh Hn.
  destruct (rest_alone clk _ (example_site_Local opts) P i th HP Hi Hn)
    as [_ (ι & _ & Ha)].
  rewrite Hh, run_page_chain in Ha by done. by destruct (pool.t_panic th).
Qed.

(** [C12] Whatever the turns the handlers of the requests in service
    take, a request of the protected route that has come to rest has not
    panicked, and its response is the response of the chain [Generate],
    [Validate], handler run alone in an empty heap, with readings of the
    clock that are among those made in the pool, in their order. *)
Theorem protected_served_alone P i th s r handler :
  pool.reachable clk (example_site opts) P →
  pool.p_threads P !! i = Some th →
  pool.t_handlers th = protected_chain opts s r handler →
  pool.next th = None →
  pool.t_panic th = None ∧
  ∃ ι σ1, increasing ι ∧
    protected opts s r handler (alone_world clk ι) = Ok tt σ1 ∧
    resp σ1 = pool.t_resp th ∧
    ∀ k, k < reads σ1 → ι k < pool.p_reads P.
Proof.
  intros HP Hi Hh Hn.
  destruct (rest_alone clk _ (example_site_Local opts) P i th HP Hi Hn)
    as [Hs (ι & Hι & Ha)].
  rewrite Hh in Hs, Ha. unfold protected_chain in Hs. inv Hs.
  destruct (protected_total opts s r handler (alone_world clk ι))
    as [σ' E]; [done..|].
  unfold protected in E. unfold protected_chain in Ha. rewrite E in Ha.
  destruct (pool.t_panic th); [done|]. split; [done|].
  destruct Ha as (σ1 & [= <-] & (_ & _ & Hw & _) & Hb). by exists ι, σ'.
Qed.

(** [C13] Pages of a subject that are fetched at the same time, with no
    cookie, each render a token of their own: the token minted for the
    subject at a reading of the clock made in the pool, which verifies
    while that reading is in the validity window, whatever the other
    requests have minted in the meantime.  The page is rendered on the
    response [Generate] has left, on which nothing is written. *)
Theorem pages_minted_together `{!TokenCodecLaws} P i th s r html uid :
  pool.reachable clk (example_site opts) P →
  pool.p_threads P !! i = Some th →
  pool.t_handlers th = page_chain opts s r (page_handler html) →
  pool.next th = None →
  sessions.Get s (Options.SessionKey opts) = sessions.of_string uid →
  browser_get r = true → existing_token r = None →
  ∃ n w, n < pool.p_reads P ∧
    let t := derive (Options.Secret opts) uid action (clk n) in
    pool.t_panic th = None ∧ pool.t_resp th = html t w ∧
    http.w_status w = 0%Z ∧ http.w_body w = "" ∧
    ∀ now, gotime.is_int64 (clk n) = true →
           xsrftoken.in_window (clk n) now = true →
           verify t (Options.Secret opts) uid action now = true.
Proof.
  intros HP Hi Hh Hn Hs Hb He.
  destruct (rest_alone clk _ (example_site_Local opts) P i th HP Hi Hn)
    as [_ (ι & Hι & Ha)].
  pose proof (page_no_panic P i th s r html HP Hi Hh Hn) as Hp.
  rewrite Hp, Hh in Ha. destruct Ha as (σ1 & E & (_ & _ & Hw & _) & Hlt).
  destruct (page_alone opts s r html uid clk ι σ1)
    as (Hr & w & Hw1 & Hst & Hbody); [done..|].
  exists (ι 0), w. split; [by apply Hlt|].
  split_and!; [done|by rewrite <-Hw1|done..|].
  intros now Hi64 Hwin. apply verify_iff. eauto.
Qed.

(** [C14] Pages fetched at the same time get tokens of their own.  Two
    requests of a subject for a page, each one on which [Generate]
    mints, that have come to rest in the pool have rendered tokens
    minted at two different readings of the clock, both made in the
    pool: no reading of the clock at line 140 is shared by two requests,
    whatever the turns their handlers have taken.  Under a clock that
    goes forward the two tokens are different. *)
Theorem pages_minted_apart `{!TokenCodecLaws} P i j th th' s r html s' r'
    html' uid :
  pool.reachable clk (example_site opts) P → i ≠ j →
  pool.p_threads P !! i = Some th → pool.p_threads P !! j = Some th' →
  pool.t_handlers th = page_chain opts s r (page_handler html) →
  pool.t_handlers th' = page_chain opts s' r' (page_handler html') →
  pool.next th = None → pool.next th' = None →
  mints opts uid s r → mints opts uid s' r' →
  ∃ n n' w w', n ≠ n' ∧ n < pool.p_reads P ∧ n' < pool.p_reads P ∧
    let t := derive (Options.Secret opts) uid action (clk n) in
    let t' := derive (Options.Secret opts) uid action (clk n') in
    pool.t_resp th = html t w ∧ pool.t_resp th' = html' t' w' ∧
    ((∀ a b, a < b → (clk a < clk b)%Z) → t ≠ t').
Proof.
  intros HP Hij Hi Hj Hh Hh' Hn Hn' Hm Hm'.
  destruct (rest_apart clk _ (example_site_Local opts) P i j th th')
    as (ι & ι' & σ1 & σ1' & E & E' & Hs & Hs' & Hb & Hb' & Hap);
    [by eauto using page_no_panic..|].
  rewrite Hh in E. rewrite Hh' in E'.
  destruct (page_alone opts s r html uid clk ι σ1 Hm E)
    as (Hr & w & Hw & _).
  destruct (page_alone opts s' r' html' uid clk ι' σ1' Hm' E')
    as (Hr' & w' & Hw' & _).
  destruct Hs as (_ & _ & Hq & _), Hs' as (_ & _ & Hq' & _).
  cbn in Hq, Hq'. exists (ι 0), (ι' 0), w, w'.
  split_and!; [by apply Hap|by auto..|]. cbn zeta.
  split_and!; [congruence..|].
  intros Hclk Ht%derive_instant.
  destruct (Nat.lt_total (ι 0) (ι' 0)) as [Hlt|[Heq|Hlt]];
    [|by eapply Hap|]; apply Hclk in Hlt; lia.
Qed.

End served.

(** A pool that takes no more requests into service comes to rest:
    a schedule of turns is no longer than the handlers the requests have
    still to run, and what is left to run after it is that much less. *)
Lemma pool_comes_to_rest (clk : nat → Z) (turns : list nat) P P' :
  pool.exec clk (pool.Advance <$> turns) P = Some P' →
  length turns + pool.work P' ≤ pool.work P.
Proof.
  revert P. induction turns as [|i turns IH]; intros P; cbn.
  { intros [= <-]. lia. }
  destruct (pool.advance clk i P) as [P1|] eqn:E; [|done]. cbn.
  intros HP'. specialize (IH P1 HP'). apply advance_work in E. lia.
Qed.

(** ** The pool of the example *)

Section tabs_run.

#[local] Existing Instance toy.codec.
#[local] Existing Instance utc_format.

Example tabs_rest :
  pool.p_reads <$> pool.exec sample.clk tabs.schedule tabs.start = Some 6 ∧
  (λ th, (pool.t_index th, pool.t_panic th,
          http.w_status (pool.t_resp th), http.w_body (pool.t_resp th)))
    <$> pool.p_threads tabs.rest
  = [(2, None, 200%Z, scenario.token); (2, None, 200%Z, tabs.token2);
     (3, None, 200%Z, "You submitted a valid token");
     (3, None, 200%Z, "You submitted a valid token")].
Proof. by vm_compute. Qed.

Lemma responder_handler : responder scenario.handler.
Proof.
  exists (λ _ w, http.Write w "You submitted a valid token"). by intros σ.
Qed.

Lemma tabs_reachable :
  pool.reachable sample.clk (example_site sample.opts) tabs.rest.
Proof.
  apply (exec_reachable _ _ tabs.schedule tabs.start).
  - repeat constructor; apply responder_handler.
  - apply pool.reach_init.
  - apply exec_rest. by vm_compute.
Qed.

Lemma protected_served_alone_witness :
  pool.t_panic (thread tabs.rest 2) = None ∧
  ∃ ι σ1, increasing ι ∧
    protected sample.opts sample.session (sample.post_form scenario.token)
      scenario.handler (alone_world sample.clk ι) = Ok tt σ1 ∧
    resp σ1 = pool.t_resp (thread tabs.rest 2) ∧
    ∀ k, k < reads σ1 → ι k < pool.p_reads tabs.rest.
Proof.
  apply (protected_served_alone sample.opts sample.clk tabs.rest 2).
  - apply tabs_reachable.
  - apply lookup_thread. vm_compute. lia.
  - reflexivity.
  - by vm_compute.
Defined.

Lemma pages_minted_together_witness :
  ∃ n w, n < pool.p_reads tabs.rest ∧
    let t := derive (Options.Secret sample.opts) "123456" action
               (sample.clk n) in
    pool.t_panic (thread tabs.rest 1) = None ∧
    pool.t_resp (thread tabs.rest 1) = tabs.html t w ∧
    http.w_status w = 0%Z ∧ http.w_body w = "" ∧
    ∀ now, gotime.is_int64 (sample.clk n) = true →
           xsrftoken.in_window (sample.clk n) now = true →
           verify t (Options.Secret sample.opts) "123456" action now = true.
Proof.
  apply (@pages_minted_together toy.codec utc_format sample.opts sample.clk
           toy_codec_laws tabs.rest 1 (thread tabs.rest 1) sample.session
           sample.get tabs.html "123456").
  - apply tabs_reachable.
  - apply lookup_thread. vm_compute. lia.
  - reflexivity.
  - by vm_compute.
  - reflexivity.
  - by vm_compute.
  - by vm_compute.
Defined.

Lemma pages_minted_apart_witness :
  ∃ n n' w w', n ≠ n' ∧ n < pool.p_reads tabs.rest ∧
    n' < pool.p_reads tabs.rest ∧
    let t := derive (Options.Secret sample.opts) "123456" action
               (sample.clk n) in
    let t' := derive (Options.Secret sample.opts) "123456" action
                (sample.clk n') in
    pool.t_resp (thread tabs.rest 0) = tabs.html t w ∧
    pool.t_resp (thread tabs.rest 1) = tabs.html t' w' ∧
    ((∀ a b, a < b → (sample.clk a < sample.clk b)%Z) → t ≠ t').
Proof.
  apply (@pages_minted_apart toy.codec utc_format sample.opts sample.clk
           toy_codec_laws tabs.rest 0 1 (thread tabs.rest 0)
           (thread tabs.rest 1) sample.session sample.get tabs.html
           sample.session sample.get tabs.html "123456").
  - apply tabs_reachable.
  - done.
  - apply lookup_thread. vm_compute. lia.
  - apply lookup_thread. vm_compute. lia.
  - reflexivity.
  - reflexivity.
  - by vm_compute.
  - by vm_compute.
  - by split_and!; vm_compute.
  - by split_and!; vm_compute.
Defined.

Lemma pool_comes_to_rest_witness :
  length tabs.turns + pool.work tabs.fetched ≤ pool.work tabs.fetching.
Proof.
  apply (pool_comes_to_rest sample.clk tabs.turns tabs.fetching).
  apply exec_rest. by vm_compute.
Defined.

Example tabs_work :
  pool.work tabs.fetching = 4 ∧ pool.work tabs.fetched = 0 ∧
  pool.work tabs.rest = 0.
Proof. by vm_compute. Qed.

End tabs_run.
