(* ===== verification/Browser.v ===== *)
(** * A client with a cookie jar

    [Generate] sends the token it mints in the cookie [_csrf] (lines
    141-162 of src/csrf.go) and takes the token of a later request from
    that cookie (line 137).  Whether the second happens is up to the
    client: this file models a client that keeps the cookies of the
    responses in a jar and sends them back, and follows the token on its
    way from one request to the next.

    - [jar.store], [jar.SetCookies], [jar.evict]: the jar, for the one
      host and path of the site: a cookie replaces the cookie of its
      name.  A cookie may leave the jar at any time ([Evict]), which
      covers its expiry, the end of the session of the browser and the
      user who clears the jar.
    - [jar.expired], [jar.live], [purge]: the client that keeps to the
      dates: before a request it drops the cookies whose date has
      passed, as [cookiejar] does for its persistent entries.  The
      cookies of the jar are as [http.readSetCookies] reads them, with
      the date of the attribute Expires ([token_cookie]).
    - [Browser]: the jar, the session the server keeps for the client,
      the readings of the clock made so far, and the token of the page
      the client shows.
    - [client_step]: a GET of the page ([page], which is [Generate] and a
      handler that asks for the token), a POST of the form of the page shown
      ([protected], which is [Generate], [Validate] and the handler of the
      route), a login, an eviction.  The requests are built with
      [http.Request_AddCookie] from the jar, and the jar is filled with
      [http.readSetCookies] from the responses: the token crosses the
      Set-Cookie line and the Cookie line as text.

    The theorems: the cookie [_csrf] of the jar always holds a token the
    server has minted; a page fetched while the jar holds the cookie
    shows the token of the cookie, and nothing is minted; the token is
    accepted as long as it is in its validity window and the subject is
    the one it was minted for; after that every page shows a token that
    is refused, until the cookie leaves the jar.  A client that keeps to
    the dates is a client whose cookies are evicted at their date
    ([purge_reachable]); its cookie [_csrf] is dated a day after the
    reading of the clock at line 142, to the second
    ([token_cookie_fields]), so that the expiry of the token locks it
    out only between the 24 hours of the token and this date
    ([lockout_window]), a window that is open when the clock ticks to
    the next second between lines 140 and 142 ([lockout_window_open]);
    at that date the cookie leaves the jar and the next page has a new
    token, which is accepted ([expired_cookie_renewed]). *)

From S2P Require Import Prelude GoStrings GoTime GoCalendar GoTimeParse.
From S2P Require Import NetHttp Cookies Runtime Xsrftoken Csrf Pipeline.

(** ** Definitions *)

Module jar.

(** A cookie takes the place of the cookie of its name, or comes last. *)
Fixpoint store (jar : list http.Cookie) (c : http.Cookie) :
    list http.Cookie :=
  match jar with
  | [] => [c]
  | d :: jar' =>
      if http.Name d == http.Name c then c :: jar' else d :: store jar' c
  end.

(** [jar.SetCookies(u, cookies)]. *)
Definition SetCookies (jar cookies : list http.Cookie) : list http.Cookie :=
  foldl store jar cookies.

(** The jar without the cookie of a name. *)
Definition evict (name : string) (jar : list http.Cookie) :
    list http.Cookie :=
  filter (λ c, http.Name c ≠ name) jar.

(** The value the jar holds under a name. *)
Definition value (jar : list http.Cookie) (name : string) : option string :=
  http.Value <$> head (filter (λ c, http.Name c = name) jar).

(** A cookie past its date at the instant [now]; a cookie without a
    date stays until it is evicted. *)
Definition expired (now : Z) (c : http.Cookie) : bool :=
  negb (gotime.IsZero (http.Expires c))
  && negb (gotime.After (http.Expires c) now).

(** The cookies a jar that keeps to the dates still holds at [now], and
    the names of those it has dropped. *)
Definition live (now : Z) (jar : list http.Cookie) : list http.Cookie :=
  filter (λ c, expired now c = false) jar.

Definition due (now : Z) (jar : list http.Cookie) : list string :=
  http.Name <$> filter (λ c, expired now c = true) jar.

End jar.

(** The client and what the server keeps for it. *)
Record Browser : Type := mkBrowser {
  b_jar : list http.Cookie;
  b_session : Session;
  b_reads : nat;
  b_shown : option string
}.

(** What the client does. *)
Inductive event : Type :=
| Get
| Post (status : Z)
| Login (uid : string)
| Evict (name : string).

(** The requests of the client: the page, and its form with the token in
    the field [_csrf]; each with the cookies of the jar. *)
Definition get_request (b : Browser) : http.Request :=
  with_cookies sample.get (b_jar b).

Definition post_request (b : Browser) (t : string) : http.Request :=
  with_cookies (sample.post_form t) (b_jar b).

Section browser.
Context `{TokenCodec, TimeFormat, TimeParse}.
Context (opts : Options.Options) (clk : nat → Z) (handler : M csrf unit).

(** The world of the next request. *)
Definition client_world (b : Browser) : World csrf :=
  runtime.request_world clk (b_reads b) [].

(** The client after the response in [σ']: its jar has taken the cookies
    of the response. *)
Definition received (b : Browser) (σ' : World csrf)
    (shown : option string) : Browser :=
  mkBrowser
    (jar.SetCookies (b_jar b) (http.readSetCookies (http.w_header (resp σ'))))
    (b_session b) (reads σ') shown.

Inductive client_step : Browser → event → Browser → Prop :=
| client_get b token σ' :
    page opts (b_session b) (get_request b) (client_world b) = Ok token σ' →
    client_step b Get (received b σ' (Some token))
| client_post b t σ' :
    b_shown b = Some t →
    protected opts (b_session b) (post_request b t) handler (client_world b)
      = Ok tt σ' →
    client_step b (Post (http.w_status (resp σ'))) (received b σ' (b_shown b))
| client_login b uid :
    client_step b (Login uid)
      (mkBrowser (b_jar b)
         (sessions.Set_ (b_session b) (Options.SessionKey opts)
            (sessions.of_string uid))
         (b_reads b) None)
| client_evict b name :
    client_step b (Evict name)
      (mkBrowser (jar.evict name (b_jar b)) (b_session b) (b_reads b)
         (b_shown b)).

(** The states a client reaches that starts with an empty jar and no
    session. *)
Inductive client_reachable : Browser → Prop :=
| client_init n : client_reachable (mkBrowser [] ∅ n None)
| client_next b e b' :
    client_reachable b → client_step b e b' → client_reachable b'.

(** The runs of a client, with the events in order. *)
Inductive client_run : Browser → list event → Browser → Prop :=
| client_run_nil b : client_run b [] b
| client_run_cons b e b' es b'' :
    client_step b e b' → client_run b' es b'' → client_run b (e :: es) b''.

(** *** What the steps compute

    The client after a GET and after a POST, as functions of the jar, the
    session and the clock: the token a GET finds in the jar, the token it
    mints otherwise, and the verdict on the token a POST carries. *)

(** The token [Generate] takes over from the jar. *)
Definition held (b : Browser) : option string :=
  v ← jar.value (b_jar b) cookie_name; if v != "" then Some v else None.

(** The cookie of a token minted at the reading [n] of the clock, as the
    client reads it off the Set-Cookie line: its expiry is a day after
    the next reading. *)
Definition token_cookie (uid : string) (n : nat) : http.Cookie :=
  read_back
    (csrf_cookie opts (derive (Options.Secret opts) uid action (clk n)) ""
       (gotime.AddDate (clk (S n)) 1)).

Definition after_get (b : Browser) : Browser :=
  match sessions.Get (b_session b) (Options.SessionKey opts) with
  | sessions.of_string uid =>
      match held b with
      | Some v => mkBrowser (b_jar b) (b_session b) (b_reads b) (Some v)
      | None =>
          let token :=
            derive (Options.Secret opts) uid action (clk (b_reads b)) in
          if Options.SetCookie opts then
            mkBrowser (jar.store (b_jar b) (token_cookie uid (b_reads b)))
              (b_session b) (S (S (b_reads b))) (Some token)
          else mkBrowser (b_jar b) (b_session b) (S (b_reads b)) (Some token)
      end
  | _ => mkBrowser (b_jar b) (b_session b) (b_reads b) (Some "")
  end.

(** The verdict on the form of the page shown. *)
Definition passes_check (b : Browser) (t : string) : bool :=
  (t != "") && check opts (subject opts (b_session b)) (client_world b) t.

(** A token the server has minted, for some subject at some reading of
    the clock. *)
Definition minted (t : string) : Prop :=
  ∃ uid n, t = derive (Options.Secret opts) uid action (clk n).

(** The invariant of the client: the cookies of the jar are cookies the
    reader accepts, no two of them have the same name, the cookie [_csrf]
    is the cookie of a token the server has minted, and the page shown
    has a minted token unless it shows none. *)
Definition jar_ok (jar : list http.Cookie) : Prop :=
  Forall cookie_ok jar ∧ NoDup (http.Name <$> jar) ∧
  ∀ c, c ∈ jar → http.Name c = cookie_name →
       ∃ uid n, c = token_cookie uid n.

Definition browser_ok (b : Browser) : Prop :=
  jar_ok (b_jar b) ∧
  ∀ t, b_shown b = Some t → t = "" ∨ minted t.

(** A handler that answers, sets no cookie and does not turn the clock
    back. *)
Definition quiet (h : M csrf unit) : Prop :=
  ∀ σ, ∃ σ', h σ = Ok tt σ' ∧
    http.w_header (resp σ') !! "Set-Cookie"
    = http.w_header (resp σ) !! "Set-Cookie" ∧
    reads σ ≤ reads σ'.

(** A client whose jar holds a token that the subject of its session
    cannot use, now or later, and whose page shows that token if it shows
    a token at all. *)
Definition stale (b : Browser) (v : string) : Prop :=
  held b = Some v ∧
  (∀ n, b_reads b ≤ n →
        verify v (Options.Secret opts) (subject opts (b_session b)) action
          (clk n) = false) ∧
  (∀ t, b_shown b = Some t → t = "" ∨ t = v).

(** The client at the reading [now] of its own clock, before it makes a
    request: the cookies past their date have left the jar. *)
Definition purge (now : Z) (b : Browser) : Browser :=
  mkBrowser (jar.live now (b_jar b)) (b_session b) (b_reads b) (b_shown b).

(** A reading of the clock of which the day after is printed with a year
    of four digits, and after the epoch. *)
Definition dated (t : Z) : Prop :=
  (0 ≤ t ∧ gotime.AddDate t 1 < gotime.year_10000)%Z.

(** The events of a client that browses: it fetches the page and submits
    its form. *)
Definition browsing (e : event) : Prop :=
  e = Get ∨ ∃ status, e = Post status.

End browser.

(** A client to run the steps with, under the toy codec: it logs in,
    fetches the page, and another subject logs in while the jar holds the
    cookie. *)
Module demo.

Definition logged : Browser :=
  mkBrowser [] (sessions.Set_ ∅ "userId" (sessions.of_string "123456")) 0
    None.

(** The cookie of the first page: it expires a day after the second
    reading of the clock, to the second. *)
Definition cookie : http.Cookie :=
  http.mkCookie "_csrf" scenario.token "/" "" 87400000000000
    "Fri, 02 Jan 1970 00:16:40 UTC" 0 false false
    ("_csrf=" +:+ scenario.token
     +:+ "; Path=/; Expires=Fri, 02 Jan 1970 00:16:40 UTC") [].

Definition fetched : Browser :=
  mkBrowser [cookie] (b_session logged) 2 (Some scenario.token).

Definition posted : Browser :=
  mkBrowser (b_jar fetched) (b_session fetched) 3 (b_shown fetched).

Definition other : Browser :=
  mkBrowser (b_jar fetched)
    (sessions.Set_ (b_session fetched) "userId" (sessions.of_string "654321"))
    2 None.

(** The other subject has fetched the page, and submitted its form. *)
Definition shown : Browser :=
  mkBrowser (b_jar other) (b_session other) 2 (Some scenario.token).

Definition denied : Browser :=
  mkBrowser (b_jar other) (b_session other) 3 (Some scenario.token).

(** A clock that is slow between the two readings of the first page, and
    then shows the second after the 24 hours of the token. *)
Definition late_clk (n : nat) : Z :=
  match n with
  | O => 1000000000000%Z
  | S O => 1002500000000%Z
  | _ => 87401000000000%Z
  end.

(** A clock that shows the next day from its third reading on. *)
Definition day_clk (n : nat) : Z :=
  match n with
  | O => 1000000000000%Z
  | S O => 1000000000001%Z
  | _ => (90000000000000 + Z.of_nat n)%Z
  end.

End demo.

(** ** The jar *)

Section jar.
Implicit Types (jar : list http.Cookie) (c : http.Cookie) (name : string).

Lemma store_names jar c x :
  x ∈ http.Name <$> jar.store jar c →
  x = http.Name c ∨ x ∈ http.Name <$> jar.
Proof.
  induction jar as [|d jar IH]; cbn [jar.store].
  - intros ->%list_elem_of_singleton. by left.
  - case_bool_decide as Hd; rewrite !fmap_cons, !elem_of_cons; [tauto|].
    intros [->|[->|?]%IH]; tauto.
Qed.

Lemma store_NoDup jar c :
  NoDup (http.Name <$> jar) → NoDup (http.Name <$> jar.store jar c).
Proof.
  induction jar as [|d jar IH]; cbn [jar.store].
  { intros _. apply NoDup_singleton. }
  rewrite fmap_cons, NoDup_cons. intros [Hd Hn].
  case_bool_decide as E; rewrite fmap_cons, NoDup_cons.
  - by rewrite <-E.
  - split; [|by apply IH]. by intros [?|?]%store_names.
Qed.

Lemma store_Forall (P : http.Cookie → Prop) jar c :
  Forall P jar → P c → Forall P (jar.store jar c).
Proof.
  intros Hj Hc. induction Hj as [|d jar Hd Hj IH]; cbn.
  - by apply Forall_singleton.
  - case_bool_decide; by apply Forall_cons_2.
Qed.

(** The jar holds what was stored last under a name, and what it held
    under the other names. *)
Lemma store_value jar c name :
  jar.value (jar.store jar c) name
  = if bool_decide (http.Name c = name) then Some (http.Value c)
    else jar.value jar name.
Proof.
  unfold jar.value. induction jar as [|d jar IH]; cbn [jar.store].
  - rewrite filter_cons, filter_nil. by case_bool_decide; case_decide.
  - destruct (decide (http.Name d = http.Name c)) as [Hd|Hd].
    + rewrite (bool_decide_eq_true_2 (http.Name d = _)), !filter_cons, Hd
        by done.
      by case_bool_decide; case_decide.
    + rewrite (bool_decide_eq_false_2 (http.Name d = _)), !filter_cons
        by done.
      destruct (decide (http.Name d = name)) as [Hn|Hn]; [|apply IH].
      rewrite bool_decide_eq_false_2; [done|congruence].
Qed.

Lemma evict_value jar name name' :
  jar.value (jar.evict name jar) name'
  = if bool_decide (name' = name) then None else jar.value jar name'.
Proof.
  unfold jar.value, jar.evict. induction jar as [|d jar IH].
  { by case_bool_decide. }
  rewrite !filter_cons. repeat case_decide; subst;
    rewrite ?filter_cons, ?decide_True, ?decide_False by congruence;
    try done; case_bool_decide; congruence.
Qed.

Lemma store_elem_of jar c x : x ∈ jar.store jar c → x = c ∨ x ∈ jar.
Proof.
  induction jar as [|d jar IH]; cbn [jar.store].
  - intros ->%list_elem_of_singleton. by left.
  - case_bool_decide; rewrite !elem_of_cons; [tauto|].
    intros [->|[->|?]%IH]; tauto.
Qed.

Lemma value_elem_of jar name v :
  jar.value jar name = Some v →
  ∃ c, c ∈ jar ∧ http.Name c = name ∧ http.Value c = v.
Proof.
  unfold jar.value. destruct (head _) as [c|] eqn:E; [|done].
  intros [= <-]. apply head_Some_elem_of in E.
  apply list_elem_of_filter in E as [? ?]. eauto.
Qed.

Lemma filter_NoDup_names (P : http.Cookie → Prop) `{!∀ c, Decision (P c)}
    jar :
  NoDup (http.Name <$> jar) → NoDup (http.Name <$> filter P jar).
Proof.
  induction jar as [|d jar IH]; [done|].
  rewrite fmap_cons, NoDup_cons, filter_cons. intros [Hd Hn].
  case_decide; [|by apply IH]. rewrite fmap_cons, NoDup_cons.
  split; [|by apply IH].
  intros (c & E & [_ Hc]%list_elem_of_filter)%list_elem_of_fmap.
  apply Hd, list_elem_of_fmap. eauto.
Qed.

(** Two cookies of a jar that have the same name are one. *)
Lemma NoDup_names_eq jar c d :
  NoDup (http.Name <$> jar) → c ∈ jar → d ∈ jar →
  http.Name c = http.Name d → c = d.
Proof.
  induction jar as [|x jar IH]; [by intros _ ?%elem_of_nil|].
  rewrite fmap_cons, NoDup_cons. intros [Hx Hn].
  intros [->|Hc]%elem_of_cons [->|Hd]%elem_of_cons E; [done| | |by apply IH].
  - destruct Hx. rewrite E. by apply list_elem_of_fmap_2.
  - destruct Hx. rewrite <-E. by apply list_elem_of_fmap_2.
Qed.

(** Evicting the cookies that are due, name by name, leaves the cookies
    that are live. *)
Lemma evict_due now jar :
  NoDup (http.Name <$> jar) →
  foldl (λ j name, jar.evict name j) jar (jar.due now jar) = jar.live now jar.
Proof.
  intros Hn.
  assert (∀ names j, foldl (λ j name, jar.evict name j) j names
                     = filter (λ c, http.Name c ∉ names) j) as ->.
  { induction names as [|name names IH]; intros j; cbn [foldl].
    - symmetry. apply filter_Forall_id, Forall_forall. set_solver.
    - rewrite IH. unfold jar.evict. rewrite list_filter_filter.
      apply list_filter_iff. set_solver. }
  unfold jar.live, jar.due. apply filter_ext_elem. intros c Hc. split.
  - intros Hd. destruct (jar.expired now c) eqn:E; [|done].
    destruct Hd. by apply list_elem_of_fmap_2, list_elem_of_filter.
  - intros E (d & Hd & [? ?]%list_elem_of_filter)%list_elem_of_fmap.
    assert (c = d) by (by apply (NoDup_names_eq jar)). congruence.
Qed.

Lemma evict_NoDup jar name :
  NoDup (http.Name <$> jar) → NoDup (http.Name <$> jar.evict name jar).
Proof.
  unfold jar.evict. induction jar as [|d jar IH]; [done|].
  rewrite fmap_cons, NoDup_cons, filter_cons. intros [Hd Hn].
  case_decide; [|by apply IH]. rewrite fmap_cons, NoDup_cons.
  split; [|by apply IH].
  intros (c & E & [_ Hc]%list_elem_of_filter)%list_elem_of_fmap.
  apply Hd, list_elem_of_fmap. eauto.
Qed.

End jar.

(** ** The requests of the client *)

Section requests.
Implicit Types (b : Browser) (t : string).

Lemma browser_get_get b : browser_get (get_request b) = true.
Proof.
  unfold browser_get, get_request.
  destruct (with_cookies_fields sample.get (b_jar b)) as (-> & _).
  by rewrite with_cookies_Header_Get.
Qed.

Lemma browser_get_post b t : browser_get (post_request b t) = false.
Proof.
  unfold browser_get, post_request.
  by destruct (with_cookies_fields (sample.post_form t) (b_jar b)) as (-> & _).
Qed.

(** [Generate] finds the token the jar holds. *)
Lemma existing_token_get b :
  Forall cookie_ok (b_jar b) →
  existing_token (get_request b)
  = v ← jar.value (b_jar b) cookie_name; if v != "" then Some v else None.
Proof.
  intros Hjar. unfold existing_token, get_request, jar.value.
  rewrite Request_Cookie_with_cookies by done.
  by destruct (head _).
Qed.

(** [Validate] finds the token of the form. *)
Lemma candidate_post_request b t :
  candidate (post_request b t) = if t != "" then Some t else None.
Proof.
  unfold candidate, header_token, form_token, post_request.
  rewrite with_cookies_Header_Get, with_cookies_FormValue by done.
  change (http.Header_Get _ _) with "".
  change (http.Request_FormValue _ _) with t. done.
Qed.

End requests.

(** ** The steps *)

Section steps.
Context `{TokenCodec, !TokenCodecText, TimeFormat, TimeParse}.
Context (opts : Options.Options) (clk : nat → Z) (handler : M csrf unit).
Implicit Types (b : Browser) (t : string) (e : event).


(** The cookie of a token is a cookie the readers accept. *)
Lemma csrf_cookie_ok key uid n expire :
  cookie_ok (csrf_cookie opts (derive key uid action (clk n)) "" expire).
Proof. split; [done|apply derive_cookie_bytes]. Qed.

(** The cookie of a token as the client reads it has the name [_csrf]
    and the token as its value. *)
Lemma token_cookie_pair uid n :
  http.Name (token_cookie opts clk uid n) = cookie_name
  ∧ http.Value (token_cookie opts clk uid n)
    = derive (Options.Secret opts) uid action (clk n)
  ∧ cookie_ok (token_cookie opts clk uid n).
Proof.
  unfold token_cookie.
  pose proof (csrf_cookie_ok (Options.Secret opts) uid n
                (gotime.AddDate (clk (S n)) 1)) as Hc.
  destruct (read_back_pair _ Hc) as [-> ->].
  split_and!; [done..|by apply read_back_ok].
Qed.

Lemma readSetCookies_with_header t w :
  http.readSetCookies (http.w_header (with_header opts t w))
  = http.readSetCookies (http.w_header w).
Proof.
  unfold with_header. destruct (Options.SetHeader opts); [|done].
  by apply readSetCookies_Add_ne.
Qed.

(** The client after the response of [Generate]. *)
Lemma received_issued b :
  Forall cookie_ok (b_jar b) →
  let i := issuance opts (b_session b) (get_request b) clk (b_reads b)
             http.new_ResponseWriter in
  received b (issued (client_world clk b) i) (Some (Token (iss_csrf i)))
  = after_get opts clk b.
Proof.
  intros Hjar. cbn zeta. unfold issuance, after_get, received.
  rewrite browser_get_get, existing_token_get by done. fold (held b).
  destruct (sessions.Get _ _); try done.
  destruct (held b) as [v|]; cbn [issued resp cell iss_resp iss_csrf
    iss_reads Token reads].
  { by rewrite readSetCookies_with_header. }
  destruct (Options.SetCookie opts); cbn [iss_resp iss_csrf iss_reads Token];
    rewrite readSetCookies_with_header; [|done].
  unfold http.SetCookie, http.w_Header_Add. cbn [http.w_header].
  by rewrite readSetCookies_SetCookie by apply csrf_cookie_ok.
Qed.

Lemma step_after_get b :
  Forall cookie_ok (b_jar b) →
  client_step opts clk handler b Get (after_get opts clk b).
Proof.
  intros Hjar. rewrite <-received_issued by done.
  apply client_get. by rewrite run_page.
Qed.

Lemma step_get_inv b b' :
  Forall cookie_ok (b_jar b) → client_step opts clk handler b Get b' →
  b' = after_get opts clk b.
Proof.
  intros Hjar Hs. rewrite <-received_issued by done.
  inversion Hs as [? token σ' E| | |]; subst.
  rewrite run_page in E. by injection E as <- <-.
Qed.

(** The chain of a POST of the client. *)
Lemma run_post b t :
  protected opts (b_session b) (post_request b t) handler (client_world clk b)
  = if passes_check opts clk b t
    then handler (admitted opts (subject opts (b_session b)) (client_world clk b))
    else Ok tt (refused opts (subject opts (b_session b))
                  (post_request b t) (client_world clk b)).
Proof.
  pose proof (candidate_post_request b t) as Hc. unfold passes_check.
  destruct (decide (t = "")) as [->|Ht].
  - apply run_protected_failed; [apply browser_get_post|done|].
    intros t. by rewrite Hc.
  - rewrite (proj2 (neq_true _ _)) in Hc |- * by done. cbn [andb].
    destruct (check _ _ _ t) eqn:Hv.
    + by eapply run_protected_passed; [apply browser_get_post|..].
    + apply run_protected_failed; [apply browser_get_post|done|].
      intros t' Ht'. by simplify_eq.
Qed.

End steps.

(** ** The invariant of the client *)

Section invariant.
Context `{TokenCodec, !TokenCodecText, TimeFormat, TimeParse}.
Context (opts : Options.Options) (clk : nat → Z) (handler : M csrf unit).
Context (handler_quiet : quiet handler).
Implicit Types (b : Browser) (t : string) (e : event).


(** The cookie [_csrf] of the jar holds a minted token. *)
Lemma jar_ok_minted jar v :
  jar_ok opts clk jar → jar.value jar cookie_name = Some v →
  minted opts clk v.
Proof.
  intros (_ & _ & Hm) (c & Hc & Hn & <-)%value_elem_of.
  destruct (Hm c Hc Hn) as (uid & n & ->). exists uid, n.
  apply token_cookie_pair.
Qed.

Lemma held_minted b v :
  jar_ok opts clk (b_jar b) → held b = Some v → minted opts clk v.
Proof.
  intros Hjar. unfold held.
  destruct (jar.value _ _) as [v'|] eqn:E; [|done]. cbn.
  case_match; intros; simplify_eq. by eapply jar_ok_minted.
Qed.

Lemma store_token_ok jar uid n :
  jar_ok opts clk jar →
  jar_ok opts clk (jar.store jar (token_cookie opts clk uid n)).
Proof.
  intros (Hc & Hn & Hm).
  destruct (token_cookie_pair opts clk uid n) as (Hname & Hvalue & Hok).
  split_and!.
  - by apply store_Forall.
  - by apply store_NoDup.
  - intros c [->|Hin]%store_elem_of ?; [by eexists _, _|by apply Hm].
Qed.

(** The invariant of the jar holds of every part of it: of what is left
    after an eviction, and of the cookies that are live. *)
Lemma filter_ok (P : http.Cookie → Prop) `{!∀ c, Decision (P c)} jar :
  jar_ok opts clk jar → jar_ok opts clk (filter P jar).
Proof.
  intros (Hc & Hn & Hm). split_and!.
  - apply Forall_forall. intros c [_ Hin]%list_elem_of_filter.
    by eapply Forall_forall in Hc.
  - by apply filter_NoDup_names.
  - intros c [_ Hin]%list_elem_of_filter. by apply Hm.
Qed.

Lemma evict_ok jar name :
  jar_ok opts clk jar → jar_ok opts clk (jar.evict name jar).
Proof. apply filter_ok. Qed.

Lemma after_get_ok b :
  browser_ok opts clk b → browser_ok opts clk (after_get opts clk b).
Proof.
  intros [Hjar Hshown]. unfold after_get.
  destruct (sessions.Get _ _) as [|uid| | |];
    try (split; [done|]; intros t [= <-]; by left).
  destruct (held b) as [v|] eqn:Hv.
  { split; [done|]. intros t [= <-]. right. by eapply held_minted. }
  destruct (Options.SetCookie opts); (split; [|intros t [= <-]; right;
    by eexists _, _]); [by apply store_token_ok|done].
Qed.

(** The steps of a POST, by its verdict. *)
Lemma step_post_passed b t σ' :
  b_shown b = Some t → passes_check opts clk b t = true →
  handler (admitted opts (subject opts (b_session b)) (client_world clk b))
    = Ok tt σ' →
  client_step opts clk handler b (Post (http.w_status (resp σ')))
    (received b σ' (b_shown b)).
Proof.
  intros Ht Hp E. apply (client_post opts clk handler b t); [done|].
  by rewrite run_post, Hp.
Qed.

Lemma step_post_failed b t :
  b_shown b = Some t → passes_check opts clk b t = false →
  let σ' := refused opts (subject opts (b_session b)) (post_request b t)
              (client_world clk b) in
  client_step opts clk handler b (Post (http.w_status (resp σ')))
    (received b σ' (b_shown b)).
Proof.
  intros Ht Hp σ'. apply (client_post opts clk handler b t); [done|].
  by rewrite run_post, Hp.
Qed.

(** The response to a POST sets no cookie. *)
Lemma post_received b t σ' :
  protected opts (b_session b) (post_request b t) handler (client_world clk b)
    = Ok tt σ' →
  received b σ' (b_shown b)
  = mkBrowser (b_jar b) (b_session b) (reads σ') (b_shown b) ∧
  b_reads b ≤ reads σ' ∧
  (passes_check opts clk b t = false → http.w_status (resp σ') = 400%Z).
Proof.
  rewrite run_post. unfold received, http.readSetCookies.
  destruct (passes_check opts clk b t).
  - destruct (handler_quiet (admitted opts (subject opts (b_session b))
                               (client_world clk b))) as (σ1 & -> & Hh & Hr).
    intros [= <-]. rewrite Hh. cbn in Hr. split_and!; [done|lia|done].
  - intros [= <-].
    destruct (refused_resp opts (subject opts (b_session b))
                (post_request b t) (client_world clk b)) as (msg & -> & Hst);
      [done|].
    split_and!; [done| |done]. unfold refused, validated. cbn. lia.
Qed.

Lemma step_ok b e b' :
  browser_ok opts clk b → client_step opts clk handler b e b' →
  browser_ok opts clk b'.
Proof.
  intros Hb Hs. pose proof Hb as [Hjar Hshown].
  destruct Hs as [b token σ' E|b t σ' Ht E|b uid|b name].
  - rewrite (step_get_inv opts clk handler b (received b σ' (Some token)));
      [by apply after_get_ok|by destruct Hjar|by apply client_get].
  - by destruct (post_received b t σ' E) as (-> & _).
  - by split.
  - split; [by apply evict_ok|done].
Qed.

Lemma reachable_inv b :
  client_reachable opts clk handler b → browser_ok opts clk b.
Proof.
  induction 1 as [n|b e b' _ IH Hs]; [|by eapply step_ok].
  split; [|done]. split_and!; [done|apply NoDup_nil_2|].
  by intros c ?%elem_of_nil.
Qed.

(** [C18] The invariant of the client.  In every state a client reaches
    that starts with an empty jar, whatever it fetches and submits,
    whoever logs in and whichever cookies leave the jar, the cookies of
    the jar are cookies the server reads back as they are, no two of
    them have the same name, the cookie [_csrf] holds a token the server
    has minted with its secret, and the page shown carries such a token
    or none: the token [Generate] takes over from the cookie unverified
    is never of another origin. *)
Theorem reachable_ok b :
  client_reachable opts clk handler b →
  Forall cookie_ok (b_jar b) ∧ NoDup (http.Name <$> b_jar b) ∧
  (∀ v, jar.value (b_jar b) cookie_name = Some v → minted opts clk v) ∧
  (∀ t, b_shown b = Some t → t = "" ∨ minted opts clk t).
Proof.
  intros [Hjar Hshown]%reachable_inv.
  split_and!; [apply Hjar..| |done]. intros v. by apply jar_ok_minted.
Qed.

End invariant.

(** ** The token on its way *)

Section journey.
Context `{TokenCodecLaws, !TokenCodecText, TimeFormat, TimeParse}.
Context (opts : Options.Options) (clk : nat → Z) (handler : M csrf unit).
Context (handler_quiet : quiet handler).
Implicit Types (b : Browser) (t v uid : string) (e : event)
  (es : list event).

(** [C20] The step of a GET is the function [after_get].  Whatever the jar
    holds, as long as its cookies are cookies the reader accepts, the
    handlers, the Set-Cookie line of the response and the Cookie line of
    the request compute what the function says on the values of the jar:
    the token held is shown and nothing else changes; without one a token
    is minted for the subject at the reading of the clock, and stored
    under [_csrf] if the option is set. *)
Theorem get_refines b b' :
  Forall cookie_ok (b_jar b) →
  client_step opts clk handler b Get b' ↔ b' = after_get opts clk b.
Proof.
  intros Hjar. split; [by apply step_get_inv|].
  intros ->. by apply step_after_get.
Qed.

(** A client that has fetched the page holds its token. *)
Lemma after_get_held b uid :
  sessions.Get (b_session b) (Options.SessionKey opts)
    = sessions.of_string uid →
  held b = None → Options.SetCookie opts = true →
  let token := derive (Options.Secret opts) uid action (clk (b_reads b)) in
  after_get opts clk b
  = mkBrowser (jar.store (b_jar b) (token_cookie opts clk uid (b_reads b)))
      (b_session b) (S (S (b_reads b))) (Some token) ∧
  held (after_get opts clk b) = Some token.
Proof.
  intros Hs Hh Hc token. unfold after_get. rewrite Hs, Hh, Hc.
  split; [done|]. unfold held. cbn [b_jar]. rewrite store_value.
  destruct (token_cookie_pair opts clk uid (b_reads b)) as (-> & -> & _).
  rewrite bool_decide_eq_true_2 by done. cbn.
  rewrite (proj2 (neq_true _ _)); [done|apply derive_nonempty].
Qed.

Lemma after_get_idemp b uid :
  sessions.Get (b_session b) (Options.SessionKey opts)
    = sessions.of_string uid →
  held b = None → Options.SetCookie opts = true →
  after_get opts clk (after_get opts clk b) = after_get opts clk b.
Proof.
  intros Hs Hh Hc. destruct (after_get_held b uid Hs Hh Hc) as [E Hh'].
  unfold after_get at 1. rewrite Hh'. rewrite E at 1. cbn [b_session].
  rewrite Hs. by rewrite E.
Qed.

Lemma run_gets b k :
  Forall cookie_ok (b_jar b) → after_get opts clk b = b →
  client_run opts clk handler b (replicate k Get) b.
Proof.
  intros Hjar Hb. induction k as [|k IH]; [apply client_run_nil|].
  eapply client_run_cons; [|done]. rewrite <-Hb at 2. by apply step_after_get.
Qed.

(** The form of a page whose token was minted for the subject of the
    session is accepted while the clock is in the window of the token. *)
Lemma post_minted b uid n :
  sessions.Get (b_session b) (Options.SessionKey opts)
    = sessions.of_string uid →
  gotime.is_int64 (clk n) = true →
  xsrftoken.in_window (clk n) (clk (b_reads b)) = true →
  let token := derive (Options.Secret opts) uid action (clk n) in
  protected opts (b_session b) (post_request b token) handler
    (client_world clk b)
  = handler (admitted opts uid (client_world clk b)).
Proof.
  intros Hs Hi Hw token. rewrite run_post. unfold passes_check, check.
  rewrite (subject_Get opts _ uid) by done. subst token.
  rewrite (proj2 (neq_true _ _)) by apply derive_nonempty.
  cbn [client_world runtime.request_world clock reads].
  by rewrite verify_window, Hw.
Qed.

(** [C17] The token is minted once, and comes back.  A client of a
    subject whose jar holds no token gets one minted on its first GET,
    in the cookie [_csrf]; however many times it fetches the page after
    that, the page shows that token, the clock is not read and the jar
    does not change; and the form of the page is accepted as long as the
    clock is within the validity window of the token: the chain of the
    POST is the handler of the route. *)
Theorem token_minted_once b uid k :
  Forall cookie_ok (b_jar b) →
  sessions.Get (b_session b) (Options.SessionKey opts)
    = sessions.of_string uid →
  held b = None → Options.SetCookie opts = true →
  let token := derive (Options.Secret opts) uid action (clk (b_reads b)) in
  let b' := mkBrowser
              (jar.store (b_jar b) (token_cookie opts clk uid (b_reads b)))
              (b_session b) (S (S (b_reads b))) (Some token) in
  client_run opts clk handler b (replicate (S k) Get) b' ∧
  jar.value (b_jar b') cookie_name = Some token ∧
  (gotime.is_int64 (clk (b_reads b)) = true →
   xsrftoken.in_window (clk (b_reads b)) (clk (S (S (b_reads b)))) = true →
   protected opts (b_session b') (post_request b' token) handler
     (client_world clk b')
   = handler (admitted opts uid (client_world clk b'))).
Proof.
  intros Hjar Hs Hh Hc token b'.
  destruct (after_get_held b uid Hs Hh Hc) as [E Hh']. fold token in E, Hh'.
  fold b' in E. split_and!.
  - rewrite <-E. eapply client_run_cons; [by apply step_after_get|].
    apply run_gets; [rewrite E|by eapply after_get_idemp].
    apply store_Forall; [done|]. apply token_cookie_pair.
  - unfold b'. cbn [b_jar]. rewrite store_value.
    destruct (token_cookie_pair opts clk uid (b_reads b)) as (-> & -> & _).
    by rewrite bool_decide_eq_true_2.
  - intros Hi Hw. by apply (post_minted b' uid (b_reads b)).
Qed.

(** [C19] A POST that is not refused carried a minted token.  In every
    state a client reaches, a POST that is answered with a status other
    than 400 carried the token of the page shown, which the server has
    minted with its secret, and which verifies for the subject of the
    session at the reading of the clock; the jar and the session are as
    before. *)
Theorem post_guarded b status b' :
  client_reachable opts clk handler b →
  client_step opts clk handler b (Post status) b' → status ≠ 400%Z →
  ∃ t, b_shown b = Some t ∧ minted opts clk t ∧
       verify t (Options.Secret opts) (subject opts (b_session b)) action
         (clk (b_reads b)) = true ∧
       b_jar b' = b_jar b ∧ b_session b' = b_session b.
Proof.
  intros Hr Hs Hst. apply reachable_inv in Hr as [_ Hshown]; [|done].
  inversion Hs as [|? t σ' Ht E| |]; subst.
  destruct (post_received opts clk handler handler_quiet b t σ' E)
    as (-> & _ & H400).
  exists t.
  destruct (passes_check opts clk b t) eqn:Hp; [|by destruct Hst; auto].
  apply andb_prop in Hp as [Hne%neq_true Hv].
  destruct (Hshown t Ht) as [->|Hm]; [done|]. by split_and!.
Qed.

(** A client that browses with a stale token stays as it is, and its
    POSTs are refused. *)
Lemma stale_step b v e b' :
  Forall cookie_ok (b_jar b) → stale opts clk b v → browsing e →
  client_step opts clk handler b e b' →
  (∀ status, e = Post status → status = 400%Z) ∧
  b_jar b' = b_jar b ∧ stale opts clk b' v.
Proof.
  intros Hjar (Hh & Hv & Hshown) He Hs.
  destruct Hs as [b token σ' E|b t σ' Ht E|b uid|b name];
    [|clear He|by destruct He as [|[]]..].
  - assert (received b σ' (Some token) = after_get opts clk b) as ->
      by (apply (step_get_inv opts clk handler); [done|by apply client_get]).
    split; [done|]. unfold after_get. rewrite Hh.
    destruct (sessions.Get _ _) eqn:Hs; (split; [done|]);
      split_and!; try done; intros t [= <-]; auto.
  - destruct (post_received opts clk handler handler_quiet b t σ' E)
      as (-> & Hr & H400).
    assert (passes_check opts clk b t = false) as Hp.
    { unfold passes_check, check. destruct (Hshown t Ht) as [->| ->]; [done|].
      cbn. by rewrite Hv, andb_false_r. }
    split_and!; [by intros ? [= <-]; auto|done|].
    split_and!; [done| |done]. intros n Hn. apply Hv. cbn in *. lia.
Qed.

(** [C11] The stale cookie locks the client out.  When the jar holds a
    token that does not verify for the subject of the session, now or
    later (its validity window is over, or it was minted for another
    subject), every page the client fetches shows that token and every
    form it submits is answered 400, however long it goes on; the jar
    does not change.  Only a cookie that leaves the jar ends this. *)
Theorem stale_cookie_locks_out b v es b' :
  Forall cookie_ok (b_jar b) → stale opts clk b v → Forall browsing es →
  client_run opts clk handler b es b' →
  Forall (λ e, ∀ status, e = Post status → status = 400%Z) es ∧
  b_jar b' = b_jar b ∧ stale opts clk b' v.
Proof.
  intros Hjar Hst Hes Hrun. induction Hrun as [b|b e b1 es b2 Hs _ IH].
  { by split_and!. }
  apply Forall_cons in Hes as [He Hes].
  destruct (stale_step b v e b1 Hjar Hst He Hs) as (H400 & Ej & Hst1).
  destruct IH as (IH1 & IH2 & IH3); [by rewrite Ej|done..|].
  split_and!; [by apply Forall_cons|congruence|done].
Qed.

(** The two ways a token gets stale: the subject of the session is not
    the one it was minted for, or the clock has passed its window. *)
Lemma stale_other_subject `{!TokenCodecBinding normal} b uid n :
  held b = Some (derive (Options.Secret opts) uid action (clk n)) →
  normal uid ≠ normal (subject opts (b_session b)) →
  b_shown b = None →
  stale opts clk b (derive (Options.Secret opts) uid action (clk n)).
Proof.
  intros Hh Hne Hshown. split_and!; [done| |by rewrite Hshown].
  intros m _. by eapply verify_other_subject.
Qed.

Lemma stale_expired b n :
  let uid := subject opts (b_session b) in
  held b = Some (derive (Options.Secret opts) uid action (clk n)) →
  (∀ m, b_reads b ≤ m → (xsrftoken.Timeout ≤ clk m - clk n)%Z) →
  b_shown b = None →
  stale opts clk b (derive (Options.Secret opts) uid action (clk n)).
Proof.
  intros uid Hh Hout Hshown. split_and!; [done| |by rewrite Hshown].
  intros m Hm. by apply verify_derive_out, in_window_expired, Hout.
Qed.

(** Once the cookie has left the jar, the next page mints a token. *)
Lemma held_evict b :
  held (mkBrowser (jar.evict cookie_name (b_jar b)) (b_session b)
          (b_reads b) (b_shown b)) = None.
Proof.
  unfold held. cbn [b_jar]. rewrite evict_value.
  by rewrite bool_decide_eq_true_2.
Qed.

End journey.

(** ** A client that keeps to the dates of its cookies *)

Section expiry.
Context `{TokenCodecLaws, !TokenCodecText, TimeFormat, TimeParse, !TimeLaws}.
Context (opts : Options.Options) (clk : nat → Z) (handler : M csrf unit).
Context (handler_quiet : quiet handler).
Implicit Types (b : Browser) (t v uid : string) (e : event) (now : Z).

(** Evictions, one after the other. *)
Lemma run_evicts b names :
  client_run opts clk handler b (Evict <$> names)
    (mkBrowser (foldl (λ j name, jar.evict name j) (b_jar b) names)
       (b_session b) (b_reads b) (b_shown b)).
Proof.
  revert b. induction names as [|name names IH]; intros b.
  - destruct b. apply client_run_nil.
  - eapply client_run_cons; [apply client_evict|].
    exact (IH (mkBrowser (jar.evict name (b_jar b)) (b_session b)
                 (b_reads b) (b_shown b))).
Qed.

Lemma run_reachable b es b' :
  client_reachable opts clk handler b →
  client_run opts clk handler b es b' →
  client_reachable opts clk handler b'.
Proof.
  intros Hb Hrun. induction Hrun as [|b e b1 es b2 Hs _ IH]; [done|].
  apply IH. by eapply client_next.
Qed.

(** The cookies past their date leave the jar by evictions. *)
Lemma purge_run now b :
  NoDup (http.Name <$> b_jar b) →
  client_run opts clk handler b (Evict <$> jar.due now (b_jar b))
    (purge now b).
Proof.
  intros Hn. unfold purge. rewrite <-(evict_due now) by done.
  apply run_evicts.
Qed.

(** A client that keeps to the dates is a client: the state it is in
    after the cookies past their date have left the jar is reachable, and
    the invariant of the clients holds of it. *)
Lemma purge_reachable now b :
  client_reachable opts clk handler b →
  client_reachable opts clk handler (purge now b).
Proof.
  intros Hb. eapply run_reachable; [done|]. apply purge_run.
  by apply (reachable_inv opts clk handler handler_quiet) in Hb
    as [(_ & ? & _) _].
Qed.

(** The date a client reads off the cookie of a token: a day after the
    second reading of the clock, to the second. *)
Lemma csrf_cookie_attrs token expire :
  (expire < gotime.year_10000)%Z →
  attrs_ok (csrf_cookie opts token "" expire).
Proof.
  intros He. unfold attrs_ok, csrf_cookie.
  cbn [http.Path http.Domain http.Expires http.MaxAge].
  by split_and!.
Qed.

(** [C21] The cookie of the token, there and back.  The client reads
    off the Set-Cookie line of [Generate] the cookie the server has
    built at lines 148-160: the name [_csrf], the token, the path [/],
    no domain, the flag Secure of the options, and as its date the
    expiry of line 142, a day after the reading of the clock, to the
    second; nothing of the line is left unread. *)
Theorem token_cookie_fields uid n :
  dated (clk (S n)) →
  let token := derive (Options.Secret opts) uid action (clk n) in
  let expire := gotime.AddDate (clk (S n)) 1 in
  let line := http.Cookie_String (csrf_cookie opts token "" expire) in
  http.read_set_cookie line
  = Some (http.mkCookie cookie_name token "/" "" (gotime.floor_sec expire)
            (Format expire gotime.RFC1123) 0 (Options.Secure opts) false
            line []).
Proof.
  intros [Hpos Hy] token expire line. subst line.
  rewrite read_set_cookie_attrs
    by (by apply csrf_cookie_ok || by apply csrf_cookie_attrs).
  unfold as_received, csrf_cookie.
  cbn [http.Name http.Value http.Path http.Domain http.Expires http.MaxAge
       http.Secure http.HttpOnly].
  rewrite bool_decide_eq_true_2; [done|].
  apply Unix_pos. subst expire. rewrite AddDate_one_day. lia.
Qed.

Lemma token_cookie_Expires uid n :
  dated (clk (S n)) →
  http.Expires (token_cookie opts clk uid n)
  = gotime.floor_sec (gotime.AddDate (clk (S n)) 1).
Proof.
  intros [Hpos Hy]. unfold token_cookie.
  rewrite read_back_attrs
    by (by apply csrf_cookie_ok || by apply csrf_cookie_attrs).
  unfold as_received, csrf_cookie. cbn [http.Expires].
  rewrite bool_decide_eq_true_2; [done|].
  apply Unix_pos. rewrite AddDate_one_day. lia.
Qed.

(** [C15] The window of the lock-out by expiry.  A client that keeps to
    the dates of its cookies and whose clock agrees with the server's
    holds, after it has dropped the cookies past their date, a token the
    server minted for some subject at some reading [n] of its clock, in
    a cookie dated a day after the next reading [n + 1], to the second.
    The cookie is in the jar only before that date; and when the token
    does not verify any more for its subject, the clock is past the 24
    hours of the token: the client is locked out by expiry only between
    24 hours after the first reading and 24 hours after the second, for
    less than the time the server took from line 140 to line 142. *)
Theorem lockout_window b v :
  client_reachable opts clk handler b →
  let now := clk (b_reads b) in
  held (purge now b) = Some v →
  ∃ uid n,
    v = derive (Options.Secret opts) uid action (clk n) ∧
    (dated (clk (S n)) →
     (now < gotime.floor_sec (gotime.AddDate (clk (S n)) 1))%Z ∧
     (gotime.is_int64 (clk n) = true → (clk n ≤ now)%Z →
      verify v (Options.Secret opts) uid action now = false →
      (clk n + xsrftoken.Timeout ≤ now < clk (S n) + xsrftoken.Timeout)%Z)).
Proof.
  intros [Hjar _]%(reachable_inv opts clk handler handler_quiet) now Hh.
  unfold held in Hh. cbn [purge b_jar] in Hh.
  destruct (jar.value _ _) as [v'|] eqn:Ev; [|done]. cbn in Hh.
  assert (v' = v) as -> by (by case_match; simplify_eq). clear Hh.
  apply value_elem_of in Ev as (c & [Hlive Hc]%list_elem_of_filter & Hn & <-).
  destruct Hjar as (_ & _ & Hm). destruct (Hm c Hc Hn) as (uid & n & ->).
  exists uid, n. split; [apply token_cookie_pair|]. intros Hd.
  assert (now < gotime.floor_sec (gotime.AddDate (clk (S n)) 1))%Z as Hnow.
  { unfold jar.expired in Hlive. rewrite token_cookie_Expires in Hlive by done.
    pose proof (floor_sec_range (gotime.AddDate (clk (S n)) 1)) as Hf.
    destruct Hd as [Hpos _]. rewrite AddDate_one_day in *.
    unfold gotime.Second, gotime.Nanosecond in Hf.
    apply andb_false_iff in Hlive as [Hz%negb_false_iff|Ha%negb_false_iff].
    - apply bool_decide_eq_true in Hz. unfold gotime.zero in Hz. lia.
    - by apply bool_decide_eq_true in Ha. }
  split; [done|]. intros Hi Hle Hv.
  destruct (token_cookie_pair opts clk uid n) as (_ & Ev & _).
  rewrite Ev, verify_window in Hv by done.
  apply not_true_iff_false in Hv. rewrite in_window_spec in Hv.
  pose proof (floor_sec_range (gotime.AddDate (clk (S n)) 1)) as Hf.
  rewrite AddDate_one_day in *.
  unfold xsrftoken.Timeout, gotime.Hour, gotime.Minute, gotime.Second,
    gotime.Nanosecond in *. lia.
Qed.

(** At its date the cookie of a token is past its date. *)
Lemma token_cookie_expired uid n now :
  dated (clk (S n)) →
  (gotime.floor_sec (gotime.AddDate (clk (S n)) 1) ≤ now)%Z →
  jar.expired now (token_cookie opts clk uid n) = true.
Proof.
  intros Hd Hnow. unfold jar.expired.
  rewrite token_cookie_Expires by done. destruct Hd as [Hpos _].
  pose proof (floor_sec_range (gotime.AddDate (clk (S n)) 1)) as Hf.
  rewrite AddDate_one_day in *.
  unfold gotime.Second, gotime.Nanosecond in Hf.
  apply andb_true_iff. split; apply negb_true_iff, bool_decide_eq_false.
  - unfold gotime.zero. lia.
  - lia.
Qed.

(** [C16] The lock-out by expiry ends at the date of the cookie.  A client
    of a subject that keeps to the dates of its cookies and whose clock
    agrees with the server's holds the cookie of a token minted at the
    reading [n] of the clock.  Once its clock has reached the date of
    that cookie, a day after the reading [n + 1] (line 142) to the
    second, the cookie has left the jar; the page it fetches next shows
    a token [Generate] mints for the subject at the present reading and
    stores under [_csrf]; the client is still a client; and the form of
    that page is accepted while the clock is within the validity window
    of the new token: the chain of the POST is the handler of the
    route. *)
Theorem expired_cookie_renewed b uid uid' n :
  client_reachable opts clk handler b →
  sessions.Get (b_session b) (Options.SessionKey opts)
    = sessions.of_string uid →
  Options.SetCookie opts = true →
  (∀ c, c ∈ b_jar b → http.Name c = cookie_name →
        c = token_cookie opts clk uid' n) →
  dated (clk (S n)) →
  (gotime.floor_sec (gotime.AddDate (clk (S n)) 1) ≤ clk (b_reads b))%Z →
  let now := clk (b_reads b) in
  let token := derive (Options.Secret opts) uid action now in
  let b' := mkBrowser
              (jar.store (jar.live now (b_jar b))
                 (token_cookie opts clk uid (b_reads b)))
              (b_session b) (S (S (b_reads b))) (Some token) in
  held (purge now b) = None ∧
  client_step opts clk handler (purge now b) Get b' ∧
  client_reachable opts clk handler b' ∧
  held b' = Some token ∧
  (gotime.is_int64 now = true →
   xsrftoken.in_window now (clk (S (S (b_reads b)))) = true →
   protected opts (b_session b') (post_request b' token) handler
     (client_world clk b')
   = handler (admitted opts uid (client_world clk b'))).
Proof.
  intros Hb Hs Hc Hjar Hd Hdate now token b'.
  pose proof (purge_reachable now b Hb) as Hp.
  assert (held (purge now b) = None) as Hh.
  { unfold held. cbn [purge b_jar].
    destruct (jar.value _ _) as [v|] eqn:Ev; [|done].
    apply value_elem_of in Ev
      as (c & [Hlive Hin]%list_elem_of_filter & Hn & _).
    rewrite (Hjar c Hin Hn), token_cookie_expired in Hlive; done. }
  destruct (after_get_held opts clk (purge now b) uid Hs Hh Hc) as [E Hh'].
  cbn [purge b_jar b_session b_reads] in E, Hh'. fold now token b' in E, Hh'.
  assert (client_step opts clk handler (purge now b) Get b') as Hstep.
  { rewrite <-E. apply step_after_get.
    by apply (reachable_inv opts clk handler handler_quiet) in Hp
      as [(? & _) _]. }
  split_and!; [done..|by eapply client_next|by rewrite <-E|].
  intros Hi Hw. by apply (post_minted opts clk handler b' uid (b_reads b)).
Qed.

End expiry.

(** ** The client at work *)

Section browser_witnesses.
#[local] Existing Instance toy.codec.
#[local] Existing Instance utc_format.
#[local] Existing Instance utc_parse.

Lemma scenario_handler_quiet : quiet scenario.handler.
Proof. intros σ. eexists. split; [done|]. split; [|done]. cbn.
  unfold http.WriteHeader. by destruct (http.Written _). Qed.

Lemma demo_steps :
  client_step sample.opts sample.clk scenario.handler demo.logged Get demo.fetched ∧
  client_step sample.opts sample.clk scenario.handler demo.fetched (Post 200)
    demo.posted ∧
  client_step sample.opts sample.clk scenario.handler demo.fetched (Login "654321")
    demo.other.
Proof.
  split_and!.
  - replace demo.fetched with (after_get sample.opts sample.clk demo.logged)
      by (by vm_compute).
    by apply (step_after_get (H0 := toy_codec_text)).
  - assert (passes_check sample.opts sample.clk demo.fetched scenario.token
            = true) as Hp by (by vm_compute).
    exact (step_post_passed sample.opts sample.clk scenario.handler
             demo.fetched scenario.token _ eq_refl Hp eq_refl).
  - apply (client_login sample.opts sample.clk scenario.handler demo.fetched).
Qed.

Lemma demo_reachable :
  client_reachable sample.opts sample.clk scenario.handler demo.fetched.
Proof.
  destruct demo_steps as (Hget & _).
  eapply client_next; [|apply Hget].
  eapply client_next; [apply (client_init _ _ _ 0)|].
  apply (client_login sample.opts sample.clk scenario.handler
           (mkBrowser [] ∅ 0 None) "123456").
Qed.

Lemma reachable_ok_witness :
  Forall cookie_ok (b_jar demo.fetched) ∧
  NoDup (http.Name <$> b_jar demo.fetched) ∧
  (∀ v, jar.value (b_jar demo.fetched) cookie_name = Some v →
        minted sample.opts sample.clk v) ∧
  (∀ t, b_shown demo.fetched = Some t →
        t = "" ∨ minted sample.opts sample.clk t).
Proof.
  exact (@reachable_ok toy.codec toy_codec_text utc_format utc_parse sample.opts
           sample.clk scenario.handler scenario_handler_quiet demo.fetched
           demo_reachable).
Defined.

Lemma get_refines_witness :
  client_step sample.opts sample.clk scenario.handler demo.logged Get demo.fetched ↔
  demo.fetched = after_get sample.opts sample.clk demo.logged.
Proof.
  exact (@get_refines toy.codec toy_codec_text utc_format utc_parse sample.opts
           sample.clk scenario.handler demo.logged demo.fetched
           (Forall_nil_2 _)).
Defined.

Lemma token_minted_once_witness :
  client_run sample.opts sample.clk scenario.handler demo.logged [Get; Get; Get]
    demo.fetched ∧
  jar.value (b_jar demo.fetched) cookie_name = Some scenario.token ∧
  (gotime.is_int64 (sample.clk 0) = true →
   xsrftoken.in_window (sample.clk 0) (sample.clk 2) = true →
   protected sample.opts (b_session demo.fetched)
     (post_request demo.fetched scenario.token) scenario.handler
     (client_world sample.clk demo.fetched)
   = scenario.handler
       (admitted sample.opts "123456" (client_world sample.clk demo.fetched))).
Proof.
  exact (@token_minted_once toy.codec toy_codec_laws toy_codec_text
           utc_format utc_parse sample.opts sample.clk scenario.handler demo.logged
           "123456" 2 (Forall_nil_2 _) eq_refl eq_refl eq_refl).
Defined.

Lemma post_guarded_witness :
  ∃ t, b_shown demo.fetched = Some t ∧ minted sample.opts sample.clk t ∧
       verify t "token123" "123456" "POST" (sample.clk 2) = true ∧
       b_jar demo.posted = b_jar demo.fetched ∧
       b_session demo.posted = b_session demo.fetched.
Proof.
  refine (@post_guarded toy.codec toy_codec_text utc_format utc_parse
            sample.opts sample.clk scenario.handler scenario_handler_quiet
            demo.fetched 200 demo.posted demo_reachable _ _).
  - apply demo_steps.
  - done.
Defined.

Lemma demo_other_stale : stale sample.opts sample.clk demo.other scenario.token.
Proof.
  apply (@stale_other_subject toy.codec toy_codec_laws sample.opts
           sample.clk xsrftoken.clean toy_codec_binding demo.other
           "123456" 0); by vm_compute.
Qed.

(** The client of the other subject on its way: the page shows the token
    of the first subject, and the form is answered 400. *)
Lemma demo_other_run :
  client_run sample.opts sample.clk scenario.handler demo.other [Get; Post 400]
    demo.denied.
Proof.
  eapply client_run_cons; [|eapply client_run_cons; [|apply client_run_nil]].
  - replace demo.shown with (after_get sample.opts sample.clk demo.other)
      by (by vm_compute).
    apply (step_after_get (H0 := toy_codec_text)), Forall_singleton.
    by split.
  - assert (passes_check sample.opts sample.clk demo.shown scenario.token
            = false) as Hp by (by vm_compute).
    exact (step_post_failed sample.opts sample.clk scenario.handler
             demo.shown scenario.token eq_refl Hp).
Qed.

Lemma stale_cookie_locks_out_witness :
  Forall (λ e, ∀ status, e = Post status → status = 400%Z) [Get; Post 400] ∧
  b_jar demo.denied = b_jar demo.other ∧
  stale sample.opts sample.clk demo.denied scenario.token.
Proof.
  refine (@stale_cookie_locks_out toy.codec toy_codec_text
            utc_format utc_parse sample.opts sample.clk scenario.handler
            scenario_handler_quiet demo.other scenario.token
            [Get; Post 400] demo.denied _ demo_other_stale _
            demo_other_run).
  - apply Forall_singleton. by split.
  - repeat first [apply Forall_nil_2 | apply Forall_cons_2];
      first [by left | by right; eexists].
Defined.

(** The first client under the clock that shows the next day: it has
    fetched the page before the day has turned. *)
Lemma day_reachable :
  client_reachable sample.opts demo.day_clk scenario.handler demo.fetched.
Proof.
  eapply client_next.
  - eapply client_next; [apply (client_init _ _ _ 0)|].
    apply (client_login sample.opts demo.day_clk scenario.handler
             (mkBrowser [] ∅ 0 None) "123456").
  - replace demo.fetched with (after_get sample.opts demo.day_clk demo.logged)
      by (by vm_compute).
    by apply (step_after_get (H0 := toy_codec_text)).
Qed.

Lemma expired_cookie_renewed_witness :
  let now := demo.day_clk 2 in
  let token := derive "token123" "123456" action now in
  let b' := mkBrowser
              (jar.store (jar.live now (b_jar demo.fetched))
                 (token_cookie sample.opts demo.day_clk "123456" 2))
              (b_session demo.fetched) 4 (Some token) in
  held (purge now demo.fetched) = None ∧
  client_step sample.opts demo.day_clk scenario.handler
    (purge now demo.fetched) Get b' ∧
  client_reachable sample.opts demo.day_clk scenario.handler b' ∧
  held b' = Some token ∧
  (gotime.is_int64 now = true →
   xsrftoken.in_window now (demo.day_clk 4) = true →
   protected sample.opts (b_session b') (post_request b' token)
     scenario.handler (client_world demo.day_clk b')
   = scenario.handler
       (admitted sample.opts "123456" (client_world demo.day_clk b'))).
Proof.
  refine (@expired_cookie_renewed toy.codec toy_codec_laws toy_codec_text
            utc_format utc_parse utc_laws sample.opts demo.day_clk
            scenario.handler scenario_handler_quiet demo.fetched "123456"
            "123456" 0 day_reachable eq_refl eq_refl _ _ _).
  - intros c ->%list_elem_of_singleton _. by vm_compute.
  - unfold dated, gotime.year_10000. rewrite AddDate_one_day. cbn. lia.
  - by vm_compute.
Defined.

Lemma token_cookie_fields_witness :
  let token := derive "token123" "123456" action (sample.clk 0) in
  let expire := gotime.AddDate (sample.clk 1) 1 in
  let line := http.Cookie_String (csrf_cookie sample.opts token "" expire) in
  http.read_set_cookie line
  = Some (http.mkCookie cookie_name token "/" "" (gotime.floor_sec expire)
            (Format expire gotime.RFC1123) 0 (Options.Secure sample.opts)
            false line []).
Proof.
  refine (@token_cookie_fields toy.codec toy_codec_text utc_format utc_parse
            utc_laws sample.opts sample.clk "123456" 0 _).
  unfold dated, gotime.year_10000. rewrite AddDate_one_day.
  unfold sample.clk. lia.
Defined.

Lemma lockout_window_witness :
  ∃ uid n,
    scenario.token = derive "token123" uid action (sample.clk n) ∧
    (dated (sample.clk (S n)) →
     (sample.clk 2
      < gotime.floor_sec (gotime.AddDate (sample.clk (S n)) 1))%Z ∧
     (gotime.is_int64 (sample.clk n) = true → (sample.clk n ≤ sample.clk 2)%Z →
      verify scenario.token "token123" uid action (sample.clk 2) = false →
      (sample.clk n + xsrftoken.Timeout ≤ sample.clk 2
       < sample.clk (S n) + xsrftoken.Timeout)%Z)).
Proof.
  refine (@lockout_window toy.codec toy_codec_laws toy_codec_text utc_format
            utc_parse utc_laws sample.opts sample.clk scenario.handler
            scenario_handler_quiet demo.fetched scenario.token
            demo_reachable _).
  by vm_compute.
Defined.

(** The window is open when the second reading of the clock is in a
    later second than the first: 24 hours after the first the cookie is
    still in the jar of a client that keeps to its date, the page shows
    its token, and the token is refused. *)
Example lockout_window_open :
  let b := after_get sample.opts demo.late_clk demo.logged in
  b_reads b = 2 ∧ held b = Some scenario.token ∧
  purge (demo.late_clk 2) b = b ∧
  after_get sample.opts demo.late_clk b
    = mkBrowser (b_jar b) (b_session b) 2 (Some scenario.token) ∧
  passes_check sample.opts demo.late_clk b scenario.token = false.
Proof. by vm_compute. Qed.

End browser_witnesses.
