(* ===== verification/App.v ===== *)
(** * The application of the package comment (src/csrf.go, lines 17-59)

    The package comment shows the middleware in use: a martini
    application with a session, [Generate] installed for every request,
    and four routes.  [GET /] redirects to the login or to the form,
    [GET /login] stores the subject in the session, [GET /protected]
    renders a form with the token, and [POST /protected] is guarded by
    [Validate].

    A handler of the application takes the session and returns it, since
    the login handler changes it: [Handler] is [Session → M csrf Session],
    [app.reader] a handler that only reads the session, [app.run]
    martini's loop with the session threaded through.  [render] is
    martini-contrib/render as far as the example calls it, over an
    interface [Templates] for the execution of a template.  [routes] are
    the four routes, [dispatch] martini's router, [chain] the handlers of
    a request in the order martini runs them and [main] the chain under
    the recovery handler of [martini.Classic].

    The example is the text of a comment and does not compile as it is
    written (line 14, line 20); the definitions follow what it reads.
    Of the handlers it installs with [m.Use], [Generate] is a handler of
    [chain]; [sessions.Sessions] is the session every handler takes, and
    [render.Renderer] the functions of [render]; the logger and the
    server of static files of [martini.Classic], which run before them
    and write nothing when no file is served, are left out.

    [Site] is what persists between the requests of one browser: the
    session and the clock.  [serve] answers one request in a fresh world,
    [step] is the transition of the site by a request, and [reachable]
    its reflexive transitive closure from the empty session. *)

From S2P Require Import Prelude GoStrings GoTime Regexp NetHttp Runtime Xsrftoken Csrf Pipeline.

(** ** Definitions *)

(** The execution of the template [name] on [data]: the text, or the
    error of html/template. *)
Class Templates : Type := execute : string → string → string + string.

Module render.

(** [r.Redirect(location, status)]. *)
Definition Redirect (r : http.Request) (location : string) (status : Z) :
    M csrf unit :=
  runtime.on_w (λ w, http.Redirect w r location status).

(** The response of [r.HTML(status, name, binding)]: the template is
    executed first, and an error of the execution is answered with status
    500. *)
Definition html `{Templates} (status : Z) (name binding : string)
    (w : http.ResponseWriter) : http.ResponseWriter :=
  match execute name binding with
  | inl out =>
      http.Write
        (http.WriteHeader
           (http.w_Header_Set w "Content-Type" "text/html; charset=UTF-8")
           status)
        out
  | inr err => http.Error w err http.StatusInternalServerError
  end.

(** [r.HTML(status, name, binding)]. *)
Definition HTML `{Templates} (status : Z) (name binding : string) :
    M csrf unit :=
  runtime.on_w (html status name binding).

End render.

(** A handler with the session [s sessions.Session] among its
    arguments. *)
Definition Handler : Type := Session → M csrf Session.

Module app.

(** A handler that does not call [s.Set]. *)
Definition reader (h : Session → M csrf unit) : Handler :=
  λ s, h s;; mret s.

(** The loop of [context.run], the session passed on. *)
Fixpoint run (hs : list Handler) (s : Session) : M csrf Session :=
  match hs with
  | [] => mret s
  | h :: hs' =>
      s' ← h s;
      written ← martini.Written;
      if (written : bool) then mret s' else run hs' s'
  end.

(** A route: [m.Get(pattern, handlers...)], [m.Post(pattern, handlers...)]. *)
Record Route : Type := mkRoute {
  route_method : string;
  route_pattern : string;
  route_handlers : list Handler
}.

(** A route matches a request of its method whose path is its pattern,
    with or without a slash at the end. *)
Definition route_matches (rt : Route) (r : http.Request) : bool :=
  (http.Method r == route_method rt)
  && ((http.URL_Path r == route_pattern rt)
      || (http.URL_Path r == route_pattern rt +:+ "/")).

(** The handler of a request that no route matches. *)
Definition not_found : Handler := reader (λ _, runtime.on_w http.NotFound).

(** The router: the handlers of the first route that matches, else
    [http.NotFound]. *)
Definition dispatch (rts : list Route) (r : http.Request) : list Handler :=
  match list_find (λ rt, route_matches rt r = true) rts with
  | Some (_, rt) => route_handlers rt
  | None => [not_found]
  end.

(** The recovery handler of [martini.Classic]: a panic of the handlers
    after it is answered with status 500, on the response as it was when
    they started. *)
Definition Recovery (h : Handler) : Handler := λ s σ,
  match h s σ with
  | Panic _ =>
      Ok s (mkWorld (clock σ) (reads σ) (heap σ) (binding σ)
              (http.WriteHeader (resp σ) http.StatusInternalServerError))
  | res => res
  end.

End app.

(** [&csrf.Options{Secret: "token123", SessionKey: "userId"}]. *)
Definition example_opts : Options.Options :=
  Options.mk "token123" "userId" false false false.

(** [s.Get("userId") != nil]. *)
Definition logged_in (s : Session) : bool :=
  match sessions.Get s "userId" with
  | sessions.nil => false
  | _ => true
  end.

Section example.
Context `{TokenCodec, TimeFormat, Templates}.

(** [m.Get("/", func(s sessions.Session, r render.Render, x csrf.Csrf))]. *)
Definition index (r : http.Request) : Handler :=
  app.reader (λ s, martini.inject (λ _ : nat,
    if negb (logged_in s) then render.Redirect r "/login" 302
    else render.Redirect r "/protected" 302)).

(** [m.Get("/login", func(s sessions.Session, r render.Render))]. *)
Definition login (r : http.Request) : Handler := λ s,
  let s := sessions.Set_ s "userId" (sessions.of_string "123456") in
  render.Redirect r "/" 302;;
  mret s.

(** [m.Get("/protected", func(s sessions.Session, r render.Render,
    x csrf.Csrf))]. *)
Definition protected_form : Handler :=
  app.reader (λ s, martini.inject (λ x : nat,
    token ← GetToken x;
    render.HTML 200 "protected" token)).

(** [csrf.Validate] as the first handler of a route. *)
Definition validate (r : http.Request) : Handler :=
  app.reader (λ _, martini.inject (Validate r)).

(** The handler [csrf.Validate] guards in
    [m.Post("/protected", csrf.Validate, func(...))]. *)
Definition protected_submit (r : http.Request) : Handler :=
  app.reader (λ s,
    if logged_in s then
      render.HTML 200 "result" "You submitted a valid token"
    else render.Redirect r "/login" 401).

(** The routes, in the order they are registered. *)
Definition routes (r : http.Request) : list app.Route :=
  [ app.mkRoute "GET" "/" [index r];
    app.mkRoute "GET" "/login" [login r];
    app.mkRoute "GET" "/protected" [protected_form];
    app.mkRoute "POST" "/protected" [validate r; protected_submit r] ].

(** The handlers of a request: [Generate], installed with [m.Use], then
    those of the route.  The session of [sessions.Sessions] is what
    [app.run] passes from handler to handler. *)
Definition chain (r : http.Request) : Handler :=
  app.run (app.reader (λ s, Generate example_opts s r)
           :: app.dispatch (routes r) r).

(** [func main()]: [martini.Classic()] with the handlers of the example. *)
Definition main (r : http.Request) : Handler :=
  app.Recovery (chain r).

End example.

(** The session after the login handler. *)
Definition signed_in (s : Session) : Session :=
  sessions.Set_ s "userId" (sessions.of_string "123456").

(** The statuses the application answers with. *)
Definition statuses : list Z := [200; 302; 400; 401; 404; 500]%Z.

(** A run that has answered the request: it returns, in the world of the
    object [c], with one of the statuses, and the session is the one it
    started with or the one of the login. *)
Definition answered (s : Session) (σ : World csrf) (c : csrf)
    (res : Res csrf Session) : Prop :=
  ∃ s' n' w',
    res = Ok s' (cell σ c n' w') ∧ (s' = s ∨ s' = signed_in s) ∧
    http.w_status w' ∈ statuses.

(** The response of [POST /protected], as a function of the request,
    the session, the instant of the check and the response so far. *)
Definition submit_response `{TokenCodec, Templates} (r : http.Request)
    (s : Session) (now : Z) (w : http.ResponseWriter) : http.ResponseWriter :=
  let v := verdict r (λ t, verify t (Options.Secret example_opts)
                             (subject example_opts s) action now) in
  if accepted v then
    if logged_in s then
      render.html 200 "result" "You submitted a valid token" w
    else http.Redirect w r "/login" 401
  else reply v w.

(** The requests of a browser: a link followed, a form submitted with the
    token in its hidden field. *)
Module visit.

Definition get (path : string) : http.Request :=
  http.mkRequest "GET" path "example.com:3000" ∅ ∅ ∅.

Definition post (path token : string) : http.Request :=
  http.mkRequest "POST" path "example.com:3000" ∅
    {["_csrf" := [token]]} ∅.

End visit.

(** Templates to run the example with: the name of the template and
    the data, as they are. *)
Definition plain_templates : Templates :=
  λ name data, inl (name +:+ ":" +:+ data).

(** *** The site *)

(** What persists between the requests of a browser: its session, and
    the readings of the clock made so far. *)
Record Site : Type := mkSite {
  site_session : Session;
  site_reads : nat
}.

Section site.
Context `{TokenCodec, TimeFormat, Templates} (clk : nat → Z).

(** One request, answered in a world of its own. *)
Definition serve (st : Site) (r : http.Request) : Res csrf Session :=
  main r (site_session st) (runtime.request_world clk (site_reads st) []).

(** The site after a request, with the response it got. *)
Inductive step : Site → http.Request → http.ResponseWriter → Site → Prop :=
| step_serve st r s' σ' :
    serve st r = Ok s' σ' →
    step st r (resp σ') (mkSite s' (reads σ')).

(** The states of the site a browser that starts with no session can
    bring about. *)
Inductive reachable : Site → Prop :=
| reachable_init : reachable (mkSite ∅ 0)
| reachable_step st r w st' :
    reachable st → step st r w st' → reachable st'.

End site.

(** ** The renderer *)

Section render.
Context `{Templates}.
Implicit Types (w : http.ResponseWriter) (status : Z) (name data : string).

(** On a response that is not written yet, a page is sent with its
    status and the text of the template, or with status 500. *)
Lemma html_status w status name data :
  http.w_status w = 0%Z → status ≠ 0%Z →
  http.w_status (render.html status name data w) =
  match execute name data with inl _ => status | inr _ => 500%Z end.
Proof.
  intros E Hs. unfold render.html. destruct (execute name data).
  - rewrite (WriteHeader_fresh (http.w_Header_Set _ _ _)) by done.
    rewrite Write_status. unfold http.Written. cbn.
    by rewrite (proj2 (neq_true _ _)).
  - by apply Error_status.
Qed.

Lemma html_body w status name data out :
  http.w_status w = 0%Z → execute name data = inl out →
  http.w_body (render.html status name data w) = http.w_body w +:+ out.
Proof.
  intros E Ho. unfold render.html. rewrite Ho, Write_body.
  by rewrite (WriteHeader_fresh (http.w_Header_Set _ _ _)).
Qed.

End render.

(** ** The loop with the session *)

Section run.
Implicit Types (h : Handler) (hs : list Handler) (s : Session)
  (σ : World csrf).

Lemma app_run_cons h hs s σ s' σ' :
  h s σ = Ok s' σ' →
  app.run (h :: hs) s σ =
  if http.Written (resp σ') then Ok s' σ' else app.run hs s' σ'.
Proof.
  intros E. cbn [app.run]. erewrite run_bind_Ok by done.
  unfold martini.Written. rewrite run_bind. by destruct (http.Written _).
Qed.

Lemma app_run_last h s σ : app.run [h] s σ = h s σ.
Proof.
  destruct (h s σ) as [s' σ'|msg] eqn:E.
  - rewrite (app_run_cons _ _ _ _ _ _ E). by destruct (http.Written _).
  - cbn [app.run]. by erewrite run_bind_Panic.
Qed.

Lemma run_reader (f : Session → M csrf unit) s σ σ' :
  f s σ = Ok tt σ' → app.reader f s σ = Ok s σ'.
Proof. intros E. unfold app.reader. by erewrite run_bind_Ok. Qed.

End run.

(** ** The application and the past of the clock

    A request is answered the same whatever the clock read before it. *)

Section forgetful.
Context `{TokenCodec, TimeFormat, Templates}.
Implicit Types (r : http.Request) (s : Session) (h : Handler)
  (hs : list Handler).

#[export] Instance Redirect_forgetful r location status :
  Forgetful (render.Redirect r location status).
Proof. unfold render.Redirect. solve_forgetful. Qed.

#[export] Instance HTML_forgetful status name data :
  Forgetful (render.HTML status name data).
Proof. unfold render.HTML. solve_forgetful. Qed.

#[export] Instance reader_forgetful (f : Session → M csrf unit) s :
  Forgetful (f s) → Forgetful (app.reader f s).
Proof. intros Hf. unfold app.reader. solve_forgetful. Qed.

Lemma app_run_forgetful hs s :
  Forall (λ h, ∀ s, Forgetful (h s)) hs → Forgetful (app.run hs s).
Proof.
  intros Hhs. revert s. induction Hhs; intros s; cbn [app.run];
    solve_forgetful.
Qed.

Lemma Recovery_forgetful h s :
  Forgetful (h s) → Forgetful (app.Recovery h s).
Proof.
  intros Hh σ1 σ2 E. unfold app.Recovery.
  destruct (Hh σ1 σ2 E); constructor; [done|].
  destruct E as (Hr & Hh' & Hb & Hw & Hc).
  by split_and!; cbn; [..|congruence|].
Qed.

Lemma routes_forgetful r :
  Forall (λ rt, Forall (λ h, ∀ s, Forgetful (h s)) (app.route_handlers rt))
    (routes r).
Proof.
  unfold routes, index, login, protected_form, validate, protected_submit.
  repeat first [apply Forall_nil_2|apply Forall_cons_2]; cbn;
    solve_forgetful.
Qed.

Lemma dispatch_forgetful r :
  Forall (λ h, ∀ s, Forgetful (h s)) (app.dispatch (routes r) r).
Proof.
  unfold app.dispatch. destruct (list_find _ _) as [[i rt]|] eqn:E.
  - apply list_find_Some in E as (Hrt%list_elem_of_lookup_2 & _).
    pose proof (routes_forgetful r) as Hf. rewrite Forall_forall in Hf.
    by apply Hf.
  - apply Forall_cons_2; [|apply Forall_nil_2].
    intros s. unfold app.not_found. solve_forgetful.
Qed.

#[export] Instance main_forgetful r s : Forgetful (main r s).
Proof.
  apply Recovery_forgetful, app_run_forgetful, Forall_cons_2.
  - intros s'. solve_forgetful.
  - apply dispatch_forgetful.
Qed.

End forgetful.

(** ** The handlers of the example *)

Section handlers.
Context `{TokenCodec, TimeFormat, Templates}.
Implicit Types (r : http.Request) (s : Session) (σ : World csrf) (c : csrf)
  (n : nat) (w : http.ResponseWriter).

Lemma run_index r s σ c n w :
  index r s (cell σ c n w) =
  Ok s (cell σ c n
          (http.Redirect w r
             (if logged_in s then "/protected" else "/login") 302)).
Proof.
  apply run_reader. unfold martini.inject.
  rewrite run_bind, run_cell_Injected. by destruct (logged_in s).
Qed.

Lemma run_login r s σ c n w :
  login r s (cell σ c n w) =
  Ok (sessions.Set_ s "userId" (sessions.of_string "123456"))
     (cell σ c n (http.Redirect w r "/" 302)).
Proof. done. Qed.

Lemma run_protected_form s σ c n w :
  protected_form s (cell σ c n w) =
  Ok s (cell σ c n (render.html 200 "protected" (Token c) w)).
Proof.
  apply run_reader. unfold martini.inject.
  rewrite run_bind, run_cell_Injected. cbn [GetToken csrf_Csrf].
  by rewrite run_bind, (run_csrf_GetToken _ _ c) by apply lookup_alloc_new.
Qed.

Lemma run_protected_submit r s σ c n w :
  protected_submit r s (cell σ c n w) =
  Ok s (cell σ c n
          (if logged_in s then
             render.html 200 "result" "You submitted a valid token" w
           else http.Redirect w r "/login" 401)).
Proof. apply run_reader. by destruct (logged_in s). Qed.

Lemma run_not_found s σ c n w :
  app.not_found s (cell σ c n w) = Ok s (cell σ c n (http.NotFound w)).
Proof. done. Qed.

Lemma run_validate r s σ c n w :
  validate r s (cell σ c n w) =
  let v := verdict r (λ t, verify t (Secret c) (Id c) action (clock σ n)) in
  Ok s (cell σ c (n + verdict_reads v) (reply v w)).
Proof.
  apply run_reader. unfold martini.inject.
  rewrite run_bind, run_cell_Injected.
  by erewrite Validate_verdict by apply lookup_alloc_new.
Qed.

(** Each handler of a route answers a request that is not answered
    yet. *)
Lemma index_answered r s σ c n w :
  http.w_status w = 0%Z → answered s σ c (index r s (cell σ c n w)).
Proof.
  intros E. rewrite run_index. eexists _, _, _. split_and!; [done|by left|].
  rewrite Redirect_status by done. set_solver.
Qed.

Lemma login_answered r s σ c n w :
  http.w_status w = 0%Z → answered s σ c (login r s (cell σ c n w)).
Proof.
  intros E. rewrite run_login. eexists _, _, _. split_and!; [done|by right|].
  rewrite Redirect_status by done. set_solver.
Qed.

Lemma protected_form_answered s σ c n w :
  http.w_status w = 0%Z → answered s σ c (protected_form s (cell σ c n w)).
Proof.
  intros E. rewrite run_protected_form. eexists _, _, _.
  split_and!; [done|by left|]. rewrite html_status by done.
  destruct (execute _ _); set_solver.
Qed.

Lemma protected_submit_answered r s σ c n w :
  http.w_status w = 0%Z →
  answered s σ c (protected_submit r s (cell σ c n w)).
Proof.
  intros E. rewrite run_protected_submit. eexists _, _, _.
  split_and!; [done|by left|]. destruct (logged_in s).
  - rewrite html_status by done. destruct (execute _ _); set_solver.
  - rewrite Redirect_status by done. set_solver.
Qed.

Lemma not_found_answered s σ c n w :
  http.w_status w = 0%Z → answered s σ c (app.not_found s (cell σ c n w)).
Proof.
  intros E. rewrite run_not_found. eexists _, _, _.
  split_and!; [done|by left|]. unfold http.NotFound.
  rewrite Error_status by done. set_solver.
Qed.

(** A list of one handler that answers, answers; an answer ends the
    loop. *)
Lemma app_run_answered h hs s σ c n w :
  answered s σ c (h s (cell σ c n w)) →
  answered s σ c (app.run (h :: hs) s (cell σ c n w)).
Proof.
  intros (s' & n' & w' & E & Hs & Hw).
  rewrite (app_run_cons _ _ _ _ _ _ E). cbn [resp cell].
  unfold http.Written. rewrite (proj2 (neq_true _ _)); [by eexists _, _, _|].
  intros E0. rewrite E0 in Hw. set_solver.
Qed.

(** The guarded route: [Validate] refuses, or the handler answers. *)
Lemma submit_answered r s σ c n w :
  http.w_status w = 0%Z →
  answered s σ c (app.run [validate r; protected_submit r] s (cell σ c n w)).
Proof.
  intros E. rewrite (app_run_cons _ _ _ _ _ _ (run_validate _ _ _ _ _ _)).
  cbn zeta. cbn [resp cell].
  set (v := verdict _ _). destruct (accepted v) eqn:Ha.
  - rewrite reply_accepted by done. unfold http.Written.
    rewrite (proj2 (neq_false _ _)) by done.
    by apply app_run_answered, protected_submit_answered.
  - destruct (reply_rejected v w) as (msg & _ & Hr); [done| |].
    { unfold v, verdict. by repeat case_bool_decide. }
    rewrite Hr, Error_Written by done. eexists _, _, _.
    split_and!; [done|by left|]. rewrite Error_status by done. set_solver.
Qed.

(** The router picks one of five lists of handlers. *)
Lemma dispatch_cases r :
  app.dispatch (routes r) r ∈
    [ [index r]; [login r]; [protected_form];
      [validate r; protected_submit r]; [app.not_found] ].
Proof.
  unfold app.dispatch, routes. cbn [list_find fmap option_fmap option_map].
  repeat (case_decide; cbn [app.route_handlers snd fmap option_fmap
                            option_map prod_map];
          [rewrite !elem_of_cons; auto 10|]).
  rewrite !elem_of_cons; auto 10.
Qed.

(** The routes of the example, by method and path. *)
Lemma dispatch_login r :
  http.Method r = "GET" → http.URL_Path r = "/login" →
  app.dispatch (routes r) r = [login r].
Proof.
  intros Hm Hp. unfold app.dispatch, routes, app.route_matches. cbn.
  by rewrite Hm, Hp.
Qed.

Lemma dispatch_form r :
  http.Method r = "GET" → http.URL_Path r = "/protected" →
  app.dispatch (routes r) r = [protected_form].
Proof.
  intros Hm Hp. unfold app.dispatch, routes, app.route_matches. cbn.
  by rewrite Hm, Hp.
Qed.

Lemma dispatch_submit r :
  http.Method r = "POST" → http.URL_Path r = "/protected" →
  app.dispatch (routes r) r = [validate r; protected_submit r].
Proof.
  intros Hm Hp. unfold app.dispatch, routes, app.route_matches. cbn.
  by rewrite Hm, Hp.
Qed.

Lemma dispatch_not_found r :
  Forall (λ rt, app.route_matches rt r = false) (routes r) →
  app.dispatch (routes r) r = [app.not_found].
Proof.
  intros Hf. unfold app.dispatch.
  destruct (list_find _ _) as [[i rt]|] eqn:E; [|done].
  apply list_find_Some in E as (Hrt%list_elem_of_lookup_2 & Hm & _).
  rewrite Forall_forall in Hf. by rewrite (Hf _ Hrt) in Hm.
Qed.

(** [Generate] leaves the request to the route. *)
Lemma run_chain r s σ :
  http.w_status (resp σ) = 0%Z →
  chain r s σ =
  app.run (app.dispatch (routes r) r) s
    (issued σ (issuance example_opts s r (clock σ) (reads σ) (resp σ))).
Proof.
  intros E. unfold chain.
  rewrite (app_run_cons _ _ _ _ _ _ (run_reader _ _ _ _ (run_Generate _ _ _ _))).
  cbn [resp issued cell]. rewrite issuance_quiet by done.
  unfold http.Written. by rewrite (proj2 (neq_false _ _)).
Qed.

(** Every request is answered. *)
Lemma chain_answered r s σ :
  http.w_status (resp σ) = 0%Z →
  answered s σ
    (iss_csrf (issuance example_opts s r (clock σ) (reads σ) (resp σ)))
    (chain r s σ).
Proof.
  intros E. rewrite run_chain by done. unfold issued.
  rewrite issuance_quiet by done.
  pose proof (dispatch_cases r) as Hd.
  repeat (apply elem_of_cons in Hd as [->|Hd]); [..|by apply elem_of_nil in Hd].
  - by apply app_run_answered, index_answered.
  - by apply app_run_answered, login_answered.
  - by apply app_run_answered, protected_form_answered.
  - by apply submit_answered.
  - by apply app_run_answered, not_found_answered.
Qed.

(** The three routes a browser goes through. *)
Lemma run_chain_login r s σ :
  http.Method r = "GET" → http.URL_Path r = "/login" →
  http.w_status (resp σ) = 0%Z →
  chain r s σ =
  let i := issuance example_opts s r (clock σ) (reads σ) (resp σ) in
  Ok (signed_in s)
     (cell σ (iss_csrf i) (iss_reads i) (http.Redirect (resp σ) r "/" 302)).
Proof.
  intros Hm Hp E. rewrite run_chain, dispatch_login, app_run_last by done.
  unfold issued. by rewrite run_login, issuance_quiet.
Qed.

Lemma run_chain_form r s σ :
  http.Method r = "GET" → http.URL_Path r = "/protected" →
  http.w_status (resp σ) = 0%Z →
  chain r s σ =
  let i := issuance example_opts s r (clock σ) (reads σ) (resp σ) in
  Ok s (cell σ (iss_csrf i) (iss_reads i)
          (render.html 200 "protected" (Token (iss_csrf i)) (resp σ))).
Proof.
  intros Hm Hp E. rewrite run_chain, dispatch_form, app_run_last by done.
  unfold issued. by rewrite run_protected_form, issuance_quiet.
Qed.

Lemma run_chain_submit r s σ :
  http.Method r = "POST" → http.URL_Path r = "/protected" →
  http.w_status (resp σ) = 0%Z →
  chain r s σ =
  let now := clock σ (reads σ) in
  let v := verdict r (check example_opts (subject example_opts s) σ) in
  Ok s (cell σ (bare example_opts (subject example_opts s))
          (reads σ + verdict_reads v) (submit_response r s now (resp σ))).
Proof.
  intros Hm Hp E. rewrite run_chain, dispatch_submit by done.
  rewrite issuance_not_browser_get
    by (unfold browser_get; by rewrite Hm).
  unfold issued. cbn [iss_csrf iss_reads iss_resp].
  rewrite (app_run_cons _ _ _ _ _ _ (run_validate _ _ _ _ _ _)).
  cbn zeta. cbn [resp cell Secret Id]. unfold submit_response, bare, check.
  cbn [Options.Secret example_opts].
  set (v := verdict _ _). destruct (accepted v) eqn:Ha.
  - rewrite reply_accepted by done. unfold http.Written.
    rewrite (proj2 (neq_false _ _)), app_run_last by done.
    by rewrite run_protected_submit.
  - rewrite reply_Written, Ha; [done..|].
    unfold v, verdict. by repeat case_bool_decide.
Qed.

(** The status of the response of [POST /protected]. *)
Lemma submit_response_status r s now w :
  http.w_status w = 0%Z →
  http.w_status (submit_response r s now w) = 200%Z ↔
  logged_in s = true ∧
  (∃ out, execute "result" "You submitted a valid token" = inl out) ∧
  ∃ t, candidate r = Some t ∧
       verify t (Options.Secret example_opts) (subject example_opts s)
         action now = true.
Proof.
  intros E. unfold submit_response. rewrite <-verdict_accepted.
  set (v := verdict _ _). destruct (accepted v) eqn:Ha.
  - destruct (logged_in s).
    + rewrite html_status by done. destruct (execute _ _); naive_solver.
    + rewrite Redirect_status by done. naive_solver.
  - destruct (reply_rejected v w) as (msg & _ & ->); [done| |].
    { unfold v, verdict. by repeat case_bool_decide. }
    rewrite Error_status by done. unfold http.StatusBadRequest. naive_solver.
Qed.

Lemma run_main r s σ :
  http.w_status (resp σ) = 0%Z → main r s σ = chain r s σ.
Proof.
  intros E. unfold main, app.Recovery.
  by destruct (chain_answered r s σ E) as (s' & n' & w' & -> & _).
Qed.

End handlers.

(** ** The properties of the application *)

Section app_properties.
Context `{TokenCodec, TimeFormat, Templates}.
Implicit Types (r : http.Request) (s : Session) (σ : World csrf).

(** [C23] Every request is answered.  Whatever the request and the
    session, [main] returns without a panic, with one of the statuses 200,
    302, 400, 401, 404 and 500 written; the session is left as it was or
    is the one of the login, and the recovery handler is never needed. *)
Theorem main_answers r s σ :
  http.w_status (resp σ) = 0%Z →
  runtime.wp (main r s) σ (λ s' σ',
    (s' = s ∨ s' = signed_in s) ∧
    http.w_status (resp σ') ∈ statuses ∧
    main r s σ = chain r s σ).
Proof.
  intros E.
  destruct (chain_answered r s σ E) as (s' & n' & w' & Hc & Hs & Hw).
  eapply wp_Ok; [by rewrite run_main|].
  split_and!; [done..|by apply run_main].
Qed.

(** [C24] The form is accepted exactly when it should be.  A request
    [POST /protected] is answered with status 200 exactly when the session
    has a subject, the page renders, and the request carries a candidate
    that verifies for the secret of the example and the subject of the
    session at the reading of the clock. *)
Theorem submit_accepted_iff r s σ :
  http.Method r = "POST" → http.URL_Path r = "/protected" →
  http.w_status (resp σ) = 0%Z →
  runtime.wp (main r s) σ (λ _ σ',
    http.w_status (resp σ') = 200%Z ↔
    logged_in s = true ∧
    (∃ out, execute "result" "You submitted a valid token" = inl out) ∧
    ∃ t, candidate r = Some t ∧
         check example_opts (subject example_opts s) σ t = true).
Proof.
  intros Hm Hp E.
  eapply wp_Ok; [rewrite run_main by done; by apply run_chain_submit|].
  cbn [resp cell]. by apply submit_response_status.
Qed.

(** A request no route matches is answered with 404, after
    [Generate] has run.  When the method and the path of the request match
    none of the four routes, [main] returns the session as it was, in the
    world where [Generate] has mapped its object, and the response is the
    one of [http.NotFound]: status 404 and the text "404 page not found"
    with a newline. *)
Theorem unknown_route_not_found r s σ :
  http.w_status (resp σ) = 0%Z →
  Forall (λ rt, app.route_matches rt r = false) (routes r) →
  let i := issuance example_opts s r (clock σ) (reads σ) (resp σ) in
  main r s σ =
    Ok s (cell σ (iss_csrf i) (iss_reads i) (http.NotFound (resp σ))) ∧
  http.w_status (http.NotFound (resp σ)) = 404%Z ∧
  http.w_body (http.NotFound (resp σ)) =
    http.w_body (resp σ) +:+ "404 page not found" +:+ String "010" "".
Proof.
  intros E Hr i. rewrite run_main, run_chain, dispatch_not_found by done.
  unfold issued. rewrite issuance_quiet by done.
  split_and!; [by rewrite app_run_last|by apply Error_status|].
  unfold http.NotFound. by rewrite Error_fresh.
Qed.

End app_properties.

(** ** The site *)

Section site_properties.
Context `{TokenCodec, TimeFormat, Templates} (clk : nat → Z).
Implicit Types (r : http.Request) (st : Site) (w : http.ResponseWriter).

Lemma serve_chain st r :
  serve clk st r =
  chain r (site_session st) (runtime.request_world clk (site_reads st) []).
Proof. unfold serve. by rewrite run_main. Qed.

Lemma step_intro st r s' σ' w st' :
  serve clk st r = Ok s' σ' → w = resp σ' → st' = mkSite s' (reads σ') →
  step clk st r w st'.
Proof. intros E -> ->. by constructor. Qed.

(** A step leaves the session as it is, or signs in. *)
Lemma step_session st r w st' :
  step clk st r w st' →
  site_session st' = site_session st
  ∨ site_session st' = signed_in (site_session st).
Proof.
  destruct 1 as [st r s' σ' E]. rewrite serve_chain in E.
  destruct (chain_answered r (site_session st)
              (runtime.request_world clk (site_reads st) []) eq_refl)
    as (? & ? & ? & E' & Hs & _).
  rewrite E' in E. by simplify_eq.
Qed.

Lemma signed_in_idemp (s : Session) : signed_in (signed_in s) = signed_in s.
Proof. unfold signed_in, sessions.Set_. apply insert_insert_eq. Qed.

(** The site is total and deterministic: every request takes the
    site to one next state, with one response. *)
Theorem step_total_deterministic st r :
  ∃ w st', step clk st r w st' ∧
           ∀ w2 st2, step clk st r w2 st2 → w2 = w ∧ st2 = st'.
Proof.
  destruct (chain_answered r (site_session st)
              (runtime.request_world clk (site_reads st) []) eq_refl)
    as (s' & n' & w' & E & _).
  rewrite <-serve_chain in E. eexists _, _. split; [by constructor|].
  intros w2 st2 Hs. destruct Hs as [st r s2 σ2 E2].
  rewrite E in E2. by simplify_eq.
Qed.

End site_properties.

(** ** A browser on the site *)

Section browse.
Context `{TokenCodec, TimeFormat, Templates} (clk : nat → Z).
Implicit Types (n : nat) (t : string).

(** The token of the form rendered at the reading [n] of the clock. *)
Let token n : string := derive "token123" "123456" "POST" (clk n).

Lemma step_login n :
  step clk (mkSite ∅ n) (visit.get "/login")
    (http.Redirect http.new_ResponseWriter (visit.get "/login") "/" 302)
    (mkSite (signed_in ∅) n).
Proof.
  eapply step_intro;
    [by rewrite serve_chain, run_chain_login|done..].
Qed.

Lemma step_form n :
  step clk (mkSite (signed_in ∅) n) (visit.get "/protected")
    (render.html 200 "protected" (token n) http.new_ResponseWriter)
    (mkSite (signed_in ∅) (S n)).
Proof.
  eapply step_intro;
    [by rewrite serve_chain, run_chain_form|done..].
Qed.

Lemma step_submit n t :
  let r := visit.post "/protected" t in
  let v := verdict r (λ t, verify t "token123" "123456" action (clk n)) in
  step clk (mkSite (signed_in ∅) n) r
    (submit_response r (signed_in ∅) (clk n) http.new_ResponseWriter)
    (mkSite (signed_in ∅) (n + verdict_reads v)).
Proof.
  intros r v. eapply step_intro;
    [by rewrite serve_chain, run_chain_submit|done..].
Qed.

Lemma candidate_post path t :
  t ≠ "" → candidate (visit.post path t) = Some t.
Proof.
  intros Ht. unfold candidate, header_token, form_token.
  rewrite (Request_FormValue_post _ _ t []) by done.
  cbn [http.Header visit.post]. rewrite Header_Get_empty.
  by rewrite (proj2 (neq_false _ _)), (proj2 (neq_true _ _)).
Qed.

Lemma reachable_signed_in n :
  reachable clk (mkSite ∅ n) → reachable clk (mkSite (signed_in ∅) n).
Proof. intros Hr. eapply reachable_step; [done|apply step_login]. Qed.

End browse.

Section site_safety.
Context `{TokenCodecLaws, TimeFormat, Templates} (clk : nat → Z).
Implicit Types (r : http.Request) (st : Site) (w : http.ResponseWriter).

(** The sessions the site reaches. *)
Lemma reachable_session_shape st :
  reachable clk st →
  site_session st = ∅ ∨ site_session st = signed_in ∅.
Proof.
  induction 1 as [|st r w st' _ IH Hs]; [by left|].
  apply step_session in Hs as [->| ->]; [done|].
  right. destruct IH as [->| ->]; [done|apply signed_in_idemp].
Qed.

(** The invariant of the site.  In every state the site reaches from
    the empty session, the session is empty or holds the subject of the
    login and nothing else; so the subject [Generate] and [Validate] work
    for is the one of the login whenever there is one. *)
Theorem reachable_session st :
  reachable clk st →
  (site_session st = ∅ ∨ site_session st = signed_in ∅) ∧
  (logged_in (site_session st) = true →
   subject example_opts (site_session st) = "123456").
Proof.
  intros Hr. split; [by apply reachable_session_shape|].
  by destruct (reachable_session_shape st Hr) as [->| ->].
Qed.

(** [C9] The guarantee of the middleware, on the site.  In every state
    the site reaches, a request [POST /protected] that is answered with
    status 200 carried a token derived with the secret for the subject of
    the login, at an instant of the validity window: a request forged
    without such a token never reaches the handler. *)
Theorem reachable_submit_guarded st r w st' :
  reachable clk st → step clk st r w st' →
  http.Method r = "POST" → http.URL_Path r = "/protected" →
  http.w_status w = 200%Z →
  ∃ t issue,
    candidate r = Some t ∧
    t = derive "token123" "123456" "POST" issue ∧
    xsrftoken.in_window issue (clk (site_reads st)) = true.
Proof.
  intros Hr Hs Hm Hp Hw. destruct Hs as [st r s' σ' E].
  rewrite serve_chain, run_chain_submit in E by done. simplify_eq/=.
  apply submit_response_status in Hw as (Hl & _ & t & Hc & Hv); [|done].
  destruct (reachable_session_shape st Hr) as [Hs|Hs];
    rewrite Hs in Hl, Hv; [done|].
  apply verify_iff in Hv as (issue & _ & Hin & ->). by eexists _, _.
Qed.

(** [C10] The round trip on the site.  A browser that logs in, opens the
    form and submits it with the token of the form is answered with the
    page of the result, when the clock stays within the validity window
    between the two requests. *)
Theorem login_then_submit n page out :
  let token := derive "token123" "123456" "POST" (clk n) in
  gotime.is_int64 (clk n) = true →
  xsrftoken.in_window (clk n) (clk (S n)) = true →
  token ≠ "" →
  execute "protected" token = inl page →
  execute "result" "You submitted a valid token" = inl out →
  ∃ w1 w2 w3,
    step clk (mkSite ∅ n) (visit.get "/login") w1 (mkSite (signed_in ∅) n) ∧
    step clk (mkSite (signed_in ∅) n) (visit.get "/protected") w2
      (mkSite (signed_in ∅) (S n)) ∧
    step clk (mkSite (signed_in ∅) (S n)) (visit.post "/protected" token) w3
      (mkSite (signed_in ∅) (S (S n))) ∧
    http.w_body w2 = page ∧
    http.w_status w3 = 200%Z ∧ http.w_body w3 = out.
Proof.
  intros token Hi Hin Ht Hpage Hout.
  pose proof (candidate_post "/protected" token Ht) as Hc.
  pose proof (step_submit clk (S n) token) as Hs. cbn zeta in Hs.
  rewrite (verdict_reads_candidate _ _ token), Nat.add_1_r in Hs by done.
  eexists _, _, _.
  split_and!; [apply step_login|apply step_form|apply Hs|..].
  - by erewrite html_body.
  - apply submit_response_status; [done|].
    split_and!; [done|by eexists|]. eexists. split; [done|].
    by apply verify_derive.
  - unfold submit_response.
    rewrite (verdict_candidate _ _ token) by done.
    change (Options.Secret example_opts) with "token123".
    change (subject example_opts (signed_in ∅)) with "123456".
    change action with "POST". cbn beta. unfold token.
    rewrite verify_derive by done.
    change (logged_in (signed_in ∅)) with true. cbn match.
    by erewrite html_body.
Qed.

End site_safety.

(** ** The site and its clock

    The answer to a request, and so the next state of the site, depends
    on the clock only from the reading the site has come to. *)

Section site_clock.
Context `{TokenCodec, TimeFormat, Templates} (clk clk' : nat → Z).

Lemma serve_clock_ext st r :
  (∀ n, site_reads st ≤ n → clk n = clk' n) →
  serve clk st r ≡ serve clk' st r.
Proof. intros Hc. apply main_forgetful. by split_and!. Qed.

Lemma step_clock_ext st r w st' :
  (∀ n, site_reads st ≤ n → clk n = clk' n) →
  step clk st r w st' → step clk' st r w st'.
Proof.
  intros Hc Hs. destruct Hs as [st r s' σ' E].
  pose proof (serve_clock_ext st r Hc) as Hq. rewrite E in Hq.
  inv Hq. match goal with H : σ' ≡ _ |- _ => destruct H as (-> & _ & _ & -> & _) end.
  by constructor.
Qed.

End site_clock.

(** ** The application on sample requests *)

Section app_witnesses.
#[local] Existing Instance toy.codec.
#[local] Existing Instance unix_format.
#[local] Existing Instance plain_templates.

Lemma main_answers_witness :
  runtime.wp (main (visit.get "/") ∅) sample.world (λ s' σ',
    (s' = ∅ ∨ s' = signed_in ∅) ∧
    http.w_status (resp σ') ∈ statuses ∧
    main (visit.get "/") ∅ sample.world =
    chain (visit.get "/") ∅ sample.world).
Proof. exact (main_answers (visit.get "/") ∅ sample.world eq_refl). Defined.

Lemma unknown_route_not_found_witness :
  let r := visit.get "/nowhere" in
  let i := issuance example_opts ∅ r (clock sample.world)
             (reads sample.world) (resp sample.world) in
  main r ∅ sample.world =
    Ok ∅ (cell sample.world (iss_csrf i) (iss_reads i)
            (http.NotFound (resp sample.world))) ∧
  http.w_status (http.NotFound (resp sample.world)) = 404%Z ∧
  http.w_body (http.NotFound (resp sample.world)) =
    http.w_body (resp sample.world) +:+ "404 page not found"
    +:+ String "010" "".
Proof.
  apply (unknown_route_not_found (visit.get "/nowhere") ∅ sample.world);
    [reflexivity|by repeat constructor].
Defined.

Lemma submit_accepted_iff_witness :
  runtime.wp (main (visit.post "/protected" "garbage") (signed_in ∅))
    sample.world (λ _ σ',
    http.w_status (resp σ') = 200%Z ↔
    logged_in (signed_in ∅) = true ∧
    (∃ out, execute "result" "You submitted a valid token" = inl out) ∧
    ∃ t, candidate (visit.post "/protected" "garbage") = Some t ∧
         check example_opts (subject example_opts (signed_in ∅))
           sample.world t = true).
Proof.
  exact (submit_accepted_iff (visit.post "/protected" "garbage")
           (signed_in ∅) sample.world eq_refl eq_refl eq_refl).
Defined.

Lemma reachable_session_witness :
  (site_session (mkSite ∅ 0) = ∅
   ∨ site_session (mkSite ∅ 0) = signed_in ∅) ∧
  (logged_in (site_session (mkSite ∅ 0)) = true →
   subject example_opts (site_session (mkSite ∅ 0)) = "123456").
Proof.
  exact (reachable_session sample.clk (mkSite ∅ 0)
           (reachable_init sample.clk)).
Defined.

Lemma reachable_submit_guarded_witness :
  ∃ t issue,
    candidate (visit.post "/protected" scenario.token) = Some t ∧
    t = derive "token123" "123456" "POST" issue ∧
    xsrftoken.in_window issue (sample.clk 1) = true.
Proof.
  refine (@reachable_submit_guarded toy.codec toy_codec_laws unix_format
            plain_templates sample.clk (mkSite (signed_in ∅) 1)
            (visit.post "/protected" scenario.token) _ _ _
            (step_submit sample.clk 1 scenario.token) eq_refl eq_refl _).
  - eapply reachable_step; [|apply (step_form sample.clk 0)].
    apply reachable_signed_in, reachable_init.
  - by vm_compute.
Defined.

Lemma login_then_submit_witness :
  ∃ w1 w2 w3,
    step sample.clk (mkSite ∅ 0) (visit.get "/login") w1
      (mkSite (signed_in ∅) 0) ∧
    step sample.clk (mkSite (signed_in ∅) 0) (visit.get "/protected") w2
      (mkSite (signed_in ∅) 1) ∧
    step sample.clk (mkSite (signed_in ∅) 1)
      (visit.post "/protected"
         (derive "token123" "123456" "POST" (sample.clk 0))) w3
      (mkSite (signed_in ∅) 2) ∧
    http.w_body w2 =
      "protected:" +:+ derive "token123" "123456" "POST" (sample.clk 0) ∧
    http.w_status w3 = 200%Z ∧
    http.w_body w3 = "result:You submitted a valid token".
Proof.
  refine (@login_then_submit toy.codec toy_codec_laws unix_format
            plain_templates sample.clk 0 _ _ eq_refl eq_refl _
            eq_refl eq_refl).
  by vm_compute.
Defined.

End app_witnesses.
